(** * OTAShip backend: a shallow embedding of the protocol and storage core

    The Go sources embedded here are
    - [backend/internal/models/update.go]      (module [models]),
    - the update repository                    (module [database]),
    - the hashing, signing and rollout services (module [services]),
    - the manifest, asset and admin handlers   (module [handlers]),
    - the other operations of the update, project and API key
      repositories                             (module [repositories]),
    - the configuration and the admin authentication
                                               (modules [config], [middleware]),
    - the listing and deleting admin handlers  (module [adminapi]),
    - two helpers of the command-line tool     (module [cli]).

    Of the libraries the sources call, the redirect of [net/http] is
    embedded (module [http]); [encoding/json], [path/filepath],
    [strings.ToLower] and [url.Parse] are parameters of the handlers
    (record [sys.Lib]), and the demonstrations run the handlers on the
    transcriptions in the modules [gostrings], [filepath], [url] and
    [encoding_json].

    Go strings are byte sequences and are embedded as [string] (one [ascii]
    per byte); [[]byte] values are [list byte]; Go's [int] is a 64-bit
    two's-complement integer, embedded in [Z] with the wrap-around written
    out where the code does arithmetic on it.  Timestamps are BSON
    date-times: milliseconds since the Unix epoch, in [Z]. *)

From Stdlib Require Import ZArith List String Ascii Bool Lia.
From Stdlib Require Import Strings.Byte.
From stdpp Require Import base option list gmap strings sorting.

Local Open Scope string_scope.
Local Open Scope list_scope.
Local Open Scope Z_scope.

(* ===================================================================== *)
(** ** Go primitives used by the sources *)
(* ===================================================================== *)

Module Go.

(** Value of a byte, and the byte holding the low eight bits of an
    integer (Go's [byte(x)] conversion). *)
Definition byte_val (b : byte) : Z := Z.of_N (Byte.to_N b).

Definition byte_of_Z (z : Z) : byte :=
  match Byte.of_N (Z.to_N (z mod 256)) with
  | Some b => b
  | None => x00
  end.

#[global] Instance byte_eq_dec : EqDecision byte := Byte.byte_eq_dec.

Definition char_val (c : ascii) : Z := Z.of_N (N_of_ascii c).

Definition char_of_Z (z : Z) : ascii := ascii_of_N (Z.to_N (z mod 256)).

(** The bytes of a Go string, as integers. *)
Definition string_bytes (s : string) : list Z :=
  map char_val (list_ascii_of_string s).

(** The double quote, for string constants that contain one. *)
Definition dq : string := String (ascii_of_nat 34) EmptyString.

(** All 256 bytes, in order; used to decide statements that quantify over
    bytes. *)
Definition all_bytes : list byte :=
  map (fun n => byte_of_Z (Z.of_nat n)) (seq 0 256).

(** [int] arithmetic wraps around at 64 bits. *)
Definition wrap64 (z : Z) : Z := (z + 2 ^ 63) mod 2 ^ 64 - 2 ^ 63.

Definition MaxInt64 : Z := 2 ^ 63 - 1.
Definition MinInt64 : Z := - 2 ^ 63.

Definition MaxUint64 : Z := 2 ^ 64 - 1.

(** [strconv]'s two errors. *)
Inductive NumError : Type :=
| ErrSyntax
| ErrRange.

Definition is_digit (c : ascii) : bool :=
  (48 <=? char_val c) && (char_val c <=? 57).

(** The loop of [strconv.ParseUint(s, 10, 64)] over the bytes of the
    string: a byte that is no digit is a syntax error; a digit that
    carries the value beyond 64 bits is a range error, which is returned
    at once, whatever follows it. *)
Fixpoint digits_value (n : Z) (cs : list ascii) : Z + NumError :=
  match cs with
  | [] => inl n
  | c :: cs' =>
      if negb (is_digit c) then inr ErrSyntax
      else if MaxUint64 / 10 + 1 <=? n then inr ErrRange
      else
        let n1 := 10 * n + (char_val c - 48) in
        if MaxUint64 <? n1 then inr ErrRange else digits_value n1 cs'
  end.

(** [strconv.ParseUint(s, 10, 64)]: the empty string is a syntax
    error. *)
Definition ParseUint (cs : list ascii) : Z + NumError :=
  match cs with
  | [] => inr ErrSyntax
  | _ => digits_value 0 cs
  end.

(** [strconv.ParseInt(s, 10, 64)]: the value and the error.  A syntax
    error comes with the value 0; with a range error [ParseUint] has
    returned the greatest 64-bit value, and the result is the nearest
    bound of [int64]. *)
Definition ParseInt (s : string) : Z * option NumError :=
  match list_ascii_of_string s with
  | [] => (0, Some ErrSyntax)
  | c :: cs =>
      let neg := Ascii.eqb c "-"%char in
      let rest := if Ascii.eqb c "+"%char || neg then cs else c :: cs in
      match ParseUint rest with
      | inr ErrSyntax => (0, Some ErrSyntax)
      | parsed =>
          let un := match parsed with inl n => n | inr _ => MaxUint64 end in
          let cutoff := 2 ^ 63 in
          if negb neg && (cutoff <=? un) then (cutoff - 1, Some ErrRange)
          else if neg && (cutoff <? un) then (- cutoff, Some ErrRange)
          else (if neg then - un else un, None)
      end
  end.

(** [strconv.Atoi] with the error dropped ([v, _ := strconv.Atoi(s)]):
    a syntax error yields 0, a range error the nearest bound.  (The
    fast path of [Atoi] for short strings returns what [ParseInt]
    returns.) *)
Definition Atoi (s : string) : Z := fst (ParseInt s).

(** Decimal digits of a non-negative integer, most significant first
    ([strconv.Itoa], [fmt]'s [%d]). *)
Fixpoint digits_fuel (fuel : nat) (n : Z) (acc : list ascii) : list ascii :=
  match fuel with
  | O => acc
  | S fuel' =>
      let acc' := char_of_Z (48 + n mod 10) :: acc in
      if n <? 10 then acc' else digits_fuel fuel' (n / 10) acc'
  end.

Definition digits (n : Z) : list ascii :=
  digits_fuel (S (Z.to_nat (Z.log2 n))) n [].

Definition Itoa (z : Z) : string :=
  if z <? 0 then String "-"%char (string_of_list_ascii (digits (- z)))
  else string_of_list_ascii (digits z).

(** [strings.Contains]. *)
Fixpoint has_prefix (p s : list ascii) : bool :=
  match p, s with
  | [], _ => true
  | _ :: _, [] => false
  | a :: p', b :: s' => Ascii.eqb a b && has_prefix p' s'
  end.

Fixpoint contains_from (p s : list ascii) : bool :=
  has_prefix p s ||
  match s with
  | [] => false
  | _ :: s' => contains_from p s'
  end.

Definition Contains (s substr : string) : bool :=
  contains_from (list_ascii_of_string substr) (list_ascii_of_string s).

End Go.

(* ===================================================================== *)
(** ** Library functions of Go, transcribed for Unix *)
(* ===================================================================== *)

(** [strings]: the functions on byte strings that the transcriptions
    below and the admin authentication use. *)
Module gostrings.
Import Go.

Fixpoint HasPrefix (s prefix : list ascii) : bool :=
  match prefix, s with
  | [], _ => true
  | _ :: _, [] => false
  | a :: p', b :: s' => Ascii.eqb a b && HasPrefix s' p'
  end.

Definition HasSuffix (s suffix : list ascii) : bool :=
  HasPrefix (rev s) (rev suffix).

(** [strings.IndexByte]. *)
Fixpoint IndexByte (s : list ascii) (c : ascii) : option nat :=
  match s with
  | [] => None
  | b :: s' =>
      if Ascii.eqb b c then Some O
      else match IndexByte s' c with
           | Some i => Some (S i)
           | None => None
           end
  end.

(** [strings.LastIndexByte]. *)
Definition LastIndexByte (s : list ascii) (c : ascii) : option nat :=
  match IndexByte (rev s) c with
  | Some i => Some (length s - 1 - i)%nat
  | None => None
  end.

(** [strings.Index] for a non-empty [substr]. *)
Fixpoint Index (s substr : list ascii) : option nat :=
  if HasPrefix s substr then Some O
  else match s with
       | [] => None
       | _ :: s' =>
           match Index s' substr with
           | Some i => Some (S i)
           | None => None
           end
       end.

(** [strings.Cut] at a byte: what is before its first occurrence and
    what is after it, or the string and nothing when it does not
    occur. *)
Definition Cut (s : list ascii) (sep : ascii)
    : list ascii * list ascii * bool :=
  match IndexByte s sep with
  | Some i => (take i s, drop (S i) s, true)
  | None => (s, [], false)
  end.

Definition Count (s : list ascii) (c : ascii) : nat :=
  length (filter (fun b => Ascii.eqb b c = true) s).

(** [strings.ToLower] on a string of ASCII bytes: the capital letters
    are replaced by the small ones.  (For a string with other bytes
    Go maps every rune through [unicode.ToLower]; here those bytes are
    left as they are.) *)
Definition lower (c : ascii) : ascii :=
  if (65 <=? char_val c) && (char_val c <=? 90)
  then char_of_Z (char_val c + 32) else c.

Definition ToLower (s : string) : string :=
  string_of_list_ascii (map lower (list_ascii_of_string s)).

(** The first occurrence of a separator byte: what stands before it and
    what stands behind it. *)
Fixpoint cut (sep : ascii) (cs : list ascii)
    : option (list ascii * list ascii) :=
  match cs with
  | [] => None
  | c :: cs' =>
      if Ascii.eqb c sep then Some ([], cs')
      else
        match cut sep cs' with
        | Some (before, after) => Some (c :: before, after)
        | None => None
        end
  end.

(** [strings.SplitN(s, sep, 2)] for a separator of one byte: the string
    itself when the separator does not occur, else the two pieces around
    its first occurrence. *)
Definition SplitN2 (s : string) (sep : ascii) : list string :=
  match cut sep (list_ascii_of_string s) with
  | Some (before, after) =>
      [string_of_list_ascii before; string_of_list_ascii after]
  | None => [s]
  end.

End gostrings.

(** [path/filepath] on Unix, where the separator is the slash and there
    are no volume names; [path] has the same [Clean]. *)
Module filepath.
Import Go gostrings.

Definition Separator : ascii := "/"%char.

Definition IsPathSeparator (c : ascii) : bool := Ascii.eqb c Separator.

Definition is_dot (c : ascii) : bool := Ascii.eqb c "."%char.

(** The bytes up to the next separator. *)
Fixpoint element (path : list ascii) : list ascii :=
  match path with
  | [] => []
  | c :: rest => if IsPathSeparator c then [] else c :: element rest
  end.

(** The byte at the head of the rest of the path is a separator, or the
    path has ended. *)
Definition ends_element (rest : list ascii) : bool :=
  match rest with
  | [] => true
  | c :: _ => IsPathSeparator c
  end.

(** Backtracking in [Clean], after [out.w--]: back to the last separator,
    and not beyond [dotdot]. *)
Fixpoint back_to_separator (dotdot w : nat) (out : list ascii) : nat :=
  match w with
  | O => O
  | S w' =>
      if (dotdot <? w)%nat && negb (IsPathSeparator (nth w out Separator))
      then back_to_separator dotdot w' out
      else w
  end.

(** The loop of [Clean]: [path] is what is left to read, [out] what has
    been written; every turn reads at least one byte. *)
Fixpoint clean_loop (fuel : nat) (rooted : bool) (path out : list ascii)
    (dotdot : nat) : list ascii :=
  match fuel with
  | O => out
  | S fuel' =>
      match path with
      | [] => out
      | c :: rest =>
          if IsPathSeparator c
          then clean_loop fuel' rooted rest out dotdot
          else if is_dot c && ends_element rest
          then clean_loop fuel' rooted rest out dotdot
          else if is_dot c && HasPrefix rest ["."%char]
                  && ends_element (tl rest)
          then
            if (dotdot <? length out)%nat
            then clean_loop fuel' rooted (tl rest)
                   (take (back_to_separator dotdot (length out - 1) out) out)
                   dotdot
            else if negb rooted
            then
              let out1 :=
                (if (0 <? length out)%nat then out ++ [Separator] else out)
                  ++ ["."%char; "."%char] in
              clean_loop fuel' rooted (tl rest) out1 (length out1)
            else clean_loop fuel' rooted (tl rest) out dotdot
          else
            let out1 :=
              if (rooted && negb (length out =? 1)%nat)
                 || (negb rooted && negb (length out =? 0)%nat)
              then out ++ [Separator] else out in
            clean_loop fuel' rooted (drop (length (element path)) path)
              (out1 ++ element path) dotdot
      end
  end.

Definition clean_chars (path : list ascii) : list ascii :=
  match path with
  | [] => ["."%char]
  | c :: rest =>
      let rooted := IsPathSeparator c in
      let out :=
        if rooted
        then clean_loop (length path) rooted rest [Separator] 1
        else clean_loop (S (length path)) rooted path [] 0 in
      match out with
      | [] => ["."%char]
      | _ => out
      end
  end.

(** [filepath.Clean], and [path.Clean]. *)
Definition Clean (path : string) : string :=
  string_of_list_ascii (clean_chars (list_ascii_of_string path)).

(** [strings.Join(elem, "/")]. *)
Fixpoint join_with_slash (elem : list string) : string :=
  match elem with
  | [] => ""
  | [e] => e
  | e :: rest => e +:+ "/" +:+ join_with_slash rest
  end.

(** [filepath.Join]: the elements from the first non-empty one on,
    joined and cleaned; the empty string when there is none. *)
Fixpoint Join (elem : list string) : string :=
  match elem with
  | [] => ""
  | e :: rest =>
      if bool_decide (e = "") then Join rest
      else Clean (join_with_slash elem)
  end.

(** [filepath.Ext]: from the last dot of the last element on. *)
Fixpoint ext_loop (reversed suffix : list ascii) : list ascii :=
  match reversed with
  | [] => []
  | c :: reversed' =>
      if IsPathSeparator c then []
      else if is_dot c then c :: suffix
      else ext_loop reversed' (c :: suffix)
  end.

Definition Ext (path : string) : string :=
  string_of_list_ascii (ext_loop (rev (list_ascii_of_string path)) []).

Definition IsAbs (path : string) : bool :=
  HasPrefix (list_ascii_of_string path) [Separator].

Definition ToSlash (path : string) : string := path.
Definition FromSlash (path : string) : string := path.

(** The loop of [Rel]: [base] and [targ] from [b0] and [t0] on.  The
    result is what is left of the two and the element of [base] at which
    the loop stopped. *)
Fixpoint rel_loop (fuel : nat) (base targ : list ascii)
    : list ascii * list ascii * list ascii :=
  match fuel with
  | O => (base, [], targ)
  | S fuel' =>
      match base, targ with
      | [], _ | _, [] => (base, [], targ)
      | _, _ =>
          if bool_decide (element base = element targ)
          then rel_loop fuel' (drop (S (length (element base))) base)
                 (drop (S (length (element targ))) targ)
          else (base, element base, targ)
      end
  end.

(** [filepath.Rel]: [None] for its error. *)
Definition Rel (basepath targpath : string) : option string :=
  let base := list_ascii_of_string (Clean basepath) in
  let targ := list_ascii_of_string (Clean targpath) in
  if bool_decide (targ = base) then Some "."
  else
    let base := if bool_decide (base = ["."%char]) then [] else base in
    let baseSlashed := HasPrefix base [Separator] in
    let targSlashed := HasPrefix targ [Separator] in
    if negb (Bool.eqb baseSlashed targSlashed) then None
    else
      let '(base0, stopped, targ0) :=
        rel_loop (S (length base)) base targ in
      if bool_decide (stopped = [".";"."]%char) then None
      else
        match base0 with
        | [] => Some (string_of_list_ascii targ0)
        | _ =>
            let seps := Count base0 Separator in
            Some (string_of_list_ascii
                    ([".";"."]%char
                       ++ concat (repeat [Separator; "."; "."]%char seps)
                       ++ match targ0 with
                          | [] => []
                          | _ => Separator :: targ0
                          end))
        end.

End filepath.

(** [net/url]: [Parse], as far as the scheme and the host of its result
    and its errors go. *)
Module url.
Import Go gostrings.

Record URL := {
  Scheme : string;
  Host : string
}.

Inductive encoding : Type :=
| encodePath
| encodeHost
| encodeZone
| encodeUserPassword
| encodeFragment.

Definition is_letter (c : ascii) : bool :=
  let v := char_val c in
  ((97 <=? v) && (v <=? 122)) || ((65 <=? v) && (v <=? 90)).

Definition is_digit (c : ascii) : bool :=
  let v := char_val c in (48 <=? v) && (v <=? 57).

Definition ishex (c : ascii) : bool :=
  let v := char_val c in
  is_digit c || ((97 <=? v) && (v <=? 102)) || ((65 <=? v) && (v <=? 70)).

Definition unhex (c : ascii) : Z :=
  let v := char_val c in
  if is_digit c then v - 48
  else if (97 <=? v) && (v <=? 102) then v - 97 + 10
  else if (65 <=? v) && (v <=? 70) then v - 65 + 10
  else 0.

Definition one_of (c : ascii) (s : string) : bool :=
  existsb (Ascii.eqb c) (list_ascii_of_string s).

(** [shouldEscape(c, encodeHost)], which is [shouldEscape(c, encodeZone)]
    as well; [Parse] asks for no other mode. *)
Definition shouldEscape (c : ascii) : bool :=
  if is_letter c || is_digit c then false
  else
    negb (one_of c ("!$&'()*+,;=:[]<>" +:+ String (ascii_of_nat 34) ""))
    && negb (one_of c "-_.~").

(** [stringContainsCTLByte]. *)
Definition stringContainsCTLByte (s : list ascii) : bool :=
  existsb (fun c => (char_val c <? 32) || (char_val c =? 127)) s.

(** [getScheme]: the scheme and what follows its colon; [None] for the
    error of a string that starts with a colon. *)
Fixpoint scheme_loop (first : bool) (rawURL rest scanned : list ascii)
    : option (list ascii * list ascii) :=
  match rest with
  | [] => Some ([], rawURL)
  | c :: rest' =>
      if is_letter c then scheme_loop false rawURL rest' (scanned ++ [c])
      else if is_digit c || one_of c "+-."
      then if first then Some ([], rawURL)
           else scheme_loop false rawURL rest' (scanned ++ [c])
      else if Ascii.eqb c ":"%char
      then if first then None else Some (scanned, rest')
      else Some ([], rawURL)
  end.

Definition getScheme (rawURL : list ascii)
    : option (list ascii * list ascii) :=
  scheme_loop true rawURL rawURL [].

(** [unescape]: the check of the percent signs and, for a host, of the
    bytes, and the decoding; [None] for an error. *)
Fixpoint unescape_loop (fuel : nat) (s : list ascii) (mode : encoding)
    : option (list ascii) :=
  match fuel with
  | O => Some []
  | S fuel' =>
      match s with
      | [] => Some []
      | c :: rest =>
          if Ascii.eqb c "%"%char then
            match rest with
            | h :: l :: rest' =>
                if negb (ishex h && ishex l) then None
                else if match mode with encodeHost => true | _ => false end
                        && (unhex h <? 8)
                        && negb (bool_decide ([h; l] = ["2"; "5"]%char))
                then None
                else if match mode with encodeZone => true | _ => false end
                        && negb (bool_decide ([h; l] = ["2"; "5"]%char))
                        && negb (unhex h * 16 + unhex l =? 32)
                        && shouldEscape (char_of_Z (unhex h * 16 + unhex l))
                then None
                else
                  match unescape_loop fuel' rest' mode with
                  | Some t => Some (char_of_Z (unhex h * 16 + unhex l) :: t)
                  | None => None
                  end
            | _ => None
            end
          else if match mode with
                  | encodeHost | encodeZone => true
                  | _ => false
                  end
                  && (char_val c <? 128) && shouldEscape c
          then None
          else
            match unescape_loop fuel' rest mode with
            | Some t => Some (c :: t)
            | None => None
            end
      end
  end.

Definition unescape (s : list ascii) (mode : encoding)
    : option (list ascii) :=
  unescape_loop (S (length s)) s mode.

(** [validOptionalPort]. *)
Definition validOptionalPort (port : list ascii) : bool :=
  match port with
  | [] => true
  | c :: digits => Ascii.eqb c ":"%char && forallb is_digit digits
  end.

(** [validUserinfo]. *)
Definition validUserinfo (s : list ascii) : bool :=
  forallb (fun c => is_letter c || is_digit c || one_of c "-._:~!$&'()*+,;=%@")
    s.

(** [parseHost]. *)
Definition parseHost (host : list ascii) : option (list ascii) :=
  if HasPrefix host ["["%char] then
    match LastIndexByte host "]"%char with
    | None => None
    | Some i =>
        if negb (validOptionalPort (drop (S i) host)) then None
        else
          match Index (take i host) ["%"; "2"; "5"]%char with
          | Some zone =>
              match unescape (take zone host) encodeHost,
                    unescape (drop zone (take i host)) encodeZone,
                    unescape (drop i host) encodeHost with
              | Some host1, Some host2, Some host3 =>
                  Some (host1 ++ host2 ++ host3)
              | _, _, _ => None
              end
          | None => unescape host encodeHost
          end
    end
  else
    match LastIndexByte host ":"%char with
    | Some i =>
        if negb (validOptionalPort (drop i host)) then None
        else unescape host encodeHost
    | None => unescape host encodeHost
    end.

(** [parseAuthority], as far as the host and the errors go. *)
Definition parseAuthority (authority : list ascii) : option (list ascii) :=
  match LastIndexByte authority "@"%char with
  | None => parseHost authority
  | Some i =>
      match parseHost (drop (S i) authority) with
      | None => None
      | Some host =>
          let userinfo := take i authority in
          if negb (validUserinfo userinfo) then None
          else
            let '(username, password, _) := Cut userinfo ":"%char in
            match unescape username encodeUserPassword,
                  unescape password encodeUserPassword with
            | Some _, Some _ => Some host
            | _, _ => None
            end
      end
  end.

(** [parse(rawURL, false)], on the URL without its fragment. *)
Definition parse (rawURL : list ascii) : option URL :=
  if stringContainsCTLByte rawURL then None
  else if bool_decide (rawURL = ["*"%char])
  then Some {| Scheme := ""; Host := "" |}
  else
    match getScheme rawURL with
    | None => None
    | Some (scheme, rest) =>
        let scheme :=
          list_ascii_of_string (ToLower (string_of_list_ascii scheme)) in
        let rest :=
          if HasSuffix rest ["?"%char] && (Count rest "?"%char =? 1)%nat
          then take (length rest - 1) rest
          else fst (fst (Cut rest "?"%char)) in
        let opaque :=
          negb (HasPrefix rest ["/"%char])
          && negb (bool_decide (scheme = [])) in
        if opaque
        then Some {| Scheme := string_of_list_ascii scheme; Host := "" |}
        else if negb (HasPrefix rest ["/"%char])
                && existsb (Ascii.eqb ":"%char)
                     (fst (fst (Cut rest "/"%char)))
        then None
        else if (negb (bool_decide (scheme = []))
                 || negb (HasPrefix rest ["/"; "/"; "/"]%char))
                && HasPrefix rest ["/"; "/"]%char
        then
          let authority := drop 2 rest in
          let '(authority, rest) :=
            match IndexByte authority "/"%char with
            | Some i => (take i authority, drop i authority)
            | None => (authority, [])
            end in
          match parseAuthority authority, unescape rest encodePath with
          | Some host, Some _ =>
              Some {| Scheme := string_of_list_ascii scheme;
                      Host := string_of_list_ascii host |}
          | _, _ => None
          end
        else
          match unescape rest encodePath with
          | Some _ =>
              Some {| Scheme := string_of_list_ascii scheme; Host := "" |}
          | None => None
          end
    end.

(** [url.Parse]: the fragment is cut off at the first [#] and checked
    after the rest has been parsed. *)
Definition Parse (rawURL : string) : option URL :=
  let '(u, frag, _) := Cut (list_ascii_of_string rawURL) "#"%char in
  match parse u with
  | None => None
  | Some url =>
      match frag with
      | [] => Some url
      | _ =>
          match unescape frag encodeFragment with
          | Some _ => Some url
          | None => None
          end
      end
  end.

End url.

(* ===================================================================== *)
(** ** UTF-8 decoding, as a [range] loop over a string sees it *)
(* ===================================================================== *)

Module utf8.

Definition RuneError : Z := 65533.

Inductive Width : Type := Two | Three | Four.

(** Length of the sequence a first byte announces, with the range the
    second byte must lie in. *)
Definition first (b0 : Z) : option (Width * Z * Z) :=
  if (194 <=? b0) && (b0 <=? 223) then Some (Two, 128, 191)
  else if b0 =? 224 then Some (Three, 160, 191)
  else if (225 <=? b0) && (b0 <=? 236) then Some (Three, 128, 191)
  else if b0 =? 237 then Some (Three, 128, 159)
  else if (238 <=? b0) && (b0 <=? 239) then Some (Three, 128, 191)
  else if b0 =? 240 then Some (Four, 144, 191)
  else if (241 <=? b0) && (b0 <=? 243) then Some (Four, 128, 191)
  else if b0 =? 244 then Some (Four, 128, 143)
  else None.

Definition within (lo hi b : Z) : bool := (lo <=? b) && (b <=? hi).

(** The runes a [for _, c := range s] loop yields: one per well-formed
    sequence, and [RuneError] for every byte that starts none. *)
Fixpoint runes (bs : list Z) : list Z :=
  match bs with
  | [] => []
  | b0 :: r0 =>
      if b0 <? 128 then b0 :: runes r0
      else
        match first b0, r0 with
        | Some (Two, lo, hi), b1 :: r1 =>
            if within lo hi b1
            then (b0 mod 32 * 64 + b1 mod 64) :: runes r1
            else RuneError :: runes r0
        | Some (Three, lo, hi), b1 :: b2 :: r2 =>
            if within lo hi b1 && within 128 191 b2
            then (b0 mod 16 * 4096 + b1 mod 64 * 64 + b2 mod 64) :: runes r2
            else RuneError :: runes r0
        | Some (Four, lo, hi), b1 :: b2 :: b3 :: r3 =>
            if within lo hi b1 && within 128 191 b2 && within 128 191 b3
            then (b0 mod 8 * 262144 + b1 mod 64 * 4096 + b2 mod 64 * 64
                  + b3 mod 64) :: runes r3
            else RuneError :: runes r0
        | _, _ => RuneError :: runes r0
        end
  end.

Definition runes_of_string (s : string) : list Z :=
  runes (Go.string_bytes s).

End utf8.

(* ===================================================================== *)
(** ** Encodings: hexadecimal and base64 *)
(* ===================================================================== *)

Module hex.
Import Go.

Definition hextable : list ascii := list_ascii_of_string "0123456789abcdef".

Definition digit (n : Z) : ascii := nth (Z.to_nat n) hextable "0"%char.

(** [fmt.Sprintf("%x", b)] on a byte slice or array: two lower-case
    digits per byte. *)
Fixpoint encode_chars (bs : list byte) : list ascii :=
  match bs with
  | [] => []
  | b :: bs' =>
      digit (Z.shiftr (byte_val b) 4) :: digit (Z.land (byte_val b) 15)
        :: encode_chars bs'
  end.

Definition EncodeToString (bs : list byte) : string :=
  string_of_list_ascii (encode_chars bs).

(** [hex.DecodeString]: both cases are accepted, an odd length or a
    character that is no hex digit is an error. *)
Definition from_hex_char (c : ascii) : option Z :=
  let v := char_val c in
  if (48 <=? v) && (v <=? 57) then Some (v - 48)
  else if (97 <=? v) && (v <=? 102) then Some (v - 97 + 10)
  else if (65 <=? v) && (v <=? 70) then Some (v - 65 + 10)
  else None.

Fixpoint decode_chars (cs : list ascii) : option (list byte) :=
  match cs with
  | [] => Some []
  | [_] => None
  | c1 :: c2 :: cs' =>
      match from_hex_char c1, from_hex_char c2, decode_chars cs' with
      | Some h, Some l, Some bs =>
          Some (byte_of_Z (Z.lor (Z.shiftl h 4) l) :: bs)
      | _, _, _ => None
      end
  end.

Definition DecodeString (s : string) : option (list byte) :=
  decode_chars (list_ascii_of_string s).

(** The error of [hex.Decode]: the first byte that is no hexadecimal
    digit is reported as an [InvalidByteError], whose text is
    [fmt.Sprintf("encoding/hex: invalid byte: %#U", rune(b))]; a string
    of digits of odd length is [ErrLength]. *)
Fixpoint first_invalid (cs : list ascii) : option ascii :=
  match cs with
  | [] => None
  | c :: cs' =>
      match from_hex_char c with
      | Some _ => first_invalid cs'
      | None => Some c
      end
  end.

Definition upper_hextable : list ascii :=
  list_ascii_of_string "0123456789ABCDEF".

Definition upper_digit (n : Z) : ascii :=
  nth (Z.to_nat n) upper_hextable "0"%char.

(** [strconv.IsPrint] on a rune below 256, and [utf8.EncodeRune] on
    such a rune. *)
Definition IsPrint (r : Z) : bool :=
  ((32 <=? r) && (r <=? 126))
  || ((161 <=? r) && (r <=? 255) && negb (r =? 173)).

Definition EncodeRune (r : Z) : list ascii :=
  if r <? 128 then [char_of_Z r]
  else [char_of_Z (Z.lor 192 (Z.shiftr r 6));
        char_of_Z (Z.lor 128 (Z.land r 63))].

(** [%#U] on the rune of a byte: [U+] and four upper-case digits,
    followed by the quoted character when it is printable. *)
Definition format_U (c : ascii) : string :=
  let r := char_val c in
  "U+00"
    +:+ string_of_list_ascii [upper_digit (Z.shiftr r 4);
                              upper_digit (Z.land r 15)]
    +:+ (if IsPrint r
         then " '" +:+ string_of_list_ascii (EncodeRune r) +:+ "'"
         else "").

Definition InvalidByteError (c : ascii) : string :=
  "encoding/hex: invalid byte: " +:+ format_U c.

Definition ErrLength : string := "encoding/hex: odd length hex string".

Definition DecodeError (s : string) : option string :=
  match first_invalid (list_ascii_of_string s) with
  | Some c => Some (InvalidByteError c)
  | None =>
      if Nat.odd (String.length s) then Some ErrLength else None
  end.

End hex.

Module base64.
Import Go.

(** An encoding is an alphabet of 64 characters and an optional padding
    character, as in Go's [base64.Encoding]. *)
Record Encoding := {
  alphabet : list ascii;
  padChar : option ascii
}.

Definition encodeStd : list ascii :=
  list_ascii_of_string
    "ABCDEFGHIJKLMNOPQRSTUVWXYZabcdefghijklmnopqrstuvwxyz0123456789+/".

Definition encodeURL : list ascii :=
  list_ascii_of_string
    "ABCDEFGHIJKLMNOPQRSTUVWXYZabcdefghijklmnopqrstuvwxyz0123456789-_".

Definition StdEncoding : Encoding :=
  {| alphabet := encodeStd; padChar := Some "="%char |}.

Definition RawURLEncoding : Encoding :=
  {| alphabet := encodeURL; padChar := None |}.

Definition enc_char (e : Encoding) (v : Z) : ascii :=
  nth (Z.to_nat v) (alphabet e) "A"%char.

Definition padding (e : Encoding) (n : nat) : list ascii :=
  match padChar e with
  | Some p => repeat p n
  | None => []
  end.

(** The four six-bit groups of a three-byte quantum. *)
Definition sextet0 (a : Z) : Z := Z.shiftr a 2.
Definition sextet1 (a b : Z) : Z :=
  Z.lor (Z.shiftl (Z.land a 3) 4) (Z.shiftr b 4).
Definition sextet2 (b c : Z) : Z :=
  Z.lor (Z.shiftl (Z.land b 15) 2) (Z.shiftr c 6).
Definition sextet3 (c : Z) : Z := Z.land c 63.

Fixpoint encode_chars (e : Encoding) (bs : list byte) : list ascii :=
  match bs with
  | [] => []
  | [a] =>
      enc_char e (sextet0 (byte_val a))
        :: enc_char e (sextet1 (byte_val a) 0) :: padding e 2
  | [a; b] =>
      enc_char e (sextet0 (byte_val a))
        :: enc_char e (sextet1 (byte_val a) (byte_val b))
        :: enc_char e (sextet2 (byte_val b) 0) :: padding e 1
  | a :: b :: c :: bs' =>
      enc_char e (sextet0 (byte_val a))
        :: enc_char e (sextet1 (byte_val a) (byte_val b))
        :: enc_char e (sextet2 (byte_val b) (byte_val c))
        :: enc_char e (sextet3 (byte_val c))
        :: encode_chars e bs'
  end.

Definition EncodeToString (e : Encoding) (bs : list byte) : string :=
  string_of_list_ascii (encode_chars e bs).

(** Decoding, for the encodings without padding: carriage returns and
    line feeds are skipped, a character outside the alphabet or a single
    left-over character is an error, left-over bits are dropped. *)
Fixpoint index_from (i : Z) (tbl : list ascii) (c : ascii) : option Z :=
  match tbl with
  | [] => None
  | t :: tbl' => if Ascii.eqb t c then Some i else index_from (i + 1) tbl' c
  end.

Definition dec_char (e : Encoding) (c : ascii) : option Z :=
  index_from 0 (alphabet e) c.

Definition octet0 (d0 d1 : Z) : byte :=
  byte_of_Z (Z.lor (Z.shiftl d0 2) (Z.shiftr d1 4)).
Definition octet1 (d1 d2 : Z) : byte :=
  byte_of_Z (Z.lor (Z.shiftl (Z.land d1 15) 4) (Z.shiftr d2 2)).
Definition octet2 (d2 d3 : Z) : byte :=
  byte_of_Z (Z.lor (Z.shiftl (Z.land d2 3) 6) d3).

Definition is_newline (c : ascii) : bool :=
  Ascii.eqb c (ascii_of_nat 10) || Ascii.eqb c (ascii_of_nat 13).

Fixpoint decode_sextets (ds : list Z) : option (list byte) :=
  match ds with
  | [] => Some []
  | [_] => None
  | [d0; d1] => Some [octet0 d0 d1]
  | [d0; d1; d2] => Some [octet0 d0 d1; octet1 d1 d2]
  | d0 :: d1 :: d2 :: d3 :: ds' =>
      match decode_sextets ds' with
      | Some bs => Some (octet0 d0 d1 :: octet1 d1 d2 :: octet2 d2 d3 :: bs)
      | None => None
      end
  end.

Fixpoint sextets_of (e : Encoding) (cs : list ascii) : option (list Z) :=
  match cs with
  | [] => Some []
  | c :: cs' =>
      if is_newline c then sextets_of e cs'
      else
        match dec_char e c, sextets_of e cs' with
        | Some d, Some ds => Some (d :: ds)
        | _, _ => None
        end
  end.

Definition DecodeString (e : Encoding) (s : string) : option (list byte) :=
  match sextets_of e (list_ascii_of_string s) with
  | Some ds => decode_sextets ds
  | None => None
  end.

End base64.

(* ===================================================================== *)
(** ** SHA-256 (crypto/sha256), after FIPS 180-4 *)
(* ===================================================================== *)

Module sha256.
Import Go.

Definition mask32 : Z := 2 ^ 32 - 1.
Definition add32 (x y : Z) : Z := Z.land (x + y) mask32.
Definition rotr (n x : Z) : Z :=
  Z.lor (Z.shiftr x n) (Z.land (Z.shiftl x (32 - n)) mask32).
Definition not32 (x : Z) : Z := Z.lxor x mask32.

Definition Ch (x y z : Z) : Z := Z.lxor (Z.land x y) (Z.land (not32 x) z).
Definition Maj (x y z : Z) : Z :=
  Z.lxor (Z.lxor (Z.land x y) (Z.land x z)) (Z.land y z).
Definition bsig0 (x : Z) : Z := Z.lxor (Z.lxor (rotr 2 x) (rotr 13 x)) (rotr 22 x).
Definition bsig1 (x : Z) : Z := Z.lxor (Z.lxor (rotr 6 x) (rotr 11 x)) (rotr 25 x).
Definition ssig0 (x : Z) : Z := Z.lxor (Z.lxor (rotr 7 x) (rotr 18 x)) (Z.shiftr x 3).
Definition ssig1 (x : Z) : Z := Z.lxor (Z.lxor (rotr 17 x) (rotr 19 x)) (Z.shiftr x 10).

(** Big-endian words of a byte list, four bytes per word. *)
Fixpoint words_of (bs : list Z) : list Z :=
  match bs with
  | a :: b :: c :: d :: bs' =>
      (((a * 256 + b) * 256 + c) * 256 + d) :: words_of bs'
  | _ => []
  end.

Definition word_bytes (x : Z) : list byte :=
  [byte_of_Z (Z.shiftr x 24); byte_of_Z (Z.shiftr x 16);
   byte_of_Z (Z.shiftr x 8); byte_of_Z x].

(** The round constants and the initial hash value, written as the
    hexadecimal digits of the consecutive words. *)
Definition table_of_hex (s : string) : list Z :=
  match hex.DecodeString s with
  | Some bs => words_of (map byte_val bs)
  | None => []
  end.

Definition K : list Z := Eval vm_compute in
  table_of_hex
    ("428a2f9871374491b5c0fbcfe9b5dba53956c25b59f111f1923f82a4ab1c5ed5" +:+
     "d807aa9812835b01243185be550c7dc372be5d7480deb1fe9bdc06a7c19bf174" +:+
     "e49b69c1efbe47860fc19dc6240ca1cc2de92c6f4a7484aa5cb0a9dc76f988da" +:+
     "983e5152a831c66db00327c8bf597fc7c6e00bf3d5a7914706ca635114292967" +:+
     "27b70a852e1b21384d2c6dfc53380d13650a7354766a0abb81c2c92e92722c85" +:+
     "a2bfe8a1a81a664bc24b8b70c76c51a3d192e819d6990624f40e3585106aa070" +:+
     "19a4c1161e376c082748774c34b0bcb5391c0cb34ed8aa4a5b9cca4f682e6ff3" +:+
     "748f82ee78a5636f84c878148cc7020890befffaa4506cebbef9a3f7c67178f2").

Definition State : Type := Z * Z * Z * Z * Z * Z * Z * Z.

Definition init : State :=
  (0x6a09e667, 0xbb67ae85, 0x3c6ef372, 0xa54ff53a,
   0x510e527f, 0x9b05688c, 0x1f83d9ab, 0x5be0cd19).

(** Message schedule: [rev_w] holds the words computed so far, the most
    recent first. *)
Fixpoint schedule (n : nat) (rev_w : list Z) : list Z :=
  match n with
  | O => rev_w
  | S n' =>
      let w2 := nth 1 rev_w 0 in
      let w7 := nth 6 rev_w 0 in
      let w15 := nth 14 rev_w 0 in
      let w16 := nth 15 rev_w 0 in
      schedule n'
        (add32 (add32 (add32 (ssig1 w2) w7) (ssig0 w15)) w16 :: rev_w)
  end.

Definition round (s : State) (kw : Z * Z) : State :=
  let '(a, b, c, d, e, f, g, h) := s in
  let t1 := add32 (add32 (add32 (add32 h (bsig1 e)) (Ch e f g)) (fst kw)) (snd kw) in
  let t2 := add32 (bsig0 a) (Maj a b c) in
  (add32 t1 t2, a, b, c, add32 d t1, e, f, g).

Definition compress (s : State) (block : list Z) : State :=
  let w := rev (schedule 48 (rev (words_of block))) in
  let '(a, b, c, d, e, f, g, h) := fold_left round (combine K w) s in
  let '(a0, b0, c0, d0, e0, f0, g0, h0) := s in
  (add32 a0 a, add32 b0 b, add32 c0 c, add32 d0 d,
   add32 e0 e, add32 f0 f, add32 g0 g, add32 h0 h).

(** Padding: a one bit, zeros up to 56 modulo 64, then the bit length as
    a 64-bit big-endian integer. *)
Definition length_bytes (bits : Z) : list Z :=
  map (fun i => Z.land (Z.shiftr bits (8 * (7 - Z.of_nat i))) 255) (seq 0 8).

Definition pad (msg : list Z) : list Z :=
  let len := Z.of_nat (length msg) in
  msg ++ [128] ++ repeat 0 (Z.to_nat ((55 - len) mod 64))
      ++ length_bytes ((8 * len) mod 2 ^ 64).

Fixpoint blocks (n : nat) (s : State) (bs : list Z) : State :=
  match n with
  | O => s
  | S n' => blocks n' (compress s (firstn 64 bs)) (skipn 64 bs)
  end.

(** [sha256.Sum256]: the 32-byte digest. *)
Definition Sum256 (data : list byte) : list byte :=
  let p := pad (map byte_val data) in
  let '(a, b, c, d, e, f, g, h) := blocks (length p / 64)%nat init p in
  word_bytes a ++ word_bytes b ++ word_bytes c ++ word_bytes d ++
  word_bytes e ++ word_bytes f ++ word_bytes g ++ word_bytes h.

End sha256.

(* ===================================================================== *)
(** ** JSON values and time stamps *)
(* ===================================================================== *)

(** A JSON document ([map[string]interface{}] and what [json.Marshal]
    produces from one).  Objects list their members in the order
    [json.Marshal] writes the keys of a Go map: sorted. *)
#[warnings="-register-all"]
Inductive json : Type :=
| JNull
| JBool (b : bool)
| JNum (n : Z)
| JStr (s : string)
| JArr (items : list json)
| JObj (members : list (string * json)).

Module time.
Import Go.

(** A [time.Time] as stored by the metadata store: milliseconds since
    1970-01-01T00:00:00Z. *)
Definition Time : Type := Z.

(** Civil date of a day number (days since the epoch) in the proleptic
    Gregorian calendar, computed per 400-year era starting on 1 March. *)
Definition year_of_era (doe : Z) : Z :=
  (doe - doe / 1460 + doe / 36524 - doe / 146096) / 365.

Definition day_of_year (doe : Z) : Z :=
  let yoe := year_of_era doe in
  doe - (365 * yoe + yoe / 4 - yoe / 100).

Definition month_index (doe : Z) : Z := (5 * day_of_year doe + 2) / 153.

Definition civil_of_days (days : Z) : Z * Z * Z :=
  let z := days + 719468 in
  let era := z / 146097 in
  let doe := z mod 146097 in
  let mp := month_index doe in
  let d := day_of_year doe - (153 * mp + 2) / 5 + 1 in
  let m := if mp <? 10 then mp + 3 else mp - 9 in
  let y := year_of_era doe + era * 400 in
  (if m <=? 2 then y + 1 else y, m, d).

(** The fields of a time stamp in UTC. *)
Record Fields := {
  year : Z; month : Z; day : Z;
  hour : Z; minute : Z; second : Z; milli : Z
}.

Definition fields_of (t : Time) : Fields :=
  let days := t / 86400000 in
  let rest := t mod 86400000 in
  let '(y, m, d) := civil_of_days days in
  {| year := y; month := m; day := d;
     hour := rest / 3600000;
     minute := rest / 60000 mod 60;
     second := rest / 1000 mod 60;
     milli := rest mod 1000 |}.

(** [appendInt(b, x, width)]: decimal digits, zero-padded on the left to
    [width], behind a minus sign for a negative number. *)
Definition appendInt (x : Z) (width : nat) : string :=
  let ds := digits (Z.abs x) in
  let padded := repeat "0"%char (width - length ds)%nat ++ ds in
  string_of_list_ascii (if x <? 0 then "-"%char :: padded else padded).

(** [t.UTC().Format("2006-01-02T15:04:05.000Z")]. *)
Definition FormatMillisUTC (t : Time) : string :=
  let f := fields_of t in
  appendInt (year f) 4 +:+ "-" +:+ appendInt (month f) 2 +:+ "-"
    +:+ appendInt (day f) 2 +:+ "T" +:+ appendInt (hour f) 2 +:+ ":"
    +:+ appendInt (minute f) 2 +:+ ":" +:+ appendInt (second f) 2 +:+ "."
    +:+ appendInt (milli f) 3 +:+ "Z".

End time.

(* ===================================================================== *)
(** ** models: the update record (backend/internal/models/update.go) *)
(* ===================================================================== *)

Module models.

(** [primitive.ObjectID]: twelve bytes. *)
Abbreviation ObjectID := (list byte).

Definition NilObjectID : ObjectID := repeat x00 12.

(** [ObjectID.Hex] and [primitive.ObjectIDFromHex]. *)
Definition Hex (id : ObjectID) : string := hex.EncodeToString id.

Definition ObjectIDFromHex (s : string) : option ObjectID :=
  if (String.length s =? 24)%nat then hex.DecodeString s else None.

Record Asset := {
  Path : string;
  Ext : string;
  Url : string;
  Key : string;
  Hash : string
}.

Record PlatformMetadata := {
  Bundle : string;
  BundleUrl : string;
  BundleKey : string;
  BundleHash : string;
  Assets : list Asset
}.

(** [FileMetadata] is [None] for a nil map; [ExpoConfig] holds the
    members of the configuration object, [None] for a nil map. *)
Record UpdateMetadata := {
  FileMetadata : option (gmap string PlatformMetadata);
  ExpoConfig : option (list (string * json))
}.

Record Update := {
  ID : ObjectID;
  ProjectSlug : string;
  UpdateID : string;
  RuntimeVersion : string;
  Channel : string;
  Platform : string;
  BundlePath : string;
  CreatedAt : time.Time;
  IsActive : bool;
  IsRollback : bool;
  RolloutPercentage : Z;
  Downloads : Z;
  Metadata : option UpdateMetadata
}.

Definition ChannelProduction : string := "production".
Definition ChannelStaging : string := "staging".
Definition ChannelBeta : string := "beta".

Definition PlatformAndroid : string := "android".
Definition PlatformIOS : string := "ios".
Definition PlatformAll : string := "all".

(** [models.Project] (backend/internal/models/project.go). *)
Record Project := {
  ProjectID : ObjectID;
  Slug : string;
  Name : string;
  Description : string;
  ProjectCreatedAt : time.Time;
  UpdateCount : Z
}.

(** Field updates. *)
Definition set_ID (v : ObjectID) (u : Update) : Update :=
  {| ID := v; ProjectSlug := ProjectSlug u; UpdateID := UpdateID u;
     RuntimeVersion := RuntimeVersion u; Channel := Channel u;
     Platform := Platform u; BundlePath := BundlePath u;
     CreatedAt := CreatedAt u; IsActive := IsActive u;
     IsRollback := IsRollback u; RolloutPercentage := RolloutPercentage u;
     Downloads := Downloads u; Metadata := Metadata u |}.

Definition set_Channel (v : string) (u : Update) : Update :=
  {| ID := ID u; ProjectSlug := ProjectSlug u; UpdateID := UpdateID u;
     RuntimeVersion := RuntimeVersion u; Channel := v;
     Platform := Platform u; BundlePath := BundlePath u;
     CreatedAt := CreatedAt u; IsActive := IsActive u;
     IsRollback := IsRollback u; RolloutPercentage := RolloutPercentage u;
     Downloads := Downloads u; Metadata := Metadata u |}.

Definition set_CreatedAt (v : time.Time) (u : Update) : Update :=
  {| ID := ID u; ProjectSlug := ProjectSlug u; UpdateID := UpdateID u;
     RuntimeVersion := RuntimeVersion u; Channel := Channel u;
     Platform := Platform u; BundlePath := BundlePath u;
     CreatedAt := v; IsActive := IsActive u;
     IsRollback := IsRollback u; RolloutPercentage := RolloutPercentage u;
     Downloads := Downloads u; Metadata := Metadata u |}.

Definition set_IsActive (v : bool) (u : Update) : Update :=
  {| ID := ID u; ProjectSlug := ProjectSlug u; UpdateID := UpdateID u;
     RuntimeVersion := RuntimeVersion u; Channel := Channel u;
     Platform := Platform u; BundlePath := BundlePath u;
     CreatedAt := CreatedAt u; IsActive := v;
     IsRollback := IsRollback u; RolloutPercentage := RolloutPercentage u;
     Downloads := Downloads u; Metadata := Metadata u |}.

Definition set_RolloutPercentage (v : Z) (u : Update) : Update :=
  {| ID := ID u; ProjectSlug := ProjectSlug u; UpdateID := UpdateID u;
     RuntimeVersion := RuntimeVersion u; Channel := Channel u;
     Platform := Platform u; BundlePath := BundlePath u;
     CreatedAt := CreatedAt u; IsActive := IsActive u;
     IsRollback := IsRollback u; RolloutPercentage := v;
     Downloads := Downloads u; Metadata := Metadata u |}.

Definition set_Downloads (v : Z) (u : Update) : Update :=
  {| ID := ID u; ProjectSlug := ProjectSlug u; UpdateID := UpdateID u;
     RuntimeVersion := RuntimeVersion u; Channel := Channel u;
     Platform := Platform u; BundlePath := BundlePath u;
     CreatedAt := CreatedAt u; IsActive := IsActive u;
     IsRollback := IsRollback u; RolloutPercentage := RolloutPercentage u;
     Downloads := v; Metadata := Metadata u |}.

Definition set_Metadata (v : option UpdateMetadata) (u : Update) : Update :=
  {| ID := ID u; ProjectSlug := ProjectSlug u; UpdateID := UpdateID u;
     RuntimeVersion := RuntimeVersion u; Channel := Channel u;
     Platform := Platform u; BundlePath := BundlePath u;
     CreatedAt := CreatedAt u; IsActive := IsActive u;
     IsRollback := IsRollback u; RolloutPercentage := RolloutPercentage u;
     Downloads := Downloads u; Metadata := v |}.

End models.

(* ===================================================================== *)
(** ** database: the update repository *)
(* ===================================================================== *)

Module database.
Import models.

(** A Go [(value, error)] result. *)
Inductive result (A : Type) : Type :=
| Ok (a : A)
| Err (msg : string).
Arguments Ok {A} a.
Arguments Err {A} msg.

(** The values a [bson.M] of the sources holds. *)
Inductive BsonValue : Type :=
| BBool (b : bool)
| BInt (n : Z)
| BString (s : string).

(** The repository is a handle on the [updates] collection: its documents,
    oldest insertion first.  A nil repository is [None].  Of the
    failures of the driver itself (network, time-outs), the one of
    [InsertOne] is modelled: its outcome is an argument of [Create].  The
    other operations are embedded as they run on a store that answers. *)
Record UpdateRepository := {
  collection : list Update
}.

Definition ErrInvalidHex : string :=
  "the provided hex string is not a valid ObjectID".

(** The error of [primitive.ObjectIDFromHex] on a string it refuses:
    [ErrInvalidHex] for a length other than 24, and the error of
    [hex.Decode] for 24 bytes that are not all hexadecimal digits. *)
Definition ObjectIDFromHexError (s : string) : string :=
  if (String.length s =? 24)%nat
  then default "" (hex.DecodeError s)
  else ErrInvalidHex.

(** [Create]: [now] is [time.Now()]; [inserted] is the outcome of
    [InsertOne], the error of the driver or the identifier the driver
    generates for a document without one.  Returns the repository, the
    caller's record as mutated, and the error. *)
Definition Create (r : option UpdateRepository) (now : time.Time)
    (inserted : result ObjectID) (update : Update)
    : option UpdateRepository * Update * option string :=
  match r with
  | None => (None, update, Some "database not connected")
  | Some repo =>
      let update := set_CreatedAt now update in
      let update :=
        if RolloutPercentage update =? 0
        then set_RolloutPercentage 100 update else update in
      let update :=
        if bool_decide (Channel update = "")
        then set_Channel ChannelProduction update else update in
      match inserted with
      | Err err => (r, update, Some ("failed to insert update: " +:+ err))
      | Ok oid =>
          let insertedID :=
            if bool_decide (ID update = NilObjectID) then oid
            else ID update in
          let doc := set_ID insertedID update in
          (Some {| collection := collection repo ++ [doc] |}, doc, None)
      end
  end.

(** [FindByID]. *)
Definition FindByID (r : option UpdateRepository) (id : string)
    : result (option Update) :=
  match r with
  | None => Err "database not connected"
  | Some repo =>
      match ObjectIDFromHex id with
      | None => Err ("invalid update ID: " +:+ ObjectIDFromHexError id)
      | Some objectID =>
          Ok (List.find (fun u => bool_decide (ID u = objectID))
                (collection repo))
      end
  end.

(** [FindByUpdateID]. *)
Definition FindByUpdateID (r : option UpdateRepository) (updateID : string)
    : result (option Update) :=
  match r with
  | None => Err "database not connected"
  | Some repo =>
      Ok (List.find (fun u => bool_decide (UpdateID u = updateID))
            (collection repo))
  end.

(** The filter [FindLatest] builds: equality on project, runtime and
    channel, [isActive = true], and, for a non-empty platform, the [$or]
    of the platform and ["all"]. *)
Definition latest_filter (projectSlug runtimeVersion channel platform : string)
    (u : Update) : bool :=
  bool_decide (ProjectSlug u = projectSlug)
  && bool_decide (RuntimeVersion u = runtimeVersion)
  && bool_decide (Channel u = channel)
  && IsActive u
  && (if bool_decide (platform <> "")
      then bool_decide (Platform u = platform)
           || bool_decide (Platform u = PlatformAll)
      else true).

(** Sort order [createdAt: -1]. *)
Definition newest_first (a b : Update) : Prop := CreatedAt b <= CreatedAt a.

#[global] Instance newest_first_dec a b : Decision (newest_first a b).
Proof. unfold newest_first. apply _. Defined.

(** [FindOne] with a filter and a sort: the first document of the sorted
    matches, or no document. *)
Definition FindLatest (r : option UpdateRepository)
    (projectSlug runtimeVersion channel platform : string)
    : result (option Update) :=
  match r with
  | None => Err "database not connected"
  | Some repo =>
      Ok (head (merge_sort newest_first
                  (List.filter
                     (latest_filter projectSlug runtimeVersion channel platform)
                     (collection repo))))
  end.

(** [$set] on a document of the collection. *)
Definition apply_set (update : gmap string BsonValue) (u : Update) : Update :=
  let u :=
    match update !! "isActive" with
    | Some (BBool b) => set_IsActive b u
    | _ => u
    end in
  match update !! "rolloutPercentage" with
  | Some (BInt n) => set_RolloutPercentage n u
  | _ => u
  end.

(** [UpdateOne] by [_id]: the first matching document is changed; returns
    the documents and the matched count. *)
Fixpoint update_one (id : ObjectID) (f : Update -> Update)
    (docs : list Update) : list Update * Z :=
  match docs with
  | [] => ([], 0)
  | u :: docs' =>
      if bool_decide (ID u = id) then (f u :: docs', 1)
      else let '(docs'', n) := update_one id f docs' in (u :: docs'', n)
  end.

(** [Update]. *)
Definition Update_ (r : option UpdateRepository) (id : string)
    (update : gmap string BsonValue)
    : option UpdateRepository * option string :=
  match r with
  | None => (None, Some "database not connected")
  | Some repo =>
      match ObjectIDFromHex id with
      | None => (r, Some ("invalid update ID: " +:+ ObjectIDFromHexError id))
      | Some objectID =>
          let '(docs, matched) :=
            update_one objectID (apply_set update) (collection repo) in
          if matched =? 0 then (r, Some "update not found")
          else (Some {| collection := docs |}, None)
      end
  end.

(** [IncrementDownloads]. *)
Definition IncrementDownloads (r : option UpdateRepository) (updateID : string)
    : option UpdateRepository * option string :=
  match r with
  | None => (None, None)
  | Some repo =>
      match ObjectIDFromHex updateID with
      | None => (r, None)
      | Some objectID =>
          let '(docs, _) :=
            update_one objectID
              (fun u => set_Downloads (Downloads u + 1) u) (collection repo) in
          (Some {| collection := docs |}, None)
      end
  end.

(** The project repository is never nil; its collection is ([None] when
    the database is not connected). *)
Record ProjectRepository := {
  projects : option (list Project)
}.

(** [EnsureProjectExists]: an upsert that only sets fields on insert;
    [oid] is the identifier a new document gets. *)
Definition EnsureProjectExists (r : ProjectRepository) (now : time.Time)
    (oid : ObjectID) (slug name : string) : ProjectRepository :=
  match projects r with
  | None => r
  | Some ps =>
      if existsb (fun p => bool_decide (Slug p = slug)) ps then r
      else {| projects :=
                Some (ps ++ [ {| ProjectID := oid; Slug := slug;
                                 Name := name; Description := "";
                                 ProjectCreatedAt := now;
                                 UpdateCount := 0 |} ]) |}
  end.

(** [Deactivate]. *)
Definition Deactivate (r : option UpdateRepository) (id : string)
    : option UpdateRepository * option string :=
  Update_ r id {[ "isActive" := BBool false ]}.

(** [SetRollout]. *)
Definition SetRollout (r : option UpdateRepository) (id : string)
    (percentage : Z) : option UpdateRepository * option string :=
  let percentage := if percentage <? 0 then 0 else percentage in
  let percentage := if 100 <? percentage then 100 else percentage in
  Update_ r id {[ "rolloutPercentage" := BInt percentage ]}.

End database.

(** [encoding/json]: [Marshal] for the documents of the model, and
    [Unmarshal] for documents in ASCII whose strings have no [\u] escape,
    whose numbers are integers that a [float64] holds exactly and whose
    objects name no field twice.  A [\u] escape, a fraction and an
    exponent are refused here, which the library reads. *)
Module encoding_json.
Import Go models.

(** The escape of a byte below 128 that a JSON string cannot hold as it
    is, with [SetEscapeHTML] on as in [Marshal]. *)
Definition escape_ascii (c : ascii) : list ascii :=
  let v := char_val c in
  if (v =? 92) || (v =? 34) then ["\"%char; c]
  else if v =? 8 then ["\"; "b"]%char
  else if v =? 12 then ["\"; "f"]%char
  else if v =? 10 then ["\"; "n"]%char
  else if v =? 13 then ["\"; "r"]%char
  else if v =? 9 then ["\"; "t"]%char
  else if (v <? 32) || (v =? 60) || (v =? 62) || (v =? 38)
  then ["\"; "u"; "0"; "0"]%char
         ++ [hex.digit (Z.shiftr v 4); hex.digit (Z.land v 15)]
  else [c].

(** [appendString]: the bytes of a string between double quotes.  A
    byte that starts no UTF-8 sequence is written as the escape of
    U+FFFD, and the line and paragraph separators U+2028 and U+2029 are
    escaped. *)
Fixpoint escape_chars (fuel : nat) (cs : list ascii) : list ascii :=
  match fuel with
  | O => []
  | S fuel' =>
      match cs with
      | [] => []
      | c :: rest =>
          if char_val c <? 128 then escape_ascii c ++ escape_chars fuel' rest
          else
            match utf8.runes (map char_val (take 4 cs)) with
            | r :: _ =>
                let size :=
                  if r <? 128 then 1%nat
                  else if r <? 2048 then 2%nat
                  else if r <? 65536 then 3%nat
                  else 4%nat in
                if (r =? utf8.RuneError)
                   && negb (bool_decide
                              (take 3 cs
                               = [char_of_Z 239; char_of_Z 191; char_of_Z 189]))
                then list_ascii_of_string ("\u" +:+ "fffd")
                       ++ escape_chars fuel' rest
                else if (r =? 8232) || (r =? 8233)
                then list_ascii_of_string ("\u" +:+ "202")
                       ++ [hex.digit (Z.land r 15)]
                       ++ escape_chars fuel' (drop size cs)
                else take size cs ++ escape_chars fuel' (drop size cs)
            | [] => []
            end
      end
  end.

Definition quote (s : string) : string :=
  dq +:+ string_of_list_ascii
           (escape_chars (String.length s) (list_ascii_of_string s))
     +:+ dq.

(** [Marshal] on a document: no white space, the members of an object
    in the order the document lists them. *)
Fixpoint render (j : json) : string :=
  match j with
  | JNull => "null"
  | JBool b => if b then "true" else "false"
  | JNum n => Itoa n
  | JStr s => quote s
  | JArr items =>
      "[" +:+ (fix go (l : list json) : string :=
                 match l with
                 | [] => ""
                 | [x] => render x
                 | x :: rest => render x +:+ "," +:+ go rest
                 end) items +:+ "]"
  | JObj members =>
      "{" +:+ (fix go (l : list (string * json)) : string :=
                 match l with
                 | [] => ""
                 | [(k, v)] => quote k +:+ ":" +:+ render v
                 | (k, v) :: rest =>
                     quote k +:+ ":" +:+ render v +:+ "," +:+ go rest
                 end) members +:+ "}"
  end.

Definition Marshal (j : json) : list byte := list_byte_of_string (render j).

(** *** Reading a document *)

Definition is_space (c : ascii) : bool :=
  let v := char_val c in (v =? 32) || (v =? 9) || (v =? 13) || (v =? 10).

Fixpoint skip_space (cs : list ascii) : list ascii :=
  match cs with
  | c :: rest => if is_space c then skip_space rest else cs
  | [] => []
  end.

Definition is_digit (c : ascii) : bool :=
  (48 <=? char_val c) && (char_val c <=? 57).

Fixpoint digits_of (cs : list ascii) : list ascii :=
  match cs with
  | c :: rest => if is_digit c then c :: digits_of rest else []
  | [] => []
  end.

(** A string, from behind its opening quote to its closing quote. *)
Fixpoint read_string (cs : list ascii) : option (list ascii * list ascii) :=
  match cs with
  | [] => None
  | c :: rest =>
      let v := char_val c in
      if v =? 34 then Some ([], rest)
      else if v <? 32 then None
      else if v =? 92 then
        match rest with
        | e :: rest' =>
            let unescaped :=
              let w := char_val e in
              if (w =? 34) || (w =? 92) || (w =? 47) then Some e
              else if w =? 98 then Some (char_of_Z 8)
              else if w =? 102 then Some (char_of_Z 12)
              else if w =? 110 then Some (char_of_Z 10)
              else if w =? 114 then Some (char_of_Z 13)
              else if w =? 116 then Some (char_of_Z 9)
              else None in
            match unescaped, read_string rest' with
            | Some b, Some (s, after) => Some (b :: s, after)
            | _, _ => None
            end
        | [] => None
        end
      else
        match read_string rest with
        | Some (s, after) => Some (c :: s, after)
        | None => None
        end
  end.

(** An integer: an optional minus sign and digits without a leading
    zero.  A fraction or an exponent is not read. *)
Definition read_number (cs : list ascii) : option (Z * list ascii) :=
  let '(negative, body) :=
    match cs with
    | c :: rest => if Ascii.eqb c "-"%char then (true, rest) else (false, cs)
    | [] => (false, cs)
    end in
  let ds := digits_of body in
  let after := drop (length ds) body in
  match ds with
  | [] => None
  | d :: more =>
      if Ascii.eqb d "0"%char && negb (bool_decide (more = [])) then None
      else
        match after with
        | c :: _ =>
            if Ascii.eqb c "."%char || Ascii.eqb c "e"%char
               || Ascii.eqb c "E"%char
            then None
            else
              let n := fold_left (fun n d => 10 * n + (char_val d - 48)) ds 0 in
              Some (if negative then - n else n, after)
        | [] =>
            let n := fold_left (fun n d => 10 * n + (char_val d - 48)) ds 0 in
            Some (if negative then - n else n, after)
        end
  end.

(** A value, and what follows it. *)
Fixpoint read_value (fuel : nat) (cs : list ascii)
    : option (json * list ascii) :=
  match fuel with
  | O => None
  | S fuel' =>
      let read_items :=
        fix items (n : nat) (cs : list ascii)
            : option (list json * list ascii) :=
          match n with
          | O => None
          | S n' =>
              match read_value fuel' cs with
              | Some (v, after) =>
                  match skip_space after with
                  | c :: rest =>
                      if Ascii.eqb c ","%char then
                        match items n' rest with
                        | Some (vs, after') => Some (v :: vs, after')
                        | None => None
                        end
                      else if Ascii.eqb c "]"%char then Some ([v], rest)
                      else None
                  | [] => None
                  end
              | None => None
              end
          end in
      let read_members :=
        fix members (n : nat) (cs : list ascii)
            : option (list (string * json) * list ascii) :=
          match n with
          | O => None
          | S n' =>
              match skip_space cs with
              | q :: rest =>
                  if negb (char_val q =? 34) then None
                  else
                    match read_string rest with
                    | Some (k, after) =>
                        match skip_space after with
                        | c :: rest' =>
                            if negb (Ascii.eqb c ":"%char) then None
                            else
                              match read_value fuel' rest' with
                              | Some (v, after') =>
                                  match skip_space after' with
                                  | c' :: rest'' =>
                                      if Ascii.eqb c' ","%char then
                                        match members n' rest'' with
                                        | Some (ms, after'') =>
                                            Some ((string_of_list_ascii k, v)
                                                    :: ms, after'')
                                        | None => None
                                        end
                                      else if Ascii.eqb c' "}"%char
                                      then Some ([(string_of_list_ascii k, v)],
                                                 rest'')
                                      else None
                                  | [] => None
                                  end
                              | None => None
                              end
                        | [] => None
                        end
                    | None => None
                    end
              | [] => None
              end
          end in
      match skip_space cs with
      | [] => None
      | c :: rest =>
          let v := char_val c in
          if v =? 34 then
            match read_string rest with
            | Some (s, after) => Some (JStr (string_of_list_ascii s), after)
            | None => None
            end
          else if Ascii.eqb c "{"%char then
            match skip_space rest with
            | c' :: rest' =>
                if Ascii.eqb c' "}"%char then Some (JObj [], rest')
                else
                  match read_members (length rest) rest with
                  | Some (ms, after) => Some (JObj ms, after)
                  | None => None
                  end
            | [] => None
            end
          else if Ascii.eqb c "["%char then
            match skip_space rest with
            | c' :: rest' =>
                if Ascii.eqb c' "]"%char then Some (JArr [], rest')
                else
                  match read_items (length rest) rest with
                  | Some (vs, after) => Some (JArr vs, after)
                  | None => None
                  end
            | [] => None
            end
          else if gostrings.HasPrefix (c :: rest) (list_ascii_of_string "true")
          then Some (JBool true, drop 3 rest)
          else if gostrings.HasPrefix (c :: rest)
                    (list_ascii_of_string "false")
          then Some (JBool false, drop 4 rest)
          else if gostrings.HasPrefix (c :: rest) (list_ascii_of_string "null")
          then Some (JNull, drop 3 rest)
          else
            match read_number (c :: rest) with
            | Some (n, after) => Some (JNum n, after)
            | None => None
            end
      end
  end.

(** The one value of a document, for [Unmarshal]: nothing but white
    space may follow it. *)
Definition document (data : list byte) : option json :=
  let cs := list_ascii_of_string (string_of_list_byte data) in
  match read_value (S (length cs)) cs with
  | Some (v, after) =>
      match skip_space after with
      | [] => Some v
      | _ => None
      end
  | None => None
  end.

(** *** Decoding into the types of the sources *)

(** The members of a Go map, as the model lists them: sorted by key,
    the last of the members of one key. *)
Fixpoint put (k : string) (v : json) (m : list (string * json))
    : list (string * json) :=
  match m with
  | [] => [(k, v)]
  | (k', v') :: m' =>
      if bool_decide (k = k') then (k, v) :: m'
      else if String.ltb k k' then (k, v) :: m
      else (k', v') :: put k v m'
  end.

(** A value decoded into an [interface{}]: the objects are maps. *)
Fixpoint as_interface (j : json) : json :=
  match j with
  | JObj members =>
      JObj (fold_left (fun m kv => put (fst kv) (as_interface (snd kv)) m)
              members [])
  | JArr items => JArr (map as_interface items)
  | _ => j
  end.

(** [Unmarshal] into a [map[string]interface{}]: [null] leaves the
    nil map, an object fills it, anything else is an error. *)
Definition UnmarshalObject (data : list byte)
    : option (option (list (string * json))) :=
  match document data with
  | Some JNull => Some None
  | Some (JObj members) =>
      match as_interface (JObj members) with
      | JObj sorted => Some (Some sorted)
      | _ => None
      end
  | _ => None
  end.

(** The field of a struct that a key names: the field of that name, or
    else the one whose name is the key up to the case of its letters. *)
Definition names (key field : string) : bool :=
  bool_decide (gostrings.ToLower key = gostrings.ToLower field).

(** A string field: [null] leaves it, a string sets it, anything else is
    an error. *)
Definition into_string (j : json) (old : string) : option string :=
  match j with
  | JNull => Some old
  | JStr s => Some s
  | _ => None
  end.

Fixpoint all_some {A} (l : list (option A)) : option (list A) :=
  match l with
  | [] => Some []
  | Some x :: l' =>
      match all_some l' with
      | Some xs => Some (x :: xs)
      | None => None
      end
  | None :: _ => None
  end.

Definition asset_field (a : option Asset) (kv : string * json)
    : option Asset :=
  match a with
  | None => None
  | Some a =>
      let '(k, v) := kv in
      if names k "path" then
        match into_string v (Path a) with
        | Some s => Some {| Path := s; Ext := Ext a; Url := Url a;
                            Key := Key a; Hash := Hash a |}
        | None => None
        end
      else if names k "ext" then
        match into_string v (Ext a) with
        | Some s => Some {| Path := Path a; Ext := s; Url := Url a;
                            Key := Key a; Hash := Hash a |}
        | None => None
        end
      else if names k "url" then
        match into_string v (Url a) with
        | Some s => Some {| Path := Path a; Ext := Ext a; Url := s;
                            Key := Key a; Hash := Hash a |}
        | None => None
        end
      else if names k "key" then
        match into_string v (Key a) with
        | Some s => Some {| Path := Path a; Ext := Ext a; Url := Url a;
                            Key := s; Hash := Hash a |}
        | None => None
        end
      else if names k "hash" then
        match into_string v (Hash a) with
        | Some s => Some {| Path := Path a; Ext := Ext a; Url := Url a;
                            Key := Key a; Hash := s |}
        | None => None
        end
      else Some a
  end.

Definition zero_asset : Asset :=
  {| Path := ""; Ext := ""; Url := ""; Key := ""; Hash := "" |}.

Definition into_asset (j : json) : option Asset :=
  match j with
  | JNull => Some zero_asset
  | JObj members => fold_left asset_field members (Some zero_asset)
  | _ => None
  end.

Definition into_assets (j : json) (old : list Asset) : option (list Asset) :=
  match j with
  | JNull => Some old
  | JArr items => all_some (map into_asset items)
  | _ => None
  end.

Definition platform_field (pm : option PlatformMetadata)
    (kv : string * json) : option PlatformMetadata :=
  match pm with
  | None => None
  | Some pm =>
      let '(k, v) := kv in
      if names k "bundle" then
        match into_string v (Bundle pm) with
        | Some s => Some {| Bundle := s; BundleUrl := BundleUrl pm;
                            BundleKey := BundleKey pm;
                            BundleHash := BundleHash pm;
                            Assets := Assets pm |}
        | None => None
        end
      else if names k "bundleUrl" then
        match into_string v (BundleUrl pm) with
        | Some s => Some {| Bundle := Bundle pm; BundleUrl := s;
                            BundleKey := BundleKey pm;
                            BundleHash := BundleHash pm;
                            Assets := Assets pm |}
        | None => None
        end
      else if names k "bundleKey" then
        match into_string v (BundleKey pm) with
        | Some s => Some {| Bundle := Bundle pm; BundleUrl := BundleUrl pm;
                            BundleKey := s;
                            BundleHash := BundleHash pm;
                            Assets := Assets pm |}
        | None => None
        end
      else if names k "bundleHash" then
        match into_string v (BundleHash pm) with
        | Some s => Some {| Bundle := Bundle pm; BundleUrl := BundleUrl pm;
                            BundleKey := BundleKey pm;
                            BundleHash := s;
                            Assets := Assets pm |}
        | None => None
        end
      else if names k "assets" then
        match into_assets v (Assets pm) with
        | Some l => Some {| Bundle := Bundle pm; BundleUrl := BundleUrl pm;
                            BundleKey := BundleKey pm;
                            BundleHash := BundleHash pm;
                            Assets := l |}
        | None => None
        end
      else Some pm
  end.

Definition zero_platform : PlatformMetadata :=
  {| Bundle := ""; BundleUrl := ""; BundleKey := ""; BundleHash := "";
     Assets := [] |}.

Definition into_platform (j : json) : option PlatformMetadata :=
  match j with
  | JNull => Some zero_platform
  | JObj members => fold_left platform_field members (Some zero_platform)
  | _ => None
  end.

(** A map of platforms: [null] leaves it, an object adds its members to
    it, each decoded into a new value. *)
Definition into_platforms (j : json)
    (old : option (gmap string PlatformMetadata))
    : option (option (gmap string PlatformMetadata)) :=
  match j with
  | JNull => Some old
  | JObj members =>
      fold_left
        (fun m kv =>
           match m, into_platform (snd kv) with
           | Some m, Some pm => Some (<[ fst kv := pm ]> m)
           | _, _ => None
           end)
        members (Some (default ∅ old))
      ≫= (fun m => Some (Some m))
  | _ => None
  end.

Definition into_config (j : json) (old : option (list (string * json)))
    : option (option (list (string * json))) :=
  match j with
  | JNull => Some old
  | JObj members =>
      Some (Some (fold_left
                    (fun m kv => put (fst kv) (as_interface (snd kv)) m)
                    members (default [] old)))
  | _ => None
  end.

Definition metadata_field (md : option UpdateMetadata) (kv : string * json)
    : option UpdateMetadata :=
  match md with
  | None => None
  | Some md =>
      let '(k, v) := kv in
      if names k "fileMetadata" then
        match into_platforms v (FileMetadata md) with
        | Some fm =>
            Some {| FileMetadata := fm; ExpoConfig := ExpoConfig md |}
        | None => None
        end
      else if names k "expoConfig" then
        match into_config v (ExpoConfig md) with
        | Some ec =>
            Some {| FileMetadata := FileMetadata md; ExpoConfig := ec |}
        | None => None
        end
      else Some md
  end.

(** [Unmarshal] into a [models.UpdateMetadata]. *)
Definition UnmarshalMetadata (data : list byte) : option UpdateMetadata :=
  let zero := {| FileMetadata := None; ExpoConfig := None |} in
  match document data with
  | Some JNull => Some zero
  | Some (JObj members) => fold_left metadata_field members (Some zero)
  | _ => None
  end.

(** [ShouldBindJSON] into the patch request,
    [struct { IsActive *bool; RolloutPercentage *int }] with the keys
    [isActive] and [rolloutPercentage]: the decoder reads the first
    value of the body and leaves what follows it.  The error of an
    empty body is [EOF]; the demonstration gives every other error the
    text of a body that ends within its value. *)
Definition patch_field (req : option (option bool * option Z))
    (kv : string * json) : option (option bool * option Z) :=
  match req with
  | None => None
  | Some (isActive, rollout) =>
      let '(k, v) := kv in
      if names k "isActive" then
        match v with
        | JNull => Some (None, rollout)
        | JBool b => Some (Some b, rollout)
        | _ => None
        end
      else if names k "rolloutPercentage" then
        match v with
        | JNull => Some (isActive, None)
        | JNum n =>
            if (MinInt64 <=? n) && (n <=? MaxInt64)
            then Some (isActive, Some n) else None
        | _ => None
        end
      else Some (isActive, rollout)
  end.

Definition BindPatch (body : list byte)
    : database.result (option bool * option Z) :=
  let cs := list_ascii_of_string (string_of_list_byte body) in
  match skip_space cs with
  | [] => database.Err "EOF"
  | _ =>
      match read_value (S (length cs)) cs with
      | Some (JNull, _) => database.Ok (None, None)
      | Some (JObj members, _) =>
          match fold_left patch_field members (Some (None, None)) with
          | Some req => database.Ok req
          | None => database.Err "unexpected EOF"
          end
      | _ => database.Err "unexpected EOF"
      end
  end.

End encoding_json.

(* ===================================================================== *)
(** ** services: hashing, signing and rollout *)
(* ===================================================================== *)

Module services.
Import Go.

(** [ComputeSHA256Hash]: the digest as 64 lower-case hex digits. *)
Definition ComputeSHA256Hash (data : list byte) : string :=
  hex.EncodeToString (sha256.Sum256 data).

(** [ComputeSHA256HashBytes]: the raw digest. *)
Definition ComputeSHA256HashBytes (data : list byte) : list byte :=
  sha256.Sum256 data.

(** [hash[i:j]] on a string, for [i <= j <= len(hash)]. *)
Definition slice (s : string) (i j : nat) : string :=
  String.substring i (j - i) s.

(** [ConvertSHA256ToUUID]. *)
Definition ConvertSHA256ToUUID (hash : string) : string :=
  if (String.length hash <? 32)%nat then hash
  else slice hash 0 8 +:+ "-" +:+ slice hash 8 12 +:+ "-"
         +:+ slice hash 12 16 +:+ "-" +:+ slice hash 16 20 +:+ "-"
         +:+ slice hash 20 32.

(** [Base64URLEncode]. *)
Definition Base64URLEncode (data : list byte) : string :=
  base64.EncodeToString base64.RawURLEncoding data.

(** *** Signing *)

(** An RSA private key is what [rsa.SignPKCS1v15] does with it on a
    SHA-256 digest: a signature, or an error. *)
Record PrivateKey := {
  SignPKCS1v15 : list byte -> database.result (list byte)
}.

Record SigningService := {
  privateKey : option PrivateKey
}.

Definition NewSigningService : SigningService := {| privateKey := None |}.

Definition IsLoaded (s : SigningService) : bool :=
  match privateKey s with Some _ => true | None => false end.

(** [SignManifest]. *)
Definition SignManifest (s : SigningService) (data : list byte)
    : database.result string :=
  match privateKey s with
  | None => database.Err "private key not loaded"
  | Some key =>
      let hash := sha256.Sum256 data in
      match SignPKCS1v15 key hash with
      | database.Err err => database.Err ("failed to sign: " +:+ err)
      | database.Ok signature =>
          database.Ok (base64.EncodeToString base64.StdEncoding signature)
      end
  end.

(** [CreateSignatureHeader]. *)
Definition CreateSignatureHeader (s : SigningService) (data : list byte)
    : database.result string :=
  match SignManifest s data with
  | database.Err e => database.Err e
  | database.Ok sig =>
      database.Ok ("sig=" +:+ dq +:+ sig +:+ dq +:+ ", keyid="
                     +:+ dq +:+ "main" +:+ dq)
  end.

(** *** Rollout *)

(** The sum the two bucket loops compute: [hashSum += int(c)] for every
    rune [c] of the string, in 64-bit arithmetic. *)
Definition hashSum (deviceHash : string) : Z :=
  fold_left (fun sum c => wrap64 (sum + c)) (utf8.runes_of_string deviceHash) 0.

(** [CalculateRolloutBucket]; [%] truncates towards zero. *)
Definition CalculateRolloutBucket (deviceHash : string) : Z :=
  Z.rem (hashSum deviceHash) 100.

Section Rollout.
(** The pseudo-random source: its state, and [Intn] on it. *)
Context {Rand : Type} (Intn : Rand -> Z -> Z * Rand).

Record RolloutService := {
  rng : Rand
}.

(** [deterministicRollout]. *)
Definition deterministicRollout (percentage : Z) (deviceHash : string)
    : bool :=
  let bucket := Z.rem (hashSum deviceHash) 100 in
  bucket <? percentage.

(** [ShouldReceiveUpdate]: the answer, and the service with the state
    of its random source. *)
Definition ShouldReceiveUpdate (r : RolloutService) (percentage : Z)
    (deviceHash : string) : bool * RolloutService :=
  if 100 <=? percentage then (true, r)
  else if percentage <=? 0 then (false, r)
  else if negb (bool_decide (deviceHash = ""))
  then (deterministicRollout percentage deviceHash, r)
  else
    let '(n, rng') := Intn (rng r) 100 in
    (n <? percentage, {| rng := rng' |}).
End Rollout.

Arguments RolloutService : clear implicits.

End services.

(* ===================================================================== *)
(** ** The request context, and the libraries and the system around it *)
(* ===================================================================== *)

Module gin.
Import models.

(** What a handler reads from [*gin.Context].  Header names are the ones
    the sources pass to [GetHeader]. *)
Record Context := {
  Method : string;
  (** [c.Request.URL.Path]. *)
  URLPath : string;
  Header : gmap string string;
  QueryParams : gmap string string;
  Params : gmap string string;
  (** [ParseMultipartForm]'s error, the form values and the form files
      (file name and content). *)
  MultipartError : option string;
  PostFormValues : gmap string string;
  FormFiles : gmap string (string * list byte);
  (** The request body, for [ShouldBindJSON]. *)
  Body : list byte
}.

Definition GetHeader (c : Context) (key : string) : string :=
  default "" (Header c !! key).
Definition Query (c : Context) (key : string) : string :=
  default "" (QueryParams c !! key).
Definition DefaultQuery (c : Context) (key defaultValue : string) : string :=
  default defaultValue (QueryParams c !! key).
Definition Param (c : Context) (key : string) : string :=
  default "" (Params c !! key).
Definition PostForm (c : Context) (key : string) : string :=
  default "" (PostFormValues c !! key).
Definition DefaultPostForm (c : Context) (key defaultValue : string) : string :=
  default defaultValue (PostFormValues c !! key).

(** The values of a [gin.H]; the members of a [gin.H] are listed in the
    order of their keys, as they are written. *)
Inductive Value : Type :=
| VString (s : string)
| VInt (n : Z)
| VUpdate (u : Update)
| VJson (j : json).

(** One part of a multipart body. *)
Record Part := {
  partHeader : gmap string string;
  partData : list byte
}.

(** What the handler writes: [c.JSON], [c.Data] with the output of a
    multipart writer, the note of [http.Redirect], [c.DataFromReader],
    [c.Status], or a panic caught by the recovery middleware.

    The note of [http.Redirect] for the status [code] and the escaped
    URL [href] is the line [<a href=] [href] in double quotes [>], the
    text of the status, [</a>.] and two line ends.  The content of
    [DataFromReader] is what was copied from the reader, up to its end or
    its first error. *)
Inductive Payload : Type :=
| JSON (obj : list (string * Value))
| Data (contentType : string) (boundary : string) (parts : list Part)
| RedirectNote (code : Z) (href : string)
| DataFromReader (contentLength : Z) (contentType : string) (content : list byte)
| NoBody
| Panicked.

Record Response := {
  status : Z;
  headers : gmap string string;
  payload : Payload
}.

Definition respond (code : Z) (p : Payload) : Response :=
  {| status := code; headers := ∅; payload := p |}.

Definition error_json (code : Z) (msg : string) : Response :=
  respond code (JSON [("error", VString msg)]).

Definition StatusOK : Z := 200.
Definition StatusCreated : Z := 201.
Definition StatusFound : Z := 302.
Definition StatusBadRequest : Z := 400.
Definition StatusNotFound : Z := 404.
Definition StatusMethodNotAllowed : Z := 405.
Definition StatusInternalServerError : Z := 500.
Definition StatusServiceUnavailable : Z := 503.

End gin.

Module sys.

Inductive StatResult : Type :=
| IsFile
| IsDir
| NotExist
| StatError.

(** A file opened with [os.Open], as the asset endpoint uses it: the
    size that [Stat] reports on the open file ([None] when [Stat] fails)
    and the bytes a reader gets from it before its end or its first
    error.  A directory can be opened; reading from it is an error. *)
Record File := {
  fileSize : option Z;
  fileBytes : list byte
}.

(** The file system as a handler reads it. *)
Record FS := {
  ReadFile : string -> option (list byte);
  Stat : string -> StatResult;
  (** [os.ReadDir]: the entries of a directory, with their [IsDir]. *)
  ReadDir : string -> option (list (string * bool));
  (** [os.Open]: [None] for an error. *)
  Open : string -> option File
}.

(** Library functions the handlers call and that are taken as given:
    [encoding/json], [path/filepath], [strings.ToLower] and, in
    [http.Redirect], [url.Parse] and [path.Clean]. *)
Record Lib := {
  json_Marshal : json -> list byte;
  (** [json.Unmarshal] into a [map[string]interface{}]: an error, or the
      map ([None] for a nil map). *)
  json_UnmarshalObject : list byte -> option (option (list (string * json)));
  (** [json.Unmarshal] into [models.UpdateMetadata]. *)
  json_UnmarshalMetadata : list byte -> option models.UpdateMetadata;
  filepath_Join : string -> string -> string;
  filepath_Clean : string -> string;
  filepath_IsAbs : string -> bool;
  filepath_Rel : string -> string -> option string;
  filepath_ToSlash : string -> string;
  filepath_FromSlash : string -> string;
  filepath_Ext : string -> string;
  strings_ToLower : string -> string;
  (** [ShouldBindJSON] into the patch request of the admin surface, a
      struct of a [*bool] and a [*int]: the binding error, or the two
      pointers ([None] for nil). *)
  json_BindPatch : list byte -> database.result (option bool * option Z);
  (** [url.Parse]: [None] for an error. *)
  url_Parse : string -> option url.URL;
  path_Clean : string -> string
}.

(** [config.Config], as far as the handlers read it. *)
Record Config := {
  Hostname : string
}.

End sys.

(* ===================================================================== *)
(** ** net/http: the redirect that [c.Redirect] writes *)
(* ===================================================================== *)

Module http.
Import Go gostrings gin sys.

(** [path.Split]: the path up to its last slash, with it, and what
    follows. *)
Fixpoint split_chars (path : list ascii) : list ascii * list ascii :=
  match path with
  | [] => ([], [])
  | c :: rest =>
      let '(dir, file) := split_chars rest in
      match dir with
      | _ :: _ => (c :: dir, file)
      | [] => if Ascii.eqb c "/"%char then ([c], file) else ([], c :: file)
      end
  end.

Definition Split (path : string) : string * string :=
  let '(dir, file) := split_chars (list_ascii_of_string path) in
  (string_of_list_ascii dir, string_of_list_ascii file).

(** [hexEscapeNonASCII]: every byte from 128 on is written as a percent
    sign and its two hexadecimal digits. *)
Definition hexEscapeNonASCII (s : string) : string :=
  string_of_list_ascii
    (concat
       (map (fun c =>
               if 128 <=? char_val c
               then ["%"%char; hex.digit (Z.shiftr (char_val c) 4);
                     hex.digit (Z.land (char_val c) 15)]
               else [c])
          (list_ascii_of_string s))).

(** [htmlEscape]. *)
Definition htmlEscape (s : string) : string :=
  string_of_list_ascii
    (concat
       (map (fun c =>
               if Ascii.eqb c "&"%char then list_ascii_of_string "&amp;"
               else if Ascii.eqb c "<"%char then list_ascii_of_string "&lt;"
               else if Ascii.eqb c ">"%char then list_ascii_of_string "&gt;"
               else if char_val c =? 34 then list_ascii_of_string "&#34;"
               else if Ascii.eqb c "'"%char then list_ascii_of_string "&#39;"
               else [c])
          (list_ascii_of_string s))).

Section WithLibrary.
Context (lib : Lib).

(** The URL that [Redirect] answers with, for a request for [oldpath]:
    a URL without scheme and host is made absolute with the directory of
    the request path unless it starts with a slash, and cleaned up to its
    query, a trailing slash being kept; any other URL, and one that cannot
    be parsed, is left as it is. *)
Definition target (oldpath url : string) : string :=
  match url_Parse lib url with
  | Some u =>
      if bool_decide (url.Scheme u = "") && bool_decide (url.Host u = "")
      then
        let oldpath := if bool_decide (oldpath = "") then "/" else oldpath in
        let url :=
          if bool_decide (url = "")
             || negb (HasPrefix (list_ascii_of_string url) ["/"%char])
          then fst (Split oldpath) +:+ url
          else url in
        let chars := list_ascii_of_string url in
        let '(url, query) :=
          match IndexByte chars "?"%char with
          | Some i =>
              (string_of_list_ascii (take i chars),
               string_of_list_ascii (drop i chars))
          | None => (url, "")
          end in
        let trailing := HasSuffix (list_ascii_of_string url) ["/"%char] in
        let url := path_Clean lib url in
        let url :=
          if trailing
             && negb (HasSuffix (list_ascii_of_string url) ["/"%char])
          then url +:+ "/" else url in
        url +:+ query
      else url
  | None => url
  end.

(** [http.Redirect(w, r, url, code)], [header] being the header of the
    response so far: the location, for a GET or HEAD request the content
    type, the status and, for a GET request, the note; the content type
    and the note are left out when the response already has a content
    type. *)
Definition Redirect (header : gmap string string) (c : Context)
    (url : string) (code : Z) : Response :=
  let url := target (URLPath c) url in
  let hadCT := bool_decide (is_Some (header !! "Content-Type")) in
  let header := <[ "Location" := hexEscapeNonASCII url ]> header in
  let header :=
    if negb hadCT
       && (bool_decide (Method c = "GET") || bool_decide (Method c = "HEAD"))
    then <[ "Content-Type" := "text/html; charset=utf-8" ]> header
    else header in
  {| status := code;
     headers := header;
     payload :=
       if negb hadCT && bool_decide (Method c = "GET")
       then RedirectNote code (htmlEscape url)
       else NoBody |}.

(** [c.Redirect(code, location)] of gin: the renderer panics for a code
    that is neither 201 nor one of 300 to 308, and calls [http.Redirect]
    with the request otherwise. *)
Definition ContextRedirect (header : gmap string string) (c : Context)
    (code : Z) (location : string) : Response :=
  if ((code <? 300) || (308 <? code)) && negb (code =? 201)
  then respond StatusInternalServerError Panicked
  else Redirect header c location code.

End WithLibrary.
End http.

(* ===================================================================== *)
(** ** handlers: the manifest endpoint *)
(* ===================================================================== *)

Module handlers.
Import Go models gin sys.

(** *** Generic JSON maps *)

(** [m[key]] on a [map[string]interface{}]. *)
Fixpoint member (key : string) (m : list (string * json)) : option json :=
  match m with
  | [] => None
  | (k, v) :: m' => if bool_decide (k = key) then Some v else member key m'
  end.

(** The type assertions [v.(map[string]interface{})], [v.(string)] and
    [v.([]interface{})] in their two-valued form. *)
Definition as_object (v : option json) : option (list (string * json)) :=
  match v with Some (JObj m) => Some m | _ => None end.
Definition as_string (v : option json) : option string :=
  match v with Some (JStr s) => Some s | _ => None end.
Definition as_array (v : option json) : option (list json) :=
  match v with Some (JArr l) => Some l | _ => None end.

(** What [json.Marshal] followed by [json.Unmarshal] into a generic map
    makes of the metadata, following the struct tags: the [omitempty]
    fields disappear when empty. *)
Definition omitempty (key value : string) : list (string * json) :=
  if bool_decide (value = "") then [] else [(key, JStr value)].

Definition generic_asset (a : Asset) : json :=
  JObj ([("path", JStr (Path a)); ("ext", JStr (Ext a))]
          ++ omitempty "url" (Url a) ++ omitempty "key" (Key a)
          ++ omitempty "hash" (Hash a)).

Definition generic_platform (pm : PlatformMetadata) : json :=
  JObj ([("bundle", JStr (Bundle pm))]
          ++ omitempty "bundleUrl" (BundleUrl pm)
          ++ omitempty "bundleKey" (BundleKey pm)
          ++ omitempty "bundleHash" (BundleHash pm)
          ++ [("assets", JArr (map generic_asset (Assets pm)))]).

Definition generic_metadata (md : UpdateMetadata) : list (string * json) :=
  ("fileMetadata",
   match FileMetadata md with
   | None => JNull
   | Some fm =>
       JObj (map (fun kv => (fst kv, generic_platform (snd kv)))
               (map_to_list fm))
   end)
  :: match ExpoConfig md with
     | Some (m :: ms) => [("expoConfig", JObj (m :: ms))]
     | _ => []
     end.

Module manifest.
Section WithSystem.
Context {Rand : Type}.
Context (lib : Lib) (fs : FS) (cfg : Config).

Record ManifestHandler := {
  signingService : services.SigningService;
  rolloutService : services.RolloutService Rand;
  updateRepo : option database.UpdateRepository;
  updatesDir : string
}.

(** The signature both senders compute: empty unless the client asked
    for one and a key is loaded; a signing error leaves it empty. *)
Definition signature_for (h : ManifestHandler) (c : Context)
    (data : list byte) : string :=
  if negb (bool_decide (GetHeader c "expo-expect-signature" = ""))
     && services.IsLoaded (signingService h)
  then
    match services.CreateSignatureHeader (signingService h) data with
    | database.Ok signature => signature
    | database.Err _ => ""
    end
  else "".

(** [sendMultipartResponse]; [boundary] is the boundary the multipart
    writer draws.  Writing a part into a memory buffer cannot fail. *)
Definition sendMultipartResponse (boundary : string) (partName : string)
    (data : list byte) (signature : string) (protocolVersion : Z)
    : Response :=
  let partHeader : gmap string string :=
    <[ "Content-Disposition" :=
         "form-data; name=" +:+ dq +:+ partName +:+ dq ]>
      (<[ "Content-Type" := "application/json" ]> ∅) in
  let partHeader :=
    if negb (bool_decide (signature = ""))
    then <[ "expo-signature" := signature ]> partHeader
    else partHeader in
  {| status := StatusOK;
     headers :=
       <[ "cache-control" := "private, max-age=0" ]>
         (<[ "expo-sfv-version" := "0" ]>
            (<[ "expo-protocol-version" := Itoa protocolVersion ]> ∅));
     payload :=
       Data ("multipart/mixed; boundary=" +:+ boundary) boundary
         [ {| partHeader := partHeader; partData := data |} ] |}.

(** [handleNoUpdateAvailable]. *)
Definition handleNoUpdateAvailable (h : ManifestHandler) (c : Context)
    (boundary : string) (protocolVersion : Z) : Response :=
  if protocolVersion =? 0
  then error_json StatusNotFound "No update available"
  else
    let directive := JObj [("type", JStr "noUpdateAvailable")] in
    let directiveJSON := json_Marshal lib directive in
    let signature := signature_for h c directiveJSON in
    sendMultipartResponse boundary "directive" directiveJSON signature
      protocolVersion.

(** [getAssetInfoFromMetadataOrFile]; [None] is the error return. *)
Definition getAssetInfoFromMetadataOrFile (h : ManifestHandler)
    (updateBundlePath assetPath ext key hash url updateObjectID
       isLaunchAssetParam runtimeVersion platform : string)
    (isLaunchAsset : bool) : option json :=
  let contentType :=
    if isLaunchAsset then "application/javascript"
    else if bool_decide (ext = "png") then "image/png"
    else if bool_decide (ext = "jpg") || bool_decide (ext = "jpeg")
    then "image/jpeg"
    else if bool_decide (ext = "gif") then "image/gif"
    else if bool_decide (ext = "svg") then "image/svg+xml"
    else if bool_decide (ext = "ttf") then "font/ttf"
    else if bool_decide (ext = "otf") then "font/otf"
    else if bool_decide (ext = "woff") then "font/woff"
    else if bool_decide (ext = "woff2") then "font/woff2"
    else "application/octet-stream" in
  let fileExt := if isLaunchAsset then ".bundle" else "." +:+ ext in
  let relPath :=
    if filepath_IsAbs lib assetPath
    then match filepath_Rel lib (updatesDir h) assetPath with
         | Some p => p
         | None => assetPath
         end
    else assetPath in
  let baseAssetURL :=
    Hostname cfg +:+ "/api/assets?asset=" +:+ filepath_ToSlash lib relPath
      +:+ "&runtimeVersion=" +:+ runtimeVersion
      +:+ "&platform=" +:+ platform in
  let baseAssetURL :=
    if negb (bool_decide (url = ""))
    then baseAssetURL +:+ "&redirect=" +:+ url else baseAssetURL in
  let baseAssetURL :=
    if bool_decide (isLaunchAssetParam = "true")
    then baseAssetURL +:+ "&isLaunchAsset=true" else baseAssetURL in
  let baseAssetURL :=
    if negb (bool_decide (updateObjectID = ""))
    then baseAssetURL +:+ "&updateId=" +:+ updateObjectID
    else baseAssetURL in
  if negb (bool_decide (key = "")) && negb (bool_decide (hash = ""))
  then
    Some (JObj [("contentType", JStr contentType);
                ("fileExtension", JStr fileExt);
                ("hash", JStr hash);
                ("key", JStr key);
                ("url", JStr baseAssetURL)])
  else
    let fullPath := filepath_Join lib updateBundlePath assetPath in
    match ReadFile fs fullPath with
    | None => None
    | Some data =>
        let computedHash :=
          services.Base64URLEncode (services.ComputeSHA256HashBytes data) in
        let computedKey :=
          services.slice (services.ComputeSHA256Hash data) 0 32 in
        Some (JObj [("contentType", JStr contentType);
                    ("fileExtension", JStr fileExt);
                    ("hash", JStr computedHash);
                    ("key", JStr computedKey);
                    ("url", JStr baseAssetURL)])
    end.

(** [getExpoConfig]; the error is dropped by the caller, which is left
    with a nil map. *)
Definition getExpoConfig (updateBundlePath : string)
    : option (list (string * json)) :=
  let configPath := filepath_Join lib updateBundlePath "expoConfig.json" in
  match ReadFile fs configPath with
  | None => None
  | Some data =>
      match json_UnmarshalObject lib data with
      | Some config => config
      | None => None
      end
  end.

(** The loop over the assets of [sendManifest]: [None] is a panic of one
    of the unchecked type assertions; an asset whose information cannot
    be obtained is left out. *)
Fixpoint build_assets (h : ManifestHandler)
    (updateBundlePath runtimeVersion platform : string)
    (assetsList : list json) : option (list json) :=
  match assetsList with
  | [] => Some []
  | a :: rest =>
      match a with
      | JObj asset =>
          match as_string (member "path" asset),
                as_string (member "ext" asset) with
          | Some assetPath, Some ext =>
              let url := default "" (as_string (member "url" asset)) in
              let key := default "" (as_string (member "key" asset)) in
              let hash := default "" (as_string (member "hash" asset)) in
              match build_assets h updateBundlePath runtimeVersion
                      platform rest with
              | None => None
              | Some assets =>
                  match getAssetInfoFromMetadataOrFile h updateBundlePath
                          assetPath ext key hash url "" "" runtimeVersion
                          platform false with
                  | Some assetInfo => Some (assetInfo :: assets)
                  | None => Some assets
                  end
              end
          | _, _ => None
          end
      | _ => None
      end
  end.

(** [sendManifest]. *)
Definition sendManifest (h : ManifestHandler) (c : Context)
    (boundary : string) (updateBundlePath : string)
    (metadata : list (string * json))
    (updateID updateObjectID createdAt runtimeVersion platform : string)
    (protocolVersion : Z) : Response :=
  match as_object (member "fileMetadata" metadata) with
  | None => error_json StatusInternalServerError "Invalid metadata format"
  | Some fileMetadata =>
      match as_object (member platform fileMetadata) with
      | None =>
          error_json StatusInternalServerError "No metadata for platform"
      | Some platformMetadata =>
          let assets :=
            match as_array (member "assets" platformMetadata) with
            | Some assetsList =>
                build_assets h updateBundlePath runtimeVersion platform
                  assetsList
            | None => Some []
            end in
          match assets, as_string (member "bundle" platformMetadata) with
          | Some assets, Some bundlePath =>
              let bundleUrl :=
                default "" (as_string (member "bundleUrl" platformMetadata)) in
              let bundleKey :=
                default "" (as_string (member "bundleKey" platformMetadata)) in
              let bundleHash :=
                default "" (as_string (member "bundleHash" platformMetadata)) in
              match getAssetInfoFromMetadataOrFile h updateBundlePath
                      bundlePath "bundle" bundleKey bundleHash bundleUrl
                      updateObjectID "true" runtimeVersion platform true with
              | None =>
                  error_json StatusInternalServerError
                    "Failed to get launch asset"
              | Some launchAsset =>
                  let expoConfig : option json :=
                    match member "expoConfig" metadata with
                    | Some JNull | None =>
                        Some (match getExpoConfig updateBundlePath with
                              | Some m => JObj m
                              | None => JNull
                              end)
                    | Some (JObj m) => Some (JObj m)
                    | Some _ => None
                    end in
                  match expoConfig with
                  | None => respond StatusInternalServerError Panicked
                  | Some expoConfig =>
                      let manifest :=
                        JObj [("assets", JArr assets);
                              ("createdAt", JStr createdAt);
                              ("extra", JObj [("expoClient", expoConfig)]);
                              ("id", JStr updateID);
                              ("launchAsset", launchAsset);
                              ("metadata", JObj []);
                              ("runtimeVersion", JStr runtimeVersion)] in
                      let manifestJSON := json_Marshal lib manifest in
                      let signature := signature_for h c manifestJSON in
                      sendMultipartResponse boundary "manifest"
                        manifestJSON signature protocolVersion
                  end
              end
          | _, _ => respond StatusInternalServerError Panicked
          end
      end
  end.

(** [ManifestHandler.Handle]. *)
Definition Handle (h : ManifestHandler) (c : Context) (boundary : string)
    : Response :=
  if negb (bool_decide (Method c = "GET"))
  then error_json StatusMethodNotAllowed "Expected GET."
  else
    let protocolVersionStr := GetHeader c "expo-protocol-version" in
    let protocolVersionStr :=
      if bool_decide (protocolVersionStr = "") then "0"
      else protocolVersionStr in
    let protocolVersion := Atoi protocolVersionStr in
    let platform := GetHeader c "expo-platform" in
    let platform :=
      if bool_decide (platform = "") then Query c "platform" else platform in
    if negb (bool_decide (platform = "ios"))
       && negb (bool_decide (platform = "android"))
    then error_json StatusBadRequest
           "Unsupported platform. Expected either ios or android."
    else
      let runtimeVersion := GetHeader c "expo-runtime-version" in
      let runtimeVersion :=
        if bool_decide (runtimeVersion = "")
        then Query c "runtime-version" else runtimeVersion in
      if bool_decide (runtimeVersion = "")
      then error_json StatusBadRequest "No runtimeVersion provided."
      else
        let channel := GetHeader c "expo-channel-name" in
        let channel :=
          if bool_decide (channel = "") then "production" else channel in
        let currentUpdateID := GetHeader c "expo-current-update-id" in
        let projectSlug := Param c "projectSlug" in
        if bool_decide (projectSlug = "")
        then error_json StatusBadRequest "Project slug is required"
        else
          match updateRepo h with
          | None =>
              error_json StatusServiceUnavailable "Database not connected"
          | Some _ =>
              match database.FindLatest (updateRepo h) projectSlug
                      runtimeVersion channel platform with
              | database.Err _ | database.Ok None =>
                  handleNoUpdateAvailable h c boundary protocolVersion
              | database.Ok (Some update) =>
                  if IsRollback update then
                    let embeddedUpdateID :=
                      GetHeader c "expo-embedded-update-id" in
                    if bool_decide (currentUpdateID = embeddedUpdateID)
                    then handleNoUpdateAvailable h c boundary protocolVersion
                    else
                      let directive :=
                        JObj [("parameters",
                               JObj [("commitTime",
                                      JStr (time.FormatMillisUTC
                                              (CreatedAt update)))]);
                              ("type", JStr "rollBackToEmbedded")] in
                      let directiveJSON := json_Marshal lib directive in
                      let signature := signature_for h c directiveJSON in
                      sendMultipartResponse boundary "directive"
                        directiveJSON signature protocolVersion
                  else if bool_decide (currentUpdateID = UpdateID update)
                          && (protocolVersion =? 1)
                  then handleNoUpdateAvailable h c boundary protocolVersion
                  else
                    match Metadata update with
                    | None =>
                        error_json StatusInternalServerError
                          "Update metadata missing"
                    | Some md =>
                        let metadata := generic_metadata md in
                        let createdAt :=
                          time.FormatMillisUTC (CreatedAt update) in
                        sendManifest h c boundary (BundlePath update)
                          metadata (UpdateID update) (Hex (ID update))
                          createdAt runtimeVersion platform protocolVersion
                    end
              end
          end.

End WithSystem.

Arguments ManifestHandler : clear implicits.

End manifest.

(* =================================================================== *)
(** *** The asset endpoint *)
(* =================================================================== *)

Module assets.
Section WithSystem.
Context (lib : Lib) (fs : FS).

Record AssetsHandler := {
  updatesDir : string;
  updateRepo : option database.UpdateRepository
}.

(** Work started with [go] and not waited for. *)
Inductive Task : Type :=
  | IncrementDownloadsTask (updateId : string).

(** What a task does to the repository when it runs; its error is
    dropped. *)
Definition run (t : Task) (r : option database.UpdateRepository)
    : option database.UpdateRepository :=
  match t with
  | IncrementDownloadsTask updateId =>
      fst (database.IncrementDownloads r updateId)
  end.

(** [getContentType]. *)
Definition getContentType (path : string) : string :=
  let ext := strings_ToLower lib (filepath_Ext lib path) in
  if bool_decide (ext = ".js") || bool_decide (ext = ".hbc")
  then "application/javascript"
  else if bool_decide (ext = ".bundle") then "application/javascript"
  else if bool_decide (ext = ".png") then "image/png"
  else if bool_decide (ext = ".jpg") || bool_decide (ext = ".jpeg")
  then "image/jpeg"
  else if bool_decide (ext = ".gif") then "image/gif"
  else if bool_decide (ext = ".svg") then "image/svg+xml"
  else if bool_decide (ext = ".webp") then "image/webp"
  else if bool_decide (ext = ".ttf") then "font/ttf"
  else if bool_decide (ext = ".otf") then "font/otf"
  else if bool_decide (ext = ".woff") then "font/woff"
  else if bool_decide (ext = ".woff2") then "font/woff2"
  else if bool_decide (ext = ".json") then "application/json"
  else "application/octet-stream".

(** [AssetsHandler.Handle]: the response, and the tasks it started.
    [stat.Size()] on the nil [FileInfo] of a failed [Stat] is a panic. *)
Definition Handle (h : AssetsHandler) (c : Context)
    : Response * list Task :=
  let assetName := Query c "asset" in
  let platform := Query c "platform" in
  let runtimeVersion := Query c "runtimeVersion" in
  let redirectUrl := Query c "redirect" in
  let updateId := Query c "updateId" in
  let isLaunchAsset := Query c "isLaunchAsset" in
  if negb (bool_decide (redirectUrl = "")) then
    let tasks :=
      if bool_decide (isLaunchAsset = "true")
         && negb (bool_decide (updateId = ""))
         && (match updateRepo h with Some _ => true | None => false end)
      then [IncrementDownloadsTask updateId] else [] in
    (http.ContextRedirect lib ∅ c StatusFound redirectUrl, tasks)
  else if bool_decide (assetName = "")
  then (error_json StatusBadRequest "No asset name provided.", [])
  else if negb (bool_decide (platform = "ios"))
          && negb (bool_decide (platform = "android"))
  then (error_json StatusBadRequest
          ("No platform provided. Expected " +:+ dq +:+ "ios" +:+ dq
             +:+ " or " +:+ dq +:+ "android" +:+ dq +:+ "."), [])
  else if bool_decide (runtimeVersion = "")
  then (error_json StatusBadRequest "No runtimeVersion provided.", [])
  else
    let cleanPath := filepath_Clean lib assetName in
    if Contains cleanPath ".."
    then (error_json StatusBadRequest "Invalid asset path.", [])
    else
      let assetPath :=
        filepath_Join lib (updatesDir h) (filepath_FromSlash lib cleanPath) in
      match Stat fs assetPath with
      | NotExist =>
          (error_json StatusNotFound
             ("Asset " +:+ dq +:+ assetName +:+ dq +:+ " does not exist."),
           [])
      | _ =>
          match Open fs assetPath with
          | None =>
              (error_json StatusInternalServerError "Failed to open asset.",
               [])
          | Some file =>
              let contentType := getContentType assetPath in
              match fileSize file with
              | None => (respond StatusInternalServerError Panicked, [])
              | Some fileSize =>
                  ({| status := StatusOK;
                      headers :=
                        {[ "Cache-Control" :=
                             "public, max-age=31536000, immutable" ]};
                      payload :=
                        DataFromReader fileSize contentType (fileBytes file)
                   |}, [])
              end
          end
      end.

End WithSystem.
End assets.

(* =================================================================== *)
(** *** The admin surface: ingestion, patch and rollback creation *)
(* =================================================================== *)

Module admin.

(** The object store adapter: [upload] is what walking and uploading a
    directory yields when the service is connected, the map from
    relative path to public URL, or an error. *)
Record CloudinaryService := {
  connected : bool;
  upload : string -> string -> option (gmap string string)
}.

Definition IsConnected (s : option CloudinaryService) : bool :=
  match s with
  | None => false
  | Some s => connected s
  end.

Definition UploadDirectory (s : option CloudinaryService)
    (folder localDir : string) : option (gmap string string) :=
  match s with
  | None => None
  | Some s => if connected s then upload s folder localDir else None
  end.

(** The handler; the analytics and API-key repositories play no part
    in the three handlers embedded here. *)
Record AdminHandler := {
  updateRepo : option database.UpdateRepository;
  cloudinaryService : option CloudinaryService;
  projectRepo : option database.ProjectRepository
}.

Definition with_updateRepo (r : option database.UpdateRepository)
    (h : AdminHandler) : AdminHandler :=
  {| updateRepo := r; cloudinaryService := cloudinaryService h;
     projectRepo := projectRepo h |}.

Definition with_projectRepo (r : option database.ProjectRepository)
    (h : AdminHandler) : AdminHandler :=
  {| updateRepo := updateRepo h; cloudinaryService := cloudinaryService h;
     projectRepo := r |}.

(** What the system does during one ingestion request: the outcome of
    creating the temporary directory, of saving and of unpacking the
    archive, the file system as it is once the archive is unpacked, and
    the values drawn from the clock and the generators. *)
Record Upload := {
  MkdirTemp : option string;
  CreateFile : string -> bool;
  CopyFile : bool;
  (** [utils.Unzip]: its error, if any. *)
  Unzip : string -> string -> option string;
  unpacked : FS;
  GenerateUUID : string;
  now : time.Time;
  (** The outcome of the [InsertOne] of the update. *)
  inserted : database.result ObjectID;
  projectOid : ObjectID
}.

Definition set_hashes (key hash : string) (a : Asset) : Asset :=
  {| Path := Path a; Ext := Ext a; Url := Url a; Key := key; Hash := hash |}.

Definition set_url (url : string) (a : Asset) : Asset :=
  {| Path := Path a; Ext := Ext a; Url := url; Key := Key a; Hash := Hash a |}.

Section WithSystem.
Context (lib : Lib).

(** The body of the loop over [pm.Assets] that fills the hashes: an
    asset whose file cannot be read is left as it is. *)
Definition hash_asset (fs : FS) (bundlePath : string) (asset : Asset)
    : Asset :=
  let assetPath := filepath_Join lib bundlePath (Path asset) in
  match ReadFile fs assetPath with
  | Some data =>
      set_hashes
        (services.slice (services.ComputeSHA256Hash data) 0 32)
        (services.Base64URLEncode (services.ComputeSHA256HashBytes data))
        asset
  | None => asset
  end.

(** The body of the loop over [metadata.FileMetadata] that fills the
    hashes. *)
Definition hash_platform (fs : FS) (bundlePath : string)
    (pm : PlatformMetadata) : PlatformMetadata :=
  let bundlePathFull := filepath_Join lib bundlePath (Bundle pm) in
  let '(bundleKey, bundleHash) :=
    match ReadFile fs bundlePathFull with
    | Some data =>
        (services.slice (services.ComputeSHA256Hash data) 0 32,
         services.Base64URLEncode (services.ComputeSHA256HashBytes data))
    | None => (BundleKey pm, BundleHash pm)
    end in
  {| Bundle := Bundle pm; BundleUrl := BundleUrl pm;
     BundleKey := bundleKey; BundleHash := bundleHash;
     Assets := map (hash_asset fs bundlePath) (Assets pm) |}.

(** The body of the loop that injects the CDN URLs. *)
Definition url_asset (urlMap : gmap string string) (asset : Asset)
    : Asset :=
  match urlMap !! filepath_FromSlash lib (Path asset) with
  | Some url => set_url url asset
  | None => asset
  end.

Definition url_platform (urlMap : gmap string string)
    (pm : PlatformMetadata) : PlatformMetadata :=
  {| Bundle := Bundle pm;
     BundleUrl :=
       match urlMap !! filepath_FromSlash lib (Bundle pm) with
       | Some url => url
       | None => BundleUrl pm
       end;
     BundleKey := BundleKey pm; BundleHash := BundleHash pm;
     Assets := map (url_asset urlMap) (Assets pm) |}.

Definition map_platforms (f : PlatformMetadata -> PlatformMetadata)
    (md : UpdateMetadata) : UpdateMetadata :=
  {| FileMetadata :=
       match FileMetadata md with
       | Some fm => Some (fmap (M := gmap string) f fm)
       | None => None
       end;
     ExpoConfig := ExpoConfig md |}.

(** The root of the unpacked bundle: a single directory at the top is
    entered; otherwise [dist] is, when [metadata.json] is there and
    not at the top. *)
Definition bundle_root (fs : FS) (bundlePath : string) : string :=
  match ReadDir fs bundlePath with
  | Some [(name, true)] => filepath_Join lib bundlePath name
  | _ =>
      match Stat fs (filepath_Join lib bundlePath "metadata.json") with
      | NotExist =>
          let distPath := filepath_Join lib bundlePath "dist" in
          match Stat fs distPath with
          | IsDir =>
              match Stat fs (filepath_Join lib distPath "metadata.json") with
              | IsFile | IsDir => distPath
              | _ => bundlePath
              end
          | _ => bundlePath
          end
      | _ => bundlePath
      end
  end.

(** Parsing [metadata.json] and [expoConfig.json] and filling the
    hashes: the metadata of the update, nil when [metadata.json]
    cannot be read or parsed. *)
Definition parse_and_hash (fs : FS) (bundlePath : string)
    : option UpdateMetadata :=
  let metadataPath := filepath_Join lib bundlePath "metadata.json" in
  match ReadFile fs metadataPath with
  | Some metadataFile =>
      match json_UnmarshalMetadata lib metadataFile with
      | Some metadata =>
          let expoConfigPath :=
            filepath_Join lib bundlePath "expoConfig.json" in
          let metadata :=
            match ReadFile fs expoConfigPath with
            | Some expoConfigFile =>
                match json_UnmarshalObject lib expoConfigFile with
                | Some expoConfig =>
                    {| FileMetadata := FileMetadata metadata;
                       ExpoConfig := expoConfig |}
                | None => metadata
                end
            | None => metadata
            end in
          Some (map_platforms (hash_platform fs bundlePath) metadata)
      | None => None
      end
  | None => None
  end.

(** [RegisterUpdate]. *)
Definition RegisterUpdate (h : AdminHandler) (c : Context) (w : Upload)
    : Response * AdminHandler :=
  match updateRepo h with
  | None =>
      (error_json StatusServiceUnavailable "Database not connected", h)
  | Some _ =>
  match MultipartError c with
  | Some err =>
      (error_json StatusBadRequest ("Failed to parse form: " +:+ err), h)
  | None =>
  let projectSlug := PostForm c "projectSlug" in
  let runtimeVersion := PostForm c "runtimeVersion" in
  let channel := DefaultPostForm c "channel" ChannelProduction in
  let platform := DefaultPostForm c "platform" PlatformAll in
  let rolloutStr := DefaultPostForm c "rolloutPercentage" "100" in
  let updateID := PostForm c "updateId" in
  if bool_decide (projectSlug = "") || bool_decide (runtimeVersion = "")
  then (error_json StatusBadRequest
          "projectSlug and runtimeVersion are required", h)
  else
  let rolloutPercentage := Atoi rolloutStr in
  match FormFiles c !! "bundle" with
  | None =>
      (error_json StatusBadRequest
         ("Bundle file is required: " +:+ "http: no such file"), h)
  | Some (filename, _) =>
  let updateID :=
    if bool_decide (updateID = "") then GenerateUUID w else updateID in
  match MkdirTemp w with
  | None =>
      (error_json StatusInternalServerError "Failed to create temp dir", h)
  | Some tempDir =>
  let zipPath := filepath_Join lib tempDir filename in
  if negb (CreateFile w zipPath)
  then (error_json StatusInternalServerError "Failed to save zip file", h)
  else if negb (CopyFile w)
  then (error_json StatusInternalServerError "Failed to write zip file", h)
  else
  let bundlePath := filepath_Join lib tempDir "extracted" in
  match Unzip w zipPath bundlePath with
  | Some err =>
      (error_json StatusInternalServerError
         ("Failed to unzip bundle: " +:+ err), h)
  | None =>
  let fs := unpacked w in
  let bundlePath := bundle_root fs bundlePath in
  let update :=
    {| ID := NilObjectID;
       ProjectSlug := projectSlug;
       UpdateID := updateID;
       RuntimeVersion := runtimeVersion;
       Channel := channel;
       Platform := platform;
       BundlePath := bundlePath;
       CreatedAt := 0;
       IsActive := true;
       IsRollback := false;
       RolloutPercentage := rolloutPercentage;
       Downloads := 0;
       Metadata := None |} in
  let h :=
    match projectRepo h with
    | Some pr =>
        with_projectRepo
          (Some (database.EnsureProjectExists pr (now w) (projectOid w)
                   projectSlug projectSlug)) h
    | None => h
    end in
  let update := set_Metadata (parse_and_hash fs bundlePath) update in
  let update :=
    if IsConnected (cloudinaryService h) then
      let cloudFolder :=
        "updates/" +:+ runtimeVersion +:+ "/" +:+ updateID in
      match UploadDirectory (cloudinaryService h) cloudFolder bundlePath with
      | Some urlMap =>
          match Metadata update with
          | Some metadata =>
              set_Metadata
                (Some (map_platforms (url_platform urlMap) metadata))
                update
          | None => update
          end
      | None => update
      end
    else update in
  match database.Create (updateRepo h) (now w) (inserted w) update with
  | (_, _, Some err) => (error_json StatusInternalServerError err, h)
  | (repo, update, None) =>
      (respond StatusCreated
         (JSON [("message", VString "Update registered successfully");
                ("update", VUpdate update)]),
       with_updateRepo repo h)
  end
  end end end end end.

(** [UpdateUpdate]. *)
Definition UpdateUpdate (h : AdminHandler) (c : Context)
    : Response * AdminHandler :=
  match updateRepo h with
  | None =>
      (error_json StatusServiceUnavailable "Database not connected", h)
  | Some _ =>
      let id := Param c "id" in
      match json_BindPatch lib (Body c) with
      | database.Err err => (error_json StatusBadRequest err, h)
      | database.Ok (reqIsActive, reqRolloutPercentage) =>
          let updates : gmap string database.BsonValue := ∅ in
          let updates :=
            match reqIsActive with
            | Some b => <[ "isActive" := database.BBool b ]> updates
            | None => updates
            end in
          let updates :=
            match reqRolloutPercentage with
            | Some n =>
                <[ "rolloutPercentage" := database.BInt n ]> updates
            | None => updates
            end in
          if (size updates =? 0)%nat
          then (error_json StatusBadRequest "No updates provided", h)
          else
            match database.Update_ (updateRepo h) id updates with
            | (_, Some err) =>
                (error_json StatusInternalServerError err, h)
            | (repo, None) =>
                (respond StatusOK
                   (JSON [("id", VString id);
                          ("message",
                           VString "Update modified successfully")]),
                 with_updateRepo repo h)
            end
      end
  end.

(** [CreateRollback]; [now] is the time the repository gives the new
    record and [inserted] the outcome of its [InsertOne]. *)
Definition CreateRollback (h : AdminHandler) (c : Context)
    (now : time.Time) (inserted : database.result ObjectID)
    : Response * AdminHandler :=
  match updateRepo h with
  | None =>
      (error_json StatusServiceUnavailable "Database not connected", h)
  | Some _ =>
      let id := Param c "id" in
      let rollback :=
        {| ID := NilObjectID;
           ProjectSlug := "";
           UpdateID := "";
           RuntimeVersion := Query c "runtimeVersion";
           Channel := DefaultQuery c "channel" ChannelProduction;
           Platform := PlatformAll;
           BundlePath := "";
           CreatedAt := 0;
           IsActive := true;
           IsRollback := true;
           RolloutPercentage := 100;
           Downloads := 0;
           Metadata := None |} in
      match database.Create (updateRepo h) now inserted rollback with
      | (_, _, Some err) => (error_json StatusInternalServerError err, h)
      | (repo, rollback, None) =>
          (respond StatusCreated
             (JSON [("message", VString "Rollback created successfully");
                    ("previousId", VString id);
                    ("rollback", VUpdate rollback)]),
           with_updateRepo repo h)
      end
  end.

End WithSystem.
End admin.

End handlers.

(* ===================================================================== *)
(** ** More of the Go library: [strconv.ParseInt] *)
(* ===================================================================== *)

Module strconv.
Import Go.

(** [strconv.ParseInt(s, 10, 64)]: an optional sign and decimal digits;
    [None] is the error return (empty input, a character that is no
    digit, a value outside the 64-bit range). *)
Definition ParseInt (s : string) : option Z :=
  match Go.ParseInt s with
  | (n, None) => Some n
  | (_, Some _) => None
  end.

End strconv.

(* ===================================================================== *)
(** ** database: the remaining operations of the repositories *)
(* ===================================================================== *)

Module repositories.

Module updates.
Import Go models database.

#[global] Instance BsonValue_eq_dec : EqDecision BsonValue.
Proof. solve_decision. Defined.

(** The field of an update document that a key of a filter names, for
    the fields a [BsonValue] can equal: strings, booleans and integers.
    The identifier, the creation date and the metadata equal none. *)
Definition field (key : string) (u : Update) : option BsonValue :=
  if bool_decide (key = "projectSlug") then Some (BString (ProjectSlug u))
  else if bool_decide (key = "updateId") then Some (BString (UpdateID u))
  else if bool_decide (key = "runtimeVersion")
  then Some (BString (RuntimeVersion u))
  else if bool_decide (key = "channel") then Some (BString (Channel u))
  else if bool_decide (key = "platform") then Some (BString (Platform u))
  else if bool_decide (key = "bundlePath") then Some (BString (BundlePath u))
  else if bool_decide (key = "isActive") then Some (BBool (IsActive u))
  else if bool_decide (key = "isRollback") then Some (BBool (IsRollback u))
  else if bool_decide (key = "rolloutPercentage")
  then Some (BInt (RolloutPercentage u))
  else if bool_decide (key = "downloads") then Some (BInt (Downloads u))
  else None.

(** A filter of equalities, as the handlers build them: every key names
    a field that holds the value. *)
Definition matches (filter : gmap string BsonValue) (u : Update) : bool :=
  forallb (fun kv => bool_decide (field (fst kv) u = Some (snd kv)))
    (map_to_list filter).

(** What the server answers to a negative skip. *)
Definition ErrNegativeSkip : string := "skip value must be non-negative".

(** [FindAll]: the count of the matching documents, and the page of them
    that [limit] and [offset] select in the order [createdAt: -1].  A
    limit of 0 is no limit and a negative limit counts as its absolute
    value. *)
Definition FindAll (r : option UpdateRepository)
    (filter : gmap string BsonValue) (limit offset : Z)
    : result (list Update * Z) :=
  match r with
  | None => Err "database not connected"
  | Some repo =>
      let matching := List.filter (matches filter) (collection repo) in
      let total := Z.of_nat (length matching) in
      if offset <? 0
      then Err ("failed to find updates: " +:+ ErrNegativeSkip)
      else
        let skipped :=
          skipn (Z.to_nat offset) (merge_sort newest_first matching) in
        Ok (if limit =? 0 then skipped
            else firstn (Z.to_nat (Z.abs limit)) skipped,
            total)
  end.

(** [DeleteOne]: the first matching document is removed; returns the
    documents and the deleted count. *)
Fixpoint delete_one {A} (P : A -> bool) (docs : list A) : list A * Z :=
  match docs with
  | [] => ([], 0)
  | u :: docs' =>
      if P u then (docs', 1)
      else let '(docs'', n) := delete_one P docs' in (u :: docs'', n)
  end.

(** [Delete]. *)
Definition Delete (r : option UpdateRepository) (id : string)
    : option UpdateRepository * option string :=
  match r with
  | None => (None, Some "database not connected")
  | Some repo =>
      match ObjectIDFromHex id with
      | None => (r, Some ("invalid update ID: " +:+ ObjectIDFromHexError id))
      | Some objectID =>
          let '(docs, deleted) :=
            delete_one (fun u => bool_decide (ID u = objectID))
              (collection repo) in
          if deleted =? 0 then (r, Some "update not found")
          else (Some {| collection := docs |}, None)
      end
  end.

(** [DeleteByProjectSlug]: [DeleteMany]. *)
Definition DeleteByProjectSlug (r : option UpdateRepository)
    (projectSlug : string) : option UpdateRepository * option string :=
  match r with
  | None => (None, Some "database not connected")
  | Some repo =>
      (Some {| collection :=
                 List.filter
                   (fun u => negb (bool_decide (ProjectSlug u = projectSlug)))
                   (collection repo) |},
       None)
  end.

End updates.

Module projects.
Import Go models database.

Definition ErrNoDatabase : string := "database not connected".

(** [mongo.ErrNoDocuments]. *)
Definition ErrNoDocuments : string := "mongo: no documents in result".

Definition set_ProjectID (v : ObjectID) (p : Project) : Project :=
  {| ProjectID := v; Slug := Slug p; Name := Name p;
     Description := Description p; ProjectCreatedAt := ProjectCreatedAt p;
     UpdateCount := UpdateCount p |}.

(** [Create]: the repository, the caller's record as mutated, and the
    error; [oid] is the identifier the driver generates for a document
    without one. *)
Definition Create (r : ProjectRepository) (now : time.Time) (oid : ObjectID)
    (project : Project) : ProjectRepository * Project * option string :=
  match projects r with
  | None => (r, project, Some ErrNoDatabase)
  | Some ps =>
      let project :=
        {| ProjectID := ProjectID project; Slug := Slug project;
           Name := Name project; Description := Description project;
           ProjectCreatedAt := now; UpdateCount := 0 |} in
      let inserted :=
        if bool_decide (ProjectID project = NilObjectID) then oid
        else ProjectID project in
      let doc := set_ProjectID inserted project in
      ({| projects := Some (ps ++ [doc]) |}, doc, None)
  end.

Definition newest_project_first (a b : Project) : Prop :=
  ProjectCreatedAt b <= ProjectCreatedAt a.

#[global] Instance newest_project_first_dec a b :
  Decision (newest_project_first a b).
Proof. unfold newest_project_first. apply _. Defined.

(** [FindAll]: without a database, no project and no error. *)
Definition FindAll (r : ProjectRepository) : result (list Project) :=
  match projects r with
  | None => Ok []
  | Some ps => Ok (merge_sort newest_project_first ps)
  end.

(** [FindBySlug]. *)
Definition FindBySlug (r : ProjectRepository) (slug : string)
    : result Project :=
  match projects r with
  | None => Err ErrNoDatabase
  | Some ps =>
      match List.find (fun p => bool_decide (Slug p = slug)) ps with
      | Some project => Ok project
      | None => Err ErrNoDocuments
      end
  end.

(** [Delete]: [DeleteOne] by slug; deleting nothing is no error. *)
Definition Delete (r : ProjectRepository) (slug : string)
    : ProjectRepository * option string :=
  match projects r with
  | None => (r, Some ErrNoDatabase)
  | Some ps =>
      ({| projects :=
            Some (fst (updates.delete_one
                         (fun p => bool_decide (Slug p = slug)) ps)) |},
       None)
  end.

End projects.

Module apikeys.
Import Go database.

(** [models.APIKey] (backend/internal/models/apikey.go). *)
Record APIKey := {
  ID : models.ObjectID;
  Name : string;
  KeyHash : string;
  Prefix : string;
  Scopes : list string;
  LastUsedAt : time.Time;
  CreatedAt : time.Time
}.

(** The repository is never nil; its collection is. *)
Record APIKeyRepository := {
  collection : option (list APIKey)
}.

(** [time.Time{}]: 1 January of the year 1, in milliseconds since the
    Unix epoch. *)
Definition ZeroTime : time.Time := -62135596800000.

(** [Create]: [random] is the outcome of [rand.Read] on the 32-byte
    buffer, [oid] is [primitive.NewObjectID()] and [now] is [time.Now()].
    Returns the plain key and the record, or the error. *)
Definition Create (r : APIKeyRepository) (random : result (list byte))
    (oid : models.ObjectID) (now : time.Time) (name : string)
    (scopes : list string)
    : result (string * APIKey) * APIKeyRepository :=
  match collection r with
  | None => (Err "database not connected", r)
  | Some keys =>
      match random with
      | Err err => (Err err, r)
      | Ok keyBytes =>
          let plainKey := "ota_" +:+ hex.EncodeToString keyBytes in
          let hash := sha256.Sum256 (list_byte_of_string plainKey) in
          let keyHash := hex.EncodeToString hash in
          let apiKey :=
            {| ID := oid; Name := name; KeyHash := keyHash;
               Prefix := services.slice plainKey 0 8;
               Scopes := scopes;
               CreatedAt := now;
               LastUsedAt := ZeroTime |} in
          (Ok (plainKey, apiKey),
           {| collection := Some (keys ++ [apiKey]) |})
      end
  end.

Definition newest_key_first (a b : APIKey) : Prop :=
  CreatedAt b <= CreatedAt a.

#[global] Instance newest_key_first_dec a b : Decision (newest_key_first a b).
Proof. unfold newest_key_first. apply _. Defined.

(** [FindAll]. *)
Definition FindAll (r : APIKeyRepository) : result (list APIKey) :=
  match collection r with
  | None => Ok []
  | Some keys => Ok (merge_sort newest_key_first keys)
  end.

(** [Delete]: the error of the identifier is returned as it is; deleting
    nothing is no error. *)
Definition Delete (r : APIKeyRepository) (id : string)
    : APIKeyRepository * option string :=
  match collection r with
  | None => (r, Some "database not connected")
  | Some keys =>
      match models.ObjectIDFromHex id with
      | None => (r, Some (ObjectIDFromHexError id))
      | Some oid =>
          ({| collection :=
                Some (fst (repositories.updates.delete_one
                             (fun k => bool_decide (ID k = oid)) keys)) |},
           None)
      end
  end.

(** Work started with [go] and not waited for: the update of
    [lastUsedAt]. *)
Inductive Task : Type :=
  | TouchLastUsedTask (id : models.ObjectID).

Definition set_LastUsedAt (v : time.Time) (k : APIKey) : APIKey :=
  {| ID := ID k; Name := Name k; KeyHash := KeyHash k; Prefix := Prefix k;
     Scopes := Scopes k; LastUsedAt := v; CreatedAt := CreatedAt k |}.

Fixpoint touch_one (id : models.ObjectID) (now : time.Time)
    (keys : list APIKey) : list APIKey :=
  match keys with
  | [] => []
  | k :: keys' =>
      if bool_decide (ID k = id) then set_LastUsedAt now k :: keys'
      else k :: touch_one id now keys'
  end.

(** What the task does when it runs at time [now]. *)
Definition run (t : Task) (now : time.Time) (r : APIKeyRepository)
    : APIKeyRepository :=
  match t, collection r with
  | TouchLastUsedTask id, Some keys =>
      {| collection := Some (touch_one id now keys) |}
  | _, None => r
  end.

(** [Validate]: the key whose stored hash is the hash of the plain key,
    and the task started for it. *)
Definition Validate (r : APIKeyRepository) (plainKey : string)
    : result APIKey * list Task :=
  match collection r with
  | None => (Err "database not connected", [])
  | Some keys =>
      let hash := sha256.Sum256 (list_byte_of_string plainKey) in
      let keyHash := hex.EncodeToString hash in
      match List.find (fun k => bool_decide (KeyHash k = keyHash)) keys with
      | Some apiKey => (Ok apiKey, [TouchLastUsedTask (ID apiKey)])
      | None => (Err projects.ErrNoDocuments, [])
      end
  end.

End apikeys.

End repositories.

(* ===================================================================== *)
(** ** config: the configuration read from the environment *)
(* ===================================================================== *)

Module config.

Record Config := {
  Port : string;
  Hostname : string;
  MongoDBURI : string;
  CloudinaryCloudName : string;
  CloudinaryAPIKey : string;
  CloudinaryAPISecret : string;
  PrivateKeyPath : string;
  AdminSecret : string
}.

(** [getEnv]; the environment is the one of the process once the [.env]
    file has been loaded into it. *)
Definition getEnv (env : gmap string string) (key defaultValue : string)
    : string :=
  match env !! key with
  | Some value =>
      if negb (bool_decide (value = "")) then value else defaultValue
  | None => defaultValue
  end.

(** [Load]. *)
Definition Load (env : gmap string string) : Config :=
  {| Port := getEnv env "PORT" "8080";
     Hostname := getEnv env "HOSTNAME" "http://localhost:8080";
     MongoDBURI := getEnv env "MONGODB_URI" "";
     CloudinaryCloudName := getEnv env "CLOUDINARY_CLOUD_NAME" "";
     CloudinaryAPIKey := getEnv env "CLOUDINARY_API_KEY" "";
     CloudinaryAPISecret := getEnv env "CLOUDINARY_API_SECRET" "";
     PrivateKeyPath :=
       getEnv env "PRIVATE_KEY_PATH" "./code-signing-keys/private-key.pem";
     AdminSecret := getEnv env "ADMIN_SECRET" "" |}.

(** [Validate]: the error, if any. *)
Definition Validate (c : Config) : option string :=
  if bool_decide (MongoDBURI c = "") then Some "MONGODB_URI is required"
  else if bool_decide (CloudinaryCloudName c = "")
  then Some "CLOUDINARY_CLOUD_NAME is required"
  else if bool_decide (CloudinaryAPIKey c = "")
  then Some "CLOUDINARY_API_KEY is required"
  else if bool_decide (CloudinaryAPISecret c = "")
  then Some "CLOUDINARY_API_SECRET is required"
  else None.

End config.

(* ===================================================================== *)
(** ** middleware: the authentication of the admin routes *)
(* ===================================================================== *)

Module middleware.
Import Go gin sys.

(** What a middleware does with a request: hand it on ([c.Next]), or
    answer it itself ([c.AbortWithStatusJSON]). *)
Inductive Outcome : Type :=
| Next
| Abort (r : Response).

Definition StatusUnauthorized : Z := 401.

(** [AdminAuth]. *)
Definition AdminAuth (lib : Lib) (cfg : config.Config) (c : Context)
    : Outcome :=
  if bool_decide (config.AdminSecret cfg = "") then Next
  else
    let authHeader := GetHeader c "Authorization" in
    if bool_decide (authHeader = "")
    then Abort (error_json StatusUnauthorized "Authorization header required")
    else
      match gostrings.SplitN2 authHeader " "%char with
      | [scheme; token] =>
          if negb (bool_decide (strings_ToLower lib scheme = "bearer"))
          then Abort (error_json StatusUnauthorized
                        "Invalid authorization format. Expected 'Bearer <token>'")
          else if negb (bool_decide (token = config.AdminSecret cfg))
          then Abort (error_json StatusUnauthorized "Invalid admin token")
          else Next
      | _ =>
          Abort (error_json StatusUnauthorized
                   "Invalid authorization format. Expected 'Bearer <token>'")
      end.

End middleware.

(* ===================================================================== *)
(** ** handlers: listing and deleting on the admin surface *)
(* ===================================================================== *)

Module adminapi.
Import Go models gin sys database handlers handlers.admin.
Import repositories.

(** Work started with [go] and not waited for: the removal of a folder
    of the object store. *)
Inductive Task : Type :=
  | DeleteFolderTask (folder : string).

(** The folder of an update in the object store. *)
Definition folder_of (update : Update) : string :=
  "updates/" +:+ RuntimeVersion update +:+ "/" +:+ UpdateID update.

(** What [ListUpdates] answers: the listing
    [{updates, total, limit, offset}] with status 200, or another
    response. *)
Inductive ListReply : Type :=
| Listed (updates : list Update) (total limit offset : Z)
| Answered (r : Response).

(** [ListUpdates]. *)
Definition ListUpdates (h : AdminHandler) (c : Context) : ListReply :=
  let limit := 50 in
  let offset := 0 in
  let limit :=
    let l := Query c "limit" in
    if negb (bool_decide (l = "")) then
      match strconv.ParseInt l with
      | Some parsed => if 0 <? parsed then parsed else limit
      | None => limit
      end
    else limit in
  let offset :=
    let o := Query c "offset" in
    if negb (bool_decide (o = "")) then
      match strconv.ParseInt o with
      | Some parsed => if 0 <=? parsed then parsed else offset
      | None => offset
      end
    else offset in
  let filter : gmap string BsonValue := ∅ in
  let filter :=
    let channel := Query c "channel" in
    if negb (bool_decide (channel = ""))
    then <[ "channel" := BString channel ]> filter else filter in
  let filter :=
    let runtime := Query c "runtimeVersion" in
    if negb (bool_decide (runtime = ""))
    then <[ "runtimeVersion" := BString runtime ]> filter else filter in
  match updateRepo h with
  | None =>
      Answered
        (respond StatusOK
           (JSON [("message",
                   VString ("Database not connected. "
                              +:+ "Updates are served from filesystem."));
                  ("total", VInt 0);
                  ("updates", VJson (JArr []))]))
  | Some _ =>
      match updates.FindAll (updateRepo h) filter limit offset with
      | Err err => Answered (error_json StatusInternalServerError err)
      | Ok (found, total) => Listed found total limit offset
      end
  end.

(** [DeleteUpdate]: the response, the handler, and the tasks started. *)
Definition DeleteUpdate (h : AdminHandler) (c : Context)
    : Response * AdminHandler * list Task :=
  match updateRepo h with
  | None =>
      (error_json StatusServiceUnavailable "Database not connected", h, [])
  | Some _ =>
      let id := Param c "id" in
      match FindByID (updateRepo h) id with
      | Err _ => (error_json StatusNotFound "Update not found", h, [])
      | Ok update =>
          match updates.Delete (updateRepo h) id with
          | (_, Some err) =>
              (error_json StatusInternalServerError err, h, [])
          | (repo, None) =>
              let tasks :=
                match update with
                | Some update =>
                    if IsConnected (cloudinaryService h)
                    then [DeleteFolderTask (folder_of update)] else []
                | None => []
                end in
              (respond StatusOK NoBody, with_updateRepo repo h, tasks)
          end
      end
  end.

(** [DeleteProject].  The project repository of a handler is not nil;
    were it, the call on it would panic, after the updates are
    deleted. *)
Definition DeleteProject (h : AdminHandler) (c : Context)
    : Response * AdminHandler * list Task :=
  let slug := Param c "slug" in
  if bool_decide (slug = "")
  then (error_json StatusBadRequest "Project slug is required", h, [])
  else
    let '(h, tasks) :=
      match updateRepo h with
      | Some _ =>
          let found :=
            match updates.FindAll (updateRepo h)
                    {[ "projectSlug" := BString slug ]} 1000 0 with
            | Ok (found, _) => found
            | Err _ => []
            end in
          let tasks :=
            flat_map
              (fun update =>
                 if IsConnected (cloudinaryService h)
                 then [DeleteFolderTask (folder_of update)] else [])
              found in
          (with_updateRepo
             (fst (updates.DeleteByProjectSlug (updateRepo h) slug)) h,
           tasks)
      | None => (h, [])
      end in
    match projectRepo h with
    | None => (respond StatusInternalServerError Panicked, h, tasks)
    | Some pr =>
        match projects.Delete pr slug with
        | (_, Some err) =>
            (error_json StatusInternalServerError err, h, tasks)
        | (pr, None) =>
            (respond StatusOK NoBody, with_projectRepo (Some pr) h, tasks)
        end
    end.

End adminapi.

(* ===================================================================== *)
(** ** The command-line tool: identifiers and table cells *)
(* ===================================================================== *)

Module cli.
Import Go.

(** [b[i] = (b[i] & mask) | bits]. *)
Definition set_bits (i : nat) (mask bits : Z) (b : list byte) : list byte :=
  match b !! i with
  | Some x => <[ i := byte_of_Z (Z.lor (Z.land (byte_val x) mask) bits) ]> b
  | None => b
  end.

(** [b[i:j]]. *)
Definition bytes_slice (b : list byte) (i j : nat) : list byte :=
  firstn (j - i) (skipn i b).

(** [generateUUID]; [b] is the 16-byte buffer as [rand.Read] leaves
    it. *)
Definition generateUUID (b : list byte) : string :=
  let b := set_bits 6 15 64 b in
  let b := set_bits 8 63 128 b in
  hex.EncodeToString (bytes_slice b 0 4) +:+ "-"
    +:+ hex.EncodeToString (bytes_slice b 4 6) +:+ "-"
    +:+ hex.EncodeToString (bytes_slice b 6 8) +:+ "-"
    +:+ hex.EncodeToString (bytes_slice b 8 10) +:+ "-"
    +:+ hex.EncodeToString (bytes_slice b 10 16).

(** [truncate]; [None] is the panic of a slice bound out of range. *)
Definition truncate (s : string) (maxLen : Z) : option string :=
  let len := Z.of_nat (String.length s) in
  if len <=? maxLen then Some s
  else
    let bound := wrap64 (maxLen - 3) in
    if (bound <? 0) || (len <? bound) then None
    else Some (services.slice s 0 (Z.to_nat bound) +:+ "...").

End cli.

(* ===================================================================== *)
(** * Specification-side definitions and the systems the handlers are run on *)
(* ===================================================================== *)

Section HexSpec.
Import Go.

Definition hex_byte_check (b : byte) : bool :=
  match hex.from_hex_char (hex.digit (Z.shiftr (byte_val b) 4)),
        hex.from_hex_char (hex.digit (Z.land (byte_val b) 15)) with
  | Some h, Some l => Byte.eqb (byte_of_Z (Z.lor (Z.shiftl h 4) l)) b
  | _, _ => false
  end.

End HexSpec.

Section Base64Spec.
Import Go base64.

Definition is_some_eq (o : option Z) (v : Z) : bool :=
  match o with
  | Some x => x =? v
  | None => false
  end.

(** No character of the URL alphabet is a line break. *)
Definition url_char_check (v : Z) : bool :=
  negb (is_newline (enc_char RawURLEncoding v))
  && is_some_eq (dec_char RawURLEncoding (enc_char RawURLEncoding v)) v.

Definition sextet_ok (v : Z) : bool := (0 <=? v) && (v <? 64).

(** The six-bit groups of a byte list, as the encoder forms them. *)
Fixpoint sextets (bs : list byte) : list Z :=
  match bs with
  | [] => []
  | [a] => [sextet0 (byte_val a); sextet1 (byte_val a) 0]
  | [a; b] =>
      [sextet0 (byte_val a); sextet1 (byte_val a) (byte_val b);
       sextet2 (byte_val b) 0]
  | a :: b :: c :: bs' =>
      sextet0 (byte_val a) :: sextet1 (byte_val a) (byte_val b)
        :: sextet2 (byte_val b) (byte_val c) :: sextet3 (byte_val c)
        :: sextets bs'
  end.

End Base64Spec.

Section HasherSpec.
Import Go.

(** The key of a file: the first 32 hex digits of its digest; its hash:
    the digest in unpadded URL-safe base64. *)
Definition key_of (data : list byte) : string :=
  services.slice (services.ComputeSHA256Hash data) 0 32.

Definition hash_of (data : list byte) : string :=
  services.Base64URLEncode (services.ComputeSHA256HashBytes data).

End HasherSpec.

Section RolloutSpec.
Import Go.

(** The sum of the code points of a fingerprint, and the sum of its
    bytes, as unbounded integers. *)
Definition rune_sum (f : string) : Z :=
  fold_right Z.add 0 (utf8.runes_of_string f).

Definition byte_sum (f : string) : Z :=
  fold_right Z.add 0 (string_bytes f).

Definition rune_ok (r : Z) : Prop := 0 <= r < 2 ^ 21.

End RolloutSpec.

Section RolloutScenario.
Import Go.

(** A source that always draws 0, for running the selector. *)
Definition zero_source (_ : unit) (_ : Z) : Z * unit := (0, tt).

Definition idle_rollout : services.RolloutService unit :=
  {| services.rng := tt |}.

(** The fingerprint made of the two bytes 0xC3 0xA9, the UTF-8 form of
    the one code point U+00E9. *)
Definition e_acute : string :=
  String (ascii_of_nat 195) (String (ascii_of_nat 169) EmptyString).

End RolloutScenario.

Section FindLatestSpec.
Import models database.

(** The filter of [FindLatest] as a proposition. *)
Definition matches_query (projectSlug runtimeVersion channel platform : string)
    (u : Update) : Prop :=
  ProjectSlug u = projectSlug /\ RuntimeVersion u = runtimeVersion
  /\ Channel u = channel /\ IsActive u = true
  /\ (platform = "" \/ Platform u = platform \/ Platform u = "all").

(** The filter as the specification words it: the platform of the record
    is the requested one or ["all"]. *)
Definition matches_as_specified
    (projectSlug runtimeVersion channel platform : string)
    (u : Update) : Prop :=
  ProjectSlug u = projectSlug /\ RuntimeVersion u = runtimeVersion
  /\ Channel u = channel /\ IsActive u = true
  /\ (Platform u = platform \/ Platform u = "all").

(** [res] is a newest record among those of [docs] that satisfy [P], or
    nothing when none does. *)
Definition latest_among (P : Update -> Prop) (docs : list Update)
    (res : option Update) : Prop :=
  match res with
  | Some u =>
      In u docs /\ P u
      /\ forall v, In v docs -> P v -> CreatedAt v <= CreatedAt u
  | None => forall v, In v docs -> ~ P v
  end.

(** The records of a store with their rollout percentages set by a rule. *)
Definition regate (percentage : Update -> Z) (u : Update) : Update :=
  set_RolloutPercentage (percentage u) u.

End FindLatestSpec.

Section TimeSpec.
Import Go time.

(** Running a check on every integer of a range. *)
Fixpoint all_from (f : Z -> bool) (z : Z) (n : nat) : bool :=
  match n with
  | O => true
  | S n' => f z && all_from f (z + 1) n'
  end.

Definition is_leap (y : Z) : bool :=
  ((y mod 4 =? 0) && negb (y mod 100 =? 0)) || (y mod 400 =? 0).

Definition days_in_month (y m : Z) : Z :=
  if m =? 2 then (if is_leap y then 29 else 28)
  else if (m =? 4) || (m =? 6) || (m =? 9) || (m =? 11) then 30
  else 31.

(** The check run on every day of an era: the year of the era, the month
    index and the day computed for it are in range. *)
Definition era_day_check (doe : Z) : bool :=
  let yoe := year_of_era doe in
  let doy := doe - (365 * yoe + yoe / 4 - yoe / 100) in
  let mp := (5 * doy + 2) / 153 in
  let d := doy - (153 * mp + 2) / 5 + 1 in
  let m := if mp <? 10 then mp + 3 else mp - 9 in
  let y := if m <=? 2 then yoe + 1 else yoe in
  (0 <=? yoe) && (yoe <? 400) && (0 <=? mp) && (mp <? 12)
  && (1 <=? d) && (d <=? days_in_month y m).

(** A civil date: a month, and a day that the month of that year has. *)
Definition valid_date (y m d : Z) : Prop :=
  1 <= m <= 12 /\ 1 <= d <= days_in_month y m.

(** The day number (days since 1970-01-01) of a civil date of the
    proleptic Gregorian calendar: the days of the whole 400-year eras and
    of the whole years before it, counted from 1 March, and the days of
    the year before it. *)
Definition days_of_civil (y m d : Z) : Z :=
  let y' := if m <=? 2 then y - 1 else y in
  let era := y' / 400 in
  let yoe := y' mod 400 in
  let mp := if 2 <? m then m - 3 else m + 9 in
  let doy := (153 * mp + 2) / 5 + d - 1 in
  era * 146097 + (yoe * 365 + yoe / 4 - yoe / 100 + doy) - 719468.

(** The instant that the fields name: milliseconds from the epoch to that
    date and time of day in UTC. *)
Definition time_of (f : Fields) : Time :=
  (((days_of_civil (year f) (month f) (day f) * 24 + hour f) * 60
    + minute f) * 60 + second f) * 1000 + milli f.

(** The instants of the years 0000 to 9999, from
    0000-01-01T00:00:00.000Z to 9999-12-31T23:59:59.999Z: those whose
    year is written with four digits. *)
Definition four_digit_years (t : Time) : Prop :=
  -62167219200000 <= t <= 253402300799999.

(** The fields of a time stamp are those of a valid date and time of
    day, and they name the time stamp. *)
Definition valid_fields (f : Fields) : Prop :=
  valid_date (year f) (month f) (day f)
  /\ 0 <= hour f < 24 /\ 0 <= minute f < 60 /\ 0 <= second f < 60
  /\ 0 <= milli f < 1000.

(** Fixed-width decimal fields. *)
Definition dchar (n : Z) : ascii := char_of_Z (48 + n).

Definition two_digits (x : Z) : string :=
  string_of_list_ascii [dchar (x / 10); dchar (x mod 10)].

Definition three_digits (x : Z) : string :=
  string_of_list_ascii [dchar (x / 100); dchar (x / 10 mod 10); dchar (x mod 10)].

Definition four_digits (x : Z) : string :=
  string_of_list_ascii
    [dchar (x / 1000); dchar (x / 100 mod 10); dchar (x / 10 mod 10);
     dchar (x mod 10)].

(** [s] is the instant [t] written as YYYY-MM-DDTHH:MM:SS.sssZ: fields of
    fixed width, of a valid date and time of day in UTC that is [t]. *)
Definition iso_millis_of (t : Time) (s : string) : Prop :=
  exists f : Fields,
    time_of f = t /\ valid_fields f /\ 0 <= year f <= 9999
    /\ s = four_digits (year f) +:+ "-" +:+ two_digits (month f) +:+ "-"
             +:+ two_digits (day f) +:+ "T" +:+ two_digits (hour f) +:+ ":"
             +:+ two_digits (minute f) +:+ ":" +:+ two_digits (second f)
             +:+ "." +:+ three_digits (milli f) +:+ "Z".

End TimeSpec.

(** ** A small system to run the handlers on *)

Module demo.
Import Go models gin sys.

Definition bytes (s : string) : list byte := list_byte_of_string s.

(** The [metadata.json] of the demonstration, as the export of an
    application writes it: one android bundle and one asset. *)
Definition metadata_document : json :=
  JObj [("version", JNum 0);
        ("bundler", JStr "metro");
        ("fileMetadata",
         JObj [("android",
                JObj [("bundle", JStr "bundles/android-a.js");
                      ("assets",
                       JArr [JObj [("path", JStr "assets/logo");
                                   ("ext", JStr "png")]])])])].

Definition metadata_json : string := encoding_json.render metadata_document.

(** What that [metadata.json] is decoded to. *)
Definition parsed_metadata : UpdateMetadata :=
  {| FileMetadata :=
       Some {[ "android" :=
                 {| Bundle := "bundles/android-a.js";
                    BundleUrl := ""; BundleKey := ""; BundleHash := "";
                    Assets := [ {| Path := "assets/logo"; Ext := "png";
                                   Url := ""; Key := ""; Hash := "" |} ] |} ]};
     ExpoConfig := None |}.

(** The library of the demonstration: the transcriptions above. *)
Definition lib : Lib :=
  {| json_Marshal := encoding_json.Marshal;
     json_UnmarshalObject := encoding_json.UnmarshalObject;
     json_UnmarshalMetadata := encoding_json.UnmarshalMetadata;
     filepath_Join := fun a b => filepath.Join [a; b];
     filepath_Clean := filepath.Clean;
     filepath_IsAbs := filepath.IsAbs;
     filepath_Rel := filepath.Rel;
     filepath_ToSlash := filepath.ToSlash;
     filepath_FromSlash := filepath.FromSlash;
     filepath_Ext := filepath.Ext;
     strings_ToLower := gostrings.ToLower;
     json_BindPatch := encoding_json.BindPatch;
     url_Parse := url.Parse;
     path_Clean := filepath.Clean |}.

(** A flat tree of files, given by path and content: the directories
    are the ones that lead to a file. *)
Fixpoint content_of (files : list (string * string)) (path : string)
    : option (list byte) :=
  match files with
  | [] => None
  | (p, text) :: files' =>
      if bool_decide (p = path) then Some (bytes text)
      else content_of files' path
  end.

(** What follows [dir] and a slash in [path], when [path] lies under
    [dir]. *)
Definition below (dir path : string) : option (list ascii) :=
  let d := list_ascii_of_string (dir +:+ "/") in
  let p := list_ascii_of_string path in
  if gostrings.HasPrefix p d then Some (drop (length d) p) else None.

Definition is_dir (files : list (string * string)) (path : string) : bool :=
  existsb (fun f => match below path (fst f) with
                    | Some _ => true
                    | None => false
                    end) files.

(** The entries of a directory, in the order of their names. *)
Fixpoint add_entry (e : string * bool) (l : list (string * bool))
    : list (string * bool) :=
  match l with
  | [] => [e]
  | e' :: l' =>
      if bool_decide (fst e = fst e') then l
      else if String.ltb (fst e) (fst e') then e :: l
      else e' :: add_entry e l'
  end.

Definition entries (files : list (string * string)) (dir : string)
    : list (string * bool) :=
  fold_left
    (fun l f =>
       match below dir (fst f) with
       | Some rest =>
           add_entry
             (string_of_list_ascii (filepath.element rest),
              negb (length (filepath.element rest) =? length rest)%nat) l
       | None => l
       end)
    files [].

Definition tree (files : list (string * string)) : FS :=
  {| ReadFile := content_of files;
     Stat := fun p => match content_of files p with
                      | Some _ => IsFile
                      | None => if is_dir files p then IsDir else NotExist
                      end;
     ReadDir := fun p => if is_dir files p then Some (entries files p)
                         else None;
     Open := fun p => match content_of files p with
                      | Some content =>
                          Some {| fileSize := Some (Z.of_nat (length content));
                                  fileBytes := content |}
                      | None =>
                          if is_dir files p
                          then Some {| fileSize := Some 4096;
                                       fileBytes := [] |}
                          else None
                      end |}.

Definition no_files : FS := tree [].

Definition cfg : Config := {| Hostname := "https://ota.example" |}.

Definition request (method path : string)
    (header query params : gmap string string) : Context :=
  {| Method := method; URLPath := path; Header := header;
     QueryParams := query; Params := params; MultipartError := None;
     PostFormValues := ∅; FormFiles := ∅; Body := [] |}.

(** The manifest request of an android client on runtime 1. *)
Definition manifest_request (extra : gmap string string) : Context :=
  request "GET" "/api/demo/manifest"
    (<[ "expo-platform" := "android" ]>
       (<[ "expo-runtime-version" := "1" ]> extra))
    ∅ {[ "projectSlug" := "demo" ]}.

Definition oid_of (n : Z) : ObjectID := repeat x00 11 ++ [byte_of_Z n].

(** An android update of project demo, with its hashes in the metadata. *)
Definition hashed_metadata : UpdateMetadata :=
  {| FileMetadata :=
       Some {[ "android" :=
                 {| Bundle := "bundles/android-a.js";
                    BundleUrl := "";
                    BundleKey := "2d711642b726b04401627ca9fbac32f5";
                    BundleHash := "LXEWQrcmsEQBYnyp-6wy9chTD7GQPMTbAiWHF5IaSIE";
                    Assets := [] |} ]};
     ExpoConfig := None |}.

Definition update_at (rollout : Z) : Update :=
  {| ID := oid_of 1;
     ProjectSlug := "demo";
     UpdateID := "0a1b2c3d-0000-0000-0000-000000000001";
     RuntimeVersion := "1";
     Channel := "production";
     Platform := "android";
     BundlePath := "";
     CreatedAt := 1735787045678;
     IsActive := true;
     IsRollback := false;
     RolloutPercentage := rollout;
     Downloads := 0;
     Metadata := Some hashed_metadata |}.

Definition rollback_record : Update :=
  {| ID := oid_of 2;
     ProjectSlug := "demo";
     UpdateID := "";
     RuntimeVersion := "1";
     Channel := "production";
     Platform := "all";
     BundlePath := "";
     CreatedAt := 1735787045678;
     IsActive := true;
     IsRollback := true;
     RolloutPercentage := 100;
     Downloads := 0;
     Metadata := None |}.

(** The manifest of that update, as the android client is sent it. *)
Definition expected_manifest : json :=
  JObj [("assets", JArr []);
        ("createdAt", JStr "2025-01-02T03:04:05.678Z");
        ("extra", JObj [("expoClient", JNull)]);
        ("id", JStr "0a1b2c3d-0000-0000-0000-000000000001");
        ("launchAsset",
         JObj [("contentType", JStr "application/javascript");
               ("fileExtension", JStr ".bundle");
               ("hash", JStr "LXEWQrcmsEQBYnyp-6wy9chTD7GQPMTbAiWHF5IaSIE");
               ("key", JStr "2d711642b726b04401627ca9fbac32f5");
               ("url",
                JStr ("https://ota.example/api/assets"
                        +:+ "?asset=bundles/android-a.js&runtimeVersion=1"
                        +:+ "&platform=android&isLaunchAsset=true"
                        +:+ "&updateId=000000000000000000000001"))]);
        ("metadata", JObj []);
        ("runtimeVersion", JStr "1")].

Definition manifest_handler (docs : list Update)
    : handlers.manifest.ManifestHandler unit :=
  {| handlers.manifest.signingService := services.NewSigningService;
     handlers.manifest.rolloutService := {| services.rng := tt |};
     handlers.manifest.updateRepo := Some {| database.collection := docs |};
     handlers.manifest.updatesDir := "/updates" |}.

End demo.

Section ManifestSpec.
Import Go models gin sys database handlers handlers.manifest.
Context {Rand : Type} (lib : Lib) (fs : FS) (cfg : Config).

(** The values [Handle] derives from the request. *)
Definition protocol_version (c : Context) : Z :=
  Atoi (if bool_decide (GetHeader c "expo-protocol-version" = "")
        then "0" else GetHeader c "expo-protocol-version").

Definition request_platform (c : Context) : string :=
  if bool_decide (GetHeader c "expo-platform" = "")
  then Query c "platform" else GetHeader c "expo-platform".

Definition request_runtime (c : Context) : string :=
  if bool_decide (GetHeader c "expo-runtime-version" = "")
  then Query c "runtime-version" else GetHeader c "expo-runtime-version".

Definition request_channel (c : Context) : string :=
  if bool_decide (GetHeader c "expo-channel-name" = "")
  then "production" else GetHeader c "expo-channel-name".

(** The pre-checks of [Handle]: the method, the platform, the runtime
    version, the project slug, and a connected repository. *)
Definition passes_prechecks (h : ManifestHandler Rand)
    (c : Context) : Prop :=
  Method c = "GET"
  /\ (request_platform c = "ios" \/ request_platform c = "android")
  /\ request_runtime c <> ""
  /\ Param c "projectSlug" <> ""
  /\ updateRepo h <> None.

(** The candidate: what [FindLatest] returns for the request. *)
Definition candidate (h : ManifestHandler Rand) (c : Context)
    : result (option Update) :=
  FindLatest (updateRepo h) (Param c "projectSlug") (request_runtime c)
    (request_channel c) (request_platform c).

(** The multipart reply with one part named [name] whose body is the
    JSON encoding of [body], signed when the client asks for it. *)
Definition one_part_reply (h : ManifestHandler Rand) (c : Context)
    (boundary name : string) (body : json) : Response :=
  sendMultipartResponse boundary name (json_Marshal lib body)
    (signature_for h c (json_Marshal lib body)) (protocol_version c).

(** What [Handle] does with a candidate. *)
Definition serve (h : ManifestHandler Rand) (c : Context)
    (boundary : string) (update : Update) : Response :=
  if IsRollback update then
    if bool_decide (GetHeader c "expo-current-update-id"
                    = GetHeader c "expo-embedded-update-id")
    then handleNoUpdateAvailable lib h c boundary (protocol_version c)
    else
      one_part_reply h c boundary "directive"
        (JObj [("parameters",
                JObj [("commitTime",
                       JStr (time.FormatMillisUTC (CreatedAt update)))]);
               ("type", JStr "rollBackToEmbedded")])
  else if bool_decide (GetHeader c "expo-current-update-id" = UpdateID update)
          && (protocol_version c =? 1)
  then handleNoUpdateAvailable lib h c boundary (protocol_version c)
  else
    match Metadata update with
    | None => error_json StatusInternalServerError "Update metadata missing"
    | Some md =>
        sendManifest lib fs cfg h c boundary (BundlePath update)
          (generic_metadata md) (UpdateID update) (Hex (ID update))
          (time.FormatMillisUTC (CreatedAt update)) (request_runtime c)
          (request_platform c) (protocol_version c)
    end.

(** The shape of what [sendMultipartResponse] sends: status 200, the
    three response headers, and a body of exactly one part with the
    given name and data, of content type JSON. *)
Definition single_part (r : Response) (boundary name : string)
    (data : list byte) (pv : Z) : Prop :=
  status r = 200
  /\ headers r !! "expo-protocol-version" = Some (Itoa pv)
  /\ headers r !! "expo-sfv-version" = Some "0"
  /\ headers r !! "cache-control" = Some "private, max-age=0"
  /\ exists part,
       payload r = Data ("multipart/mixed; boundary=" +:+ boundary)
                     boundary [part]
       /\ partData part = data
       /\ partHeader part !! "Content-Type" = Some "application/json"
       /\ partHeader part !! "Content-Disposition"
          = Some ("form-data; name=" +:+ dq +:+ name +:+ dq).

End ManifestSpec.

Section ManifestScenario.
Import Go models gin sys database handlers handlers.manifest.

Definition protocol_1 : gmap string string :=
  {[ "expo-protocol-version" := "1" ]}.

Definition ids (current embedded : string) : gmap string string :=
  <[ "expo-current-update-id" := current ]>
    (<[ "expo-embedded-update-id" := embedded ]> protocol_1).

End ManifestScenario.

Section AssetScenario.
Import Go models gin sys database handlers handlers.assets.

(** A request with a redirect and nothing else: no asset, no platform,
    no runtime version; and one whose asset path leaves the updates
    directory. *)
Definition only_redirect : Context :=
  demo.request "GET" "/api/assets" ∅
    {[ "redirect" := "https://cdn.example/x" ]} ∅.

Definition redirect_with_traversal : Context :=
  demo.request "GET" "/api/assets" ∅
    (<[ "asset" := "../../etc/passwd" ]>
       {[ "redirect" := "https://cdn.example/x" ]}) ∅.

(** A request whose redirect is a relative reference. *)
Definition relative_redirect : Context :=
  demo.request "GET" "/api/assets" ∅ {[ "redirect" := "cdn/x" ]} ∅.

Definition assets_handler : AssetsHandler :=
  {| updatesDir := "/updates"; updateRepo := None |}.

End AssetScenario.

Section PatchScenario.
Import Go models gin sys database handlers handlers.admin.

Definition admin_handler (docs : list Update) : AdminHandler :=
  {| updateRepo := Some {| collection := docs |};
     cloudinaryService := None;
     projectRepo := None |}.

(** The patch request for the record of the demonstration; its body is
    the object whose [rolloutPercentage] is the new rollout percentage. *)
Definition patch_request (percentage : string) : Context :=
  {| Method := "PATCH";
     URLPath := "/api/admin/updates/000000000000000000000001";
     Header := ∅; QueryParams := ∅;
     Params := {[ "id" := "000000000000000000000001" ]};
     MultipartError := None; PostFormValues := ∅; FormFiles := ∅;
     Body := demo.bytes ("{" +:+ dq +:+ "rolloutPercentage" +:+ dq +:+ ":"
                           +:+ percentage +:+ "}") |}.

End PatchScenario.

Section IngestionSpec.
Import Go models gin sys database handlers handlers.admin.
Context (lib : Lib).

(** The metadata as parsed, before any hash is filled in. *)
Definition parsed (fs : FS) (bundlePath : string) : option UpdateMetadata :=
  match ReadFile fs (filepath_Join lib bundlePath "metadata.json") with
  | Some metadataFile =>
      match json_UnmarshalMetadata lib metadataFile with
      | Some metadata =>
          match ReadFile fs (filepath_Join lib bundlePath "expoConfig.json") with
          | Some expoConfigFile =>
              match json_UnmarshalObject lib expoConfigFile with
              | Some expoConfig =>
                  Some {| FileMetadata := FileMetadata metadata;
                          ExpoConfig := expoConfig |}
              | None => Some metadata
              end
          | None => Some metadata
          end
      | None => None
      end
  | None => None
  end.

(** The metadata the record is stored with: the hashes filled in, then,
    when the object store took the upload, the URLs. *)
Definition stored (cs : option CloudinaryService) (fs : FS)
    (bundlePath runtimeVersion updateID : string) : option UpdateMetadata :=
  let hashed := parse_and_hash lib fs bundlePath in
  if IsConnected cs then
    match UploadDirectory cs
            ("updates/" +:+ runtimeVersion +:+ "/" +:+ updateID)
            bundlePath with
    | Some urlMap =>
        match hashed with
        | Some metadata =>
            Some (map_platforms (url_platform lib urlMap) metadata)
        | None => None
        end
    | None => hashed
    end
  else hashed.

(** The platform entry [p] of a metadata document. *)
Definition platform_entry (md : option UpdateMetadata) (p : string)
    : option PlatformMetadata :=
  match md with
  | Some m =>
      match FileMetadata m with
      | Some fm => fm !! p
      | None => None
      end
  | None => None
  end.

(** An entry and the entry it was parsed as: same bundle and asset
    paths; the key and hash of a file that could be read are those of
    its content, the key and hash of a file that could not are the parsed
    ones. *)
Definition asset_ingested (fs : FS) (bundlePath : string) (a0 a : Asset)
    : Prop :=
  Path a = Path a0
  /\ match ReadFile fs (filepath_Join lib bundlePath (Path a0)) with
     | Some data => Key a = key_of data /\ Hash a = hash_of data
     | None => Key a = Key a0 /\ Hash a = Hash a0
     end.

Definition entry_ingested (fs : FS) (bundlePath : string)
    (pm0 pm : PlatformMetadata) : Prop :=
  Bundle pm = Bundle pm0
  /\ match ReadFile fs (filepath_Join lib bundlePath (Bundle pm0)) with
     | Some data => BundleKey pm = key_of data /\ BundleHash pm = hash_of data
     | None => BundleKey pm = BundleKey pm0 /\ BundleHash pm = BundleHash pm0
     end
  /\ Forall2 (asset_ingested fs bundlePath) (Assets pm0) (Assets pm).

End IngestionSpec.

Section RegisterUpdateSpec.
Import Go models gin sys database handlers handlers.admin.
Context (lib : Lib).

(** The steps of an ingestion request before the metadata is read all
    succeed: the repository is connected, the form parses and names the
    project and the runtime version, the archive is uploaded, saved and
    unpacked. *)
Definition accepted (h : AdminHandler) (c : Context) (w : Upload)
    (repo : UpdateRepository) (tempDir filename : string) : Prop :=
  updateRepo h = Some repo
  /\ MultipartError c = None
  /\ PostForm c "projectSlug" <> ""
  /\ PostForm c "runtimeVersion" <> ""
  /\ (exists content, FormFiles c !! "bundle" = Some (filename, content))
  /\ MkdirTemp w = Some tempDir
  /\ CreateFile w (filepath_Join lib tempDir filename) = true
  /\ CopyFile w = true
  /\ Unzip w (filepath_Join lib tempDir filename)
       (filepath_Join lib tempDir "extracted") = None.

(** The root of the unpacked bundle, and the identifier of the update. *)
Definition ingest_root (w : Upload) (tempDir : string) : string :=
  bundle_root lib (unpacked w) (filepath_Join lib tempDir "extracted").

Definition ingest_updateID (c : Context) (w : Upload) : string :=
  if bool_decide (PostForm c "updateId" = "") then GenerateUUID w
  else PostForm c "updateId".

End RegisterUpdateSpec.

(** ** Ingestion requests to run *)

Module upload.
Import Go models gin sys handlers.admin.

Definition request : Context :=
  {| Method := "POST"; URLPath := "/api/admin/updates";
     Header := ∅; QueryParams := ∅; Params := ∅;
     MultipartError := None;
     PostFormValues :=
       <[ "projectSlug" := "demo" ]> {[ "runtimeVersion" := "1" ]};
     FormFiles := {[ "bundle" := ("bundle.zip", demo.bytes "PK") ]};
     Body := [] |}.

Definition content_of := demo.content_of.
Definition tree := demo.tree.

(** The system during an ingestion whose insert has the given
    outcome. *)
Definition world_with (outcome : database.result ObjectID)
    (files : list (string * string)) : Upload :=
  {| MkdirTemp := Some "/tmp/otaship-upload-1";
     CreateFile := fun _ => true;
     CopyFile := true;
     Unzip := fun _ _ => None;
     unpacked := tree files;
     GenerateUUID := "7d0c1d2e-0000-0000-0000-00000000000a";
     now := 1735787045678;
     inserted := outcome;
     projectOid := demo.oid_of 8 |}.

(** A working store, and one whose insert times out. *)
Definition world (files : list (string * string)) : Upload :=
  world_with (database.Ok (demo.oid_of 7)) files.

Definition world_without_store (files : list (string * string)) : Upload :=
  world_with (database.Err "context deadline exceeded") files.

Definition root : string := "/tmp/otaship-upload-1/extracted".

(** The archive with everything [metadata.json] names, and the archive
    whose launch bundle is missing. *)
Definition complete : list (string * string) :=
  [(root +:+ "/metadata.json", demo.metadata_json);
   (root +:+ "/bundles/android-a.js", "x");
   (root +:+ "/assets/logo", "logo")].

Definition without_bundle : list (string * string) :=
  [(root +:+ "/metadata.json", demo.metadata_json);
   (root +:+ "/assets/logo", "logo")].

Definition handler : AdminHandler :=
  {| updateRepo := Some {| database.collection := [] |};
     cloudinaryService := None;
     projectRepo := None |}.

(** The record an ingestion of [files] leaves in the empty store. *)
Definition persisted (files : list (string * string)) : option Update :=
  match updateRepo (snd (RegisterUpdate demo.lib handler request (world files))) with
  | Some repo => head (database.collection repo)
  | None => None
  end.

End upload.

Section IngestionScenario.
Import Go models gin sys database handlers handlers.admin.

(** The entry of the android platform in the record an ingestion
    persists. *)
Definition android_entry (files : list (string * string))
    : option PlatformMetadata :=
  match upload.persisted files with
  | Some u => platform_entry (Metadata u) "android"
  | None => None
  end.

End IngestionScenario.

Section RollbackScenario.
Import Go models database gin handlers.admin.

(** A rollback request for runtime 1 that names no channel. *)
Definition rollback_request : Context :=
  demo.request "POST"
    "/api/admin/updates/000000000000000000000001/rollback" ∅
    {[ "runtimeVersion" := "1" ]}
    {[ "id" := "000000000000000000000001" ]}.

Definition rollback_handler : AdminHandler :=
  {| updateRepo := Some {| collection := [demo.update_at 100] |};
     cloudinaryService := None;
     projectRepo := None |}.

End RollbackScenario.

(* ===================================================================== *)
(** ** Definitions for the repositories, the admin surface and the tools *)
(* ===================================================================== *)

Section EncodingSpec.
Import Go.

(** Character classes of the encodings. *)
Definition is_lower_hex (c : ascii) : bool :=
  is_digit c || ((97 <=? char_val c) && (char_val c <=? 102)).

Definition is_alnum (c : ascii) : bool :=
  is_digit c
  || ((65 <=? char_val c) && (char_val c <=? 90))
  || ((97 <=? char_val c) && (char_val c <=? 122)).

(** The characters that need no escaping in a URL: letters, digits,
    the hyphen and the underscore. *)
Definition is_url_safe (c : ascii) : bool :=
  is_alnum c || Ascii.eqb c "-"%char || Ascii.eqb c "_"%char.

(** The characters of padded standard base64. *)
Definition is_std_base64 (c : ascii) : bool :=
  is_alnum c || Ascii.eqb c "+"%char || Ascii.eqb c "/"%char
  || Ascii.eqb c "="%char.

Definition chars_all (P : ascii -> bool) (s : string) : Prop :=
  forallb P (list_ascii_of_string s) = true.

Definition hex_nibbles_check (b : byte) : bool :=
  is_lower_hex (hex.digit (Z.shiftr (byte_val b) 4))
  && is_lower_hex (hex.digit (Z.land (byte_val b) 15)).

(** A string of the shape 8-4-4-4-12, and the 32 characters between its
    hyphens. *)
Definition uuid_shaped (s body : string) : Prop :=
  exists a b c d e,
    s = a +:+ "-" +:+ b +:+ "-" +:+ c +:+ "-" +:+ d +:+ "-" +:+ e
    /\ String.length a = 8%nat /\ String.length b = 4%nat
    /\ String.length c = 4%nat /\ String.length d = 4%nat
    /\ String.length e = 12%nat
    /\ body = a +:+ b +:+ c +:+ d +:+ e.

End EncodingSpec.

Section StoreSpec.
Import Go models database.

(** A record and what a patch of the record [oid] makes of it: the
    flags apart, nothing changes, and a record with another identifier
    does not change at all. *)
Definition patched_from (oid : ObjectID) (u u' : Update) : Prop :=
  ID u' = ID u /\ ProjectSlug u' = ProjectSlug u
  /\ UpdateID u' = UpdateID u /\ RuntimeVersion u' = RuntimeVersion u
  /\ Channel u' = Channel u /\ Platform u' = Platform u
  /\ BundlePath u' = BundlePath u /\ CreatedAt u' = CreatedAt u
  /\ IsRollback u' = IsRollback u /\ Downloads u' = Downloads u
  /\ Metadata u' = Metadata u
  /\ (ID u <> oid -> u' = u).

(** The identifiers of a collection are those of a MongoDB collection:
    no two documents share one. *)
Definition unique_ids (docs : list Update) : Prop := NoDup (map ID docs).

(** The downloads counted by all the records of a collection. *)
Definition total_downloads (docs : list Update) : Z :=
  fold_right (fun u acc => Downloads u + acc) 0 docs.

End StoreSpec.

Section StoreScenario.
Import Go models database gin handlers.admin.

(** A second record of the demonstration: the update of a later day,
    and the record as a client submits it, without an identifier. *)
Definition later_update : Update :=
  set_CreatedAt 1735873445678 (set_ID (demo.oid_of 3) (demo.update_at 100)).

Definition submitted_update : Update :=
  set_ID NilObjectID (demo.update_at 100).

(** The patch request that switches the record with the identifier
    [id] off. *)
Definition patch_request_for (id : string) : Context :=
  {| Method := "PATCH"; URLPath := "/api/admin/updates/" +:+ id;
     Header := ∅; QueryParams := ∅;
     Params := {[ "id" := id ]};
     MultipartError := None; PostFormValues := ∅; FormFiles := ∅;
     Body := demo.bytes ("{" +:+ dq +:+ "isActive" +:+ dq +:+ ":false}") |}.

(** The ingestion request of the demonstration with a rollout
    percentage in its form. *)
Definition upload_with_rollout (percentage : string) : Context :=
  {| Method := "POST"; URLPath := URLPath upload.request;
     Header := ∅; QueryParams := ∅; Params := ∅;
     MultipartError := None;
     PostFormValues :=
       <[ "rolloutPercentage" := percentage ]>
         (PostFormValues upload.request);
     FormFiles := FormFiles upload.request;
     Body := [] |}.

End StoreScenario.

Section ListingScenario.
Import Go models database gin handlers.admin.

(** A request to delete the record, or the project, that the route
    names. *)
Definition delete_request (key value : string) : Context :=
  demo.request "DELETE"
    ("/api/admin/" +:+ (if bool_decide (key = "slug") then "projects/"
                        else "updates/") +:+ value)
    ∅ ∅ {[ key := value ]}.

(** The project of the demonstration, and an update of another
    project. *)
Definition demo_project : Project :=
  {| ProjectID := demo.oid_of 9; Slug := "demo"; Name := "demo";
     Description := ""; ProjectCreatedAt := 1735787045000;
     UpdateCount := 0 |}.

Definition other_update : Update :=
  {| ID := demo.oid_of 4;
     ProjectSlug := "other";
     UpdateID := "0a1b2c3d-0000-0000-0000-000000000004";
     RuntimeVersion := "1";
     Channel := "production";
     Platform := "android";
     BundlePath := "";
     CreatedAt := 1735787045999;
     IsActive := true;
     IsRollback := false;
     RolloutPercentage := 100;
     Downloads := 0;
     Metadata := Some demo.hashed_metadata |}.

(** An admin handler with a project repository that holds the project
    of the demonstration. *)
Definition project_handler (docs : list Update) : AdminHandler :=
  {| updateRepo := Some {| collection := docs |};
     cloudinaryService := None;
     projectRepo := Some {| projects := Some [demo_project] |} |}.

End ListingScenario.

Section CounterSpec.
Import Go models database.

(** Whether a record of a collection has the identifier. *)
Definition has_id (oid : ObjectID) (docs : list Update) : bool :=
  existsb (fun u => bool_decide (ID u = oid)) docs.

(** A record and the record with one download more. *)
Definition counted_from (u u' : Update) : Prop :=
  u' = u \/ u' = set_Downloads (Downloads u + 1) u.

End CounterSpec.

Section ProjectScenario.
Import Go models database gin handlers.admin.

(** The ingestion of the demonstration by a handler that keeps
    projects. *)
Definition ingest_handler (ps : list Project) : AdminHandler :=
  {| updateRepo := Some {| collection := [] |};
     cloudinaryService := None;
     projectRepo := Some {| projects := Some ps |} |}.

Definition second_demo_project : Project :=
  {| ProjectID := NilObjectID; Slug := "demo"; Name := "again";
     Description := "created twice"; ProjectCreatedAt := 0;
     UpdateCount := 7 |}.

End ProjectScenario.

Section KeyScenario.
Import Go database repositories.

(** Thirty-two bytes as a random source may draw them. *)
Definition drawn_bytes : list byte :=
  map (fun n => byte_of_Z (Z.of_nat n)) (seq 1 32).

Definition no_keys : apikeys.APIKeyRepository :=
  {| apikeys.collection := Some [] |}.

End KeyScenario.

Section AuthSpec.
Import Go gin sys.

(** An [Authorization] header that carries the secret: a scheme without
    a space that reads [bearer] in lower case, one space, and the
    secret. *)
Definition bearer_of (lib : Lib) (secret header : string) : Prop :=
  exists scheme,
    header = scheme +:+ " " +:+ secret
    /\ ~ In " "%char (list_ascii_of_string scheme)
    /\ strings_ToLower lib scheme = "bearer".

(** The variables [Validate] asks for. *)
Definition required_variables : list string :=
  ["MONGODB_URI"; "CLOUDINARY_CLOUD_NAME"; "CLOUDINARY_API_KEY";
   "CLOUDINARY_API_SECRET"].

Definition is_set (env : gmap string string) (key : string) : Prop :=
  exists value, env !! key = Some value /\ value <> "".

End AuthSpec.

Section ToolSpec.
Import Go.

(** The digit of the version and the digit of the variant of a UUID made
    from the bytes [b6] and [b8] of the buffer. *)
Definition version_digit_check (b6 : byte) : bool :=
  Ascii.eqb
    (hex.digit (Z.shiftr (byte_val (byte_of_Z
                                      (Z.lor (Z.land (byte_val b6) 15) 64))) 4))
    "4"%char.

Definition variant_digit_check (b8 : byte) : bool :=
  let v := hex.digit (Z.shiftr (byte_val (byte_of_Z
                                            (Z.lor (Z.land (byte_val b8) 63)
                                               128))) 4) in
  Ascii.eqb v "8"%char || Ascii.eqb v "9"%char || Ascii.eqb v "a"%char
  || Ascii.eqb v "b"%char.

(** A buffer as the random source may leave it. *)
Definition drawn_buffer : list byte := repeat xff 16.

End ToolSpec.

Section AnswerSpec.
Import Go models gin sys database handlers handlers.manifest.
Context {Rand : Type}.
Context (lib : Lib).

(** The signature a part carries: the header the signing service makes
    of the bytes of the part, and none unless the client asked for one
    and the service could make it. *)
Definition signed_as_asked (h : ManifestHandler Rand) (c : Context)
    (part : Part) : Prop :=
  match partHeader part !! "expo-signature" with
  | Some signature =>
      GetHeader c "expo-expect-signature" <> ""
      /\ services.CreateSignatureHeader (signingService h) (partData part)
         = Ok signature
  | None =>
      GetHeader c "expo-expect-signature" = ""
      \/ exists err,
           services.CreateSignatureHeader (signingService h) (partData part)
           = Err err
  end.

(** The two kinds of answers of the manifest endpoint: an error in
    JSON, and a multipart body of one part, a manifest or a
    directive. *)
Definition refusal (c : Context) (r : Response) : Prop :=
  exists code msg,
    r = error_json code msg
    /\ In code [400; 404; 405; 500; 503]
    /\ (code = 404 -> protocol_version c = 0).

Definition one_part_answer (h : ManifestHandler Rand) (c : Context)
    (boundary : string) (r : Response) : Prop :=
  exists name part,
    (name = "manifest" \/ name = "directive")
    /\ status r = 200
    /\ headers r !! "expo-protocol-version" = Some (Itoa (protocol_version c))
    /\ payload r
       = Data ("multipart/mixed; boundary=" +:+ boundary) boundary [part]
    /\ partHeader part !! "Content-Disposition"
       = Some ("form-data; name=" +:+ dq +:+ name +:+ dq)
    /\ partHeader part !! "Content-Type" = Some "application/json"
    /\ signed_as_asked h c part.

(** The request with another [expo-current-update-id]. *)
Definition with_current_update_id (current : string) (c : Context)
    : Context :=
  {| Method := Method c; URLPath := URLPath c;
     Header := <[ "expo-current-update-id" := current ]> (Header c);
     QueryParams := QueryParams c;
     Params := Params c;
     MultipartError := MultipartError c;
     PostFormValues := PostFormValues c;
     FormFiles := FormFiles c;
     Body := Body c |}.

End AnswerSpec.

Section AnswerScenario.
Import Go models gin sys database handlers handlers.manifest.

(** A record for every platform whose metadata lists ios alone. *)
Definition ios_only_metadata : UpdateMetadata :=
  {| FileMetadata :=
       Some {[ "ios" :=
                 {| Bundle := "bundles/ios-a.js";
                    BundleUrl := "";
                    BundleKey := "2d711642b726b04401627ca9fbac32f5";
                    BundleHash := "LXEWQrcmsEQBYnyp-6wy9chTD7GQPMTbAiWHF5IaSIE";
                    Assets := [] |} ]};
     ExpoConfig := None |}.

Definition ios_only_update : Update :=
  {| ID := demo.oid_of 5;
     ProjectSlug := "demo";
     UpdateID := "0a1b2c3d-0000-0000-0000-000000000005";
     RuntimeVersion := "1";
     Channel := "production";
     Platform := "all";
     BundlePath := "";
     CreatedAt := 1735787045678;
     IsActive := true;
     IsRollback := false;
     RolloutPercentage := 100;
     Downloads := 0;
     Metadata := Some ios_only_metadata |}.

End AnswerScenario.

Section AssetSpec.
Import Go models gin sys database handlers handlers.assets.
Context (lib : Lib).

(** The file the asset endpoint serves for a request. *)
Definition served_path (h : AssetsHandler) (c : Context) : string :=
  filepath_Join lib (updatesDir h)
    (filepath_FromSlash lib (filepath_Clean lib (Query c "asset"))).

(** The repository once the tasks have run. *)
Definition run_all (tasks : list Task) (r : option UpdateRepository)
    : option UpdateRepository :=
  fold_left (fun r t => run t r) tasks r.

End AssetSpec.

Section LocalAssetScenario.
Import Go models gin sys database handlers handlers.assets.

(** A request for a bundle that lies in the updates directory. *)
Definition local_request : Context :=
  demo.request "GET" "/api/assets" ∅
    (<[ "asset" := "demo/bundles/android-a.js" ]>
       (<[ "platform" := "android" ]>
          (<[ "isLaunchAsset" := "true" ]>
             (<[ "updateId" := "000000000000000000000001" ]>
                {[ "runtimeVersion" := "1" ]})))) ∅.

Definition local_files : FS :=
  demo.tree [("/updates/demo/bundles/android-a.js", "x");
             ("/updates/demo/assets/Logo.PNG", "logo")].

(** A request for an asset by its path, and a request for a directory
    of the updates directory. *)
Definition request_for (asset : string) : Context :=
  demo.request "GET" "/api/assets" ∅
    (<[ "asset" := asset ]>
       (<[ "platform" := "ios" ]> {[ "runtimeVersion" := "1" ]})) ∅.

Definition counting_handler : AssetsHandler :=
  {| updatesDir := "/updates";
     updateRepo := Some {| collection := [demo.update_at 100] |} |}.

End LocalAssetScenario.

Section RevocationScenario.
Import Go database repositories.

(** The key [Create] hands out for the bytes drawn, and its record. *)
Definition issued_key : string * apikeys.APIKey :=
  match fst (apikeys.Create no_keys (Ok drawn_bytes) (demo.oid_of 11)
               1735873445678 "ci" ["write"]) with
  | Ok issued => issued
  | Err _ =>
      ("", {| apikeys.ID := []; apikeys.Name := ""; apikeys.KeyHash := "";
              apikeys.Prefix := ""; apikeys.Scopes := [];
              apikeys.LastUsedAt := 0; apikeys.CreatedAt := 0 |})
  end.

End RevocationScenario.

(* ===================================================================== *)
(** * Properties *)
(* ===================================================================== *)

(** ** The library: the transcriptions on the examples of its documentation *)

Section LibraryExamples.
Import Go models database.

Example Atoi_examples :
  Atoi "0" = 0 /\ Atoi "250" = 250 /\ Atoi "-7" = -7 /\ Atoi "+7" = 7
  /\ Atoi "ten" = 0 /\ Atoi "12x" = 0 /\ Atoi "" = 0 /\ Atoi "-" = 0
  /\ Atoi "9223372036854775807" = MaxInt64
  /\ Atoi "9223372036854775808" = MaxInt64
  /\ Atoi "-9223372036854775808" = MinInt64
  /\ Atoi "-9223372036854775809" = MinInt64
  /\ Atoi "99999999999999999999" = MaxInt64
  /\ Atoi "99999999999999999999x" = MaxInt64
  /\ Atoi "-99999999999999999999x" = MinInt64
  /\ Atoi "1844674407370955161x" = 0.
Proof. vm_compute. repeat split. Qed.

Example Clean_examples :
  filepath.Clean "a/c" = "a/c" /\ filepath.Clean "a//c" = "a/c"
  /\ filepath.Clean "a/c/." = "a/c" /\ filepath.Clean "a/c/b/.." = "a/c"
  /\ filepath.Clean "/../a/c" = "/a/c"
  /\ filepath.Clean "/../a/b/../././/c" = "/a/c"
  /\ filepath.Clean "" = "." /\ filepath.Clean "/" = "/"
  /\ filepath.Clean "abc/" = "abc" /\ filepath.Clean "../../abc" = "../../abc"
  /\ filepath.Clean "abc/def/../../.." = ".."
  /\ filepath.Clean "abc/../../././../def" = "../../def"
  /\ filepath.Clean "../../etc/passwd" = "../../etc/passwd"
  /\ filepath.Clean "a/../../etc/passwd" = "../etc/passwd"
  /\ filepath.Clean "a/..b" = "a/..b".
Proof. vm_compute. repeat split. Qed.

Example Join_Ext_examples :
  filepath.Join ["a"; "b"] = "a/b" /\ filepath.Join ["a"; ""] = "a"
  /\ filepath.Join [""; "b"] = "b" /\ filepath.Join [""; ""] = ""
  /\ filepath.Join ["/updates"; "demo/bundles/android-a.js"]
     = "/updates/demo/bundles/android-a.js"
  /\ filepath.Join ["a/b"; "../../../xyz"] = "../xyz"
  /\ filepath.Ext "index.android.bundle" = ".bundle"
  /\ filepath.Ext "a.b/c" = "" /\ filepath.Ext "x.tar.gz" = ".gz"
  /\ filepath.Ext "logo" = "" /\ filepath.Ext "a/b." = "."
  /\ gostrings.ToLower ".PNG" = ".png".
Proof. vm_compute. repeat split. Qed.

Example Rel_examples :
  filepath.Rel "a/b" "a/b" = Some "."
  /\ filepath.Rel "ab/cd" "ab/cde" = Some "../cde"
  /\ filepath.Rel "a/b" "a/b/c/d" = Some "c/d"
  /\ filepath.Rel "a/b/c" "a/c/d" = Some "../../c/d"
  /\ filepath.Rel "a/b/c/d" "a/b" = Some "../.."
  /\ filepath.Rel "/a/b" "/a/b/c" = Some "c"
  /\ filepath.Rel "." "a/b" = Some "a/b"
  /\ filepath.Rel ".." "a" = None
  /\ filepath.Rel "a" "/a" = None
  /\ filepath.Rel "/updates" "/updates/demo/x.js" = Some "demo/x.js".
Proof. vm_compute. repeat split. Qed.

Example Parse_examples :
  url.Parse "https://cdn.example/x"
  = Some {| url.Scheme := "https"; url.Host := "cdn.example" |}
  /\ url.Parse "//cdn.example/x"
     = Some {| url.Scheme := ""; url.Host := "cdn.example" |}
  /\ url.Parse "cdn/x" = Some {| url.Scheme := ""; url.Host := "" |}
  /\ url.Parse "/x?y=1#z" = Some {| url.Scheme := ""; url.Host := "" |}
  /\ url.Parse "mailto:a@b" = Some {| url.Scheme := "mailto"; url.Host := "" |}
  /\ url.Parse "HTTP://Host:8080/p"
     = Some {| url.Scheme := "http"; url.Host := "Host:8080" |}
  /\ url.Parse ":x" = None /\ url.Parse "a:b/c:d" <> None
  /\ url.Parse "x/y:z" <> None /\ url.Parse "x:y/z" <> None
  /\ url.Parse "1x:y" = None /\ url.Parse "%zz" = None
  /\ url.Parse "http://a b/" = None /\ url.Parse "http://a:b/" = None.
Proof. vm_compute. repeat split; discriminate. Qed.

Example json_examples :
  encoding_json.render
    (JObj [("a<b", JStr ("x" +:+ dq +:+ "y&z"));
           ("n", JArr [JNum (-5); JNull])])
  = "{" +:+ dq +:+ "a\u003cb" +:+ dq +:+ ":" +:+ dq +:+ "x\" +:+ dq
      +:+ "y\u0026z" +:+ dq +:+ "," +:+ dq +:+ "n" +:+ dq
      +:+ ":[-5,null]}"
  /\ encoding_json.UnmarshalMetadata (demo.bytes demo.metadata_json)
     = Some demo.parsed_metadata
  /\ encoding_json.UnmarshalMetadata (demo.bytes "{}")
     = Some {| FileMetadata := None; ExpoConfig := None |}
  /\ encoding_json.UnmarshalMetadata (demo.bytes "[]") = None
  /\ encoding_json.UnmarshalMetadata (demo.bytes "{") = None
  /\ encoding_json.UnmarshalObject (demo.bytes "null") = Some None
  /\ encoding_json.UnmarshalObject
       (demo.bytes ("{" +:+ dq +:+ "b" +:+ dq +:+ ":1," +:+ dq +:+ "a" +:+ dq
                      +:+ ":[true]}"))
     = Some (Some [("a", JArr [JBool true]); ("b", JNum 1)])
  /\ encoding_json.BindPatch
       (demo.bytes ("{" +:+ dq +:+ "rolloutPercentage" +:+ dq +:+ ":150}"))
     = Ok (None, Some 150)
  /\ encoding_json.BindPatch
       (demo.bytes ("{" +:+ dq +:+ "isActive" +:+ dq +:+ ":false}"))
     = Ok (Some false, None)
  /\ encoding_json.BindPatch (demo.bytes "{}") = Ok (None, None)
  /\ encoding_json.BindPatch [] = Err "EOF".
Proof. vm_compute. repeat split. Qed.

Example ObjectIDFromHexError_examples :
  ObjectIDFromHexError "abc"
  = "the provided hex string is not a valid ObjectID"
  /\ ObjectIDFromHexError "00000000000000000000000g"
     = "encoding/hex: invalid byte: U+0067 'g'"
  /\ ObjectIDFromHexError "zz0000000000000000000001"
     = "encoding/hex: invalid byte: U+007A 'z'".
Proof. vm_compute. repeat split. Qed.

End LibraryExamples.

(** ** Bytes and strings *)

Section Bytes.
Import Go.

Lemma byte_val_range (b : byte) : 0 <= byte_val b < 256.
Proof.
  unfold byte_val. pose proof (Byte.to_N_bounded b) as H.
  split; [apply N2Z.is_nonneg | ].
  apply N.lt_succ_r in H. change (N.succ 255) with 256%N in H. lia.
Qed.

Lemma byte_of_val (b : byte) : byte_of_Z (byte_val b) = b.
Proof.
  unfold byte_of_Z. pose proof (byte_val_range b) as H.
  rewrite Z.mod_small by exact H.
  unfold byte_val. rewrite N2Z.id, Byte.of_to_N. reflexivity.
Qed.

Lemma val_of_byte (z : Z) : 0 <= z < 256 -> byte_val (byte_of_Z z) = z.
Proof.
  intros H. unfold byte_of_Z. rewrite Z.mod_small by exact H.
  destruct (Byte.of_N (Z.to_N z)) as [b|] eqn:E.
  - apply Byte.to_of_N in E. unfold byte_val. rewrite E. lia.
  - apply Byte.of_N_None_iff in E. lia.
Qed.

Lemma all_bytes_complete (b : byte) : In b all_bytes.
Proof.
  unfold all_bytes. apply in_map_iff.
  exists (Z.to_nat (byte_val b)). pose proof (byte_val_range b) as H. split.
  - rewrite Z2Nat.id by lia. apply byte_of_val.
  - apply in_seq. lia.
Qed.

(** A statement about all bytes can be decided by running it. *)
Lemma forall_bytes (P : byte -> bool) :
  forallb P all_bytes = true -> forall b, P b = true.
Proof.
  intros H b. rewrite forallb_forall in H. apply H, all_bytes_complete.
Qed.

Lemma forall_bytes2 (P : byte -> byte -> bool) :
  forallb (fun a => forallb (P a) all_bytes) all_bytes = true ->
  forall a b, P a b = true.
Proof.
  intros H a b.
  apply (forall_bytes (P a)). apply (forall_bytes _ H a).
Qed.

Lemma list_of_string_of_list (cs : list ascii) :
  list_ascii_of_string (string_of_list_ascii cs) = cs.
Proof. induction cs as [|c cs IH]; simpl; [reflexivity | now rewrite IH]. Qed.

Lemma length_string_of_list (cs : list ascii) :
  String.length (string_of_list_ascii cs) = length cs.
Proof. induction cs as [|c cs IH]; simpl; [reflexivity | now rewrite IH]. Qed.

Lemma substring_of_list (n : nat) (cs : list ascii) :
  String.substring 0 n (string_of_list_ascii cs)
  = string_of_list_ascii (firstn n cs).
Proof.
  revert cs. induction n as [|n IH]; intros [|c cs]; simpl;
    try reflexivity.
  now rewrite IH.
Qed.

End Bytes.

(** ** Hexadecimal: encoding then decoding gives the bytes back *)

Section Hex.
Import Go.

Lemma hex_byte_roundtrip (b : byte) (cs : list ascii) :
  hex.decode_chars
    (hex.digit (Z.shiftr (byte_val b) 4)
       :: hex.digit (Z.land (byte_val b) 15) :: cs)
  = match hex.decode_chars cs with
    | Some bs => Some (b :: bs)
    | None => None
    end.
Proof.
  assert (H : hex_byte_check b = true)
    by (apply forall_bytes; vm_compute; reflexivity).
  unfold hex_byte_check in H. cbn [hex.decode_chars].
  destruct (hex.from_hex_char (hex.digit (Z.shiftr (byte_val b) 4)));
    [| discriminate].
  destruct (hex.from_hex_char (hex.digit (Z.land (byte_val b) 15)));
    [| discriminate].
  apply Byte.byte_dec_bl in H. rewrite H. reflexivity.
Qed.

Lemma hex_decode_encode_chars (bs : list byte) :
  hex.decode_chars (hex.encode_chars bs) = Some bs.
Proof.
  induction bs as [|b bs IH]; [reflexivity |].
  cbn [hex.encode_chars]. rewrite hex_byte_roundtrip, IH. reflexivity.
Qed.

Lemma hex_decode_encode (bs : list byte) :
  hex.DecodeString (hex.EncodeToString bs) = Some bs.
Proof.
  unfold hex.DecodeString, hex.EncodeToString.
  rewrite list_of_string_of_list. apply hex_decode_encode_chars.
Qed.

Lemma hex_encode_length (bs : list byte) :
  length (hex.encode_chars bs) = (2 * length bs)%nat.
Proof. induction bs as [|b bs IH]; simpl; [reflexivity | rewrite IH; lia]. Qed.

Lemma hex_encode_firstn (n : nat) (bs : list byte) :
  firstn (2 * n) (hex.encode_chars bs) = hex.encode_chars (firstn n bs).
Proof.
  revert bs. induction n as [|n IH]; intros bs; [reflexivity |].
  replace (2 * S n)%nat with (S (S (2 * n))) by lia.
  destruct bs as [|b bs]; [reflexivity |].
  cbn [hex.encode_chars firstn]. rewrite IH. reflexivity.
Qed.

(** Slicing the hex form to its first [2 n] digits is the hex form of the
    first [n] bytes. *)
Lemma hex_slice_prefix (n : nat) (bs : list byte) :
  services.slice (hex.EncodeToString bs) 0 (2 * n)
  = hex.EncodeToString (firstn n bs).
Proof.
  unfold services.slice, hex.EncodeToString.
  rewrite Nat.sub_0_r, substring_of_list, hex_encode_firstn. reflexivity.
Qed.

End Hex.

(** ** Base64 without padding: encoding then decoding gives the bytes back *)

Section Base64.
Import Go base64.

Lemma is_some_eq_spec o v : is_some_eq o v = true -> o = Some v.
Proof.
  destruct o as [x|]; simpl; [| discriminate].
  intros H. apply Z.eqb_eq in H. now subst.
Qed.

Lemma url_char_roundtrip (v : Z) :
  sextet_ok v = true ->
  is_newline (enc_char RawURLEncoding v) = false
  /\ dec_char RawURLEncoding (enc_char RawURLEncoding v) = Some v.
Proof.
  intros Hv. unfold sextet_ok in Hv.
  apply andb_prop in Hv as [H0 H1].
  apply Z.leb_le in H0. apply Z.ltb_lt in H1.
  assert (Hall : forallb url_char_check (map Z.of_nat (seq 0 64)) = true)
    by (vm_compute; reflexivity).
  rewrite forallb_forall in Hall.
  assert (Hin : In v (map Z.of_nat (seq 0 64))).
  { apply in_map_iff. exists (Z.to_nat v). split; [lia |].
    apply in_seq. lia. }
  specialize (Hall v Hin). unfold url_char_check in Hall.
  apply andb_prop in Hall as [Hn Hd]. split.
  - now apply negb_true_iff in Hn.
  - now apply is_some_eq_spec.
Qed.

(** The facts about one quantum, each decided by running it on all bytes
    it depends on. *)
Lemma sextet0_ok a : sextet_ok (sextet0 (byte_val a)) = true.
Proof. revert a. apply forall_bytes. vm_compute. reflexivity. Qed.

Lemma sextet3_ok a : sextet_ok (sextet3 (byte_val a)) = true.
Proof. revert a. apply forall_bytes. vm_compute. reflexivity. Qed.

Lemma sextet1_ok a b : sextet_ok (sextet1 (byte_val a) (byte_val b)) = true.
Proof. revert a b. apply forall_bytes2. vm_compute. reflexivity. Qed.

Lemma sextet2_ok a b : sextet_ok (sextet2 (byte_val a) (byte_val b)) = true.
Proof. revert a b. apply forall_bytes2. vm_compute. reflexivity. Qed.

Lemma sextet1_zero_ok a : sextet_ok (sextet1 (byte_val a) 0) = true.
Proof. revert a. apply forall_bytes. vm_compute. reflexivity. Qed.

Lemma sextet2_zero_ok a : sextet_ok (sextet2 (byte_val a) 0) = true.
Proof. revert a. apply forall_bytes. vm_compute. reflexivity. Qed.

Lemma octet0_sextets a b :
  octet0 (sextet0 (byte_val a)) (sextet1 (byte_val a) (byte_val b)) = a.
Proof.
  apply Byte.byte_dec_bl. revert a b. apply forall_bytes2.
  vm_compute. reflexivity.
Qed.

Lemma octet0_sextets_zero a :
  octet0 (sextet0 (byte_val a)) (sextet1 (byte_val a) 0) = a.
Proof.
  apply Byte.byte_dec_bl. revert a. apply forall_bytes.
  vm_compute. reflexivity.
Qed.

Lemma sextet1_low a b :
  Z.land (sextet1 (byte_val a) (byte_val b)) 15 = Z.shiftr (byte_val b) 4.
Proof.
  apply Z.eqb_eq. revert a b. apply forall_bytes2. vm_compute. reflexivity.
Qed.

Lemma sextet2_high b c :
  Z.shiftr (sextet2 (byte_val b) (byte_val c)) 2 = Z.land (byte_val b) 15.
Proof.
  apply Z.eqb_eq. revert b c. apply forall_bytes2. vm_compute. reflexivity.
Qed.

Lemma sextet2_zero_high b :
  Z.shiftr (sextet2 (byte_val b) 0) 2 = Z.land (byte_val b) 15.
Proof.
  apply Z.eqb_eq. revert b. apply forall_bytes. vm_compute. reflexivity.
Qed.

Lemma nibbles_join b :
  byte_of_Z (Z.lor (Z.shiftl (Z.shiftr (byte_val b) 4) 4)
               (Z.land (byte_val b) 15)) = b.
Proof.
  apply Byte.byte_dec_bl. revert b. apply forall_bytes.
  vm_compute. reflexivity.
Qed.

Lemma octet1_sextets a b c :
  octet1 (sextet1 (byte_val a) (byte_val b))
         (sextet2 (byte_val b) (byte_val c)) = b.
Proof.
  unfold octet1. rewrite sextet1_low, sextet2_high. apply nibbles_join.
Qed.

Lemma octet1_sextets_zero a b :
  octet1 (sextet1 (byte_val a) (byte_val b)) (sextet2 (byte_val b) 0) = b.
Proof.
  unfold octet1. rewrite sextet1_low, sextet2_zero_high. apply nibbles_join.
Qed.

Lemma octet2_sextets b c :
  octet2 (sextet2 (byte_val b) (byte_val c)) (sextet3 (byte_val c)) = c.
Proof.
  apply Byte.byte_dec_bl. revert b c. apply forall_bytes2.
  vm_compute. reflexivity.
Qed.

(** Induction three bytes at a time. *)
Lemma list_ind3 {A} (P : list A -> Prop) :
  P [] -> (forall a, P [a]) -> (forall a b, P [a; b]) ->
  (forall a b c l, P l -> P (a :: b :: c :: l)) ->
  forall l, P l.
Proof.
  intros H0 H1 H2 H3.
  fix IH 1.
  intros [|a [|b [|c l]]];
    [apply H0 | apply H1 | apply H2 | apply H3, IH].
Qed.

Lemma encode_chars_sextets (bs : list byte) :
  encode_chars RawURLEncoding bs = map (enc_char RawURLEncoding) (sextets bs).
Proof.
  induction bs as [| a | a b | a b c l IH] using list_ind3;
    try reflexivity.
  cbn [encode_chars sextets map]. now rewrite IH.
Qed.

Lemma sextets_ok (bs : list byte) :
  forallb sextet_ok (sextets bs) = true.
Proof.
  induction bs as [| a | a b | a b c l IH] using list_ind3;
    cbn [sextets forallb];
    rewrite ?sextet0_ok, ?sextet1_ok, ?sextet2_ok, ?sextet3_ok,
      ?sextet1_zero_ok, ?sextet2_zero_ok; auto.
Qed.

Lemma sextets_of_encoded (ds : list Z) :
  forallb sextet_ok ds = true ->
  sextets_of RawURLEncoding (map (enc_char RawURLEncoding) ds) = Some ds.
Proof.
  induction ds as [|d ds IH]; [reflexivity |].
  cbn [forallb map sextets_of]. intros H.
  apply andb_prop in H as [Hd Hds].
  destruct (url_char_roundtrip d Hd) as [Hn Hc].
  rewrite Hn, Hc, (IH Hds). reflexivity.
Qed.

Lemma decode_sextets_roundtrip (bs : list byte) :
  decode_sextets (sextets bs) = Some bs.
Proof.
  induction bs as [| a | a b | a b c l IH] using list_ind3.
  - reflexivity.
  - cbn [sextets decode_sextets]. now rewrite octet0_sextets_zero.
  - cbn [sextets decode_sextets].
    now rewrite octet0_sextets, octet1_sextets_zero.
  - cbn [sextets decode_sextets].
    now rewrite IH, octet0_sextets, octet1_sextets, octet2_sextets.
Qed.

Lemma base64url_decode_encode (bs : list byte) :
  DecodeString RawURLEncoding (EncodeToString RawURLEncoding bs) = Some bs.
Proof.
  unfold DecodeString, EncodeToString.
  rewrite list_of_string_of_list, encode_chars_sextets.
  rewrite sextets_of_encoded by apply sextets_ok.
  apply decode_sextets_roundtrip.
Qed.

End Base64.

(** ** The hasher: key and hash are two forms of one digest *)

Section Hasher.
Import Go.

Lemma Sum256_length (data : list byte) : length (sha256.Sum256 data) = 32%nat.
Proof.
  unfold sha256.Sum256.
  destruct (sha256.blocks _ _ _) as [[[[[[[a b] c] d] e] f] g] h].
  reflexivity.
Qed.

Lemma ComputeSHA256Hash_length (data : list byte) :
  String.length (services.ComputeSHA256Hash data) = 64%nat.
Proof.
  unfold services.ComputeSHA256Hash, hex.EncodeToString.
  rewrite length_string_of_list, hex_encode_length, Sum256_length.
  reflexivity.
Qed.

Lemma key_of_prefix (data : list byte) :
  key_of data = hex.EncodeToString (firstn 16 (sha256.Sum256 data)).
Proof.
  unfold key_of, services.ComputeSHA256Hash.
  apply (hex_slice_prefix 16).
Qed.

Lemma key_of_length (data : list byte) : String.length (key_of data) = 32%nat.
Proof.
  rewrite key_of_prefix. unfold hex.EncodeToString.
  rewrite length_string_of_list, hex_encode_length, length_firstn,
    Sum256_length.
  reflexivity.
Qed.

(** Decoding the hash gives the 32-byte digest, decoding the key its first
    16 bytes. *)
Lemma key_hash_decode (data : list byte) :
  base64.DecodeString base64.RawURLEncoding (hash_of data)
    = Some (sha256.Sum256 data)
  /\ hex.DecodeString (key_of data) = Some (firstn 16 (sha256.Sum256 data))
  /\ length (sha256.Sum256 data) = 32%nat.
Proof.
  split; [| split].
  - apply base64url_decode_encode.
  - rewrite key_of_prefix. apply hex_decode_encode.
  - apply Sum256_length.
Qed.

(** The worked example of the specification: the file whose content is
    the single letter x. *)
Example key_of_x :
  key_of (list_byte_of_string "x") = "2d711642b726b04401627ca9fbac32f5".
Proof. vm_compute. reflexivity. Qed.

End Hasher.

(** ** The rollout selector *)

Section RolloutProperties.
Import Go.

Lemma char_val_range (c : ascii) : 0 <= char_val c < 256.
Proof.
  unfold char_val. pose proof (N_ascii_bounded c). lia.
Qed.

Lemma string_bytes_range (s : string) :
  Forall (fun b => 0 <= b < 256) (string_bytes s).
Proof.
  unfold string_bytes. apply List.Forall_forall. intros b Hb.
  apply in_map_iff in Hb as [c [<- _]]. apply char_val_range.
Qed.

Lemma string_bytes_length (s : string) :
  length (string_bytes s) = String.length s.
Proof.
  unfold string_bytes. rewrite length_map.
  induction s as [|c s IH]; simpl; [reflexivity | now rewrite IH].
Qed.

(** Every rune is a code point below 2^21, and there are no more runes
    than bytes. *)
Lemma runes_bounded (n : nat) :
  forall bs, (length bs <= n)%nat ->
  Forall (fun b => 0 <= b < 256) bs ->
  Forall rune_ok (utf8.runes bs) /\ (length (utf8.runes bs) <= length bs)%nat.
Proof.
  induction n as [|n IH]; intros bs Hlen Hbs.
  - destruct bs; [split; [constructor | reflexivity] | simpl in Hlen; lia].
  - destruct bs as [|b0 r0]; [split; [constructor | reflexivity] |].
    simpl in Hlen. apply Forall_cons in Hbs as [Hb0 Hr0].
    assert (Herr : Forall rune_ok (utf8.RuneError :: utf8.runes r0)
                   /\ (length (utf8.RuneError :: utf8.runes r0)
                       <= length (b0 :: r0))%nat).
    { destruct (IH r0 ltac:(lia) Hr0) as [Hok Hle]. split.
      - constructor; [unfold rune_ok, utf8.RuneError; lia | exact Hok].
      - simpl. lia. }
    cbn [utf8.runes].
    destruct (b0 <? 128) eqn:Hascii.
    { apply Z.ltb_lt in Hascii.
      destruct (IH r0 ltac:(lia) Hr0) as [Hok Hle]. split.
      - constructor; [unfold rune_ok; lia | exact Hok].
      - simpl. lia. }
    destruct (utf8.first b0) as [[[[| |] lo] hi]|]; [| | | exact Herr].
    + destruct r0 as [|b1 r1]; [exact Herr |].
      destruct (utf8.within lo hi b1); [| exact Herr].
      apply Forall_cons in Hr0 as [Hb1 Hr1]. simpl in Hlen.
      destruct (IH r1 ltac:(lia) Hr1) as [Hok Hle]. split.
      * constructor; [| exact Hok].
        unfold rune_ok.
        pose proof (Z.mod_pos_bound b0 32). pose proof (Z.mod_pos_bound b1 64).
        lia.
      * simpl. lia.
    + destruct r0 as [|b1 [|b2 r2]]; [exact Herr | exact Herr |].
      destruct (utf8.within lo hi b1 && utf8.within 128 191 b2);
        [| exact Herr].
      apply Forall_cons in Hr0 as [Hb1 Hr1].
      apply Forall_cons in Hr1 as [Hb2 Hr2]. simpl in Hlen.
      destruct (IH r2 ltac:(lia) Hr2) as [Hok Hle]. split.
      * constructor; [| exact Hok].
        unfold rune_ok.
        pose proof (Z.mod_pos_bound b0 16). pose proof (Z.mod_pos_bound b1 64).
        pose proof (Z.mod_pos_bound b2 64). lia.
      * simpl. lia.
    + destruct r0 as [|b1 [|b2 [|b3 r3]]];
        [exact Herr | exact Herr | exact Herr |].
      destruct (utf8.within lo hi b1 && utf8.within 128 191 b2
                && utf8.within 128 191 b3); [| exact Herr].
      apply Forall_cons in Hr0 as [Hb1 Hr1].
      apply Forall_cons in Hr1 as [Hb2 Hr2].
      apply Forall_cons in Hr2 as [Hb3 Hr3]. simpl in Hlen.
      destruct (IH r3 ltac:(lia) Hr3) as [Hok Hle]. split.
      * constructor; [| exact Hok].
        unfold rune_ok.
        pose proof (Z.mod_pos_bound b0 8). pose proof (Z.mod_pos_bound b1 64).
        pose proof (Z.mod_pos_bound b2 64). pose proof (Z.mod_pos_bound b3 64).
        lia.
      * simpl. lia.
Qed.

Lemma wrap64_small (z : Z) : - 2 ^ 63 <= z < 2 ^ 63 -> wrap64 z = z.
Proof. intros H. unfold wrap64. rewrite Z.mod_small; lia. Qed.

Lemma sum_bounded (l : list Z) :
  Forall rune_ok l ->
  0 <= fold_right Z.add 0 l <= Z.of_nat (length l) * 2 ^ 21.
Proof.
  induction 1 as [|r l Hr Hl IH]; simpl; [lia |].
  unfold rune_ok in Hr. lia.
Qed.

(** As long as the total stays below 2^63 the loop computes the plain
    sum. *)
Lemma wrapped_sum (l : list Z) :
  Forall rune_ok l ->
  forall acc, 0 <= acc -> acc + Z.of_nat (length l) * 2 ^ 21 < 2 ^ 63 ->
  fold_left (fun sum c => wrap64 (sum + c)) l acc
  = acc + fold_right Z.add 0 l.
Proof.
  induction 1 as [|r l Hr Hl IH]; intros acc Hacc Hbound; simpl; [lia |].
  unfold rune_ok in Hr.
  rewrite wrap64_small by (simpl length in Hbound; lia).
  rewrite IH; [lia | lia |]. simpl length in Hbound. lia.
Qed.

Lemma hashSum_rune_sum (f : string) :
  Z.of_nat (String.length f) < 2 ^ 40 ->
  services.hashSum f = rune_sum f /\ 0 <= rune_sum f.
Proof.
  intros Hlen. unfold services.hashSum, rune_sum, utf8.runes_of_string.
  destruct (runes_bounded (length (string_bytes f)) (string_bytes f)
              (le_n _) (string_bytes_range f)) as [Hok Hle].
  rewrite string_bytes_length in Hle.
  split.
  - rewrite wrapped_sum; [lia | exact Hok | lia |].
    assert (Z.of_nat (length (utf8.runes (string_bytes f))) < 2 ^ 40) by lia.
    lia.
  - apply sum_bounded, Hok.
Qed.

(** For a fingerprint of ASCII characters the runes are the bytes. *)
Lemma runes_ascii (bs : list Z) :
  Forall (fun b => b < 128) bs -> utf8.runes bs = bs.
Proof.
  induction 1 as [|b bs Hb Hbs IH]; [reflexivity |].
  cbn [utf8.runes]. apply Z.ltb_lt in Hb. rewrite Hb, IH. reflexivity.
Qed.

Lemma rune_sum_ascii (f : string) :
  Forall (fun b => b < 128) (string_bytes f) -> rune_sum f = byte_sum f.
Proof.
  intros H. unfold rune_sum, byte_sum, utf8.runes_of_string.
  now rewrite runes_ascii.
Qed.

End RolloutProperties.

Section RolloutClaims.
Import Go.

(** C6, as amended.  [ShouldReceiveUpdate] answers true for a percentage
    of 100 or more and false for one of 0 or less; otherwise, for a
    non-empty fingerprint (shorter than 2^40 bytes, so that the 64-bit sum
    cannot overflow), it answers whether the sum of the Unicode code
    points of the fingerprint, modulo 100, is below the percentage; for a
    fingerprint of ASCII characters that sum is the sum of its bytes.  In
    these three cases the random source is neither read nor advanced, so
    the answer is the same on every call, whatever the state of the
    service. *)
Theorem ShouldReceiveUpdate_deterministic_gate
    {Rand : Type} (Intn : Rand -> Z -> Z * Rand)
    (r : services.RolloutService Rand) (p : Z) (f : string) :
  (100 <= p -> services.ShouldReceiveUpdate Intn r p f = (true, r))
  /\ (p <= 0 -> services.ShouldReceiveUpdate Intn r p f = (false, r))
  /\ (0 < p < 100 -> f <> "" -> Z.of_nat (String.length f) < 2 ^ 40 ->
      services.ShouldReceiveUpdate Intn r p f
        = (rune_sum f mod 100 <? p, r)
      /\ (Forall (fun b => b < 128) (string_bytes f) ->
          rune_sum f = byte_sum f))
  /\ (100 <= p \/ p <= 0 \/ f <> "" ->
      forall (Rand' : Type) (Intn' : Rand' -> Z -> Z * Rand')
             (r' : services.RolloutService Rand'),
        fst (services.ShouldReceiveUpdate Intn r p f)
        = fst (services.ShouldReceiveUpdate Intn' r' p f)).
Proof.
  unfold services.ShouldReceiveUpdate, services.deterministicRollout.
  split; [| split; [| split]].
  - intros Hp. apply Z.leb_le in Hp. now rewrite Hp.
  - intros Hp.
    destruct (100 <=? p) eqn:H100; [apply Z.leb_le in H100; lia |].
    apply Z.leb_le in Hp. now rewrite Hp.
  - intros Hp Hf Hlen.
    destruct (100 <=? p) eqn:H100; [apply Z.leb_le in H100; lia |].
    destruct (p <=? 0) eqn:H0; [apply Z.leb_le in H0; lia |].
    rewrite bool_decide_eq_false_2 by assumption. cbn [negb].
    destruct (hashSum_rune_sum f Hlen) as [-> Hpos].
    rewrite Z.rem_mod_nonneg by lia.
    split; [reflexivity | apply rune_sum_ascii].
  - intros Hcase Rand' Intn' r'.
    destruct (100 <=? p) eqn:H100; [reflexivity |].
    destruct (p <=? 0) eqn:H0; [reflexivity |].
    apply Z.leb_gt in H100. apply Z.leb_gt in H0.
    destruct Hcase as [Hc | [Hc | Hc]]; [lia | lia |].
    rewrite bool_decide_eq_false_2 by assumption. reflexivity.
Qed.

Lemma ShouldReceiveUpdate_deterministic_gate_witness :
  (0 < 50 < 100 /\ "device-42" <> ""
   /\ Z.of_nat (String.length "device-42") < 2 ^ 40)
  /\ services.ShouldReceiveUpdate zero_source idle_rollout 50 "device-42"
     = (false, idle_rollout)
  /\ services.ShouldReceiveUpdate zero_source idle_rollout 100 "device-42"
     = (true, idle_rollout)
  /\ services.ShouldReceiveUpdate zero_source idle_rollout 0 "device-42"
     = (false, idle_rollout).
Proof.
  pose proof (ShouldReceiveUpdate_deterministic_gate zero_source
                idle_rollout 50 "device-42") as (_ & _ & Hmid & _).
  pose proof (ShouldReceiveUpdate_deterministic_gate zero_source
                idle_rollout 100 "device-42") as (Hhi & _).
  pose proof (ShouldReceiveUpdate_deterministic_gate zero_source
                idle_rollout 0 "device-42") as (_ & Hlo & _).
  assert (H1 : 0 < 50 < 100) by lia.
  assert (H2 : "device-42" <> "") by discriminate.
  assert (H3 : Z.of_nat (String.length "device-42") < 2 ^ 40)
    by (vm_compute; reflexivity).
  split; [exact (conj H1 (conj H2 H3)) |].
  split; [| split].
  - destruct (Hmid H1 H2 H3) as [-> _]. vm_compute. reflexivity.
  - apply Hhi. lia.
  - apply Hlo. lia.
Defined.

(** C6 as stated fails on a fingerprint that is not ASCII: the bytes of
    [e_acute] sum to 364, bucket 64, which is not below 50, but the loop
    sees the single rune 233, bucket 33, and answers true. *)
Lemma ShouldReceiveUpdate_not_byte_sum :
  ~ (0 < 50 < 100 -> e_acute <> "" ->
     fst (services.ShouldReceiveUpdate zero_source idle_rollout 50 e_acute)
     = (byte_sum e_acute mod 100 <? 50)).
Proof.
  intros H.
  assert (H1 : 0 < 50 < 100) by lia.
  assert (H2 : e_acute <> "") by discriminate.
  specialize (H H1 H2). vm_compute in H. discriminate H.
Qed.

End RolloutClaims.

(** ** The metadata store: latest wins *)

Section FindLatestProperties.
Import models database.

#[local] Instance newest_first_trans : Transitive newest_first.
Proof. unfold newest_first. intros a b c Hab Hbc. lia. Qed.

#[local] Instance newest_first_total : Total newest_first.
Proof.
  unfold newest_first. intros a b.
  destruct (Z_le_gt_dec (CreatedAt b) (CreatedAt a)); [left | right]; lia.
Qed.

(** The head of a list sorted newest first is a newest element. *)
Lemma head_sorted_newest (l : list Update) :
  match head (merge_sort newest_first l) with
  | Some u => In u l /\ forall v, In v l -> CreatedAt v <= CreatedAt u
  | None => l = []
  end.
Proof.
  pose proof (merge_sort_Permutation newest_first l) as Hperm.
  pose proof (StronglySorted_merge_sort newest_first l) as Hsorted.
  destruct (merge_sort newest_first l) as [|u rest]; simpl.
  - now apply Permutation_nil in Hperm.
  - split.
    + apply list_elem_of_In. rewrite <- Hperm. left.
    + intros v Hv. apply list_elem_of_In in Hv. rewrite <- Hperm in Hv.
      apply StronglySorted_inv in Hsorted as [_ Hall].
      apply elem_of_cons in Hv as [-> | Hv]; [lia |].
      rewrite List.Forall_forall in Hall.
      apply Hall. now apply list_elem_of_In.
Qed.

Lemma latest_filter_spec projectSlug runtimeVersion channel platform u :
  latest_filter projectSlug runtimeVersion channel platform u = true
  <-> matches_query projectSlug runtimeVersion channel platform u.
Proof.
  unfold latest_filter, matches_query, PlatformAll.
  rewrite !andb_true_iff, !bool_decide_eq_true.
  destruct (decide (platform = "")) as [-> | Hne].
  - rewrite bool_decide_eq_false_2 by (intros H; now apply H). tauto.
  - rewrite (bool_decide_eq_true_2 _ Hne).
    rewrite orb_true_iff, !bool_decide_eq_true. tauto.
Qed.

Lemma FindLatest_latest (repo : UpdateRepository)
    (projectSlug runtimeVersion channel platform : string) :
  exists res,
    FindLatest (Some repo) projectSlug runtimeVersion channel platform = Ok res
    /\ latest_among (matches_query projectSlug runtimeVersion channel platform)
         (collection repo) res.
Proof.
  unfold FindLatest. eexists. split; [reflexivity |].
  pose proof (head_sorted_newest
                (List.filter
                   (latest_filter projectSlug runtimeVersion channel platform)
                   (collection repo))) as H.
  destruct (head _) as [u|]; simpl.
  - destruct H as [Hin Hmax]. apply filter_In in Hin as [Hin Hf].
    split; [exact Hin |]. split; [now apply latest_filter_spec |].
    intros v Hv Hm. apply Hmax, filter_In. split; [exact Hv |].
    now apply latest_filter_spec.
  - intros v Hv Hm. apply latest_filter_spec in Hm.
    assert (Hin : In v (List.filter
                          (latest_filter projectSlug runtimeVersion channel
                             platform) (collection repo)))
      by (apply filter_In; auto).
    rewrite H in Hin. destruct Hin.
Qed.

End FindLatestProperties.

(** Sorting commutes with a map that preserves the order. *)
Section SortUnderMap.
Context {A : Type} (R : relation A) `{!forall x y, Decision (R x y)}.
Context (f : A -> A).
Hypothesis R_f : forall x y, R (f x) (f y) <-> R x y.

Lemma list_merge_map (l1 l2 : list A) :
  list_merge R (map f l1) (map f l2) = map f (list_merge R l1 l2).
Proof.
  revert l2. induction l1 as [|x1 l1 IH1]; intros l2.
  - cbn [map]. now rewrite !list_merge_nil_l.
  - induction l2 as [|x2 l2 IH2].
    + cbn [map]. now rewrite !list_merge_nil_r.
    + cbn [map]. rewrite !list_merge_cons.
      destruct (R_f x1 x2) as [Hto Hfrom].
      destruct (decide (R (f x1) (f x2))) as [H1|H1],
               (decide (R x1 x2)) as [H2|H2].
      * cbn [map]. f_equal. apply (IH1 (x2 :: l2)).
      * destruct (H2 (Hto H1)).
      * destruct (H1 (Hfrom H2)).
      * cbn [map]. f_equal. apply IH2.
Qed.

Lemma merge_list_to_stack_map (st : list (option (list A))) (l : list A) :
  merge_list_to_stack R (map (option_map (map f)) st) (map f l)
  = map (option_map (map f)) (merge_list_to_stack R st l).
Proof.
  revert l. induction st as [|[l'|] st IH]; intros l; cbn; try reflexivity.
  f_equal. rewrite list_merge_map. apply IH.
Qed.

Lemma merge_stack_map (st : list (option (list A))) :
  merge_stack R (map (option_map (map f)) st) = map f (merge_stack R st).
Proof.
  induction st as [|[l|] st IH]; cbn [map option_map merge_stack];
    [reflexivity | | exact IH].
  rewrite IH. apply list_merge_map.
Qed.

Lemma merge_sort_aux_map (l : list A) :
  forall st,
    merge_sort_aux R (map (option_map (map f)) st) (map f l)
    = map f (merge_sort_aux R st l).
Proof.
  induction l as [|x l IH]; intros st; cbn [map merge_sort_aux].
  - apply merge_stack_map.
  - rewrite <- IH. f_equal.
    apply (merge_list_to_stack_map st [x]).
Qed.

Lemma merge_sort_map (l : list A) :
  merge_sort R (map f l) = map f (merge_sort R l).
Proof. apply (merge_sort_aux_map l []). Qed.

End SortUnderMap.

Section FindLatestUnderRegate.
Import models database.

Lemma filter_map_commute {A} (P : A -> bool) (f : A -> A) (l : list A) :
  (forall x, P (f x) = P x) ->
  List.filter P (map f l) = map f (List.filter P l).
Proof.
  intros HP. induction l as [|x l IH]; [reflexivity |].
  cbn [map List.filter]. rewrite HP, IH. destruct (P x); reflexivity.
Qed.

(** [FindLatest] finds the same record whatever the rollout percentages
    are. *)
Lemma FindLatest_regate (repo : UpdateRepository) (percentage : Update -> Z)
    (projectSlug runtimeVersion channel platform : string) :
  FindLatest
    (Some {| collection := map (regate percentage) (collection repo) |})
    projectSlug runtimeVersion channel platform
  = match FindLatest (Some repo) projectSlug runtimeVersion channel platform with
    | Ok res => Ok (option_map (regate percentage) res)
    | Err e => Err e
    end.
Proof.
  unfold FindLatest. cbn [collection]. f_equal.
  rewrite filter_map_commute by (intros [? ? ? ? ? ? ? ? ? ? ? ? ?]; reflexivity).
  rewrite merge_sort_map by (intros [? ? ? ? ? ? ? ? ? ? ? ? ?] [? ? ? ? ? ? ? ? ? ? ? ? ?]; reflexivity).
  destruct (merge_sort newest_first _); reflexivity.
Qed.

End FindLatestUnderRegate.

Section FindLatestClaims.
Import Go models database.

(** C2, as amended.  On every state of the store and for every query,
    [FindLatest] returns without error; it returns a record with the
    greatest [createdAt] among the records whose project, runtime version
    and channel equal the query, that are active, and whose platform is
    the requested one or ["all"] -- or any platform at all when the
    requested platform is the empty string --, and it returns nothing
    exactly when no record matches. *)
Theorem FindLatest_latest_wins (repo : UpdateRepository)
    (projectSlug runtimeVersion channel platform : string) :
  exists res,
    FindLatest (Some repo) projectSlug runtimeVersion channel platform = Ok res
    /\ latest_among (matches_query projectSlug runtimeVersion channel platform)
         (collection repo) res.
Proof. apply FindLatest_latest. Qed.

(** C2 as stated fails for the empty platform: the store holds one
    android record, no record has the platform [""] or ["all"], so the
    claim wants no result, but [FindLatest] applies no platform filter and
    returns the android record. *)
Lemma FindLatest_empty_platform_unfiltered :
  ~ (exists res,
       FindLatest (Some {| collection := [demo.update_at 100] |})
         "demo" "1" "production" "" = Ok res
       /\ latest_among (matches_as_specified "demo" "1" "production" "")
            [demo.update_at 100] res).
Proof.
  intros [res [Hres Hlatest]].
  vm_compute in Hres. injection Hres as <-.
  destruct Hlatest as (_ & (_ & _ & _ & _ & [Hp | Hp]) & _);
    vm_compute in Hp; discriminate Hp.
Qed.

End FindLatestClaims.

Section CreateProperties.
Import Go models database.

(** What [Create] does on a connected repository when the insert
    succeeds: it appends one document, which is the caller's record with
    the creation time, the two defaults and the identifier filled in. *)
Lemma Create_connected (repo : UpdateRepository) (now : time.Time)
    (oid : ObjectID) (u : Update) :
  exists doc,
    Create (Some repo) now (Ok oid) u
    = (Some {| collection := collection repo ++ [doc] |}, doc, None)
    /\ ProjectSlug doc = ProjectSlug u /\ UpdateID doc = UpdateID u
    /\ RuntimeVersion doc = RuntimeVersion u /\ Platform doc = Platform u
    /\ BundlePath doc = BundlePath u /\ IsActive doc = IsActive u
    /\ IsRollback doc = IsRollback u /\ Metadata doc = Metadata u
    /\ Downloads doc = Downloads u /\ CreatedAt doc = now
    /\ RolloutPercentage doc
       = (if RolloutPercentage u =? 0 then 100 else RolloutPercentage u)
    /\ Channel doc
       = (if bool_decide (Channel u = "") then "production" else Channel u)
    /\ ID doc = (if bool_decide (ID u = NilObjectID) then oid else ID u).
Proof.
  unfold Create.
  destruct u as [id slug uid rv ch pf bp ca act rb rp dl md].
  cbv zeta. cbn [RolloutPercentage set_CreatedAt].
  destruct (rp =? 0); cbn [Channel set_RolloutPercentage set_CreatedAt];
    destruct (bool_decide (ch = ""));
    cbn [ID set_Channel set_RolloutPercentage set_CreatedAt];
    destruct (bool_decide (id = NilObjectID));
    (eexists; split; [reflexivity | cbn; repeat split; reflexivity]).
Qed.

(** When the insert fails, [Create] returns the error of the driver and
    leaves the collection as it is. *)
Lemma Create_failed (repo : UpdateRepository) (now : time.Time)
    (err : string) (u : Update) :
  exists u',
    Create (Some repo) now (Err err) u
    = (Some repo, u', Some ("failed to insert update: " +:+ err)).
Proof. unfold Create. eexists. reflexivity. Qed.

End CreateProperties.

Section RollbackClaims.
Import Go models database gin handlers.admin.

(** C9.  The record [CreateRollback] inserts has an empty project slug:
    the request supplies the runtime version and the channel, the
    platform is ["all"], the record is active, a rollback, at 100 percent,
    and carries no update identifier, bundle path or metadata.  Since
    [FindLatest] only returns records whose project slug equals the one
    asked for, no query for a non-empty project slug, on any state of the
    store, returns that record.  (The record is inserted when the insert
    of the driver succeeds, [oid] being the identifier it reports; when
    the insert fails the answer is 500 and the handler and its store are
    left as they were.) *)
Theorem CreateRollback_has_no_project (h : AdminHandler) (c : Context)
    (now : time.Time) (oid : ObjectID) (repo : UpdateRepository) :
  updateRepo h = Some repo ->
  (exists rb,
    CreateRollback h c now (Ok oid)
    = (respond StatusCreated
         (JSON [("message", VString "Rollback created successfully");
                ("previousId", VString (Param c "id"));
                ("rollback", VUpdate rb)]),
       with_updateRepo (Some {| collection := collection repo ++ [rb] |}) h)
    /\ ProjectSlug rb = "" /\ UpdateID rb = "" /\ BundlePath rb = ""
    /\ Metadata rb = None
    /\ RuntimeVersion rb = Query c "runtimeVersion"
    /\ Channel rb
       = (if bool_decide (DefaultQuery c "channel" "production" = "")
          then "production" else DefaultQuery c "channel" "production")
    /\ Platform rb = "all" /\ IsActive rb = true /\ IsRollback rb = true
    /\ RolloutPercentage rb = 100 /\ CreatedAt rb = now /\ ID rb = oid
    /\ forall r' projectSlug runtimeVersion channel platform u,
         projectSlug <> "" ->
         FindLatest r' projectSlug runtimeVersion channel platform
           = Ok (Some u) ->
         ProjectSlug u = projectSlug /\ u <> rb)
  /\ forall err,
       CreateRollback h c now (Err err)
       = (error_json 500 ("failed to insert update: " +:+ err), h).
Proof.
  intros Hrepo.
  split; [| intros err; unfold CreateRollback; rewrite Hrepo; reflexivity].
  unfold CreateRollback. rewrite Hrepo.
  match goal with
  | |- context [Create (Some repo) now (Ok oid) ?u] =>
      destruct (Create_connected repo now oid u)
        as (rb & -> & Hslug & Huid & Hrv & Hpf & Hbp & Hact & Hrb & Hmd
            & _ & Hca & Hrp & Hch & Hid)
  end.
  cbn in Hslug, Huid, Hrv, Hpf, Hbp, Hact, Hrb, Hmd, Hrp, Hch, Hid.
  exists rb. split; [reflexivity |].
  repeat (split; [assumption |]).
  intros [r'|] projectSlug runtimeVersion channel platform u Hne Hu;
    [| discriminate Hu].
  destruct (FindLatest_latest r' projectSlug runtimeVersion channel platform)
    as [res [Hres Hlatest]].
  rewrite Hu in Hres. injection Hres as <-.
  destruct Hlatest as (_ & (Hs & _) & _).
  split; [exact Hs |]. intros ->. congruence.
Qed.

End RollbackClaims.

(** ** Time stamps: the rendering names the instant *)

Section TimeProperties.
Import Go time.

Lemma all_from_spec (f : Z -> bool) (n : nat) :
  forall z, all_from f z n = true ->
  forall i, z <= i < z + Z.of_nat n -> f i = true.
Proof.
  induction n as [|n IH]; intros z H i Hi; [lia |].
  cbn [all_from] in H. apply andb_prop in H as [Hz Hrest].
  destruct (Z.eq_dec i z) as [-> | Hne]; [exact Hz |].
  apply (IH (z + 1) Hrest). lia.
Qed.

Lemma era_days_checked :
  all_from era_day_check 0 (Z.to_nat 146097) = true.
Proof. vm_cast_no_check (eq_refl true). Qed.

Lemma is_leap_era (y era : Z) : is_leap (y + era * 400) = is_leap y.
Proof.
  unfold is_leap.
  replace ((y + era * 400) mod 4) with (y mod 4)
    by (replace (era * 400) with (era * 100 * 4) by lia;
        now rewrite Z.mod_add by lia).
  replace ((y + era * 400) mod 100) with (y mod 100)
    by (replace (era * 400) with (era * 4 * 100) by lia;
        now rewrite Z.mod_add by lia).
  now rewrite Z.mod_add by lia.
Qed.

Lemma civil_of_days_roundtrip (days : Z) :
  let '(y, m, d) := civil_of_days days in
  days_of_civil y m d = days /\ valid_date y m d.
Proof.
  unfold civil_of_days.
  set (z := days + 719468).
  pose proof (Z.mod_pos_bound z 146097 ltac:(lia)) as Hdoe.
  pose proof (Z.div_mod z 146097 ltac:(lia)) as Hz.
  set (era := z / 146097) in *. set (doe := z mod 146097) in *.
  pose proof (all_from_spec era_day_check _ 0 era_days_checked doe
                ltac:(rewrite Z2Nat.id; lia)) as Hcheck.
  unfold era_day_check in Hcheck.
  unfold month_index, day_of_year. cbv zeta.
  set (yoe := year_of_era doe) in *.
  set (doy := doe - (365 * yoe + yoe / 4 - yoe / 100)) in *.
  set (mp := (5 * doy + 2) / 153) in *.
  set (d := doy - (153 * mp + 2) / 5 + 1) in *.
  set (m := if mp <? 10 then mp + 3 else mp - 9) in *.
  cbv zeta in Hcheck.
  repeat (apply andb_prop in Hcheck as [Hcheck ?]).
  repeat match goal with
         | H : (_ <=? _) = true |- _ => apply Z.leb_le in H
         | H : (_ <? _) = true |- _ => apply Z.ltb_lt in H
         end.
  assert (Hera : (yoe + era * 400) / 400 = era).
  { rewrite Z.div_add by lia. rewrite (Z.div_small yoe 400) by lia. lia. }
  assert (Hyoe : (yoe + era * 400) mod 400 = yoe).
  { rewrite Z.mod_add by lia. apply Z.mod_small. lia. }
  assert (Hm : 1 <= m <= 12) by (subst m; destruct (mp <? 10) eqn:E; lia).
  assert (Hmp : (if 2 <? m then m - 3 else m + 9) = mp)
    by (subst m; destruct (mp <? 10) eqn:E;
        [destruct (2 <? mp + 3) eqn:E' | destruct (2 <? mp - 9) eqn:E'];
        lia).
  split.
  - unfold days_of_civil.
    replace (if m <=? 2
             then (if m <=? 2 then yoe + era * 400 + 1 else yoe + era * 400) - 1
             else (if m <=? 2 then yoe + era * 400 + 1 else yoe + era * 400))
      with (yoe + era * 400) by (destruct (m <=? 2); lia).
    rewrite Hera, Hyoe, Hmp. subst d doy. lia.
  - unfold valid_date. split; [exact Hm |].
    replace (if m <=? 2 then yoe + era * 400 + 1 else yoe + era * 400)
      with ((if m <=? 2 then yoe + 1 else yoe) + era * 400)
      by (destruct (m <=? 2); lia).
    unfold days_in_month in *. rewrite is_leap_era. lia.
Qed.

Lemma fields_of_roundtrip (t : Time) :
  time_of (fields_of t) = t /\ valid_fields (fields_of t).
Proof.
  unfold fields_of, time_of, valid_fields.
  pose proof (civil_of_days_roundtrip (t / 86400000)) as Hcivil.
  destruct (civil_of_days (t / 86400000)) as [[y m] d].
  destruct Hcivil as [Hdays Hvalid]. cbn [year month day hour minute second milli].
  rewrite Hdays.
  pose proof (Z.mod_pos_bound t 86400000 ltac:(lia)) as Hrest.
  pose proof (Z.div_mod t 86400000 ltac:(lia)) as Ht.
  set (rest := t mod 86400000) in *. set (days := t / 86400000) in *.
  split; [| split; [exact Hvalid |]].
  - Z.div_mod_to_equations. lia.
  - Z.div_mod_to_equations. lia.
Qed.

Lemma appendInt_two (x : Z) : 0 <= x < 100 -> appendInt x 2 = two_digits x.
Proof.
  intros Hx.
  assert (H : all_from (fun x => String.eqb (appendInt x 2) (two_digits x))
                0 100 = true) by (vm_compute; reflexivity).
  apply String.eqb_eq. apply (all_from_spec _ _ 0 H). lia.
Qed.

Lemma appendInt_three (x : Z) :
  0 <= x < 1000 -> appendInt x 3 = three_digits x.
Proof.
  intros Hx.
  assert (H : all_from (fun x => String.eqb (appendInt x 3) (three_digits x))
                0 1000 = true) by (vm_compute; reflexivity).
  apply String.eqb_eq. apply (all_from_spec _ _ 0 H). lia.
Qed.

Lemma appendInt_four (x : Z) :
  0 <= x <= 9999 -> appendInt x 4 = four_digits x.
Proof.
  intros Hx.
  assert (H : all_from (fun x => String.eqb (appendInt x 4) (four_digits x))
                0 (Z.to_nat 10000) = true) by (vm_compute; reflexivity).
  apply String.eqb_eq. apply (all_from_spec _ _ 0 H).
  rewrite Z2Nat.id; lia.
Qed.

Lemma days_in_month_bound (y m : Z) : days_in_month y m <= 31.
Proof.
  unfold days_in_month.
  destruct (m =? 2); [destruct (is_leap y); lia |].
  destruct ((m =? 4) || (m =? 6) || (m =? 9) || (m =? 11)); lia.
Qed.

(** The year of an instant of the years 0000 to 9999 is in that range. *)
Lemma fields_of_year (t : Time) :
  four_digit_years t -> 0 <= year (fields_of t) <= 9999.
Proof.
  unfold four_digit_years, fields_of. intros Ht.
  pose proof (civil_of_days_roundtrip (t / 86400000)) as Hcivil.
  assert (Hdays : -719528 <= t / 86400000 <= 2932896)
    by (Z.div_mod_to_equations; lia).
  destruct (civil_of_days (t / 86400000)) as [[y m] d].
  destruct Hcivil as [Heq [Hm Hd]]. cbn [year].
  pose proof (days_in_month_bound y m) as Hdim.
  rewrite <- Heq in Hdays. clear Heq Ht. unfold days_of_civil in Hdays.
  destruct (Z.leb_spec m 2), (Z.ltb_spec 2 m); try lia;
    cbv zeta in Hdays; Z.div_mod_to_equations; lia.
Qed.

Lemma FormatMillisUTC_iso (t : Time) :
  four_digit_years t ->
  iso_millis_of t (FormatMillisUTC t).
Proof.
  intros Hrange. pose proof (fields_of_year t Hrange) as Hyear.
  exists (fields_of t).
  destruct (fields_of_roundtrip t) as [Ht Hvalid].
  split; [exact Ht |]. split; [exact Hvalid |]. split; [exact Hyear |].
  destruct Hvalid as ((Hm & Hd) & Hh & Hmi & Hs & Hms).
  pose proof (days_in_month_bound (year (fields_of t)) (month (fields_of t))).
  unfold FormatMillisUTC.
  rewrite appendInt_four by exact Hyear.
  rewrite !appendInt_two by lia.
  rewrite appendInt_three by lia.
  reflexivity.
Qed.

(** The example of the specification, and the two ends of the range. *)
Example FormatMillisUTC_example :
  FormatMillisUTC 1735787045678 = "2025-01-02T03:04:05.678Z"
  /\ FormatMillisUTC (-62167219200000) = "0000-01-01T00:00:00.000Z"
  /\ FormatMillisUTC 253402300799999 = "9999-12-31T23:59:59.999Z"
  /\ FormatMillisUTC 253402300800000 = "10000-01-01T00:00:00.000Z"
  /\ FormatMillisUTC (-1) = "1969-12-31T23:59:59.999Z".
Proof. vm_compute. repeat split. Qed.

End TimeProperties.

(** ** The manifest endpoint *)

Section ManifestProperties.
Import Go models gin sys database handlers handlers.manifest.
Context {Rand : Type} (lib : Lib) (fs : FS) (cfg : Config).

(** Past the pre-checks, [Handle] answers from the candidate alone. *)
Lemma Handle_after_prechecks (h : ManifestHandler Rand) (c : Context)
    (boundary : string) :
  passes_prechecks h c ->
  Handle lib fs cfg h c boundary
  = match candidate h c with
    | Ok (Some update) => serve lib fs cfg h c boundary update
    | _ => handleNoUpdateAvailable lib h c boundary (protocol_version c)
    end.
Proof.
  intros (Hget & Hplatform & Hruntime & Hslug & Hrepo).
  unfold Handle, candidate, serve, one_part_reply.
  fold (protocol_version c). fold (request_platform c).
  fold (request_runtime c). fold (request_channel c).
  rewrite (bool_decide_eq_true_2 _ Hget). cbn [negb].
  assert (Hp : negb (bool_decide (request_platform c = "ios"))
               && negb (bool_decide (request_platform c = "android"))
               = false).
  { destruct Hplatform as [-> | ->]; reflexivity. }
  rewrite Hp.
  rewrite (bool_decide_eq_false_2 _ Hruntime).
  rewrite (bool_decide_eq_false_2 _ Hslug).
  destruct (updateRepo h) as [repo|] eqn:Hr; [| contradiction].
  destruct (FindLatest (Some repo) _ _ _ _) as [[u|]|]; reflexivity.
Qed.

(** The refusal of protocol 0, and the directive of the other versions. *)
Lemma handleNoUpdateAvailable_cases (h : ManifestHandler Rand) (c : Context)
    (boundary : string) (pv : Z) :
  (pv = 0 ->
   handleNoUpdateAvailable lib h c boundary pv
   = error_json StatusNotFound "No update available")
  /\ (pv <> 0 ->
      handleNoUpdateAvailable lib h c boundary pv
      = sendMultipartResponse boundary "directive"
          (json_Marshal lib (JObj [("type", JStr "noUpdateAvailable")]))
          (signature_for h c
             (json_Marshal lib (JObj [("type", JStr "noUpdateAvailable")])))
          pv).
Proof.
  unfold handleNoUpdateAvailable. split.
  - intros ->. reflexivity.
  - intros Hpv. apply Z.eqb_neq in Hpv. now rewrite Hpv.
Qed.

Lemma sendMultipartResponse_single_part (boundary name : string)
    (data : list byte) (signature : string) (pv : Z) :
  single_part (sendMultipartResponse boundary name data signature pv)
    boundary name data pv.
Proof.
  unfold single_part, sendMultipartResponse. cbn [status headers payload].
  split; [reflexivity |].
  split; [rewrite 2!lookup_insert_ne by discriminate;
          apply lookup_insert_eq |].
  split; [rewrite lookup_insert_ne by discriminate;
          apply lookup_insert_eq |].
  split; [apply lookup_insert_eq |].
  eexists. split; [reflexivity |]. cbn [partData partHeader].
  split; [reflexivity |].
  destruct (negb (bool_decide (signature = ""))).
  - split.
    + rewrite 2!lookup_insert_ne by discriminate. apply lookup_insert_eq.
    + rewrite lookup_insert_ne by discriminate. apply lookup_insert_eq.
  - split.
    + rewrite lookup_insert_ne by discriminate. apply lookup_insert_eq.
    + apply lookup_insert_eq.
Qed.

End ManifestProperties.

Section ManifestClaims.
Import Go models gin sys database handlers handlers.manifest.

(** C4.  When a manifest request passes the pre-checks and [FindLatest]
    returns no candidate, the answer for protocol version 0 is HTTP 404
    with the JSON body [{"error": "No update available"}], and for
    protocol version 1 it is HTTP 200 with a multipart body of one part,
    named [directive], whose body is the JSON encoding of
    [{"type": "noUpdateAvailable"}]. *)
Theorem no_candidate_outcome {Rand : Type} (lib : Lib) (fs : FS)
    (cfg : Config) (h : ManifestHandler Rand) (c : Context)
    (boundary : string) :
  passes_prechecks h c ->
  candidate h c = Ok None ->
  (protocol_version c = 0 ->
   Handle lib fs cfg h c boundary
   = {| status := 404; headers := ∅;
        payload := JSON [("error", VString "No update available")] |})
  /\ (protocol_version c = 1 ->
      single_part (Handle lib fs cfg h c boundary) boundary "directive"
        (json_Marshal lib (JObj [("type", JStr "noUpdateAvailable")])) 1).
Proof.
  intros Hpre Hnone.
  rewrite (Handle_after_prechecks lib fs cfg h c boundary Hpre), Hnone.
  destruct (handleNoUpdateAvailable_cases lib h c boundary
              (protocol_version c)) as [H0 H1].
  split.
  - intros Hpv. rewrite (H0 Hpv). reflexivity.
  - intros Hpv. rewrite H1 by lia. rewrite Hpv.
    apply sendMultipartResponse_single_part.
Qed.

Lemma no_candidate_outcome_witness :
  Handle demo.lib demo.no_files demo.cfg (demo.manifest_handler [])
    (demo.manifest_request ∅) "boundary"
  = {| status := 404; headers := ∅;
       payload := JSON [("error", VString "No update available")] |}
  /\ single_part
       (Handle demo.lib demo.no_files demo.cfg (demo.manifest_handler [])
          (demo.manifest_request protocol_1) "boundary")
       "boundary" "directive"
       (demo.bytes ("{" +:+ dq +:+ "type" +:+ dq +:+ ":" +:+ dq
                      +:+ "noUpdateAvailable" +:+ dq +:+ "}")) 1.
Proof.
  assert (Hpre : forall extra,
             extra !! "expo-platform" = None ->
             extra !! "expo-runtime-version" = None ->
             passes_prechecks (demo.manifest_handler [])
               (demo.manifest_request extra)).
  { intros extra H1 H2. unfold passes_prechecks.
    assert (Hp : request_platform (demo.manifest_request extra) = "android").
    { unfold request_platform, GetHeader, demo.manifest_request, demo.request.
      cbn [Header]. rewrite lookup_insert_eq. reflexivity. }
    assert (Hr : request_runtime (demo.manifest_request extra) = "1").
    { unfold request_runtime, GetHeader, demo.manifest_request, demo.request.
      cbn [Header]. rewrite lookup_insert_ne by discriminate.
      rewrite lookup_insert_eq. reflexivity. }
    split; [reflexivity |]. split; [right; exact Hp |].
    split; [rewrite Hr; discriminate |].
    split; [vm_compute; discriminate | discriminate]. }
  split.
  - apply (no_candidate_outcome demo.lib demo.no_files demo.cfg
             (demo.manifest_handler []) (demo.manifest_request ∅) "boundary").
    + apply Hpre; reflexivity.
    + vm_compute. reflexivity.
    + vm_compute. reflexivity.
  - apply (no_candidate_outcome demo.lib demo.no_files demo.cfg
             (demo.manifest_handler []) (demo.manifest_request protocol_1)
             "boundary").
    + apply Hpre; reflexivity.
    + vm_compute. reflexivity.
    + vm_compute. reflexivity.
Defined.

(** The protocol version of a request is what [strconv.Atoi] makes of
    its header: a header that is no number counts as version 0, and one
    beyond the range of [int] as the greatest [int], which is answered
    like version 1 and echoed. *)
Example protocol_version_examples :
  protocol_version (demo.manifest_request ∅) = 0
  /\ protocol_version
       (demo.manifest_request {[ "expo-protocol-version" := "1" ]}) = 1
  /\ protocol_version
       (demo.manifest_request {[ "expo-protocol-version" := "one" ]}) = 0
  /\ protocol_version
       (demo.manifest_request
          {[ "expo-protocol-version" := "99999999999999999999x" ]})
     = 9223372036854775807
  /\ single_part
       (Handle demo.lib demo.no_files demo.cfg (demo.manifest_handler [])
          (demo.manifest_request
             {[ "expo-protocol-version" := "99999999999999999999x" ]})
          "boundary")
       "boundary" "directive"
       (demo.bytes ("{" +:+ dq +:+ "type" +:+ dq +:+ ":" +:+ dq
                      +:+ "noUpdateAvailable" +:+ dq +:+ "}"))
       9223372036854775807.
Proof.
  split; [vm_compute; reflexivity |].
  split; [vm_compute; reflexivity |].
  split; [vm_compute; reflexivity |].
  split; [vm_compute; reflexivity |].
  unfold single_part. do 4 (split; [vm_compute; reflexivity |]).
  vm_compute. eexists. repeat split; reflexivity.
Qed.



End ManifestClaims.

Section GatingClaims.
Import Go models gin sys database handlers handlers.manifest.

(** The helpers of [Handle] read two fields of the handler only: the
    signing service and the updates directory. *)
Lemma manifest_helpers_ext {Rand : Type} (lib : Lib) (fs : FS) (cfg : Config)
    (h h' : ManifestHandler Rand) (c : Context) (boundary : string) :
  signingService h' = signingService h ->
  updatesDir h' = updatesDir h ->
  (forall pv,
     handleNoUpdateAvailable lib h' c boundary pv
     = handleNoUpdateAvailable lib h c boundary pv)
  /\ (forall data, signature_for h' c data = signature_for h c data)
  /\ (forall bp md uid oid ca rv pf pv,
        sendManifest lib fs cfg h' c boundary bp md uid oid ca rv pf pv
        = sendManifest lib fs cfg h c boundary bp md uid oid ca rv pf pv).
Proof.
  intros Hsign Hdir.
  assert (Hsig : forall data, signature_for h' c data = signature_for h c data)
    by (intros data; unfold signature_for; now rewrite Hsign).
  assert (Hinfo : forall bp ap ext key hash url oid lp rv pf la,
             getAssetInfoFromMetadataOrFile lib fs cfg h' bp ap ext key hash
               url oid lp rv pf la
             = getAssetInfoFromMetadataOrFile lib fs cfg h bp ap ext key
                 hash url oid lp rv pf la)
    by (intros; unfold getAssetInfoFromMetadataOrFile; now rewrite Hdir).
  assert (Hassets : forall bp rv pf l,
             build_assets lib fs cfg h' bp rv pf l
             = build_assets lib fs cfg h bp rv pf l).
  { intros bp rv pf l. induction l as [|a l IH]; [reflexivity |].
    cbn [build_assets]. rewrite IH.
    destruct a as [| | | |items|asset]; try reflexivity.
    destruct (as_string (member "path" asset)) as [assetPath|]; [| reflexivity].
    destruct (as_string (member "ext" asset)) as [ext|]; [| reflexivity].
    destruct (build_assets lib fs cfg h bp rv pf l); [| reflexivity].
    now rewrite Hinfo. }
  split; [| split; [exact Hsig |]].
  - intros pv. unfold handleNoUpdateAvailable. now rewrite Hsig.
  - intros. unfold sendManifest.
    destruct (as_object (member "fileMetadata" md)); [| reflexivity].
    destruct (as_object (member pf _)); [| reflexivity].
    destruct (as_array _) as [assetsList|];
      [rewrite Hassets;
       destruct (build_assets lib fs cfg h bp rv pf assetsList) as [assets|];
       [| reflexivity] |];
      (destruct (as_string (member "bundle" _)) as [bundlePath|];
       [| reflexivity]);
      rewrite Hinfo;
      (destruct (getAssetInfoFromMetadataOrFile _ _ _ h _ _ _ _ _ _ _ _ _ _ _);
       [| reflexivity]);
      (destruct (member "expoConfig" md) as [[| | | | |m]|];
       try reflexivity; now rewrite Hsig).
Qed.

(** The answer of [Handle] never depends on the rollout service the
    handler holds. *)
Lemma Handle_ignores_rollout_service {Rand : Type} (lib : Lib) (fs : FS)
    (cfg : Config) (h : ManifestHandler Rand) (c : Context)
    (boundary : string) (r : services.RolloutService Rand) :
  Handle lib fs cfg
    {| signingService := signingService h; rolloutService := r;
       updateRepo := updateRepo h; updatesDir := updatesDir h |} c boundary
  = Handle lib fs cfg h c boundary.
Proof.
  set (h' := {| signingService := signingService h; rolloutService := r;
                updateRepo := updateRepo h; updatesDir := updatesDir h |}).
  destruct (manifest_helpers_ext lib fs cfg h h' c boundary eq_refl eq_refl)
    as (Hnone & Hsig & Hsend).
  unfold Handle. cbn [updateRepo h'].
  repeat match goal with
         | |- (if ?b then _ else _) = (if ?b then _ else _) =>
             destruct b; [reflexivity |]
         end.
  destruct (updateRepo h) as [repo|]; [| reflexivity].
  destruct (FindLatest _ _ _ _ _) as [[upd|]|]; try apply Hnone.
  destruct (IsRollback upd).
  - destruct (bool_decide _); [apply Hnone | now rewrite Hsig].
  - destruct (_ && _); [apply Hnone |].
    destruct (Metadata upd); [apply Hsend | reflexivity].
Qed.

(** Nor does it depend on the rollout percentage of any record of the
    store: changing the percentages, by any rule, changes no answer. *)
Lemma Handle_ignores_rollout_percentage {Rand : Type} (lib : Lib) (fs : FS)
    (cfg : Config) (h : ManifestHandler Rand) (c : Context)
    (boundary : string) (percentage : Update -> Z) :
  Handle lib fs cfg
    {| signingService := signingService h;
       rolloutService := rolloutService h;
       updateRepo :=
         option_map
           (fun repo =>
              {| collection := map (regate percentage) (collection repo) |})
           (updateRepo h);
       updatesDir := updatesDir h |} c boundary
  = Handle lib fs cfg h c boundary.
Proof.
  match goal with |- Handle _ _ _ ?x _ _ = _ => set (h' := x) end.
  destruct (manifest_helpers_ext lib fs cfg h h' c boundary eq_refl eq_refl)
    as (Hnone & Hsig & Hsend).
  unfold Handle. cbn [updateRepo h'].
  repeat match goal with
         | |- (if ?b then _ else _) = (if ?b then _ else _) =>
             destruct b; [reflexivity |]
         end.
  destruct (updateRepo h) as [repo|]; [| reflexivity].
  cbn [option_map]. rewrite FindLatest_regate.
  destruct (FindLatest (Some repo) _ _ _ _) as [[upd|]|]; try apply Hnone.
  cbn [option_map].
  destruct upd as [id slug uid rv ch pf bp ca act rb rp dl md].
  unfold regate. cbn [IsRollback CreatedAt UpdateID Metadata BundlePath ID
                      set_RolloutPercentage].
  destruct rb.
  - destruct (bool_decide _); [apply Hnone | now rewrite Hsig].
  - destruct (_ && _); [apply Hnone |].
    destruct md; [apply Hsend | reflexivity].
Qed.

(** C1 fails on the code.  The answer of the manifest endpoint is the same
    whatever the rollout percentages of the records are.  In particular:
    the store holds one active android update whose rollout percentage is
    0, so that the rollout selector refuses every device; the manifest
    request of an android client is still answered with the full manifest,
    the same answer as for a rollout percentage of 100. *)
Theorem manifest_served_outside_rollout :
  (forall (Rand : Type) (lib : Lib) (fs : FS) (cfg : Config)
          (h : ManifestHandler Rand) (c : Context) (boundary : string)
          (percentage : Update -> Z),
     Handle lib fs cfg
       {| signingService := signingService h;
          rolloutService := rolloutService h;
          updateRepo :=
            option_map
              (fun repo =>
                 {| collection := map (regate percentage) (collection repo) |})
              (updateRepo h);
          updatesDir := updatesDir h |} c boundary
     = Handle lib fs cfg h c boundary)
  /\ RolloutPercentage (demo.update_at 0) = 0
  /\ (forall (Rand : Type) (Intn : Rand -> Z -> Z * Rand)
             (r : services.RolloutService Rand) (device : string),
        fst (services.ShouldReceiveUpdate Intn r 0 device) = false)
  /\ candidate (demo.manifest_handler [demo.update_at 0])
       (demo.manifest_request ∅) = Ok (Some (demo.update_at 0))
  /\ Handle demo.lib demo.no_files demo.cfg
       (demo.manifest_handler [demo.update_at 0])
       (demo.manifest_request ∅) "boundary"
     = Handle demo.lib demo.no_files demo.cfg
         (demo.manifest_handler [demo.update_at 100])
         (demo.manifest_request ∅) "boundary"
  /\ single_part
       (Handle demo.lib demo.no_files demo.cfg
          (demo.manifest_handler [demo.update_at 0])
          (demo.manifest_request ∅) "boundary")
       "boundary" "manifest" (json_Marshal demo.lib demo.expected_manifest) 0.
Proof.
  split; [intros; apply Handle_ignores_rollout_percentage |].
  split; [reflexivity |].
  split; [intros Rand Intn r device; reflexivity |].
  split; [vm_compute; reflexivity |].
  split; [vm_compute; reflexivity |].
  assert (H : Handle demo.lib demo.no_files demo.cfg
                (demo.manifest_handler [demo.update_at 0])
                (demo.manifest_request ∅) "boundary"
              = sendMultipartResponse "boundary" "manifest"
                  (json_Marshal demo.lib demo.expected_manifest) "" 0)
    by (vm_compute; reflexivity).
  rewrite H. apply sendMultipartResponse_single_part.
Qed.

End GatingClaims.

(** ** The asset endpoint *)

Section AssetClaims.
Import Go models gin sys database handlers handlers.assets.

Lemma append_empty_r (s : string) : s +:+ "" = s.
Proof.
  induction s as [|ch s IH]; [reflexivity |].
  rewrite <- IH at 2. reflexivity.
Qed.

Lemma hexEscapeNonASCII_ascii (s : string) :
  Forall (fun ch => char_val ch < 128) (list_ascii_of_string s) ->
  http.hexEscapeNonASCII s = s.
Proof.
  intros Hascii. unfold http.hexEscapeNonASCII.
  rewrite <- (string_of_list_ascii_of_string s) at 2. f_equal.
  induction Hascii as [|ch l Hch _ IH]; [reflexivity |].
  cbn [map concat]. rewrite IH.
  destruct (Z.leb_spec 128 (char_val ch)); [lia | reflexivity].
Qed.




End AssetClaims.

(** ** The admin surface: patching the rollout percentage *)

Section PatchClaims.
Import Go models gin sys database handlers handlers.admin.

(** [SetRollout] clamps the percentage into the range from 0 to 100. *)
Lemma SetRollout_clamps (r : option UpdateRepository) (id : string)
    (percentage : Z) :
  SetRollout r id percentage
  = Update_ r id {[ "rolloutPercentage" := BInt (Z.max 0 (Z.min 100 percentage)) ]}.
Proof.
  unfold SetRollout.
  destruct (percentage <? 0) eqn:Hneg.
  - apply Z.ltb_lt in Hneg. change (100 <? 0) with false. cbv iota.
    rewrite Z.min_r, Z.max_l by lia. reflexivity.
  - apply Z.ltb_ge in Hneg.
    destruct (100 <? percentage) eqn:Hbig.
    + apply Z.ltb_lt in Hbig. rewrite Z.min_l, Z.max_r by lia. reflexivity.
    + apply Z.ltb_ge in Hbig. rewrite Z.min_r, Z.max_r by lia. reflexivity.
Qed.

(** C5 fails on the code.  The patch handler hands the requested
    percentage to [Update] as it is, so that patching with 150 persists
    150 and patching with -5 persists -5 (answering 200 both times);
    [SetRollout], which would persist 100 and 0, is not called. *)
Theorem patch_persists_unclamped :
  UpdateUpdate demo.lib (admin_handler [demo.update_at 100])
    (patch_request "150")
  = (respond 200
       (JSON [("id", VString "000000000000000000000001");
              ("message", VString "Update modified successfully")]),
     admin_handler [demo.update_at 150])
  /\ UpdateUpdate demo.lib (admin_handler [demo.update_at 100])
       (patch_request "-5")
     = (respond 200
          (JSON [("id", VString "000000000000000000000001");
                 ("message", VString "Update modified successfully")]),
        admin_handler [demo.update_at (-5)])
  /\ SetRollout (Some {| collection := [demo.update_at 50] |})
       "000000000000000000000001" 150
     = (Some {| collection := [demo.update_at 100] |}, None)
  /\ SetRollout (Some {| collection := [demo.update_at 50] |})
       "000000000000000000000001" (-5)
     = (Some {| collection := [demo.update_at 0] |}, None).
Proof. repeat split; vm_compute; reflexivity. Qed.

End PatchClaims.

(** ** The ingestion pipeline *)

Section IngestionProperties.
Import Go models gin sys database handlers handlers.admin.
Context (lib : Lib).

Lemma parse_and_hash_parsed (fs : FS) (bundlePath : string) :
  parse_and_hash lib fs bundlePath
  = option_map (map_platforms (hash_platform lib fs bundlePath))
      (parsed lib fs bundlePath).
Proof.
  unfold parse_and_hash, parsed.
  destruct (ReadFile fs _) as [metadataFile|]; [| reflexivity].
  destruct (json_UnmarshalMetadata lib metadataFile) as [metadata|];
    [| reflexivity].
  destruct (ReadFile fs _) as [expoConfigFile|]; [| reflexivity].
  destruct (json_UnmarshalObject lib expoConfigFile); reflexivity.
Qed.

Lemma platform_entry_map (f : PlatformMetadata -> PlatformMetadata)
    (md : UpdateMetadata) (p : string) :
  platform_entry (Some (map_platforms f md)) p
  = option_map f (platform_entry (Some md) p).
Proof.
  unfold platform_entry, map_platforms. cbn [FileMetadata].
  destruct (FileMetadata md) as [fm|]; [| reflexivity].
  rewrite lookup_fmap. destruct (fm !! p); reflexivity.
Qed.

(** Every platform entry of the stored metadata is an entry of the parsed
    metadata with its hashes filled in, and possibly its URLs. *)
Lemma stored_entry (cs : option CloudinaryService) (fs : FS)
    (bundlePath runtimeVersion updateID p : string) (pm : PlatformMetadata) :
  platform_entry (stored lib cs fs bundlePath runtimeVersion updateID) p = Some pm ->
  exists pm0,
    platform_entry (parsed lib fs bundlePath) p = Some pm0
    /\ (pm = hash_platform lib fs bundlePath pm0
        \/ exists urlMap,
             pm = url_platform lib urlMap (hash_platform lib fs bundlePath pm0)).
Proof.
  unfold stored. rewrite parse_and_hash_parsed.
  destruct (parsed lib fs bundlePath) as [md0|] eqn:Hparsed; cbn [option_map].
  - assert (Hhashed : platform_entry
                        (Some (map_platforms
                                 (hash_platform lib fs bundlePath) md0)) p
                      = Some pm ->
                      exists pm0,
                        platform_entry (Some md0) p = Some pm0
                        /\ pm = hash_platform lib fs bundlePath pm0).
    { rewrite platform_entry_map.
      destruct (platform_entry (Some md0) p) as [pm0|]; [| discriminate].
      intros [= <-]. now exists pm0. }
    destruct (IsConnected cs).
    + destruct (UploadDirectory cs _ bundlePath) as [urlMap|].
      * rewrite platform_entry_map, platform_entry_map.
        destruct (platform_entry (Some md0) p) as [pm0|]; [| discriminate].
        intros [= <-]. exists pm0. split; [reflexivity |].
        right. now exists urlMap.
      * intros H. destruct (Hhashed H) as (pm0 & H0 & ->).
        exists pm0. auto.
    + intros H. destruct (Hhashed H) as (pm0 & H0 & ->).
      exists pm0. auto.
  - destruct (IsConnected cs); [destruct (UploadDirectory cs _ bundlePath) |];
      discriminate.
Qed.

(** The hash pass on one asset and on one platform entry. *)
Lemma hash_asset_spec (fs : FS) (bundlePath : string) (a : Asset) :
  Path (hash_asset lib fs bundlePath a) = Path a
  /\ match ReadFile fs (filepath_Join lib bundlePath (Path a)) with
     | Some data =>
         Key (hash_asset lib fs bundlePath a) = key_of data
         /\ Hash (hash_asset lib fs bundlePath a) = hash_of data
     | None => hash_asset lib fs bundlePath a = a
     end.
Proof.
  unfold hash_asset.
  destruct (ReadFile fs _) as [data|]; [| split; reflexivity].
  split; [reflexivity |]. split; reflexivity.
Qed.

Lemma hash_platform_spec (fs : FS) (bundlePath : string)
    (pm : PlatformMetadata) :
  Bundle (hash_platform lib fs bundlePath pm) = Bundle pm
  /\ Assets (hash_platform lib fs bundlePath pm)
     = map (hash_asset lib fs bundlePath) (Assets pm)
  /\ match ReadFile fs (filepath_Join lib bundlePath (Bundle pm)) with
     | Some data =>
         BundleKey (hash_platform lib fs bundlePath pm) = key_of data
         /\ BundleHash (hash_platform lib fs bundlePath pm) = hash_of data
     | None =>
         BundleKey (hash_platform lib fs bundlePath pm) = BundleKey pm
         /\ BundleHash (hash_platform lib fs bundlePath pm) = BundleHash pm
     end.
Proof.
  unfold hash_platform.
  destruct (ReadFile fs _) as [data|]; repeat split; reflexivity.
Qed.

(** The URL pass leaves paths, keys and hashes alone. *)
Lemma url_asset_spec (urlMap : gmap string string) (a : Asset) :
  Path (url_asset lib urlMap a) = Path a
  /\ Key (url_asset lib urlMap a) = Key a
  /\ Hash (url_asset lib urlMap a) = Hash a.
Proof.
  unfold url_asset. destruct (urlMap !! _); repeat split; reflexivity.
Qed.

Lemma url_platform_spec (urlMap : gmap string string) (pm : PlatformMetadata) :
  Bundle (url_platform lib urlMap pm) = Bundle pm
  /\ BundleKey (url_platform lib urlMap pm) = BundleKey pm
  /\ BundleHash (url_platform lib urlMap pm) = BundleHash pm
  /\ Assets (url_platform lib urlMap pm)
     = map (url_asset lib urlMap) (Assets pm).
Proof. repeat split; reflexivity. Qed.

Lemma hash_platform_ingested (fs : FS) (bundlePath : string)
    (pm0 : PlatformMetadata) :
  entry_ingested lib fs bundlePath pm0 (hash_platform lib fs bundlePath pm0).
Proof.
  destruct (hash_platform_spec fs bundlePath pm0) as (Hb & Ha & Hk).
  split; [exact Hb |]. split; [exact Hk |].
  rewrite Ha. clear Ha Hb Hk.
  induction (Assets pm0) as [|a l IH]; [constructor |].
  cbn [map]. constructor; [| exact IH].
  destruct (hash_asset_spec fs bundlePath a) as [Hp Hr].
  split; [exact Hp |].
  destruct (ReadFile fs _); [exact Hr | now rewrite Hr].
Qed.

Lemma url_platform_ingested (fs : FS) (bundlePath : string)
    (urlMap : gmap string string) (pm0 pm : PlatformMetadata) :
  entry_ingested lib fs bundlePath pm0 pm ->
  entry_ingested lib fs bundlePath pm0 (url_platform lib urlMap pm).
Proof.
  intros (Hb & Hk & Ha).
  destruct (url_platform_spec urlMap pm) as (Hb' & Hk' & Hh' & Ha').
  split; [congruence |]. split.
  - rewrite Hk', Hh'. exact Hk.
  - rewrite Ha'. clear Ha'. induction Ha as [|a0 a l0 l Hhead Htail IH];
      [constructor |].
    cbn [map]. constructor; [| exact IH].
    destruct (url_asset_spec urlMap a) as (Hp & Hkey & Hhash).
    destruct Hhead as [Hpath Hread].
    split; [congruence |]. now rewrite Hkey, Hhash.
Qed.

Lemma stored_entry_ingested (cs : option CloudinaryService) (fs : FS)
    (bundlePath runtimeVersion updateID p : string) (pm : PlatformMetadata) :
  platform_entry (stored lib cs fs bundlePath runtimeVersion updateID) p = Some pm ->
  exists pm0,
    platform_entry (parsed lib fs bundlePath) p = Some pm0
    /\ entry_ingested lib fs bundlePath pm0 pm.
Proof.
  intros H. destruct (stored_entry _ _ _ _ _ _ _ H)
    as (pm0 & Hpm0 & [-> | [urlMap ->]]); exists pm0; split; auto.
  - apply hash_platform_ingested.
  - apply url_platform_ingested, hash_platform_ingested.
Qed.

End IngestionProperties.

Section RegisterUpdateProperties.
Import Go models gin sys database handlers handlers.admin.
Context (lib : Lib).

(** An accepted request whose insert succeeds is answered 201 and
    inserts one record, whose metadata is the stored form of what was
    parsed. *)
Lemma RegisterUpdate_accepted (h : AdminHandler) (c : Context) (w : Upload)
    (repo : UpdateRepository) (tempDir filename : string) (oid : ObjectID) :
  accepted lib h c w repo tempDir filename ->
  inserted w = Ok oid ->
  exists u,
    fst (RegisterUpdate lib h c w)
    = respond 201
        (JSON [("message", VString "Update registered successfully");
               ("update", VUpdate u)])
    /\ updateRepo (snd (RegisterUpdate lib h c w))
       = Some {| collection := collection repo ++ [u] |}
    /\ BundlePath u = ingest_root lib w tempDir
    /\ ProjectSlug u = PostForm c "projectSlug"
    /\ RuntimeVersion u = PostForm c "runtimeVersion"
    /\ UpdateID u = ingest_updateID c w
    /\ IsRollback u = false /\ IsActive u = true
    /\ Metadata u
       = stored lib (cloudinaryService h) (unpacked w) (ingest_root lib w tempDir)
           (PostForm c "runtimeVersion") (ingest_updateID c w).
Proof.
  intros (Hrepo & Hform & Hslug & Hrv & [content Hfile] & Htemp & Hcreate
          & Hcopy & Hunzip) Hinserted.
  unfold RegisterUpdate. rewrite Hrepo, Hform.
  rewrite (bool_decide_eq_false_2 _ Hslug), (bool_decide_eq_false_2 _ Hrv).
  cbn [orb]. rewrite Hfile, Htemp, Hcreate, Hcopy. cbn [negb].
  rewrite Hunzip, Hinserted.
  fold (ingest_updateID c w). fold (ingest_root lib w tempDir).
  set (h2 := match projectRepo h with
             | Some pr => with_projectRepo _ h
             | None => h
             end).
  assert (Hcs : cloudinaryService h2 = cloudinaryService h)
    by (subst h2; destruct (projectRepo h); reflexivity).
  assert (Hur : updateRepo h2 = Some repo)
    by (subst h2; destruct (projectRepo h); exact Hrepo).
  rewrite Hcs, Hur.
  match goal with
  | |- context [Create (Some repo) (now w) (Ok oid) ?upd] =>
      destruct (Create_connected repo (now w) oid upd)
        as (u & -> & Hps & Huid & Hrvu & _ & Hbp & Hact & Hrb & Hmd & _);
      assert (Hupd : Metadata upd
                     = stored lib (cloudinaryService h) (unpacked w)
                         (ingest_root lib w tempDir) (PostForm c "runtimeVersion")
                         (ingest_updateID c w)
                     /\ ProjectSlug upd = PostForm c "projectSlug"
                     /\ UpdateID upd = ingest_updateID c w
                     /\ RuntimeVersion upd = PostForm c "runtimeVersion"
                     /\ BundlePath upd = ingest_root lib w tempDir
                     /\ IsActive upd = true /\ IsRollback upd = false)
  end.
  { unfold stored.
    destruct (IsConnected (cloudinaryService h)); [| repeat split].
    destruct (UploadDirectory _ _ _) as [urlMap|]; [| repeat split].
    cbn [Metadata set_Metadata].
    destruct (parse_and_hash lib (unpacked w) (ingest_root lib w tempDir));
      repeat split. }
  destruct Hupd as (Hm & H1 & H2 & H3 & H4 & H5 & H6).
  exists u. cbn [fst snd updateRepo with_updateRepo].
  repeat split; congruence.
Qed.

(** An accepted request whose insert fails is answered 500 with the
    error of [Create], and inserts nothing. *)
Lemma RegisterUpdate_insert_failed (h : AdminHandler) (c : Context)
    (w : Upload) (repo : UpdateRepository) (tempDir filename err : string) :
  accepted lib h c w repo tempDir filename ->
  inserted w = Err err ->
  fst (RegisterUpdate lib h c w)
  = error_json 500 ("failed to insert update: " +:+ err)
  /\ updateRepo (snd (RegisterUpdate lib h c w)) = Some repo.
Proof.
  intros (Hrepo & Hform & Hslug & Hrv & [content Hfile] & Htemp & Hcreate
          & Hcopy & Hunzip) Hinserted.
  unfold RegisterUpdate. rewrite Hrepo, Hform.
  rewrite (bool_decide_eq_false_2 _ Hslug), (bool_decide_eq_false_2 _ Hrv).
  cbn [orb]. rewrite Hfile, Htemp, Hcreate, Hcopy. cbn [negb].
  rewrite Hunzip, Hinserted.
  set (h2 := match projectRepo h with
             | Some pr => with_projectRepo _ h
             | None => h
             end).
  assert (Hur : updateRepo h2 = Some repo)
    by (subst h2; destruct (projectRepo h); exact Hrepo).
  rewrite Hur.
  match goal with
  | |- context [Create (Some repo) (now w) (Err err) ?upd] =>
      destruct (Create_failed repo (now w) err upd) as (u' & ->)
  end.
  split; [reflexivity | exact Hur].
Qed.

(** Every request is either accepted (it gets as far as the insert) or
    refused with an error status, the handler and its repositories left
    as they were. *)
Lemma RegisterUpdate_cases (h : AdminHandler) (c : Context) (w : Upload) :
  (exists repo tempDir filename, accepted lib h c w repo tempDir filename)
  \/ (400 <= status (fst (RegisterUpdate lib h c w))
      /\ snd (RegisterUpdate lib h c w) = h).
Proof.
  unfold RegisterUpdate, accepted.
  destruct (updateRepo h) as [repo|] eqn:Hrepo;
    [| right; split; [vm_compute; discriminate | reflexivity]].
  destruct (MultipartError c) as [err|] eqn:Hform;
    [right; split; [vm_compute; discriminate | reflexivity] |].
  destruct (decide (PostForm c "projectSlug" = "")) as [Hslug | Hslug].
  { right. rewrite (bool_decide_eq_true_2 _ Hslug).
    split; [vm_compute; discriminate | reflexivity]. }
  destruct (decide (PostForm c "runtimeVersion" = "")) as [Hrv | Hrv].
  { right. rewrite (bool_decide_eq_true_2 _ Hrv), orb_true_r.
    split; [vm_compute; discriminate | reflexivity]. }
  rewrite (bool_decide_eq_false_2 _ Hslug), (bool_decide_eq_false_2 _ Hrv).
  cbn [orb].
  destruct (FormFiles c !! "bundle") as [[filename content]|] eqn:Hfile;
    [| right; split; [vm_compute; discriminate | reflexivity]].
  destruct (MkdirTemp w) as [tempDir|] eqn:Htemp;
    [| right; split; [vm_compute; discriminate | reflexivity]].
  destruct (CreateFile w (filepath_Join lib tempDir filename)) eqn:Hcreate;
    [| right; split; [vm_compute; discriminate | reflexivity]].
  destruct (CopyFile w) eqn:Hcopy;
    [| right; split; [vm_compute; discriminate | reflexivity]].
  cbn [negb].
  destruct (Unzip w _ _) as [err|] eqn:Hunzip;
    [right; split; [vm_compute; discriminate | reflexivity] |].
  left. exists repo, tempDir, filename.
  repeat split; try assumption. now exists content.
Qed.

End RegisterUpdateProperties.

Section IngestionClaims.
Import Go models gin sys database handlers handlers.admin.

Lemma Forall2_In_r {A B} (R : A -> B -> Prop) (l : list A) (l' : list B) b :
  Forall2 R l l' -> In b l' -> exists a, In a l /\ R a b.
Proof.
  induction 1 as [|x y l l' Hxy Hrest IH]; intros Hin; [destruct Hin |].
  destruct Hin as [<- | Hin].
  - exists x. split; [left; reflexivity | exact Hxy].
  - destruct (IH Hin) as (a & Ha & HR). exists a. split; [right |]; auto.
Qed.

(** C7, as amended.  For every byte sequence, the key (the first 32 hex
    digits of the SHA-256 digest) and the hash (the digest in unpadded
    URL-safe base64) are functions of the bytes and two forms of one
    digest: the hash decodes to the 32-byte digest, the key to its first
    16 bytes.  In every update that an ingestion request persists, the
    launch bundle and every listed asset whose file could be read when
    the hashes were computed carry the key and the hash of the bytes
    read; the entry is the parsed one with the same paths, and the launch
    bundle and the assets whose file could not be read keep the key and
    the hash they were parsed with. *)
Theorem key_and_hash_of_one_digest (lib : Lib) (h : AdminHandler)
    (c : Context) (w : Upload) (b : list byte) :
  (base64.DecodeString base64.RawURLEncoding (hash_of b)
     = Some (sha256.Sum256 b)
   /\ hex.DecodeString (key_of b) = Some (firstn 16 (sha256.Sum256 b))
   /\ length (sha256.Sum256 b) = 32%nat)
  /\ forall repo repo' u,
       updateRepo h = Some repo ->
       updateRepo (snd (RegisterUpdate lib h c w)) = Some repo' ->
       collection repo' = collection repo ++ [u] ->
       forall p pm,
         platform_entry (Metadata u) p = Some pm ->
         (forall data,
            ReadFile (unpacked w)
              (filepath_Join lib (BundlePath u) (Bundle pm)) = Some data ->
            BundleKey pm = key_of data /\ BundleHash pm = hash_of data)
         /\ (forall a data,
               In a (Assets pm) ->
               ReadFile (unpacked w)
                 (filepath_Join lib (BundlePath u) (Path a)) = Some data ->
               Key a = key_of data /\ Hash a = hash_of data)
         /\ exists pm0,
              platform_entry (parsed lib (unpacked w) (BundlePath u)) p
              = Some pm0
              /\ Bundle pm = Bundle pm0
              /\ (ReadFile (unpacked w)
                    (filepath_Join lib (BundlePath u) (Bundle pm)) = None ->
                  BundleKey pm = BundleKey pm0
                  /\ BundleHash pm = BundleHash pm0)
              /\ Forall2
                   (fun a0 a =>
                      Path a = Path a0
                      /\ (ReadFile (unpacked w)
                            (filepath_Join lib (BundlePath u) (Path a))
                          = None ->
                          Key a = Key a0 /\ Hash a = Hash a0))
                   (Assets pm0) (Assets pm).
Proof.
  split; [apply key_hash_decode |].
  intros repo repo' u Hrepo Hafter Hcoll p pm Hentry.
  assert (Hsame : updateRepo (snd (RegisterUpdate lib h c w)) = Some repo ->
                  False).
  { intros Hsame. rewrite Hsame in Hafter. injection Hafter as <-.
    apply (f_equal (@length Update)) in Hcoll.
    rewrite length_app in Hcoll. simpl in Hcoll. lia. }
  destruct (RegisterUpdate_cases lib h c w)
    as [(repo0 & tempDir & filename & Hacc) | [_ Hrefused]];
    [| destruct Hsame; now rewrite Hrefused].
  assert (repo0 = repo) by (destruct Hacc as [Hr _]; congruence). subst repo0.
  destruct (inserted w) as [oid | err] eqn:Hinserted;
    [| destruct Hsame;
       apply (RegisterUpdate_insert_failed lib h c w repo tempDir filename err
                Hacc Hinserted)].
  destruct (RegisterUpdate_accepted lib h c w repo tempDir filename oid Hacc
              Hinserted)
    as (u' & _ & Hins & Hbp & _ & _ & _ & _ & _ & Hmd).
  rewrite Hafter in Hins. injection Hins as ->. cbn [collection] in Hcoll.
  apply app_inj_tail in Hcoll as [_ <-].
  rewrite Hmd in Hentry. rewrite Hbp.
  destruct (stored_entry_ingested lib _ _ _ _ _ _ _ Hentry)
    as (pm0 & Hpm0 & Hb & Hk & Ha).
  split; [| split].
  - intros data Hread. rewrite Hb in Hread. now rewrite Hread in Hk.
  - intros a data Hin Hread.
    destruct (Forall2_In_r _ _ _ _ Ha Hin) as (a0 & _ & Hp & Hr).
    rewrite Hp in Hread. now rewrite Hread in Hr.
  - exists pm0. split; [exact Hpm0 |]. split; [exact Hb |]. split.
    + intros Hread. rewrite Hb in Hread. now rewrite Hread in Hk.
    + clear Hk Hb. induction Ha as [|a0 a l0 l [Hp Hr] _ IH]; constructor;
        [| exact IH].
      split; [exact Hp |]. intros Hread. rewrite Hp in Hread.
      now rewrite Hread in Hr.
Qed.

Lemma key_and_hash_of_one_digest_witness :
  exists u pm,
    upload.persisted upload.complete = Some u
    /\ platform_entry (Metadata u) "android" = Some pm
    /\ BundleKey pm = "2d711642b726b04401627ca9fbac32f5"
    /\ BundleHash pm = "LXEWQrcmsEQBYnyp-6wy9chTD7GQPMTbAiWHF5IaSIE"
    /\ hex.DecodeString (BundleKey pm)
       = Some (firstn 16 (sha256.Sum256 (demo.bytes "x"))).
Proof.
  destruct (upload.persisted upload.complete) as [u|] eqn:Hu;
    [| vm_compute in Hu; discriminate Hu].
  destruct (platform_entry (Metadata u) "android") as [pm|] eqn:Hpm;
    [| revert Hpm; vm_compute in Hu; injection Hu as <-; vm_compute;
       discriminate].
  exists u, pm. split; [reflexivity |]. split; [exact Hpm |].
  destruct (key_and_hash_of_one_digest demo.lib upload.handler
              upload.request (upload.world upload.complete)
              (demo.bytes "x")) as [(_ & Hkey & _) Hpersisted].
  assert (Hrepo : updateRepo upload.handler
                  = Some {| collection := [] |}) by reflexivity.
  assert (Hafter : updateRepo
                     (snd (RegisterUpdate demo.lib upload.handler
                             upload.request (upload.world upload.complete)))
                   = Some {| collection := [u] |}).
  { vm_compute in Hu. injection Hu as <-. vm_compute. reflexivity. }
  assert (Hread : ReadFile (unpacked (upload.world upload.complete))
                    (filepath_Join demo.lib (BundlePath u) (Bundle pm))
                  = Some (demo.bytes "x")).
  { revert Hpm. vm_compute in Hu. injection Hu as <-.
    intros Hpm. vm_compute in Hpm. injection Hpm as <-.
    vm_compute. reflexivity. }
  destruct (Hpersisted _ _ u Hrepo Hafter eq_refl "android" pm Hpm)
    as [Hbundle _].
  destruct (Hbundle _ Hread) as [Hk Hh].
  split; [rewrite Hk; vm_compute; reflexivity |].
  split; [rewrite Hh; vm_compute; reflexivity |].
  rewrite Hk. exact Hkey.
Defined.

(** C7 as stated fails for a file that cannot be read: the launch bundle
    the metadata names is not in the archive, the ingestion persists the
    record all the same, and the entry it carries has an empty key and an
    empty hash, which are the key and hash of no bytes at all. *)
Lemma persisted_entry_without_digest :
  exists pm,
    android_entry upload.without_bundle = Some pm
    /\ ~ (exists data,
            BundleKey pm = key_of data /\ BundleHash pm = hash_of data).
Proof.
  eexists. split; [vm_compute; reflexivity |].
  intros (data & Hkey & _).
  apply (f_equal String.length) in Hkey.
  rewrite key_of_length in Hkey. cbn in Hkey. discriminate Hkey.
Qed.

(** C8, as amended.  A file named by the parsed metadata that is missing
    when its hash is computed does not fail the request: for an ingestion
    request that gets as far as unpacking the archive the outcome is that
    of the insert alone, whether or not the files are on disk.  When the
    insert succeeds the request is answered 201 and the record is
    inserted; the launch bundle and the assets whose file is missing keep
    the key and the hash they were parsed with, the others carry the key
    and hash of their bytes.  When the insert fails the request is
    answered 500 with the error of the insert and no record is
    inserted. *)
Theorem missing_file_is_not_fatal (lib : Lib) (h : AdminHandler)
    (c : Context) (w : Upload) (repo : UpdateRepository)
    (tempDir filename : string) :
  accepted lib h c w repo tempDir filename ->
  match inserted w with
  | Ok _ =>
      exists u,
        fst (RegisterUpdate lib h c w)
        = {| status := 201; headers := ∅;
             payload :=
               JSON [("message", VString "Update registered successfully");
                     ("update", VUpdate u)] |}
        /\ updateRepo (snd (RegisterUpdate lib h c w))
           = Some {| collection := collection repo ++ [u] |}
        /\ forall p pm,
             platform_entry (Metadata u) p = Some pm ->
             exists pm0,
               platform_entry (parsed lib (unpacked w) (BundlePath u)) p
               = Some pm0
               /\ entry_ingested lib (unpacked w) (BundlePath u) pm0 pm
  | Err err =>
      fst (RegisterUpdate lib h c w)
      = {| status := 500; headers := ∅;
           payload :=
             JSON [("error", VString ("failed to insert update: " +:+ err))] |}
      /\ updateRepo (snd (RegisterUpdate lib h c w)) = Some repo
  end.
Proof.
  intros Hacc. destruct (inserted w) as [oid | err] eqn:Hinserted.
  - destruct (RegisterUpdate_accepted lib h c w repo tempDir filename oid Hacc
                Hinserted)
      as (u & Hresp & Hins & Hbp & _ & _ & _ & _ & _ & Hmd).
    exists u. split; [exact Hresp |]. split; [exact Hins |].
    intros p pm Hentry. rewrite Hmd in Hentry. rewrite Hbp.
    apply (stored_entry_ingested lib _ _ _ _ _ _ _ Hentry).
  - apply (RegisterUpdate_insert_failed lib h c w repo tempDir filename err
             Hacc Hinserted).
Qed.

Lemma missing_file_is_not_fatal_witness :
  ReadFile (unpacked (upload.world upload.without_bundle))
    (upload.root +:+ "/bundles/android-a.js") = None
  /\ (exists u,
        fst (RegisterUpdate demo.lib upload.handler upload.request
               (upload.world upload.without_bundle))
        = {| status := 201; headers := ∅;
             payload :=
               JSON [("message", VString "Update registered successfully");
                     ("update", VUpdate u)] |}
        /\ updateRepo (snd (RegisterUpdate demo.lib upload.handler
                              upload.request
                              (upload.world upload.without_bundle)))
           = Some {| collection := [u] |})
  /\ fst (RegisterUpdate demo.lib upload.handler upload.request
            (upload.world_without_store upload.without_bundle))
     = {| status := 500; headers := ∅;
          payload :=
            JSON [("error",
                   VString ("failed to insert update: "
                              +:+ "context deadline exceeded"))]
       |}.
Proof.
  split; [reflexivity |].
  assert (Hacc : forall outcome,
             accepted demo.lib upload.handler upload.request
               (upload.world_with outcome upload.without_bundle)
               {| collection := [] |} "/tmp/otaship-upload-1" "bundle.zip").
  { intros outcome. unfold accepted.
    split; [reflexivity |]. split; [reflexivity |].
    split; [vm_compute; discriminate |].
    split; [vm_compute; discriminate |].
    split; [exists (demo.bytes "PK"); vm_compute; reflexivity |].
    repeat split. }
  split.
  - destruct (missing_file_is_not_fatal demo.lib upload.handler upload.request
                (upload.world upload.without_bundle) _ _ _ (Hacc _))
      as (u & Hresp & Hins & _).
    exists u. split; [exact Hresp | exact Hins].
  - apply (missing_file_is_not_fatal demo.lib upload.handler upload.request
             (upload.world_without_store upload.without_bundle) _ _ _
             (Hacc _)).
Defined.

(** C8 as stated fails: the launch bundle is missing from the unpacked
    archive, and the request is neither refused nor without effect on the
    store. *)
Lemma missing_bundle_is_ingested :
  ~ (ReadFile (unpacked (upload.world upload.without_bundle))
       (upload.root +:+ "/bundles/android-a.js") = None ->
     400 <= status (fst (RegisterUpdate demo.lib upload.handler
                           upload.request
                           (upload.world upload.without_bundle)))
     /\ updateRepo (snd (RegisterUpdate demo.lib upload.handler
                           upload.request
                           (upload.world upload.without_bundle)))
        = updateRepo upload.handler).
Proof.
  intros H. destruct (H eq_refl) as [Hstatus _].
  vm_compute in Hstatus. apply Hstatus. reflexivity.
Qed.

End IngestionClaims.

Section RollbackWitness.
Import Go models database gin handlers.admin.

Lemma CreateRollback_has_no_project_witness :
  exists rb,
    updateRepo (snd (CreateRollback rollback_handler rollback_request
                       1735787045678 (Ok (demo.oid_of 2))))
    = Some {| collection := [demo.update_at 100; rb] |}
    /\ ProjectSlug rb = "" /\ IsRollback rb = true
    /\ RuntimeVersion rb = "1" /\ Channel rb = "production"
    /\ FindLatest (Some {| collection := [demo.update_at 100; rb] |})
         "demo" "1" "production" "android"
       = Ok (Some (demo.update_at 100)).
Proof.
  destruct (CreateRollback_has_no_project rollback_handler rollback_request
              1735787045678 (demo.oid_of 2)
              {| collection := [demo.update_at 100] |} eq_refl)
    as [(rb & Hrun & Hslug & Huid & Hbp & Hmd & Hrv & Hch & Hpf & Hact
         & Hrb & Hrp & Hca & Hid & Hfind) _].
  exists rb. rewrite Hrun. cbn [snd updateRepo with_updateRepo collection app].
  split; [reflexivity |]. split; [exact Hslug |]. split; [exact Hrb |].
  split; [exact Hrv |]. split; [exact Hch |].
  destruct rb as [id slug uid rv ch pf bp ca act isrb rp dl md].
  cbn in Hslug, Hrv, Hch, Hpf, Hact, Hrb, Hca.
  subst slug rv ch pf act isrb ca.
  vm_compute. reflexivity.
Defined.

End RollbackWitness.

(* ===================================================================== *)
(** ** Further properties of the services, the repositories and the admin surface *)
(* ===================================================================== *)

Section EncodingProperties.
Import Go.

Lemma string_of_list_app (l1 l2 : list ascii) :
  string_of_list_ascii (l1 ++ l2)
  = string_of_list_ascii l1 +:+ string_of_list_ascii l2.
Proof. induction l1 as [|c l1 IH]; simpl; [reflexivity | now rewrite IH]. Qed.

Lemma list_of_string_app (s1 s2 : string) :
  list_ascii_of_string (s1 +:+ s2)
  = list_ascii_of_string s1 ++ list_ascii_of_string s2.
Proof. induction s1 as [|c s1 IH]; simpl; [reflexivity | now rewrite IH]. Qed.

Lemma string_of_list_of_string (s : string) :
  string_of_list_ascii (list_ascii_of_string s) = s.
Proof. induction s as [|c s IH]; simpl; [reflexivity | now rewrite IH]. Qed.

Lemma length_list_of_string (s : string) :
  length (list_ascii_of_string s) = String.length s.
Proof. induction s as [|c s IH]; simpl; [reflexivity | now rewrite IH]. Qed.

Lemma substring_skip (i n : nat) (cs : list ascii) :
  String.substring i n (string_of_list_ascii cs)
  = string_of_list_ascii (firstn n (skipn i cs)).
Proof.
  revert cs. induction i as [|i IH]; intros cs.
  - apply substring_of_list.
  - destruct cs as [|c cs]; simpl.
    + destruct n; reflexivity.
    + apply IH.
Qed.

Lemma slice_of_list (i j : nat) (cs : list ascii) :
  services.slice (string_of_list_ascii cs) i j
  = string_of_list_ascii (firstn (j - i) (skipn i cs)).
Proof. apply substring_skip. Qed.

Lemma firstn_skipn_app {A} (n m : nat) (l : list A) :
  firstn n l ++ firstn m (skipn n l) = firstn (n + m) l.
Proof.
  revert l. induction n as [|n IH]; intros l; [reflexivity |].
  destruct l as [|x l]; simpl.
  - now rewrite firstn_nil.
  - now rewrite IH.
Qed.

Lemma hex_chars_lower (bs : list byte) :
  forallb is_lower_hex (hex.encode_chars bs) = true.
Proof.
  induction bs as [|b bs IH]; [reflexivity |].
  cbn [hex.encode_chars forallb]. rewrite IH, andb_true_r.
  revert b. apply forall_bytes with (P := hex_nibbles_check).
  vm_compute. reflexivity.
Qed.

Lemma forallb_firstn {A} (P : A -> bool) (n : nat) (l : list A) :
  forallb P l = true -> forallb P (firstn n l) = true.
Proof.
  revert l. induction n as [|n IH]; intros [|x l]; simpl; auto.
  intros H. apply andb_prop in H as [-> H]. now apply IH.
Qed.

End EncodingProperties.

Section UUIDClaims.
Import Go.

(** X1.  [ConvertSHA256ToUUID] returns a string shorter than 32 bytes
    as it is.  On the hexadecimal digest of any data it returns a string
    of the shape 8-4-4-4-12 whose 32 characters between the hyphens are
    the first 32 digits of the digest (the key of the data), all of them
    lower-case hexadecimal digits. *)
Theorem ConvertSHA256ToUUID_shape (data : list byte) :
  uuid_shaped
    (services.ConvertSHA256ToUUID (services.ComputeSHA256Hash data))
    (key_of data)
  /\ chars_all is_lower_hex (key_of data)
  /\ String.length
       (services.ConvertSHA256ToUUID (services.ComputeSHA256Hash data))
     = 36%nat
  /\ forall hash : string,
       (String.length hash < 32)%nat ->
       services.ConvertSHA256ToUUID hash = hash.
Proof.
  assert (Hlen := ComputeSHA256Hash_length data).
  assert (Hshape : uuid_shaped
            (services.ConvertSHA256ToUUID (services.ComputeSHA256Hash data))
            (key_of data)).
  { unfold services.ConvertSHA256ToUUID. rewrite Hlen.
    change (64 <? 32)%nat with false. cbv iota.
    set (h := services.ComputeSHA256Hash data) in *.
    exists (services.slice h 0 8), (services.slice h 8 12),
      (services.slice h 12 16), (services.slice h 16 20),
      (services.slice h 20 32).
    assert (Hcs : h = string_of_list_ascii (list_ascii_of_string h))
      by (symmetry; apply string_of_list_of_string).
    assert (Hl : length (list_ascii_of_string h) = 64%nat)
      by (rewrite length_list_of_string; exact Hlen).
    set (cs := list_ascii_of_string h) in *.
    split; [reflexivity |].
    unfold key_of. fold h. rewrite Hcs, !slice_of_list.
    rewrite !length_string_of_list, !length_firstn, !length_skipn, Hl.
    repeat (split; [reflexivity |]).
    rewrite <- !string_of_list_app. f_equal.
    change (8 - 0)%nat with 8%nat. change (12 - 8)%nat with 4%nat.
    change (16 - 12)%nat with 4%nat. change (20 - 16)%nat with 4%nat.
    change (32 - 20)%nat with 12%nat. change (32 - 0)%nat with 32%nat.
    change (skipn 0 cs) with cs.
    rewrite !app_assoc.
    rewrite (firstn_skipn_app 8 4 cs). change (8 + 4)%nat with 12%nat.
    rewrite (firstn_skipn_app 12 4 cs). change (12 + 4)%nat with 16%nat.
    rewrite (firstn_skipn_app 16 4 cs). change (16 + 4)%nat with 20%nat.
    now rewrite (firstn_skipn_app 20 12 cs). }
  split; [exact Hshape |].
  split.
  { unfold chars_all. rewrite key_of_prefix. unfold hex.EncodeToString.
    rewrite list_of_string_of_list. apply hex_chars_lower. }
  split.
  { destruct Hshape as (a & b & c & d & e & -> & Ha & Hb & Hc & Hd & He & _).
    rewrite <- !length_list_of_string, !list_of_string_app, !length_app,
      !length_list_of_string, Ha, Hb, Hc, Hd, He.
    reflexivity. }
  intros hash Hshort. unfold services.ConvertSHA256ToUUID.
  apply Nat.ltb_lt in Hshort. now rewrite Hshort.
Qed.

End UUIDClaims.

Section Base64Alphabet.
Import Go base64.

Lemma alphabet_chars (e : Encoding) (P : ascii -> bool) :
  forallb P (alphabet e) = true ->
  forall v, sextet_ok v = true -> (length (alphabet e) = 64)%nat ->
  P (enc_char e v) = true.
Proof.
  intros Hall v Hv Hlen. unfold enc_char.
  rewrite forallb_forall in Hall. apply Hall.
  apply nth_In. unfold sextet_ok in Hv.
  apply andb_prop in Hv as [H0 H1].
  apply Z.leb_le in H0. apply Z.ltb_lt in H1. lia.
Qed.

Lemma url_chars_safe (v : Z) :
  sextet_ok v = true -> is_url_safe (enc_char RawURLEncoding v) = true.
Proof.
  intros Hv. apply alphabet_chars; [| exact Hv | reflexivity].
  vm_compute. reflexivity.
Qed.

Lemma std_chars_base64 (v : Z) :
  sextet_ok v = true -> is_std_base64 (enc_char StdEncoding v) = true.
Proof.
  intros Hv. apply alphabet_chars; [| exact Hv | reflexivity].
  vm_compute. reflexivity.
Qed.

Lemma forallb_map_sextets (e : Encoding) (P : ascii -> bool) (ds : list Z) :
  (forall v, sextet_ok v = true -> P (enc_char e v) = true) ->
  forallb sextet_ok ds = true ->
  forallb P (map (enc_char e) ds) = true.
Proof.
  intros HP. induction ds as [|d ds IH]; [reflexivity |].
  cbn [forallb map]. intros H. apply andb_prop in H as [Hd Hds].
  now rewrite (HP d Hd), (IH Hds).
Qed.

Lemma sextets_length (bs : list byte) :
  length (sextets bs) = ((4 * length bs + 2) / 3)%nat.
Proof.
  induction bs as [| a | a b | a b c l IH] using list_ind3;
    try reflexivity.
  cbn [sextets length]. rewrite IH.
  replace (4 * S (S (S (length l))) + 2)%nat
    with ((4 * length l + 2) + 4 * 3)%nat by lia.
  rewrite Nat.div_add by lia. lia.
Qed.

(** The padded encoding: every character is one of the alphabet or the
    padding, and the length is four characters per three bytes begun. *)
Lemma std_encode_chars (bs : list byte) :
  forallb is_std_base64 (encode_chars StdEncoding bs) = true
  /\ length (encode_chars StdEncoding bs)
     = (4 * ((length bs + 2) / 3))%nat.
Proof.
  induction bs as [| a | a b | a b c l [IHc IHl]] using list_ind3.
  - split; reflexivity.
  - split; [| reflexivity]. cbn [encode_chars forallb padding padChar
                                   StdEncoding repeat].
    rewrite !std_chars_base64
      by (apply sextet0_ok || apply sextet1_zero_ok).
    reflexivity.
  - split; [| reflexivity]. cbn [encode_chars forallb padding padChar
                                   StdEncoding repeat].
    rewrite !std_chars_base64
      by (apply sextet0_ok || apply sextet1_ok || apply sextet2_zero_ok).
    reflexivity.
  - split.
    + cbn [encode_chars forallb]. rewrite IHc.
      rewrite !std_chars_base64
        by (apply sextet0_ok || apply sextet1_ok || apply sextet2_ok
            || apply sextet3_ok).
      reflexivity.
    + cbn [encode_chars length]. rewrite IHl.
      replace (S (S (S (length l))) + 2)%nat
        with ((length l + 2) + 1 * 3)%nat by lia.
      rewrite Nat.div_add by lia. lia.
Qed.

End Base64Alphabet.

Section Base64Claims.
Import Go base64.

(** X2.  [Base64URLEncode] writes only letters, digits, hyphens and
    underscores (no padding, no plus sign, no slash), so that its result
    stands in a URL or a header as it is; it writes four characters for
    every three bytes and two or three for a rest of one or two, and the
    bytes are read back from it. *)
Theorem Base64URLEncode_url_safe (data : list byte) :
  chars_all is_url_safe (services.Base64URLEncode data)
  /\ String.length (services.Base64URLEncode data)
     = ((4 * length data + 2) / 3)%nat
  /\ DecodeString RawURLEncoding (services.Base64URLEncode data) = Some data.
Proof.
  unfold services.Base64URLEncode, chars_all, EncodeToString.
  rewrite list_of_string_of_list, length_string_of_list, encode_chars_sextets.
  split; [| split].
  - apply forallb_map_sextets; [exact url_chars_safe | apply sextets_ok].
  - rewrite length_map. apply sextets_length.
  - rewrite <- encode_chars_sextets. apply base64url_decode_encode.
Qed.

End Base64Claims.

Section SignatureClaims.
Import Go base64 database services.

(** X3.  [CreateSignatureHeader] fails when no key is loaded or when the
    signer fails, and only then.  What it signs is the SHA-256 digest of
    the data; its result is the dictionary [sig="...", keyid="main"]
    whose quoted value is the padded standard base64 form of the
    signature, made of letters, digits, plus signs, slashes and equals
    signs only (so that no quote ends the value early), four characters
    for every three bytes begun. *)
Theorem CreateSignatureHeader_cases (s : SigningService) (data : list byte) :
  match CreateSignatureHeader s data with
  | Ok header =>
      exists key signature,
        privateKey s = Some key
        /\ SignPKCS1v15 key (sha256.Sum256 data) = Ok signature
        /\ header
           = "sig=" +:+ dq +:+ EncodeToString StdEncoding signature +:+ dq
               +:+ ", keyid=" +:+ dq +:+ "main" +:+ dq
        /\ chars_all is_std_base64 (EncodeToString StdEncoding signature)
        /\ String.length (EncodeToString StdEncoding signature)
           = (4 * ((length signature + 2) / 3))%nat
  | Err err =>
      (privateKey s = None /\ err = "private key not loaded")
      \/ exists key cause,
           privateKey s = Some key
           /\ SignPKCS1v15 key (sha256.Sum256 data) = Err cause
           /\ err = "failed to sign: " +:+ cause
  end.
Proof.
  unfold CreateSignatureHeader, SignManifest.
  destruct (privateKey s) as [key|] eqn:Hkey; [| left; split; reflexivity].
  destruct (SignPKCS1v15 key (sha256.Sum256 data)) as [signature|cause]
    eqn:Hsign.
  - exists key, signature.
    destruct (std_encode_chars signature) as [Hchars Hlen].
    unfold chars_all, EncodeToString.
    rewrite list_of_string_of_list, length_string_of_list.
    repeat split; assumption.
  - right. exists key, cause. repeat split; assumption.
Qed.

End SignatureClaims.

Section RolloutMoreClaims.
Import Go services.

(** X4.  Raising the rollout percentage never takes the update away
    from a device: whatever the fingerprint (with an empty one, for the
    same draw of the random source), a device that is served at a
    percentage is served at every greater one. *)
Theorem ShouldReceiveUpdate_monotone {Rand : Type}
    (Intn : Rand -> Z -> Z * Rand) (r : RolloutService Rand)
    (p p' : Z) (f : string) :
  p <= p' ->
  fst (ShouldReceiveUpdate Intn r p f) = true ->
  fst (ShouldReceiveUpdate Intn r p' f) = true.
Proof.
  intros Hle. unfold ShouldReceiveUpdate, deterministicRollout.
  destruct (100 <=? p') eqn:H100'; [reflexivity |].
  apply Z.leb_gt in H100'.
  destruct (100 <=? p) eqn:H100; [apply Z.leb_le in H100; lia |].
  destruct (p <=? 0) eqn:H0; [discriminate |].
  apply Z.leb_gt in H0.
  destruct (p' <=? 0) eqn:H0'; [apply Z.leb_le in H0'; lia |].
  destruct (negb (bool_decide (f = ""))).
  - cbn [fst]. intros H. apply Z.ltb_lt in H. apply Z.ltb_lt. lia.
  - destruct (Intn (rng r) 100) as [n rng']. cbn [fst].
    intros H. apply Z.ltb_lt in H. apply Z.ltb_lt. lia.
Qed.

Lemma ShouldReceiveUpdate_monotone_witness :
  80 <= 90
  /\ fst (ShouldReceiveUpdate zero_source idle_rollout 80 "device-42") = true
  /\ fst (ShouldReceiveUpdate zero_source idle_rollout 90 "device-42") = true.
Proof.
  assert (H1 : 80 <= 90) by lia.
  assert (H2 : fst (ShouldReceiveUpdate zero_source idle_rollout 80
                      "device-42") = true) by (vm_compute; reflexivity).
  split; [exact H1 |]. split; [exact H2 |].
  exact (ShouldReceiveUpdate_monotone zero_source idle_rollout 80 90
           "device-42" H1 H2).
Defined.

(** X5.  [CalculateRolloutBucket] is the bucket [ShouldReceiveUpdate]
    compares with the percentage: for a percentage between 1 and 99 and
    a fingerprint that is not empty, the device is served exactly when
    its bucket is below the percentage.  For a fingerprint of fewer than
    2^40 bytes the bucket lies between 0 and 99. *)
Theorem CalculateRolloutBucket_range {Rand : Type}
    (Intn : Rand -> Z -> Z * Rand) (r : RolloutService Rand) (f : string) :
  Z.of_nat (String.length f) < 2 ^ 40 ->
  0 <= CalculateRolloutBucket f <= 99
  /\ forall p, 0 < p < 100 -> f <> "" ->
       fst (ShouldReceiveUpdate Intn r p f) = (CalculateRolloutBucket f <? p).
Proof.
  intros Hlen. destruct (hashSum_rune_sum f Hlen) as [Hsum Hpos].
  split.
  - unfold CalculateRolloutBucket. rewrite Hsum.
    pose proof (Z.rem_bound_pos (rune_sum f) 100 Hpos ltac:(lia)). lia.
  - intros p Hp Hf. unfold ShouldReceiveUpdate, deterministicRollout,
      CalculateRolloutBucket.
    destruct (100 <=? p) eqn:H100; [apply Z.leb_le in H100; lia |].
    destruct (p <=? 0) eqn:H0; [apply Z.leb_le in H0; lia |].
    rewrite (bool_decide_eq_false_2 _ Hf). reflexivity.
Qed.

Lemma CalculateRolloutBucket_range_witness :
  Z.of_nat (String.length "device-42") < 2 ^ 40
  /\ CalculateRolloutBucket "device-42" = 71
  /\ 0 <= CalculateRolloutBucket "device-42" <= 99.
Proof.
  assert (H : Z.of_nat (String.length "device-42") < 2 ^ 40)
    by (vm_compute; reflexivity).
  split; [exact H |]. split; [vm_compute; reflexivity |].
  exact (proj1 (CalculateRolloutBucket_range zero_source idle_rollout
                  "device-42" H)).
Defined.

End RolloutMoreClaims.

Section StoreProperties.
Import Go models database.

Lemma find_app_l {A} (P : A -> bool) (l1 l2 : list A) x :
  List.find P l1 = Some x -> List.find P (l1 ++ l2) = Some x.
Proof.
  induction l1 as [|a l1 IH]; [discriminate |]. simpl.
  destruct (P a); [auto | exact IH].
Qed.

Lemma find_app_r {A} (P : A -> bool) (l1 l2 : list A) :
  List.find P l1 = None -> List.find P (l1 ++ l2) = List.find P l2.
Proof.
  induction l1 as [|a l1 IH]; [reflexivity |]. simpl.
  destruct (P a); [discriminate | exact IH].
Qed.

Lemma find_by_id_none (oid : ObjectID) (docs : list Update) :
  ~ In oid (map ID docs) ->
  List.find (fun u => bool_decide (ID u = oid)) docs = None.
Proof.
  induction docs as [|u docs IH]; [reflexivity |].
  cbn [map In List.find]. intros Hnot.
  rewrite bool_decide_eq_false_2 by (intros Heq; apply Hnot; now left).
  apply IH. intros Hin. apply Hnot. now right.
Qed.

Lemma ObjectIDFromHex_Hex (id : ObjectID) :
  length id = 12%nat -> ObjectIDFromHex (Hex id) = Some id.
Proof.
  intros Hlen. unfold ObjectIDFromHex, Hex.
  unfold hex.EncodeToString at 1.
  rewrite length_string_of_list, hex_encode_length, Hlen.
  change (2 * 12 =? 24)%nat with true. cbv iota.
  apply hex_decode_encode.
Qed.

End StoreProperties.

Section UpdateOne.
Import Go models database.

Lemma Forall2_diag {A} (R : A -> A -> Prop) (l : list A) :
  (forall x, R x x) -> Forall2 R l l.
Proof. intros HR. induction l; constructor; auto. Qed.

(** What [UpdateOne] does to a collection. *)
Lemma update_one_spec (id : ObjectID) (f : Update -> Update)
    (docs : list Update) :
  (forall u, ID (f u) = ID u) ->
  let '(docs', matched) := update_one id f docs in
  Forall2 (fun u u' => u' = u \/ (ID u = id /\ u' = f u)) docs docs'
  /\ ((matched = 0 /\ docs' = docs /\ forall u, In u docs -> ID u <> id)
      \/ (matched = 1 /\ exists u, In u docs /\ ID u = id /\ In (f u) docs'))
  /\ map ID docs' = map ID docs.
Proof.
  intros Hid. induction docs as [|u docs IH]; cbn [update_one].
  - split; [constructor |]. split; [| reflexivity].
    left. repeat split. intros u [].
  - destruct (decide (ID u = id)) as [Heq | Hne].
    + rewrite (bool_decide_eq_true_2 _ Heq).
      split; [constructor; [right; auto | apply Forall2_diag; now left] |].
      split; [| cbn [map]; now rewrite Hid].
      right. split; [reflexivity |]. exists u.
      split; [now left |]. split; [exact Heq | now left].
    + rewrite (bool_decide_eq_false_2 _ Hne).
      destruct (update_one id f docs) as [docs' matched].
      destruct IH as (Hall & Hcases & Hids).
      split; [constructor; [now left | exact Hall] |].
      split; [| cbn [map]; now rewrite Hids].
      destruct Hcases as [(-> & -> & Hnone) | (-> & v & Hin & Hv & Hfv)].
      * left. repeat split. intros v [<- | Hin]; [exact Hne | auto].
      * right. split; [reflexivity |]. exists v.
        split; [now right |]. split; [exact Hv | now right].
Qed.

(** With identifiers that no two documents share, the documents of the
    updated collection that carry the identifier are updated ones. *)
Lemma update_one_unique (id : ObjectID) (f : Update -> Update)
    (docs : list Update) :
  (forall u, ID (f u) = ID u) ->
  unique_ids docs ->
  forall u', In u' (fst (update_one id f docs)) -> ID u' = id ->
  fst (update_one id f docs) <> docs \/ snd (update_one id f docs) = 1 ->
  exists u, In u docs /\ u' = f u.
Proof.
  intros Hid. unfold unique_ids.
  induction docs as [|u docs IH]; cbn [update_one map].
  - intros _ u' [].
  - intros Hnd. apply NoDup_cons in Hnd as [Hfresh Hnd].
    destruct (decide (ID u = id)) as [Heq | Hne].
    + rewrite (bool_decide_eq_true_2 _ Heq). cbn [fst snd].
      intros u' [<- | Hin] Hu' _.
      * exists u. split; [now left | reflexivity].
      * exfalso. apply Hfresh. rewrite Heq, <- Hu'.
        apply list_elem_of_In, in_map, Hin.
    + rewrite (bool_decide_eq_false_2 _ Hne).
      destruct (update_one id f docs) as [docs' matched] eqn:Hup.
      cbn [fst snd] in *.
      intros u' [<- | Hin] Hu' Hchanged; [contradiction |].
      destruct (IH Hnd u' Hin Hu') as (v & Hv & ->).
      * destruct Hchanged as [Hch | Hm]; [| now right].
        left. intros ->. now apply Hch.
      * exists v. split; [now right | reflexivity].
Qed.

Lemma apply_set_ID (patch : gmap string BsonValue) (u : Update) :
  ID (apply_set patch u) = ID u.
Proof.
  unfold apply_set.
  destruct (patch !! "isActive") as [[]|];
    destruct (patch !! "rolloutPercentage") as [[]|]; reflexivity.
Qed.

Lemma apply_set_patched (oid : ObjectID) (patch : gmap string BsonValue)
    (u : Update) :
  ID u = oid ->
  ID (apply_set patch u) = ID u
  /\ ProjectSlug (apply_set patch u) = ProjectSlug u
  /\ UpdateID (apply_set patch u) = UpdateID u
  /\ RuntimeVersion (apply_set patch u) = RuntimeVersion u
  /\ Channel (apply_set patch u) = Channel u
  /\ Platform (apply_set patch u) = Platform u
  /\ BundlePath (apply_set patch u) = BundlePath u
  /\ CreatedAt (apply_set patch u) = CreatedAt u
  /\ IsRollback (apply_set patch u) = IsRollback u
  /\ Downloads (apply_set patch u) = Downloads u
  /\ Metadata (apply_set patch u) = Metadata u.
Proof.
  intros _. unfold apply_set.
  destruct (patch !! "isActive") as [[]|];
    destruct (patch !! "rolloutPercentage") as [[]|];
    repeat split.
Qed.

End UpdateOne.

Section CreateLookupClaims.
Import Go models database.

(** X6.  A record inserted by [Create] is found again by its
    identifier: when the repository is connected and the insert
    succeeds, the driver drawing a twelve-byte identifier that no
    document has yet, [FindByID] on the hexadecimal form of the
    identifier returns the record as it was stored, and every record
    that was found before is still found.  When the insert fails,
    [Create] returns the error of the driver behind
    [failed to insert update: ] and the collection is as it was. *)
Theorem Create_then_FindByID (repo : UpdateRepository) (now : time.Time)
    (oid : ObjectID) (u : Update) :
  length oid = 12%nat ->
  ID u = NilObjectID ->
  ~ In oid (map ID (collection repo)) ->
  (exists doc,
     Create (Some repo) now (Ok oid) u
     = (Some {| collection := collection repo ++ [doc] |}, doc, None)
     /\ ID doc = oid
     /\ FindByID (Some {| collection := collection repo ++ [doc] |}) (Hex oid)
        = Ok (Some doc)
     /\ forall id v,
          FindByID (Some repo) id = Ok (Some v) ->
          FindByID (Some {| collection := collection repo ++ [doc] |}) id
          = Ok (Some v))
  /\ forall err,
       fst (fst (Create (Some repo) now (Err err) u)) = Some repo
       /\ snd (Create (Some repo) now (Err err) u)
          = Some ("failed to insert update: " +:+ err).
Proof.
  intros Hlen Hnil Hfresh.
  split;
    [| intros err; destruct (Create_failed repo now err u) as (u' & ->);
       split; reflexivity].
  destruct (Create_connected repo now oid u)
    as (doc & Hcreate & _ & _ & _ & _ & _ & _ & _ & _ & _ & _ & _ & _ & Hid).
  rewrite (bool_decide_eq_true_2 _ Hnil) in Hid.
  exists doc. split; [exact Hcreate |]. split; [exact Hid |]. split.
  - unfold FindByID. rewrite (ObjectIDFromHex_Hex oid Hlen).
    cbn [collection].
    rewrite find_app_r by (apply find_by_id_none; exact Hfresh).
    cbn [List.find]. now rewrite (bool_decide_eq_true_2 _ Hid).
  - intros id v. unfold FindByID.
    destruct (ObjectIDFromHex id) as [objectID|]; [| discriminate].
    cbn [collection]. intros [= Hfind].
    now rewrite (find_app_l _ _ _ _ Hfind).
Qed.

Lemma Create_then_FindByID_witness :
  exists doc,
    Create (Some {| collection := [demo.update_at 100] |}) 1735873445678
      (Ok (demo.oid_of 7)) submitted_update
    = (Some {| collection := [demo.update_at 100; doc] |}, doc, None)
    /\ FindByID (Some {| collection := [demo.update_at 100; doc] |})
         "000000000000000000000007" = Ok (Some doc)
    /\ FindByID (Some {| collection := [demo.update_at 100; doc] |})
         "000000000000000000000001" = Ok (Some (demo.update_at 100)).
Proof.
  assert (Hfresh : ~ In (demo.oid_of 7)
                       (map ID (collection
                                  {| collection := [demo.update_at 100] |}))).
  { intros [H | []]. vm_compute in H. discriminate H. }
  destruct (Create_then_FindByID {| collection := [demo.update_at 100] |}
              1735873445678 (demo.oid_of 7) submitted_update
              eq_refl eq_refl Hfresh)
    as [(doc & Hcreate & _ & Hfound & Hkept) _].
  exists doc. split; [exact Hcreate |]. split; [exact Hfound |].
  apply Hkept. vm_compute. reflexivity.
Defined.

End CreateLookupClaims.

Section IngestionDefaults.
Import Go models gin sys database handlers handlers.admin.

(** X7.  What an accepted ingestion whose insert succeeds stores
    besides the metadata.  The rollout percentage is the form value as
    [strconv.Atoi] reads it, its error dropped -- the decimal number, 0
    for a value that is no number, the nearest bound of [int64] for a
    number out of its range --, not clamped, and 100 where that is 0: no
    ingestion stores a rollout percentage of 0.  The channel is the form
    value, production where it is missing or empty; the platform is the
    form value, all where it is missing; the creation time is the time of
    the insertion, the download counter starts at 0 and the identifier
    is the one the driver drew. *)
Theorem RegisterUpdate_stores_defaults (lib : Lib) (h : AdminHandler)
    (c : Context) (w : Upload) (repo : UpdateRepository)
    (tempDir filename : string) (oid : ObjectID) :
  accepted lib h c w repo tempDir filename ->
  inserted w = Ok oid ->
  exists u,
    updateRepo (snd (RegisterUpdate lib h c w))
    = Some {| collection := collection repo ++ [u] |}
    /\ RolloutPercentage u
       = (if Atoi (DefaultPostForm c "rolloutPercentage" "100") =? 0 then 100
          else Atoi (DefaultPostForm c "rolloutPercentage" "100"))
    /\ RolloutPercentage u <> 0
    /\ Channel u
       = (if bool_decide (DefaultPostForm c "channel" "production" = "")
          then "production" else DefaultPostForm c "channel" "production")
    /\ Channel u <> ""
    /\ Platform u = DefaultPostForm c "platform" "all"
    /\ CreatedAt u = now w
    /\ Downloads u = 0
    /\ ID u = oid.
Proof.
  intros (Hrepo & Hform & Hslug & Hrv & [content Hfile] & Htemp & Hcreate
          & Hcopy & Hunzip) Hinserted.
  unfold RegisterUpdate. rewrite Hrepo, Hform.
  rewrite (bool_decide_eq_false_2 _ Hslug), (bool_decide_eq_false_2 _ Hrv).
  cbn [orb]. rewrite Hfile, Htemp, Hcreate, Hcopy. cbn [negb].
  rewrite Hunzip, Hinserted.
  set (h2 := match projectRepo h with
             | Some pr => with_projectRepo _ h
             | None => h
             end).
  assert (Hur : updateRepo h2 = Some repo)
    by (subst h2; destruct (projectRepo h); exact Hrepo).
  rewrite Hur.
  match goal with
  | |- context [Create (Some repo) (now w) (Ok oid) ?upd] =>
      destruct (Create_connected repo (now w) oid upd)
        as (u & -> & _ & _ & _ & Hpf & _ & _ & _ & _ & Hdl & Hca & Hrp
            & Hch & Hid);
      assert (Hupd : RolloutPercentage upd
                     = Atoi (DefaultPostForm c "rolloutPercentage" "100")
                     /\ Channel upd = DefaultPostForm c "channel" "production"
                     /\ Platform upd = DefaultPostForm c "platform" "all"
                     /\ Downloads upd = 0 /\ ID upd = NilObjectID)
  end.
  { destruct (IsConnected (cloudinaryService h2)); [| repeat split].
    destruct (UploadDirectory _ _ _) as [urlMap|]; [| repeat split].
    cbn [Metadata set_Metadata].
    destruct (parse_and_hash lib (unpacked w) _); repeat split. }
  destruct Hupd as (H1 & H2 & H3 & H4 & H5).
  rewrite H1 in Hrp. rewrite H2 in Hch. rewrite H3 in Hpf.
  rewrite H4 in Hdl. rewrite (bool_decide_eq_true_2 _ H5) in Hid.
  exists u. cbn [snd updateRepo with_updateRepo].
  split; [reflexivity |]. split; [exact Hrp |].
  split.
  { rewrite Hrp.
    destruct (Atoi (DefaultPostForm c "rolloutPercentage" "100") =? 0)
      eqn:Hz; [discriminate |].
    now apply Z.eqb_neq in Hz. }
  split; [exact Hch |].
  split.
  { rewrite Hch.
    destruct (decide (DefaultPostForm c "channel" "production" = ""))
      as [He | He].
    - rewrite (bool_decide_eq_true_2 _ He). discriminate.
    - now rewrite (bool_decide_eq_false_2 _ He). }
  repeat split; assumption.
Qed.

Lemma RegisterUpdate_stores_defaults_witness :
  (Atoi "0" = 0 /\ Atoi "ten" = 0 /\ Atoi "250" = 250
   /\ Atoi "99999999999999999999x" = 9223372036854775807)
  /\ (exists u,
        updateRepo (snd (RegisterUpdate demo.lib upload.handler
                           (upload_with_rollout "99999999999999999999x")
                           (upload.world upload.complete)))
        = Some {| collection := [u] |}
        /\ RolloutPercentage u = 9223372036854775807)
  /\ (exists u,
        updateRepo (snd (RegisterUpdate demo.lib upload.handler
                           (upload_with_rollout "0")
                           (upload.world upload.complete)))
        = Some {| collection := [u] |}
        /\ RolloutPercentage u = 100)
  /\ (exists u,
        updateRepo (snd (RegisterUpdate demo.lib upload.handler
                           (upload_with_rollout "250")
                           (upload.world upload.complete)))
        = Some {| collection := [u] |}
        /\ RolloutPercentage u = 250 /\ Channel u = "production"
        /\ Platform u = "all").
Proof.
  assert (Hacc : forall p,
             accepted demo.lib upload.handler (upload_with_rollout p)
               (upload.world upload.complete)
               {| collection := [] |} "/tmp/otaship-upload-1" "bundle.zip").
  { intros p. unfold accepted.
    split; [reflexivity |]. split; [reflexivity |].
    split; [vm_compute; discriminate |].
    split; [vm_compute; discriminate |].
    split; [exists (demo.bytes "PK"); vm_compute; reflexivity |].
    repeat split. }
  split; [repeat split; vm_compute; reflexivity |].
  split; [| split].
  - destruct (RegisterUpdate_stores_defaults demo.lib upload.handler
                (upload_with_rollout "99999999999999999999x")
                (upload.world upload.complete)
                _ _ _ _ (Hacc "99999999999999999999x") eq_refl)
      as (u & Hins & Hrp & _).
    exists u. split; [exact Hins |]. rewrite Hrp. vm_compute. reflexivity.
  - destruct (RegisterUpdate_stores_defaults demo.lib upload.handler
                (upload_with_rollout "0") (upload.world upload.complete)
                _ _ _ _ (Hacc "0") eq_refl)
      as (u & Hins & Hrp & _).
    exists u. split; [exact Hins |]. rewrite Hrp. vm_compute. reflexivity.
  - destruct (RegisterUpdate_stores_defaults demo.lib upload.handler
                (upload_with_rollout "250") (upload.world upload.complete)
                _ _ _ _ (Hacc "250") eq_refl)
      as (u & Hins & Hrp & _ & Hch & _ & Hpf & _).
    exists u. split; [exact Hins |].
    split; [rewrite Hrp; vm_compute; reflexivity |].
    split; [rewrite Hch; vm_compute; reflexivity |].
    rewrite Hpf. vm_compute. reflexivity.
Defined.

End IngestionDefaults.

Section PatchMoreClaims.
Import Go models gin sys database handlers handlers.admin.

Lemma patch_lookups (isActive : option bool) (rollout : option Z) :
  let updates : gmap string BsonValue :=
    match rollout with
    | Some n =>
        <[ "rolloutPercentage" := BInt n ]>
          (match isActive with
           | Some b => <[ "isActive" := BBool b ]> ∅
           | None => ∅
           end)
    | None =>
        match isActive with
        | Some b => <[ "isActive" := BBool b ]> ∅
        | None => ∅
        end
    end in
  updates !! "isActive" = option_map BBool isActive
  /\ updates !! "rolloutPercentage" = option_map BInt rollout.
Proof.
  destruct isActive as [b|], rollout as [n|]; cbn [option_map]; split;
    rewrite ?lookup_insert_eq, ?(lookup_insert_ne _ "rolloutPercentage")
      by discriminate;
    rewrite ?lookup_insert_eq, ?(lookup_insert_ne _ "isActive")
      by discriminate;
    rewrite ?lookup_empty; reflexivity.
Qed.

(** What a patch that is applied does to the record it is applied to. *)
Lemma apply_set_values (patch : gmap string BsonValue)
    (isActive : option bool) (rollout : option Z) (u : Update) :
  patch !! "isActive" = option_map BBool isActive ->
  patch !! "rolloutPercentage" = option_map BInt rollout ->
  IsActive (apply_set patch u) = default (IsActive u) isActive
  /\ RolloutPercentage (apply_set patch u)
     = default (RolloutPercentage u) rollout.
Proof.
  intros Ha Hr. unfold apply_set. rewrite Ha, Hr.
  destruct isActive, rollout; split; reflexivity.
Qed.

(** How [UpdateUpdate] runs once the repository is there. *)
Lemma UpdateUpdate_connected (lib : Lib) (h : AdminHandler) (c : Context)
    (repo : UpdateRepository) :
  updateRepo h = Some repo ->
  match json_BindPatch lib (Body c) with
  | Err err => UpdateUpdate lib h c = (error_json 400 err, h)
  | Ok (None, None) =>
      UpdateUpdate lib h c = (error_json 400 "No updates provided", h)
  | Ok (isActive, rollout) =>
      exists patch : gmap string BsonValue,
        patch !! "isActive" = option_map BBool isActive
        /\ patch !! "rolloutPercentage" = option_map BInt rollout
        /\ match ObjectIDFromHex (Param c "id") with
           | None =>
               UpdateUpdate lib h c
               = (error_json 500 ("invalid update ID: "
                                   +:+ ObjectIDFromHexError (Param c "id")), h)
           | Some oid =>
               if snd (update_one oid (apply_set patch) (collection repo))
                  =? 0
               then UpdateUpdate lib h c
                    = (error_json 500 "update not found", h)
               else UpdateUpdate lib h c
                    = (respond 200
                         (JSON [("id", VString (Param c "id"));
                                ("message",
                                 VString "Update modified successfully")]),
                       with_updateRepo
                         (Some {| collection :=
                                    fst (update_one oid (apply_set patch)
                                           (collection repo)) |}) h)
           end
  end.
Proof.
  intros Hrepo. unfold UpdateUpdate. rewrite Hrepo.
  destruct (json_BindPatch lib (Body c)) as [[isActive rollout]|err];
    [| reflexivity].
  destruct (patch_lookups isActive rollout) as [Ha Hr].
  assert (Hsize : forall b n,
             (size (<[ "rolloutPercentage" := BInt n ]>
                      (<[ "isActive" := BBool b ]> (∅ : gmap string BsonValue)))
              =? 0)%nat = false
             /\ (size (<[ "rolloutPercentage" := BInt n ]>
                         (∅ : gmap string BsonValue)) =? 0)%nat = false
             /\ (size (<[ "isActive" := BBool b ]>
                         (∅ : gmap string BsonValue)) =? 0)%nat = false).
  { intros b n.
    rewrite !map_size_insert_None, map_size_empty
      by (rewrite ?lookup_insert_ne by discriminate; apply lookup_empty).
    repeat split. }
  assert (Hrun : forall patch : gmap string BsonValue,
             match Update_ (Some repo) (Param c "id") patch with
             | (_, Some err) =>
                 (error_json StatusInternalServerError err, h)
             | (repo', None) =>
                 (respond StatusOK
                    (JSON [("id", VString (Param c "id"));
                           ("message",
                            VString "Update modified successfully")]),
                  with_updateRepo repo' h)
             end
             = match ObjectIDFromHex (Param c "id") with
               | None =>
                   (error_json 500 ("invalid update ID: "
                                   +:+ ObjectIDFromHexError (Param c "id")),
                    h)
               | Some oid =>
                   if snd (update_one oid (apply_set patch) (collection repo))
                      =? 0
                   then (error_json 500 "update not found", h)
                   else (respond 200
                           (JSON [("id", VString (Param c "id"));
                                  ("message",
                                   VString "Update modified successfully")]),
                         with_updateRepo
                           (Some {| collection :=
                                      fst (update_one oid (apply_set patch)
                                             (collection repo)) |}) h)
               end).
  { intros patch. unfold Update_.
    destruct (ObjectIDFromHex (Param c "id")) as [oid|]; [| reflexivity].
    destruct (update_one oid (apply_set patch) (collection repo))
      as [docs matched].
    cbn [fst snd]. destruct (matched =? 0); reflexivity. }
  cbn zeta in Ha, Hr.
  destruct isActive as [b|], rollout as [n|].
  - destruct (Hsize b n) as (Hs & _ & _).
    eexists. split; [exact Ha |]. split; [exact Hr |].
    rewrite Hs, Hrun.
    destruct (ObjectIDFromHex (Param c "id")) as [oid|]; [| reflexivity].
    destruct (snd (update_one oid _ (collection repo)) =? 0); reflexivity.
  - destruct (Hsize b 0) as (_ & _ & Hs).
    eexists. split; [exact Ha |]. split; [exact Hr |].
    rewrite Hs, Hrun.
    destruct (ObjectIDFromHex (Param c "id")) as [oid|]; [| reflexivity].
    destruct (snd (update_one oid _ (collection repo)) =? 0); reflexivity.
  - destruct (Hsize true n) as (_ & Hs & _).
    eexists. split; [exact Ha |]. split; [exact Hr |].
    rewrite Hs, Hrun.
    destruct (ObjectIDFromHex (Param c "id")) as [oid|]; [| reflexivity].
    destruct (snd (update_one oid _ (collection repo)) =? 0); reflexivity.
  - reflexivity.
Qed.

End PatchMoreClaims.

Section PatchOutcomeClaims.
Import Go models gin sys database handlers handlers.admin.

(** X8.  A patch that is refused changes nothing, and a patch is only
    accepted for an identifier that a record of the store has.  Every
    answer of [UpdateUpdate] is either an error in JSON with status 400
    (a body that does not bind or sets neither field), 500 (an
    identifier that is no ObjectID, or that no record has) or 503 (no
    database), the handler and its store being left as they were, or the
    confirmation with status 200. *)
Theorem UpdateUpdate_failure_is_inert (lib : Lib) (h : AdminHandler)
    (c : Context) :
  (snd (UpdateUpdate lib h c) = h
   /\ exists code msg,
        fst (UpdateUpdate lib h c) = error_json code msg
        /\ (code = 400 \/ code = 500 \/ code = 503))
  \/ (fst (UpdateUpdate lib h c)
      = respond 200
          (JSON [("id", VString (Param c "id"));
                 ("message", VString "Update modified successfully")])
      /\ exists repo oid u,
           updateRepo h = Some repo
           /\ ObjectIDFromHex (Param c "id") = Some oid
           /\ In u (collection repo) /\ ID u = oid).
Proof.
  destruct (updateRepo h) as [repo|] eqn:Hrepo.
  2: { left. unfold UpdateUpdate. rewrite Hrepo. split; [reflexivity |].
       exists 503, "Database not connected". split; [reflexivity | auto]. }
  pose proof (UpdateUpdate_connected lib h c repo Hrepo) as Hrun.
  destruct (json_BindPatch lib (Body c)) as [[isActive rollout]|err].
  2: { left. rewrite Hrun. split; [reflexivity |].
       exists 400, err. split; [reflexivity | auto]. }
  assert (Hpatch :
    (exists patch : gmap string BsonValue,
       patch !! "isActive" = option_map BBool isActive
       /\ patch !! "rolloutPercentage" = option_map BInt rollout
       /\ match ObjectIDFromHex (Param c "id") with
          | None =>
              UpdateUpdate lib h c
              = (error_json 500 ("invalid update ID: "
                                   +:+ ObjectIDFromHexError (Param c "id")), h)
          | Some oid =>
              if snd (update_one oid (apply_set patch) (collection repo)) =? 0
              then UpdateUpdate lib h c
                   = (error_json 500 "update not found", h)
              else UpdateUpdate lib h c
                   = (respond 200
                        (JSON [("id", VString (Param c "id"));
                               ("message",
                                VString "Update modified successfully")]),
                      with_updateRepo
                        (Some {| collection :=
                                   fst (update_one oid (apply_set patch)
                                          (collection repo)) |}) h)
          end)
    \/ UpdateUpdate lib h c = (error_json 400 "No updates provided", h)).
  { destruct isActive, rollout; auto. }
  destruct Hpatch as [(patch & _ & _ & Hid) | ->].
  2: { left. split; [reflexivity |].
       exists 400, "No updates provided". split; [reflexivity | auto]. }
  destruct (ObjectIDFromHex (Param c "id")) as [oid|].
  2: { left. rewrite Hid. split; [reflexivity |].
       eexists 500, _. split; [reflexivity | auto]. }
  pose proof (update_one_spec oid (apply_set patch) (collection repo)
                (apply_set_ID patch)) as Hspec.
  destruct (update_one oid (apply_set patch) (collection repo))
    as [docs matched].
  cbn [fst snd] in Hid.
  destruct Hspec as (_ & [(-> & _) | (-> & u & Hin & Hu & _)] & _).
  - left. rewrite Hid. split; [reflexivity |].
    exists 500, "update not found". split; [reflexivity | auto].
  - right. rewrite Hid. split; [reflexivity |].
    exists repo, oid, u. auto.
Qed.

(** X9.  A patch that is accepted changes one record and, of that
    record, the two flags only.  The collection keeps its order and its
    length; every record with another identifier is left as it was; the
    records with the identifier of the request keep their identifier,
    project, update identifier, runtime version, channel, platform,
    bundle path, creation time, rollback flag, download counter and
    metadata, and one of them carries the values of the request. *)
Theorem UpdateUpdate_changes_one_record (lib : Lib) (h : AdminHandler)
    (c : Context) (repo : UpdateRepository) :
  updateRepo h = Some repo ->
  status (fst (UpdateUpdate lib h c)) = 200 ->
  exists oid isActive rollout repo',
    ObjectIDFromHex (Param c "id") = Some oid
    /\ json_BindPatch lib (Body c) = Ok (isActive, rollout)
    /\ snd (UpdateUpdate lib h c) = with_updateRepo (Some repo') h
    /\ Forall2 (patched_from oid) (collection repo) (collection repo')
    /\ exists u u',
         In u (collection repo) /\ In u' (collection repo')
         /\ patched_from oid u u' /\ ID u = oid
         /\ IsActive u' = default (IsActive u) isActive
         /\ RolloutPercentage u' = default (RolloutPercentage u) rollout.
Proof.
  intros Hrepo Hok.
  pose proof (UpdateUpdate_connected lib h c repo Hrepo) as Hrun.
  destruct (json_BindPatch lib (Body c)) as [[isActive rollout]|err].
  2: { rewrite Hrun in Hok. discriminate Hok. }
  assert (Hpatch :
    exists patch : gmap string BsonValue,
      patch !! "isActive" = option_map BBool isActive
      /\ patch !! "rolloutPercentage" = option_map BInt rollout
      /\ match ObjectIDFromHex (Param c "id") with
         | None =>
             UpdateUpdate lib h c
             = (error_json 500 ("invalid update ID: "
                                   +:+ ObjectIDFromHexError (Param c "id")), h)
         | Some oid =>
             if snd (update_one oid (apply_set patch) (collection repo)) =? 0
             then UpdateUpdate lib h c
                  = (error_json 500 "update not found", h)
             else UpdateUpdate lib h c
                  = (respond 200
                       (JSON [("id", VString (Param c "id"));
                              ("message",
                               VString "Update modified successfully")]),
                     with_updateRepo
                       (Some {| collection :=
                                  fst (update_one oid (apply_set patch)
                                         (collection repo)) |}) h)
         end).
  { destruct isActive, rollout; try exact Hrun.
    rewrite Hrun in Hok. discriminate Hok. }
  destruct Hpatch as (patch & Ha & Hr & Hid).
  destruct (ObjectIDFromHex (Param c "id")) as [oid|].
  2: { rewrite Hid in Hok. discriminate Hok. }
  pose proof (update_one_spec oid (apply_set patch) (collection repo)
                (apply_set_ID patch)) as Hspec.
  destruct (update_one oid (apply_set patch) (collection repo))
    as [docs matched].
  cbn [fst snd] in Hid.
  destruct Hspec as (Hall & [(-> & _) | (-> & u & Hin & Hu & Hin')] & _).
  { rewrite Hid in Hok. discriminate Hok. }
  assert (Hfrom : forall v, ID v = oid -> patched_from oid v (apply_set patch v)).
  { intros v Hv. unfold patched_from.
    destruct (apply_set_patched oid patch v Hv)
      as (H1 & H2 & H3 & H4 & H5 & H6 & H7 & H8 & H9 & H10 & H11).
    repeat (split; [assumption |]). intros Hne. contradiction. }
  exists oid, isActive, rollout, {| collection := docs |}.
  split; [reflexivity |]. split; [reflexivity |].
  split; [rewrite Hid; reflexivity |].
  split.
  - cbn [collection]. eapply Forall2_impl; [exact Hall |].
    intros v v' [-> | [Hv ->]]; [| now apply Hfrom].
    unfold patched_from. repeat (split; [reflexivity |]). reflexivity.
  - exists u, (apply_set patch u).
    destruct (apply_set_values patch isActive rollout u Ha Hr) as [Hact Hroll].
    split; [exact Hin |]. split; [exact Hin' |].
    split; [now apply Hfrom |]. split; [exact Hu |].
    split; assumption.
Qed.

Lemma UpdateUpdate_changes_one_record_witness :
  exists repo',
    snd (UpdateUpdate demo.lib
           (admin_handler [demo.update_at 100; later_update])
           (patch_request "25"))
    = with_updateRepo (Some repo')
        (admin_handler [demo.update_at 100; later_update])
    /\ Forall2 (patched_from (demo.oid_of 1))
         [demo.update_at 100; later_update] (collection repo')
    /\ collection repo' = [demo.update_at 25; later_update].
Proof.
  assert (Hok : status (fst (UpdateUpdate demo.lib
                               (admin_handler
                                  [demo.update_at 100; later_update])
                               (patch_request "25"))) = 200)
    by (vm_compute; reflexivity).
  destruct (UpdateUpdate_changes_one_record demo.lib
              (admin_handler [demo.update_at 100; later_update])
              (patch_request "25")
              {| collection := [demo.update_at 100; later_update] |}
              eq_refl Hok)
    as (oid & isActive & rollout & repo' & Hoid & _ & Hsnd & Hall & _).
  exists repo'. split; [exact Hsnd |].
  assert (Ho : oid = demo.oid_of 1)
    by (vm_compute in Hoid; injection Hoid as <-; reflexivity).
  subst oid. split; [exact Hall |].
  assert (Hrun : snd (UpdateUpdate demo.lib
                        (admin_handler [demo.update_at 100; later_update])
                        (patch_request "25"))
                 = admin_handler [demo.update_at 25; later_update])
    by (vm_compute; reflexivity).
  rewrite Hrun in Hsnd. unfold with_updateRepo, admin_handler in Hsnd.
  injection Hsnd as <-. reflexivity.
Defined.

(** X10.  Switching a record off takes it out of what the manifest
    endpoint can be served: once a patch with [isActive] false is
    accepted for an identifier, in a store whose identifiers are
    unique, no query of [FindLatest] returns the record with that
    identifier. *)
Theorem deactivated_update_is_not_served (lib : Lib) (h : AdminHandler)
    (c : Context) (repo : UpdateRepository) (rollout : option Z) :
  updateRepo h = Some repo ->
  unique_ids (collection repo) ->
  json_BindPatch lib (Body c) = Ok (Some false, rollout) ->
  status (fst (UpdateUpdate lib h c)) = 200 ->
  forall projectSlug runtimeVersion channel platform u,
    FindLatest (updateRepo (snd (UpdateUpdate lib h c)))
      projectSlug runtimeVersion channel platform = Ok (Some u) ->
    ObjectIDFromHex (Param c "id") <> Some (ID u).
Proof.
  intros Hrepo Huniq Hbind Hok slug rv ch pf u Hfind Hid.
  pose proof (UpdateUpdate_connected lib h c repo Hrepo) as Hrun.
  rewrite Hbind in Hrun.
  assert (Hpatch :
    exists patch : gmap string BsonValue,
      patch !! "isActive" = option_map BBool (Some false)
      /\ patch !! "rolloutPercentage" = option_map BInt rollout
      /\ (if snd (update_one (ID u) (apply_set patch) (collection repo)) =? 0
          then UpdateUpdate lib h c = (error_json 500 "update not found", h)
          else UpdateUpdate lib h c
               = (respond 200
                    (JSON [("id", VString (Param c "id"));
                           ("message",
                            VString "Update modified successfully")]),
                  with_updateRepo
                    (Some {| collection :=
                               fst (update_one (ID u) (apply_set patch)
                                      (collection repo)) |}) h))).
  { rewrite Hid in Hrun. destruct rollout; exact Hrun. }
  destruct Hpatch as (patch & Ha & Hr & Hcase).
  pose proof (update_one_spec (ID u) (apply_set patch) (collection repo)
                (apply_set_ID patch)) as Hspec.
  pose proof (update_one_unique (ID u) (apply_set patch) (collection repo)
                (apply_set_ID patch) Huniq u) as Hone.
  destruct (update_one (ID u) (apply_set patch) (collection repo))
    as [docs matched].
  cbn [fst snd] in *.
  destruct Hspec as (_ & [(-> & _) | (-> & _)] & _).
  { rewrite Hcase in Hok. discriminate Hok. }
  change (1 =? 0) with false in Hcase. cbv iota in Hcase.
  rewrite Hcase in Hfind. cbn [snd updateRepo with_updateRepo] in Hfind.
  destruct (FindLatest_latest {| collection := docs |} slug rv ch pf)
    as (res & Hres & Hlatest).
  rewrite Hfind in Hres. injection Hres as <-.
  destruct Hlatest as (Hin & Hmatch & _). cbn [collection] in Hin.
  destruct Hmatch as (_ & _ & _ & Hactive & _).
  destruct (Hone Hin eq_refl (or_intror eq_refl)) as (v & _ & Hv).
  destruct (apply_set_values patch (Some false) rollout v Ha Hr) as [Hoff _].
  rewrite <- Hv in Hoff. simpl in Hoff. congruence.
Qed.

Lemma deactivated_update_is_not_served_witness :
  FindLatest
    (updateRepo (snd (UpdateUpdate demo.lib
                        (admin_handler [demo.update_at 100; later_update])
                        (patch_request_for "000000000000000000000003"))))
    "demo" "1" "production" "android" = Ok (Some (demo.update_at 100))
  /\ FindLatest (Some {| collection := [demo.update_at 100; later_update] |})
       "demo" "1" "production" "android" = Ok (Some later_update)
  /\ ObjectIDFromHex "000000000000000000000003"
     <> Some (ID (demo.update_at 100)).
Proof.
  assert (Hfind : FindLatest
            (updateRepo (snd (UpdateUpdate demo.lib
                                (admin_handler
                                   [demo.update_at 100; later_update])
                                (patch_request_for
                                   "000000000000000000000003"))))
            "demo" "1" "production" "android"
          = Ok (Some (demo.update_at 100))) by (vm_compute; reflexivity).
  split; [exact Hfind |]. split; [vm_compute; reflexivity |].
  assert (Huniq : unique_ids [demo.update_at 100; later_update]).
  { unfold unique_ids. cbn [map].
    constructor;
      [intros H; apply list_elem_of_In in H; destruct H as [H | []];
       vm_compute in H; discriminate H |].
    constructor;
      [intros H; apply list_elem_of_In in H; destruct H | constructor]. }
  assert (Hok : status (fst (UpdateUpdate demo.lib
                               (admin_handler
                                  [demo.update_at 100; later_update])
                               (patch_request_for
                                  "000000000000000000000003"))) = 200)
    by (vm_compute; reflexivity).
  exact (deactivated_update_is_not_served demo.lib
           (admin_handler [demo.update_at 100; later_update])
           (patch_request_for "000000000000000000000003")
           {| collection := [demo.update_at 100; later_update] |} None
           eq_refl Huniq eq_refl Hok "demo" "1" "production" "android"
           (demo.update_at 100) Hfind).
Defined.

End PatchOutcomeClaims.

Section DeleteOne.
Import Go models database repositories.

(** What [DeleteOne] does to a collection. *)
Lemma delete_one_spec {A} (P : A -> bool) (docs : list A) :
  match List.find P docs with
  | None => updates.delete_one P docs = (docs, 0)
  | Some u =>
      exists l1 l2,
        docs = l1 ++ u :: l2
        /\ (forall v, In v l1 -> P v = false)
        /\ P u = true
        /\ updates.delete_one P docs = (l1 ++ l2, 1)
  end.
Proof.
  induction docs as [|x docs IH]; [reflexivity |].
  cbn [List.find updates.delete_one].
  destruct (P x) eqn:Hx.
  - exists [], docs. repeat split; [intros v [] | exact Hx].
  - destruct (List.find P docs) as [u|].
    + destruct IH as (l1 & l2 & -> & Hl1 & Hu & ->).
      exists (x :: l1), l2. repeat split; [| exact Hu].
      intros v [<- | Hv]; [exact Hx | auto].
    + now rewrite IH.
Qed.

Lemma find_skip_one {A} (P : A -> bool) (l1 l2 : list A) (u : A) :
  P u = false -> List.find P (l1 ++ u :: l2) = List.find P (l1 ++ l2).
Proof.
  intros Hu. induction l1 as [|x l1 IH]; cbn [app List.find].
  - now rewrite Hu.
  - destruct (P x); [reflexivity | exact IH].
Qed.

Lemma find_all_false {A} (P : A -> bool) (l : list A) :
  (forall v, In v l -> P v = false) -> List.find P l = None.
Proof.
  intros H. induction l as [|x l IH]; [reflexivity |].
  cbn [List.find]. rewrite (H x) by now left.
  apply IH. intros v Hv. apply H. now right.
Qed.

End DeleteOne.

Section DeleteClaims.
Import Go models database repositories.

(** The error of an identifier that is refused: the error of the
    driver for a length other than 24, the error of [encoding/hex] for
    the first byte that is no hexadecimal digit otherwise. *)
Lemma decode_chars_none (n : nat) :
  forall cs, (length cs <= n)%nat ->
  hex.decode_chars cs = None -> hex.first_invalid cs = None ->
  Nat.odd (length cs) = true.
Proof.
  induction n as [|n IH]; intros cs Hlen.
  - destruct cs; [discriminate | cbn in Hlen; lia].
  - destruct cs as [|c1 [|c2 cs]]; [discriminate | reflexivity |].
    cbn [hex.decode_chars hex.first_invalid].
    destruct (hex.from_hex_char c1); [| discriminate].
    destruct (hex.from_hex_char c2); [| discriminate].
    destruct (hex.decode_chars cs) eqn:Hcs; [discriminate |].
    intros _ Hfirst. cbn [length]. rewrite Nat.odd_succ_succ.
    apply (IH cs); [cbn in Hlen; lia | exact Hcs | exact Hfirst].
Qed.

Lemma ObjectIDFromHexError_cases (id : string) :
  ObjectIDFromHex id = None ->
  (String.length id <> 24%nat /\ ObjectIDFromHexError id = ErrInvalidHex)
  \/ (String.length id = 24%nat
      /\ exists ch,
           hex.first_invalid (list_ascii_of_string id) = Some ch
           /\ ObjectIDFromHexError id = hex.InvalidByteError ch).
Proof.
  unfold ObjectIDFromHex, ObjectIDFromHexError.
  destruct (Nat.eqb_spec (String.length id) 24) as [Hlen | Hlen];
    [| intros _; left; split; [exact Hlen | reflexivity]].
  intros Hdecode. right. split; [exact Hlen |].
  unfold hex.DecodeError, hex.DecodeString in *.
  destruct (hex.first_invalid (list_ascii_of_string id)) as [ch|] eqn:Hfirst;
    [exists ch; split; reflexivity |].
  pose proof (decode_chars_none _ _ (le_n _) Hdecode Hfirst) as Hodd.
  rewrite length_list_of_string, Hlen in Hodd. discriminate Hodd.
Qed.

(** X11.  [Delete] removes the record that [FindByID] finds, and
    nothing else.  An identifier that is no ObjectID and an identifier
    that no record has are errors that leave the store as it is; the
    error of an identifier that is no ObjectID is that of the driver
    behind [invalid update ID: ], which for a length other than 24 is
    [the provided hex string is not a valid ObjectID] and for 24 bytes
    is the [invalid byte] error of [encoding/hex] for the first byte
    that is no hexadecimal digit.  Otherwise the first record with the
    identifier is removed; in a store whose identifiers are unique the
    identifier is then found no more, the other records are all kept,
    and every other identifier is found as before. *)
Theorem Delete_then_FindByID (repo : UpdateRepository) (id : string) :
  unique_ids (collection repo) ->
  match ObjectIDFromHex id with
  | None =>
      updates.Delete (Some repo) id
      = (Some repo,
         Some ("invalid update ID: " +:+ ObjectIDFromHexError id))
      /\ ((String.length id <> 24%nat
           /\ ObjectIDFromHexError id
              = "the provided hex string is not a valid ObjectID")
          \/ (String.length id = 24%nat
              /\ exists ch,
                   hex.first_invalid (list_ascii_of_string id) = Some ch
                   /\ ObjectIDFromHexError id
                      = "encoding/hex: invalid byte: " +:+ hex.format_U ch))
  | Some oid =>
      match FindByID (Some repo) id with
      | Ok (Some u) =>
          exists repo',
            updates.Delete (Some repo) id = (Some repo', None)
            /\ FindByID (Some repo') id = Ok None
            /\ (forall v,
                  In v (collection repo')
                  <-> In v (collection repo) /\ v <> u)
            /\ forall id' oid',
                 ObjectIDFromHex id' = Some oid' -> oid' <> oid ->
                 FindByID (Some repo') id' = FindByID (Some repo) id'
      | _ =>
          updates.Delete (Some repo) id = (Some repo, Some "update not found")
      end
  end.
Proof.
  intros Huniq. unfold updates.Delete, FindByID.
  destruct (ObjectIDFromHex id) as [oid|] eqn:Hoid;
    [| split; [reflexivity | exact (ObjectIDFromHexError_cases id Hoid)]].
  pose proof (delete_one_spec (fun u => bool_decide (ID u = oid))
                (collection repo)) as Hspec.
  destruct (List.find (fun u => bool_decide (ID u = oid)) (collection repo))
    as [u|] eqn:Hfind.
  2: { now rewrite Hspec. }
  destruct Hspec as (l1 & l2 & Hdocs & Hl1 & Hu & ->).
  change (1 =? 0) with false. cbv iota.
  apply bool_decide_eq_true_1 in Hu.
  unfold unique_ids in Huniq. rewrite Hdocs in Huniq.
  rewrite map_app in Huniq. cbn [map] in Huniq.
  apply NoDup_app in Huniq as (_ & Hdisj & Hnd).
  apply NoDup_cons in Hnd as [Hfresh _].
  assert (Hother : forall v, In v (l1 ++ l2) -> ID v <> oid).
  { intros v Hv Heq. apply in_app_or in Hv as [Hv | Hv].
    - apply (Hdisj (ID v)); [apply list_elem_of_In, in_map, Hv |].
      rewrite Heq, <- Hu. left.
    - apply Hfresh. rewrite Hu, <- Heq. apply list_elem_of_In, in_map, Hv. }
  eexists. split; [reflexivity |]. cbn [collection].
  split; [| split].
  - f_equal. apply find_all_false.
    intros v Hv. apply bool_decide_eq_false_2. now apply Hother.
  - intros v. rewrite Hdocs. rewrite !in_app_iff. cbn [In]. split.
    + intros Hv. split; [tauto |]. intros ->.
      apply (Hother u); [apply in_or_app; exact Hv | exact Hu].
    + intros [[Hv | [-> | Hv]] Hne]; tauto.
  - intros id' oid' Hid' Hne. rewrite Hid'. cbn [collection]. rewrite Hdocs.
    rewrite find_skip_one; [reflexivity |].
    apply bool_decide_eq_false_2. congruence.
Qed.

Lemma Delete_then_FindByID_witness :
  (exists repo',
     updates.Delete
       (Some {| collection := [demo.update_at 100; later_update] |})
       "000000000000000000000003" = (Some repo', None)
     /\ FindByID (Some repo') "000000000000000000000003" = Ok None
     /\ FindByID (Some repo') "000000000000000000000001"
        = Ok (Some (demo.update_at 100)))
  /\ snd (updates.Delete
            (Some {| collection := [demo.update_at 100; later_update] |})
            "00000000000000000000000g")
     = Some "invalid update ID: encoding/hex: invalid byte: U+0067 'g'"
  /\ snd (updates.Delete
            (Some {| collection := [demo.update_at 100; later_update] |})
            "3")
     = Some ("invalid update ID: "
               +:+ "the provided hex string is not a valid ObjectID").
Proof.
  assert (Huniq : unique_ids
                    (collection
                       {| collection := [demo.update_at 100; later_update] |})).
  { unfold unique_ids. cbn [map collection].
    constructor;
      [intros H; apply list_elem_of_In in H; destruct H as [H | []];
       vm_compute in H; discriminate H |].
    constructor;
      [intros H; apply list_elem_of_In in H; destruct H | constructor]. }
  split; [| split].
  2: { pose proof (Delete_then_FindByID
                     {| collection := [demo.update_at 100; later_update] |}
                     "00000000000000000000000g" Huniq) as H.
       change (ObjectIDFromHex "00000000000000000000000g")
         with (@None ObjectID) in H.
       destruct H as [-> _]. vm_compute. reflexivity. }
  2: { pose proof (Delete_then_FindByID
                     {| collection := [demo.update_at 100; later_update] |}
                     "3" Huniq) as H.
       change (ObjectIDFromHex "3") with (@None ObjectID) in H.
       destruct H as [-> _]. vm_compute. reflexivity. }
  pose proof (Delete_then_FindByID
                {| collection := [demo.update_at 100; later_update] |}
                "000000000000000000000003" Huniq) as H.
  assert (Hoid : ObjectIDFromHex "000000000000000000000003"
                 = Some (demo.oid_of 3)) by (vm_compute; reflexivity).
  assert (Hfound : FindByID
                     (Some {| collection :=
                                [demo.update_at 100; later_update] |})
                     "000000000000000000000003" = Ok (Some later_update))
    by (vm_compute; reflexivity).
  rewrite Hoid, Hfound in H.
  destruct H as (repo' & Hdel & Hgone & _ & Hkept).
  exists repo'. split; [exact Hdel |]. split; [exact Hgone |].
  rewrite (Hkept "000000000000000000000001" (demo.oid_of 1)).
  - vm_compute. reflexivity.
  - vm_compute. reflexivity.
  - intros H. vm_compute in H. discriminate H.
Defined.

End DeleteClaims.

Section FindAllProperties.
Import Go models database repositories.

Lemma In_firstn {A} (n : nat) (l : list A) x : In x (firstn n l) -> In x l.
Proof.
  revert l. induction n as [|n IH]; intros [|y l]; simpl; try tauto.
  intros [-> | H]; [now left | right; now apply IH].
Qed.

Lemma In_skipn {A} (n : nat) (l : list A) x : In x (skipn n l) -> In x l.
Proof.
  revert l. induction n as [|n IH]; intros [|y l]; simpl; try tauto.
  intros H. right. now apply IH.
Qed.

Lemma StronglySorted_firstn {A} (R : A -> A -> Prop) (n : nat) (l : list A) :
  StronglySorted R l -> StronglySorted R (firstn n l).
Proof.
  revert l. induction n as [|n IH]; intros l Hs; [constructor |].
  destruct Hs as [|x l Hl Hx]; [constructor |]. cbn [firstn].
  constructor; [now apply IH |].
  apply List.Forall_forall. intros y Hy.
  rewrite List.Forall_forall in Hx. apply Hx. now apply In_firstn in Hy.
Qed.

Lemma StronglySorted_skipn {A} (R : A -> A -> Prop) (n : nat) (l : list A) :
  StronglySorted R l -> StronglySorted R (skipn n l).
Proof.
  revert l. induction n as [|n IH]; intros l Hs; [exact Hs |].
  destruct Hs as [|x l Hl Hx]; [constructor |]. cbn [skipn]. now apply IH.
Qed.

(** A filter matches a record when every key of it names a field that
    holds the value. *)
Lemma matches_spec (filter : gmap string BsonValue) (u : Update) :
  updates.matches filter u = true
  <-> forall k v, filter !! k = Some v -> updates.field k u = Some v.
Proof.
  unfold updates.matches. rewrite forallb_forall. split.
  - intros H k v Hkv.
    apply (bool_decide_eq_true_1 _ (H (k, v) (proj1 (list_elem_of_In _ _)
             (proj2 (elem_of_map_to_list filter k v) Hkv)))).
  - intros H [k v] Hin. apply bool_decide_eq_true_2. apply H.
    now apply elem_of_map_to_list, list_elem_of_In.
Qed.

Lemma field_channel (u : Update) :
  updates.field "channel" u = Some (BString (Channel u)).
Proof. reflexivity. Qed.

Lemma field_runtimeVersion (u : Update) :
  updates.field "runtimeVersion" u = Some (BString (RuntimeVersion u)).
Proof. reflexivity. Qed.

Lemma field_projectSlug (u : Update) :
  updates.field "projectSlug" u = Some (BString (ProjectSlug u)).
Proof. reflexivity. Qed.

(** The page of a listing with a positive limit and an offset that is
    not negative. *)
Lemma FindAll_run (repo : UpdateRepository) (filter : gmap string BsonValue)
    (limit offset : Z) :
  0 < limit -> 0 <= offset ->
  updates.FindAll (Some repo) filter limit offset
  = Ok (firstn (Z.to_nat limit)
          (skipn (Z.to_nat offset)
             (merge_sort newest_first
                (List.filter (updates.matches filter) (collection repo)))),
        Z.of_nat (length (List.filter (updates.matches filter)
                            (collection repo)))).
Proof.
  intros Hl Ho. unfold updates.FindAll.
  destruct (offset <? 0) eqn:Hneg; [apply Z.ltb_lt in Hneg; lia |].
  destruct (limit =? 0) eqn:Hz; [apply Z.eqb_eq in Hz; lia |].
  now rewrite Z.abs_eq by lia.
Qed.

Lemma page_length {A} (limit offset : Z) (l : list A) :
  0 < limit -> 0 <= offset ->
  Z.of_nat (length (firstn (Z.to_nat limit) (skipn (Z.to_nat offset) l)))
  = Z.min limit (Z.max 0 (Z.of_nat (length l) - offset)).
Proof.
  intros Hl Ho. rewrite length_firstn, length_skipn. lia.
Qed.

Lemma page_sorted (matching : list Update) (limit offset : nat) :
  StronglySorted newest_first
    (firstn limit (skipn offset (merge_sort newest_first matching))).
Proof.
  apply StronglySorted_firstn, StronglySorted_skipn.
  pose proof newest_first_trans. pose proof newest_first_total.
  apply StronglySorted_merge_sort; apply _.
Qed.

Lemma page_members (filter : gmap string BsonValue) (docs : list Update)
    (limit offset : nat) (u : Update) :
  In u (firstn limit
          (skipn offset
             (merge_sort newest_first
                (List.filter (updates.matches filter) docs)))) ->
  In u docs /\ updates.matches filter u = true.
Proof.
  intros Hin. apply In_firstn, In_skipn in Hin.
  apply list_elem_of_In in Hin.
  rewrite merge_sort_Permutation in Hin.
  apply list_elem_of_In, filter_In in Hin. exact Hin.
Qed.

End FindAllProperties.

Section FindAllClaims.
Import Go models gin sys database handlers handlers.admin repositories.

(** X12.  The page [FindAll] returns for a positive limit and an offset
    that is not negative: it holds as many records as the limit allows
    of what is left of the matching records behind the offset, newest
    first, every one of them a record of the collection on which each
    key of the filter names a field with the value asked for; the total
    counts the matching records whatever the limit and the offset
    are. *)
Theorem FindAll_page (repo : UpdateRepository)
    (filter : gmap string BsonValue) (limit offset : Z) :
  0 < limit -> 0 <= offset ->
  exists page total,
    updates.FindAll (Some repo) filter limit offset = Ok (page, total)
    /\ total
       = Z.of_nat (length (List.filter (updates.matches filter)
                             (collection repo)))
    /\ Z.of_nat (length page) = Z.min limit (Z.max 0 (total - offset))
    /\ StronglySorted newest_first page
    /\ forall u,
         In u page ->
         In u (collection repo)
         /\ forall k v, filter !! k = Some v -> updates.field k u = Some v.
Proof.
  intros Hl Ho. rewrite (FindAll_run repo filter limit offset Hl Ho).
  eexists _, _. split; [reflexivity |]. split; [reflexivity |].
  split.
  { rewrite (page_length limit offset _ Hl Ho).
    pose proof (merge_sort_Permutation newest_first
                  (List.filter (updates.matches filter) (collection repo)))
      as Hperm.
    apply Permutation_length in Hperm. now rewrite Hperm. }
  split; [apply page_sorted |].
  intros u Hu. apply page_members in Hu as [Hin Hm].
  split; [exact Hin |]. now apply matches_spec.
Qed.

Lemma FindAll_page_witness :
  updates.FindAll
    (Some {| collection := [demo.update_at 100; later_update; other_update] |})
    {[ "projectSlug" := BString "demo" ]} 1 0
  = Ok ([later_update], 2)
  /\ updates.FindAll
       (Some {| collection :=
                  [demo.update_at 100; later_update; other_update] |})
       {[ "projectSlug" := BString "demo" ]} 1 1
     = Ok ([demo.update_at 100], 2)
  /\ exists page total,
       updates.FindAll
         (Some {| collection :=
                    [demo.update_at 100; later_update; other_update] |})
         {[ "projectSlug" := BString "demo" ]} 5 1 = Ok (page, total)
       /\ Z.of_nat (length page) = Z.min 5 (Z.max 0 (total - 1)).
Proof.
  split; [vm_compute; reflexivity |]. split; [vm_compute; reflexivity |].
  destruct (FindAll_page
              {| collection :=
                   [demo.update_at 100; later_update; other_update] |}
              {[ "projectSlug" := BString "demo" ]} 5 1
              ltac:(lia) ltac:(lia))
    as (page & total & Hrun & _ & Hlen & _).
  exists page, total. split; [exact Hrun | exact Hlen].
Defined.

(** X13.  [ListUpdates] never refuses a request.  Without a database it
    answers 200 with an empty listing.  With one it answers with a
    listing whose limit is positive and whose offset is not negative:
    the limit is the [limit] parameter when that is a positive decimal
    number and 50 otherwise, the offset is the [offset] parameter when
    that is a decimal number that is not negative and 0 otherwise.  The
    listing holds at most as many records as the limit, newest first,
    all of them records of the store; when the [channel] or the
    [runtimeVersion] parameter is given, all of them have that channel
    or runtime version. *)
Theorem ListUpdates_listing (h : AdminHandler) (c : Context) :
  match updateRepo h with
  | None =>
      adminapi.ListUpdates h c
      = adminapi.Answered
          (respond 200
             (JSON [("message",
                     VString ("Database not connected. "
                                +:+ "Updates are served from filesystem."));
                    ("total", VInt 0);
                    ("updates", VJson (JArr []))]))
  | Some repo =>
      exists page total limit offset,
        adminapi.ListUpdates h c = adminapi.Listed page total limit offset
        /\ limit
           = match strconv.ParseInt (Query c "limit") with
             | Some n => if 0 <? n then n else 50
             | None => 50
             end
        /\ offset
           = match strconv.ParseInt (Query c "offset") with
             | Some n => if 0 <=? n then n else 0
             | None => 0
             end
        /\ 0 < limit /\ 0 <= offset
        /\ Z.of_nat (length page) <= limit
        /\ Z.of_nat (length page) <= total
        /\ StronglySorted newest_first page
        /\ forall u,
             In u page ->
             In u (collection repo)
             /\ (Query c "channel" <> "" -> Channel u = Query c "channel")
             /\ (Query c "runtimeVersion" <> "" ->
                 RuntimeVersion u = Query c "runtimeVersion")
  end.
Proof.
  unfold adminapi.ListUpdates. cbv zeta.
  destruct (updateRepo h) as [repo|] eqn:Hrepo; [| reflexivity].
  pose (limit := match strconv.ParseInt (Query c "limit") with
                | Some n => if 0 <? n then n else 50
                | None => 50
                end).
  pose (offset := match strconv.ParseInt (Query c "offset") with
                 | Some n => if 0 <=? n then n else 0
                 | None => 0
                 end).
  assert (Hlimit : (if negb (bool_decide (Query c "limit" = "")) then
                      match strconv.ParseInt (Query c "limit") with
                      | Some parsed => if 0 <? parsed then parsed else 50
                      | None => 50
                      end
                    else 50) = limit).
  { subst limit. destruct (decide (Query c "limit" = "")) as [He | He].
    - rewrite (bool_decide_eq_true_2 _ He), He. reflexivity.
    - now rewrite (bool_decide_eq_false_2 _ He). }
  assert (Hoffset : (if negb (bool_decide (Query c "offset" = "")) then
                       match strconv.ParseInt (Query c "offset") with
                       | Some parsed => if 0 <=? parsed then parsed else 0
                       | None => 0
                       end
                     else 0) = offset).
  { subst offset. destruct (decide (Query c "offset" = "")) as [He | He].
    - rewrite (bool_decide_eq_true_2 _ He), He. reflexivity.
    - now rewrite (bool_decide_eq_false_2 _ He). }
  rewrite Hlimit, Hoffset.
  assert (Hl : 0 < limit).
  { subst limit. destruct (strconv.ParseInt (Query c "limit")) as [n|];
      [| lia].
    destruct (0 <? n) eqn:Hn; [now apply Z.ltb_lt in Hn | lia]. }
  assert (Ho : 0 <= offset).
  { subst offset. destruct (strconv.ParseInt (Query c "offset")) as [n|];
      [| lia].
    destruct (0 <=? n) eqn:Hn; [now apply Z.leb_le in Hn | lia]. }
  match goal with
  | |- context [updates.FindAll (Some repo) ?f limit offset] =>
      set (filter := f)
  end.
  rewrite (FindAll_run repo filter limit offset Hl Ho).
  eexists _, _, limit, offset.
  split; [reflexivity |]. split; [reflexivity |]. split; [reflexivity |].
  split; [exact Hl |]. split; [exact Ho |].
  pose proof (merge_sort_Permutation newest_first
                (List.filter (updates.matches filter) (collection repo)))
    as Hperm.
  apply Permutation_length in Hperm.
  split; [rewrite (page_length limit offset _ Hl Ho); lia |].
  split; [rewrite (page_length limit offset _ Hl Ho), Hperm; lia |].
  split; [apply page_sorted |].
  intros u Hu. apply page_members in Hu as [Hin Hm].
  split; [exact Hin |].
  rewrite matches_spec in Hm. split.
  - intros Hch.
    assert (Hk : filter !! "channel" = Some (BString (Query c "channel"))).
    { subst filter. rewrite (bool_decide_eq_false_2 _ Hch). cbn [negb].
      destruct (negb (bool_decide (Query c "runtimeVersion" = "")));
        rewrite ?lookup_insert_ne by discriminate; apply lookup_insert_eq. }
    specialize (Hm _ _ Hk). rewrite field_channel in Hm. congruence.
  - intros Hrv.
    assert (Hk : filter !! "runtimeVersion"
                 = Some (BString (Query c "runtimeVersion"))).
    { subst filter. rewrite (bool_decide_eq_false_2 _ Hrv). cbn [negb].
      apply lookup_insert_eq. }
    specialize (Hm _ _ Hk). rewrite field_runtimeVersion in Hm. congruence.
Qed.

End FindAllClaims.

Section DeleteHandlerClaims.
Import Go models gin sys database handlers handlers.admin repositories.

(** X14.  What [DeleteUpdate] answers.  Without a database: 503.  For
    an identifier that is no ObjectID: 404.  For an identifier that no
    record has: 500 with the message [update not found], not 404.  In
    these cases nothing changes and no task is started.  Otherwise the
    answer is 200 without a body, the first record with the identifier
    is removed from the collection, the others keeping their order, and
    when the object store is connected one task is started, which
    removes the folder of the removed record. *)
Theorem DeleteUpdate_outcomes (h : AdminHandler) (c : Context) :
  match updateRepo h with
  | None =>
      adminapi.DeleteUpdate h c
      = (error_json 503 "Database not connected", h, [])
  | Some repo =>
      match ObjectIDFromHex (Param c "id") with
      | None =>
          adminapi.DeleteUpdate h c
          = (error_json 404 "Update not found", h, [])
      | Some oid =>
          match List.find (fun u => bool_decide (ID u = oid))
                  (collection repo) with
          | None =>
              adminapi.DeleteUpdate h c
              = (error_json 500 "update not found", h, [])
          | Some u =>
              exists before after,
                collection repo = before ++ u :: after
                /\ (forall v, In v before -> ID v <> oid)
                /\ ID u = oid
                /\ adminapi.DeleteUpdate h c
                   = (respond 200 NoBody,
                      with_updateRepo
                        (Some {| collection := before ++ after |}) h,
                      if IsConnected (cloudinaryService h)
                      then [adminapi.DeleteFolderTask
                              ("updates/" +:+ RuntimeVersion u +:+ "/"
                                 +:+ UpdateID u)]
                      else [])
          end
      end
  end.
Proof.
  unfold adminapi.DeleteUpdate.
  destruct (updateRepo h) as [repo|] eqn:Hrepo; [| reflexivity].
  unfold FindByID, updates.Delete.
  destruct (ObjectIDFromHex (Param c "id")) as [oid|]; [| reflexivity].
  pose proof (delete_one_spec (fun u => bool_decide (ID u = oid))
                (collection repo)) as Hspec.
  destruct (List.find (fun u => bool_decide (ID u = oid)) (collection repo))
    as [u|].
  - destruct Hspec as (before & after & Hdocs & Hbefore & Hu & ->).
    exists before, after. split; [exact Hdocs |].
    split.
    { intros v Hv Heq. specialize (Hbefore v Hv).
      now rewrite (bool_decide_eq_true_2 _ Heq) in Hbefore. }
    split; [now apply bool_decide_eq_true_1 in Hu |].
    reflexivity.
  - rewrite Hspec. reflexivity.
Qed.

Lemma FindLatest_in (r : option UpdateRepository)
    (projectSlug runtimeVersion channel platform : string) (u : Update) :
  FindLatest r projectSlug runtimeVersion channel platform = Ok (Some u) ->
  exists repo,
    r = Some repo /\ In u (collection repo) /\ ProjectSlug u = projectSlug.
Proof.
  destruct r as [repo|]; [| discriminate]. intros Hfind.
  destruct (FindLatest_latest repo projectSlug runtimeVersion channel platform)
    as (res & Hres & Hlatest).
  rewrite Hfind in Hres. injection Hres as <-.
  destruct Hlatest as (Hin & (Hslug & _) & _).
  exists repo. auto.
Qed.

Lemma filter_filter_absorb {A} (P Q : A -> bool) (l : list A) :
  (forall x, P x = true -> Q x = true) ->
  List.filter P (List.filter Q l) = List.filter P l.
Proof.
  intros HPQ. induction l as [|x l IH]; [reflexivity |].
  cbn [List.filter]. destruct (Q x) eqn:HQ; cbn [List.filter].
  - now rewrite IH.
  - destruct (P x) eqn:HP; [| exact IH].
    apply HPQ in HP. congruence.
Qed.

(** The updates of a project gone, the queries for the project find
    nothing and the queries for the other projects find what they
    found. *)
Lemma FindLatest_without_project (repo : UpdateRepository) (slug : string) :
  (forall rv ch pf,
     FindLatest
       (fst (updates.DeleteByProjectSlug (Some repo) slug)) slug rv ch pf
     = Ok None)
  /\ forall slug' rv ch pf,
       slug' <> slug ->
       FindLatest
         (fst (updates.DeleteByProjectSlug (Some repo) slug)) slug' rv ch pf
       = FindLatest (Some repo) slug' rv ch pf.
Proof.
  cbn [updates.DeleteByProjectSlug fst]. split.
  - intros rv ch pf.
    destruct (FindLatest _ slug rv ch pf) as [[u|]|err] eqn:Hfind;
      [| reflexivity |].
    + apply FindLatest_in in Hfind as (r & [= <-] & Hin & Hslug).
      cbn [collection] in Hin. apply filter_In in Hin as [_ Hne].
      now rewrite (bool_decide_eq_true_2 _ Hslug) in Hne.
    + discriminate Hfind.
  - intros slug' rv ch pf Hne. unfold FindLatest. cbn [collection].
    rewrite filter_filter_absorb; [reflexivity |].
    intros u Hu. apply latest_filter_spec in Hu as (Hslug & _).
    rewrite bool_decide_eq_false_2 by congruence. reflexivity.
Qed.

(** X15.  [DeleteProject] deletes the updates of the project before it
    deletes the project, and whatever the second step comes to: with a
    store of updates and a slug that is not empty, the store is left
    with the records of the other projects, in their order.  No query
    of [FindLatest] for the project finds a record any more, so that a
    manifest request for the project that passes the pre-checks is
    answered as one without a candidate; the queries for every other
    project find what they found before.  At most 1000 folders of the
    object store are removed.  The answer is 200 when the project
    repository has its collection, and 500 when it has not. *)
Theorem DeleteProject_removes_updates {Rand : Type} (lib : Lib) (fs : FS)
    (cfg : Config) (h : AdminHandler) (c : Context)
    (repo : UpdateRepository) :
  updateRepo h = Some repo ->
  Param c "slug" <> "" ->
  exists repo',
    updateRepo (snd (fst (adminapi.DeleteProject h c))) = Some repo'
    /\ collection repo'
       = List.filter
           (fun u => negb (bool_decide (ProjectSlug u = Param c "slug")))
           (collection repo)
    /\ (forall rv ch pf,
          FindLatest (Some repo') (Param c "slug") rv ch pf = Ok None)
    /\ (forall slug' rv ch pf,
          slug' <> Param c "slug" ->
          FindLatest (Some repo') slug' rv ch pf
          = FindLatest (Some repo) slug' rv ch pf)
    /\ (forall (mh : manifest.ManifestHandler Rand) (mc : Context)
               (boundary : string),
          manifest.updateRepo mh = Some repo' ->
          passes_prechecks mh mc ->
          Param mc "projectSlug" = Param c "slug" ->
          manifest.Handle lib fs cfg mh mc boundary
          = manifest.handleNoUpdateAvailable lib mh mc boundary
              (protocol_version mc))
    /\ (length (snd (adminapi.DeleteProject h c)) <= 1000)%nat
    /\ match projectRepo h with
       | Some {| projects := Some _ |} =>
           fst (fst (adminapi.DeleteProject h c)) = respond 200 NoBody
       | Some {| projects := None |} =>
           fst (fst (adminapi.DeleteProject h c))
           = error_json 500 "database not connected"
       | None =>
           fst (fst (adminapi.DeleteProject h c)) = respond 500 Panicked
       end.
Proof.
  intros Hrepo Hslug.
  destruct (FindLatest_without_project repo (Param c "slug"))
    as [Hnone Hother].
  cbn [updates.DeleteByProjectSlug fst] in Hnone, Hother.
  eexists. unfold adminapi.DeleteProject.
  rewrite (bool_decide_eq_false_2 _ Hslug), Hrepo.
  cbn [updates.DeleteByProjectSlug fst].
  rewrite (FindAll_run repo _ 1000 0) by lia.
  cbn [projectRepo with_updateRepo].
  split.
  { destruct (projectRepo h) as [[[ps|]]|]; reflexivity. }
  split; [reflexivity |]. split; [exact Hnone |]. split; [exact Hother |].
  split.
  { intros mh mc boundary Hmh Hpre Hmslug.
    rewrite (Handle_after_prechecks lib fs cfg mh mc boundary Hpre).
    unfold candidate. rewrite Hmh, Hmslug, Hnone. reflexivity. }
  split.
  { assert (Htasks : forall l : list Update,
              (length (flat_map
                         (fun update =>
                            if IsConnected (cloudinaryService h)
                            then [adminapi.DeleteFolderTask
                                    (adminapi.folder_of update)]
                            else []) l) <= length l)%nat).
    { induction l as [|u l IH]; [reflexivity |].
      cbn [flat_map]. rewrite length_app.
      destruct (IsConnected (cloudinaryService h)); cbn [length]; lia. }
    destruct (projectRepo h) as [[[ps|]]|]; cbn [snd];
      (etransitivity; [apply Htasks |]);
      rewrite length_firstn; change (Z.to_nat 1000) with 1000%nat; lia. }
  destruct (projectRepo h) as [[[ps|]]|]; reflexivity.
Qed.

Lemma DeleteProject_removes_updates_witness :
  exists repo',
    updateRepo
      (snd (fst (adminapi.DeleteProject
                   (project_handler
                      [demo.update_at 100; other_update; later_update])
                   (delete_request "slug" "demo"))))
    = Some repo'
    /\ collection repo' = [other_update]
    /\ fst (fst (adminapi.DeleteProject
                   (project_handler
                      [demo.update_at 100; other_update; later_update])
                   (delete_request "slug" "demo")))
       = respond 200 NoBody
    /\ manifest.Handle demo.lib demo.no_files demo.cfg
         (demo.manifest_handler [other_update])
         (demo.manifest_request protocol_1) "boundary"
       = manifest.handleNoUpdateAvailable demo.lib
           (demo.manifest_handler [other_update])
           (demo.manifest_request protocol_1) "boundary" 1.
Proof.
  assert (Hslug : Param (delete_request "slug" "demo") "slug" <> "")
    by (vm_compute; discriminate).
  destruct (DeleteProject_removes_updates (Rand := unit) demo.lib
              demo.no_files demo.cfg
              (project_handler
                 [demo.update_at 100; other_update; later_update])
              (delete_request "slug" "demo")
              {| collection :=
                   [demo.update_at 100; other_update; later_update] |}
              eq_refl Hslug)
    as (repo' & Hrepo' & Hcoll & _ & _ & Hmanifest & _ & Hresp).
  exists repo'. split; [exact Hrepo' |].
  assert (Hc : collection repo' = [other_update])
    by (rewrite Hcoll; vm_compute; reflexivity).
  split; [exact Hc |]. split; [exact Hresp |].
  apply (Hmanifest (demo.manifest_handler [other_update])
           (demo.manifest_request protocol_1) "boundary").
  - destruct repo' as [docs]. cbn [collection] in Hc. subst docs.
    reflexivity.
  - unfold passes_prechecks.
    split; [reflexivity |].
    split; [right; vm_compute; reflexivity |].
    split; [vm_compute; discriminate |].
    split; [vm_compute; discriminate |]. discriminate.
  - vm_compute. reflexivity.
Defined.

End DeleteHandlerClaims.

Section CounterClaims.
Import Go models database.

Lemma update_one_counts (oid : ObjectID) (docs : list Update) :
  let '(docs', matched) :=
    update_one oid (fun u => set_Downloads (Downloads u + 1) u) docs in
  total_downloads docs' = total_downloads docs + matched
  /\ matched = (if has_id oid docs then 1 else 0)
  /\ Forall2 counted_from docs docs'
  /\ map ID docs' = map ID docs.
Proof.
  induction docs as [|u docs IH]; cbn [update_one].
  - split; [reflexivity |]. split; [reflexivity |].
    split; [constructor | reflexivity].
  - unfold has_id. cbn [existsb]. fold (has_id oid docs).
    destruct (bool_decide (ID u = oid)).
    + cbn [orb total_downloads fold_right Downloads set_Downloads map].
      split; [lia |]. split; [reflexivity |].
      split; [| destruct u; reflexivity].
      constructor; [now right |].
      apply Forall2_diag. intros x. now left.
    + destruct (update_one oid _ docs) as [docs' matched].
      destruct IH as (Hsum & Hm & Hall & Hids).
      cbn [orb total_downloads fold_right map]. fold (total_downloads docs').
      fold (total_downloads docs).
      split; [lia |]. split; [exact Hm |].
      split; [| now rewrite Hids].
      constructor; [now left | exact Hall].
Qed.


End CounterClaims.

Section ProjectClaims.
Import Go models gin sys database handlers handlers.admin repositories.

Lemma find_existsb {A} (P : A -> bool) (l : list A) :
  existsb P l = match List.find P l with Some _ => true | None => false end.
Proof.
  induction l as [|x l IH]; [reflexivity |]. cbn [existsb List.find].
  destruct (P x); [reflexivity | exact IH].
Qed.

Lemma find_slug (slug : string) (ps : list Project) (p : Project) :
  List.find (fun q => bool_decide (Slug q = slug)) ps = Some p ->
  Slug p = slug /\ In p ps.
Proof.
  intros H. apply find_some in H as [Hin Hp].
  split; [now apply bool_decide_eq_true_1 in Hp | exact Hin].
Qed.

(** What [EnsureProjectExists] leaves for its slug. *)
Lemma EnsureProjectExists_cases (r : ProjectRepository) (now : time.Time)
    (oid : ObjectID) (slug name : string) :
  match projects r with
  | None => EnsureProjectExists r now oid slug name = r
  | Some ps =>
      match projects.FindBySlug r slug with
      | Ok p =>
          EnsureProjectExists r now oid slug name = r
      | Err _ =>
          projects (EnsureProjectExists r now oid slug name)
          = Some (ps ++ [ {| ProjectID := oid; Slug := slug; Name := name;
                             Description := "";
                             ProjectCreatedAt := now;
                             UpdateCount := 0 |} ])
          /\ projects.FindBySlug (EnsureProjectExists r now oid slug name)
               slug
             = Ok {| ProjectID := oid; Slug := slug; Name := name;
                     Description := ""; ProjectCreatedAt := now;
                     UpdateCount := 0 |}
      end
  end.
Proof.
  unfold EnsureProjectExists, projects.FindBySlug.
  destruct (projects r) as [ps|] eqn:Hps; [| reflexivity].
  rewrite (find_existsb _ ps).
  destruct (List.find (fun p => bool_decide (Slug p = slug)) ps) as [p|]
    eqn:Hfind; [reflexivity |].
  cbn [projects]. split; [reflexivity |].
  rewrite (find_app_r _ _ _ Hfind). cbn [List.find Slug].
  now rewrite bool_decide_eq_true_2.
Qed.

(** X17.  [EnsureProjectExists] is an upsert that never touches what
    is there.  Running it again for the same slug, with whatever name,
    changes nothing; a project with the slug is found afterwards
    (unless the repository has no collection, in which case nothing
    happens at all): the one that was found before, if there was one,
    else a new project named as asked, with no updates counted; and
    the projects of every other slug are found as before. *)
Theorem EnsureProjectExists_idempotent (r : ProjectRepository)
    (now now' : time.Time) (oid oid' : ObjectID) (slug name name' : string) :
  EnsureProjectExists (EnsureProjectExists r now oid slug name)
    now' oid' slug name'
  = EnsureProjectExists r now oid slug name
  /\ match projects r with
     | None => EnsureProjectExists r now oid slug name = r
     | Some ps =>
         match projects.FindBySlug r slug with
         | Ok p =>
             EnsureProjectExists r now oid slug name = r
         | Err _ =>
             projects (EnsureProjectExists r now oid slug name)
             = Some (ps ++ [ {| ProjectID := oid; Slug := slug; Name := name;
                                Description := "";
                                ProjectCreatedAt := now;
                                UpdateCount := 0 |} ])
             /\ projects.FindBySlug (EnsureProjectExists r now oid slug name)
                  slug
                = Ok {| ProjectID := oid; Slug := slug; Name := name;
                        Description := ""; ProjectCreatedAt := now;
                        UpdateCount := 0 |}
         end
     end
  /\ forall slug',
       slug' <> slug ->
       projects.FindBySlug (EnsureProjectExists r now oid slug name) slug'
       = projects.FindBySlug r slug'.
Proof.
  split; [| split; [apply EnsureProjectExists_cases |]].
  - pose proof (EnsureProjectExists_cases r now oid slug name) as Hfirst.
    pose proof (EnsureProjectExists_cases
                  (EnsureProjectExists r now oid slug name) now' oid' slug
                  name') as Hsecond.
    destruct (projects r) as [ps|] eqn:Hps.
    + destruct (projects.FindBySlug r slug) as [p|err] eqn:Hfind.
      * rewrite Hfirst in Hsecond |- *. now rewrite Hps, Hfind in Hsecond.
      * destruct Hfirst as [Hnew Hfound].
        now rewrite Hnew, Hfound in Hsecond.
    + rewrite Hfirst in Hsecond |- *. now rewrite Hps in Hsecond.
  - intros slug' Hne. unfold EnsureProjectExists, projects.FindBySlug.
    destruct (projects r) as [ps|] eqn:Hps; [| now rewrite Hps].
    destruct (existsb (fun p => bool_decide (Slug p = slug)) ps);
      [now rewrite Hps |].
    cbn [projects].
    destruct (List.find (fun p => bool_decide (Slug p = slug')) ps) as [q|]
      eqn:Hq.
    + now rewrite (find_app_l _ _ _ _ Hq).
    + rewrite (find_app_r _ _ _ Hq). cbn [List.find Slug].
      rewrite bool_decide_eq_false_2 by congruence. reflexivity.
Qed.

(** The project repository an accepted ingestion leaves, whether its
    insert succeeds or fails. *)
Lemma RegisterUpdate_projectRepo (lib : Lib) (h : AdminHandler)
    (c : Context) (w : Upload) (repo : UpdateRepository)
    (tempDir filename : string) :
  accepted lib h c w repo tempDir filename ->
  projectRepo (snd (RegisterUpdate lib h c w))
  = option_map
      (fun pr =>
         EnsureProjectExists pr (now w) (projectOid w)
           (PostForm c "projectSlug") (PostForm c "projectSlug"))
      (projectRepo h).
Proof.
  intros (Hrepo & Hform & Hslug & Hrv & [content Hfile] & Htemp & Hcreate
          & Hcopy & Hunzip).
  unfold RegisterUpdate. rewrite Hrepo, Hform.
  rewrite (bool_decide_eq_false_2 _ Hslug), (bool_decide_eq_false_2 _ Hrv).
  cbn [orb]. rewrite Hfile, Htemp, Hcreate, Hcopy. cbn [negb].
  rewrite Hunzip.
  set (h2 := match projectRepo h with
             | Some pr => with_projectRepo _ h
             | None => h
             end).
  assert (Hur : updateRepo h2 = Some repo)
    by (subst h2; destruct (projectRepo h); exact Hrepo).
  assert (Hpr : projectRepo h2
                = option_map
                    (fun pr =>
                       EnsureProjectExists pr (now w) (projectOid w)
                         (PostForm c "projectSlug") (PostForm c "projectSlug"))
                    (projectRepo h))
    by (subst h2; destruct (projectRepo h) as [pr0|] eqn:E;
        [reflexivity | exact E]).
  rewrite Hur.
  destruct (inserted w) as [oid | err].
  - match goal with
    | |- context [Create (Some repo) (now w) (Ok oid) ?upd] =>
        destruct (Create_connected repo (now w) oid upd) as (u & -> & _)
    end.
    cbn [snd projectRepo with_updateRepo]. exact Hpr.
  - match goal with
    | |- context [Create (Some repo) (now w) (Err err) ?upd] =>
        destruct (Create_failed repo (now w) err upd) as (u & ->)
    end.
    cbn [snd]. exact Hpr.
Qed.

(** X18.  An accepted ingestion leaves a project for its slug: when the
    handler keeps projects in a collection, a project with the slug of
    the form is found once the request is answered, the projects that
    were there are all still there, and a project that is created by
    the request carries the slug as its name. *)
Theorem RegisterUpdate_ensures_project (lib : Lib) (h : AdminHandler)
    (c : Context) (w : Upload) (repo : UpdateRepository)
    (tempDir filename : string) (pr : ProjectRepository)
    (ps : list Project) :
  accepted lib h c w repo tempDir filename ->
  projectRepo h = Some pr ->
  projects pr = Some ps ->
  exists pr' p,
    projectRepo (snd (RegisterUpdate lib h c w)) = Some pr'
    /\ projects.FindBySlug pr' (PostForm c "projectSlug") = Ok p
    /\ Slug p = PostForm c "projectSlug"
    /\ (forall q, In q ps -> exists ps', projects pr' = Some ps' /\ In q ps')
    /\ (In p ps \/ (Name p = PostForm c "projectSlug" /\ UpdateCount p = 0
                    /\ ProjectCreatedAt p = now w)).
Proof.
  intros Hacc Hpr Hps.
  rewrite (RegisterUpdate_projectRepo lib h c w repo tempDir filename Hacc),
    Hpr.
  cbn [option_map]. set (slug := PostForm c "projectSlug").
  pose proof (EnsureProjectExists_cases pr (now w) (projectOid w) slug slug)
    as Hcase.
  rewrite Hps in Hcase.
  destruct (projects.FindBySlug pr slug) as [p|err] eqn:Hfind.
  - exists pr, p. rewrite Hcase.
    split; [reflexivity |]. split; [exact Hfind |].
    unfold projects.FindBySlug in Hfind. rewrite Hps in Hfind.
    destruct (List.find _ ps) as [q|] eqn:Hq; [| discriminate].
    injection Hfind as ->. destruct (find_slug slug ps p Hq) as [Hs Hin].
    split; [exact Hs |].
    split; [intros q' Hq'; exists ps; auto | now left].
  - destruct Hcase as [Hnew Hfound].
    eexists _, _. split; [reflexivity |]. split; [exact Hfound |].
    split; [reflexivity |].
    split.
    + intros q Hq. eexists. split; [exact Hnew |].
      apply in_or_app. now left.
    + right. repeat split.
Qed.

Lemma RegisterUpdate_ensures_project_witness :
  exists pr' p,
    projectRepo (snd (RegisterUpdate demo.lib (ingest_handler [])
                        upload.request (upload.world upload.complete)))
    = Some pr'
    /\ projects.FindBySlug pr' "demo" = Ok p
    /\ Name p = "demo".
Proof.
  assert (Hacc : accepted demo.lib (ingest_handler []) upload.request
                   (upload.world upload.complete)
                   {| collection := [] |} "/tmp/otaship-upload-1"
                   "bundle.zip").
  { unfold accepted.
    split; [reflexivity |]. split; [reflexivity |].
    split; [vm_compute; discriminate |].
    split; [vm_compute; discriminate |].
    split; [exists (demo.bytes "PK"); vm_compute; reflexivity |].
    repeat split. }
  destruct (RegisterUpdate_ensures_project demo.lib (ingest_handler [])
              upload.request (upload.world upload.complete) _ _ _
              {| projects := Some [] |} [] Hacc eq_refl eq_refl)
    as (pr' & p & Hpr' & Hfind & _ & _ & [[] | (Hname & _)]).
  exists pr', p. split; [exact Hpr' |].
  split; [exact Hfind | exact Hname].
Defined.

Lemma delete_one_app_l {A} (P : A -> bool) (l1 l2 : list A) x :
  List.find P l1 = Some x ->
  updates.delete_one P (l1 ++ l2)
  = (fst (updates.delete_one P l1) ++ l2, 1).
Proof.
  induction l1 as [|a l1 IH]; [discriminate |].
  cbn [List.find app updates.delete_one].
  destruct (P a); [reflexivity |]. intros H. rewrite (IH H).
  destruct (updates.delete_one P l1). reflexivity.
Qed.

(** X19.  Slugs are not unique in the project repository.  [Create]
    inserts a project whatever the collection holds, resetting its
    creation time and its update count; when a project with the slug is
    there already, that one is still the one [FindBySlug] finds.
    [Delete] removes one project, the first with the slug: after such a
    creation and one deletion, a project with the slug is still
    found. *)
Theorem project_slugs_are_not_unique (r : ProjectRepository)
    (ps : list Project) (now : time.Time) (oid : ObjectID)
    (project older : Project) :
  projects r = Some ps ->
  projects.FindBySlug r (Slug project) = Ok older ->
  exists doc,
    projects.Create r now oid project
    = ({| projects := Some (ps ++ [doc]) |}, doc, None)
    /\ Slug doc = Slug project /\ Name doc = Name project
    /\ ProjectCreatedAt doc = now /\ UpdateCount doc = 0
    /\ projects.FindBySlug {| projects := Some (ps ++ [doc]) |} (Slug project)
       = Ok older
    /\ snd (projects.Delete {| projects := Some (ps ++ [doc]) |}
              (Slug project)) = None
    /\ exists other,
         projects.FindBySlug
           (fst (projects.Delete {| projects := Some (ps ++ [doc]) |}
                   (Slug project)))
           (Slug project) = Ok other
         /\ Slug other = Slug project.
Proof.
  intros Hps Hfind. unfold projects.Create. rewrite Hps.
  eexists. split; [reflexivity |].
  cbn [Slug Name ProjectCreatedAt UpdateCount projects.set_ProjectID].
  repeat (split; [reflexivity |]).
  unfold projects.FindBySlug in Hfind. rewrite Hps in Hfind.
  destruct (List.find (fun p => bool_decide (Slug p = Slug project)) ps)
    as [q|] eqn:Hq; [| discriminate].
  injection Hfind as ->.
  split.
  { unfold projects.FindBySlug. cbn [projects].
    now rewrite (find_app_l _ _ _ _ Hq). }
  split; [reflexivity |].
  unfold projects.Delete, projects.FindBySlug. cbn [projects fst].
  rewrite (delete_one_app_l _ _ _ _ Hq). cbn [fst].
  match goal with
  | |- context [List.find ?P (?l ++ [?d])] =>
      destruct (List.find P l) as [other|] eqn:Hother;
      [rewrite (find_app_l _ _ [d] _ Hother)
      | rewrite (find_app_r _ _ [d] Hother)]
  end.
  - exists other. split; [reflexivity |].
    now apply find_slug in Hother as [Hs _].
  - cbn [List.find Slug projects.set_ProjectID].
    rewrite bool_decide_eq_true_2 by reflexivity.
    eexists. split; reflexivity.
Qed.

Lemma project_slugs_are_not_unique_witness :
  exists doc other,
    projects.Create {| projects := Some [demo_project] |} 1735873445678
      (demo.oid_of 10) second_demo_project
    = ({| projects := Some [demo_project; doc] |}, doc, None)
    /\ UpdateCount doc = 0
    /\ projects.FindBySlug {| projects := Some [demo_project; doc] |} "demo"
       = Ok demo_project
    /\ projects.FindBySlug
         (fst (projects.Delete {| projects := Some [demo_project; doc] |}
                 "demo")) "demo" = Ok other
    /\ Slug other = "demo".
Proof.
  destruct (project_slugs_are_not_unique
              {| projects := Some [demo_project] |} [demo_project]
              1735873445678 (demo.oid_of 10) second_demo_project
              demo_project eq_refl eq_refl)
    as (doc & Hcreate & _ & _ & _ & Hcount & Hfound & _ & other & Hother
        & Hslug).
  exists doc, other. split; [exact Hcreate |]. split; [exact Hcount |].
  split; [exact Hfound |]. split; [exact Hother | exact Hslug].
Defined.

End ProjectClaims.

Section KeyClaims.
Import Go database repositories.

Lemma find_iff_exists {A} (P : A -> bool) (l : list A) :
  (exists x, List.find P l = Some x) <-> exists x, In x l /\ P x = true.
Proof.
  split.
  - intros [x Hx]. exists x. now apply find_some in Hx.
  - intros (x & Hin & Hx).
    destruct (List.find P l) as [y|] eqn:Hfind; [now exists y |].
    apply (find_none _ _ Hfind) in Hin. congruence.
Qed.

(** X20.  An API key that [Create] hands out is accepted by
    [Validate], and [Validate] accepts exactly the keys whose digest is
    stored.  For the 32 bytes the random source draws, the plain key is
    [ota_] followed by their 64 hexadecimal digits; the record that is
    stored holds the hexadecimal SHA-256 digest of the plain key and its
    first eight characters (a digest of 64 characters where the key has
    68: the key itself is not kept), and has never been used.
    [Validate] on the plain key finds a record with that digest (the new
    record, when no older record has the same digest) and starts the
    task that marks it as used; on any string it succeeds exactly when a
    stored record holds the digest of the string. *)
Theorem APIKey_Create_then_Validate (keys : list apikeys.APIKey)
    (keyBytes : list byte) (oid : models.ObjectID) (now : time.Time)
    (name : string) (scopes : list string) :
  length keyBytes = 32%nat ->
  exists plainKey apiKey,
    apikeys.Create {| apikeys.collection := Some keys |} (Ok keyBytes) oid now
      name scopes
    = (Ok (plainKey, apiKey),
       {| apikeys.collection := Some (keys ++ [apiKey]) |})
    /\ plainKey = "ota_" +:+ hex.EncodeToString keyBytes
    /\ String.length plainKey = 68%nat
    /\ hex.DecodeString (hex.EncodeToString keyBytes) = Some keyBytes
    /\ apikeys.KeyHash apiKey
       = services.ComputeSHA256Hash (list_byte_of_string plainKey)
    /\ String.length (apikeys.KeyHash apiKey) = 64%nat
    /\ apikeys.Prefix apiKey = String.substring 0 8 plainKey
    /\ String.length (apikeys.Prefix apiKey) = 8%nat
    /\ apikeys.LastUsedAt apiKey = apikeys.ZeroTime
    /\ apikeys.Name apiKey = name /\ apikeys.Scopes apiKey = scopes
    /\ (exists found,
          apikeys.Validate
            {| apikeys.collection := Some (keys ++ [apiKey]) |} plainKey
          = (Ok found, [apikeys.TouchLastUsedTask (apikeys.ID found)])
          /\ apikeys.KeyHash found = apikeys.KeyHash apiKey
          /\ ((forall k, In k keys ->
                 apikeys.KeyHash k <> apikeys.KeyHash apiKey) ->
              found = apiKey))
    /\ forall presented : string,
         (exists found,
            fst (apikeys.Validate
                   {| apikeys.collection := Some (keys ++ [apiKey]) |}
                   presented) = Ok found)
         <-> exists k,
               In k (keys ++ [apiKey])
               /\ apikeys.KeyHash k
                  = services.ComputeSHA256Hash (list_byte_of_string presented).
Proof.
  intros Hlen. unfold apikeys.Create. cbn [apikeys.collection].
  eexists _, _. split; [reflexivity |].
  cbn [apikeys.KeyHash apikeys.Prefix apikeys.LastUsedAt apikeys.Name
       apikeys.Scopes].
  set (plainKey := "ota_" +:+ hex.EncodeToString keyBytes).
  assert (Hplain : String.length plainKey = 68%nat).
  { subst plainKey. rewrite <- length_list_of_string, list_of_string_app,
      length_app, !length_list_of_string.
    unfold hex.EncodeToString.
    rewrite length_string_of_list, hex_encode_length, Hlen. reflexivity. }
  split; [reflexivity |]. split; [exact Hplain |].
  split; [apply hex_decode_encode |].
  split; [reflexivity |].
  split; [apply ComputeSHA256Hash_length |].
  split; [reflexivity |].
  split.
  { unfold services.slice. change (8 - 0)%nat with 8%nat.
    rewrite <- (string_of_list_of_string plainKey), substring_of_list,
      length_string_of_list, length_firstn, length_list_of_string, Hplain.
    reflexivity. }
  split; [reflexivity |]. split; [reflexivity |]. split; [reflexivity |].
  set (apiKey := {| apikeys.ID := oid; apikeys.Name := name;
                    apikeys.KeyHash := _; apikeys.Prefix := _;
                    apikeys.Scopes := scopes; apikeys.LastUsedAt := _;
                    apikeys.CreatedAt := now |}).
  assert (Hself : bool_decide
                    (apikeys.KeyHash apiKey
                     = hex.EncodeToString
                         (sha256.Sum256 (list_byte_of_string plainKey)))
                  = true) by (apply bool_decide_eq_true_2; reflexivity).
  split.
  - unfold apikeys.Validate. cbn [apikeys.collection].
    destruct (List.find
                (fun k => bool_decide
                            (apikeys.KeyHash k
                             = hex.EncodeToString
                                 (sha256.Sum256
                                    (list_byte_of_string plainKey)))) keys)
      as [older|] eqn:Holder.
    + rewrite (find_app_l _ _ _ _ Holder).
      exists older. split; [reflexivity |].
      apply find_some in Holder as [Hin Hhash].
      apply bool_decide_eq_true_1 in Hhash.
      split; [exact Hhash |].
      intros Hfresh. exfalso. apply (Hfresh older Hin). exact Hhash.
    + rewrite (find_app_r _ _ _ Holder). cbn [List.find].
      rewrite Hself. exists apiKey. repeat split.
  - intros presented. unfold apikeys.Validate. cbn [apikeys.collection].
    unfold services.ComputeSHA256Hash.
    set (P := fun k => bool_decide
                         (apikeys.KeyHash k
                          = hex.EncodeToString
                              (sha256.Sum256
                                 (list_byte_of_string presented)))).
    split.
    + intros [found Hfound].
      destruct (List.find P (keys ++ [apiKey])) as [k|] eqn:Hk;
        [| discriminate Hfound].
      apply find_some in Hk as [Hin Hhash].
      exists k. split; [exact Hin | now apply bool_decide_eq_true_1 in Hhash].
    + intros (k & Hin & Hhash).
      destruct (proj2 (find_iff_exists P (keys ++ [apiKey]))) as [x Hx].
      { exists k. split; [exact Hin | now apply bool_decide_eq_true_2]. }
      rewrite Hx. now exists x.
Qed.

Lemma APIKey_Create_then_Validate_witness :
  length drawn_bytes = 32%nat
  /\ exists plainKey apiKey,
       apikeys.Create no_keys (Ok drawn_bytes) (demo.oid_of 11)
         1735873445678 "ci" ["write"]
       = (Ok (plainKey, apiKey),
          {| apikeys.collection := Some [apiKey] |})
       /\ plainKey
          = "ota_0102030405060708090a0b0c0d0e0f10"
              +:+ "1112131415161718191a1b1c1d1e1f20"
       /\ apikeys.Prefix apiKey = "ota_0102"
       /\ fst (apikeys.Validate {| apikeys.collection := Some [apiKey] |}
                 plainKey) = Ok apiKey.
Proof.
  split; [reflexivity |].
  destruct (APIKey_Create_then_Validate [] drawn_bytes (demo.oid_of 11)
              1735873445678 "ci" ["write"] eq_refl)
    as (plainKey & apiKey & Hcreate & Hplain & _ & _ & _ & _ & Hprefix & _
        & _ & _ & _ & (found & Hvalid & _ & Hsame) & _).
  exists plainKey, apiKey. split; [exact Hcreate |].
  split; [rewrite Hplain; vm_compute; reflexivity |].
  split; [rewrite Hprefix, Hplain; vm_compute; reflexivity |].
  cbn [app] in Hvalid. rewrite Hvalid. cbn [fst]. f_equal.
  apply Hsame. intros k [].
Defined.

End KeyClaims.

Section AuthClaims.
Import Go gin sys.

Lemma cut_spec (sep : ascii) (cs : list ascii) :
  match gostrings.cut sep cs with
  | Some (before, after) =>
      cs = before ++ sep :: after /\ ~ In sep before
  | None => ~ In sep cs
  end.
Proof.
  induction cs as [|c cs IH]; cbn [gostrings.cut]; [tauto |].
  destruct (Ascii.eqb c sep) eqn:Hc.
  - apply Ascii.eqb_eq in Hc as ->. split; [reflexivity | tauto].
  - apply Ascii.eqb_neq in Hc.
    destruct (gostrings.cut sep cs) as [[before after]|].
    + destruct IH as [-> Hnot]. split; [reflexivity |].
      intros [H | H]; [congruence | tauto].
    + intros [H | H]; [congruence | tauto].
Qed.

Lemma cut_found (sep : ascii) (before after : list ascii) :
  ~ In sep before ->
  gostrings.cut sep (before ++ sep :: after) = Some (before, after).
Proof.
  induction before as [|c before IH]; cbn [app gostrings.cut]; intros Hnot.
  - now rewrite Ascii.eqb_refl.
  - destruct (Ascii.eqb c sep) eqn:Hc.
    + apply Ascii.eqb_eq in Hc. exfalso. apply Hnot. now left.
    + rewrite IH; [reflexivity |]. intros H. apply Hnot. now right.
Qed.

(** X21.  Whom [AdminAuth] lets through.  With an empty admin secret:
    every request.  With a secret: exactly the requests whose
    [Authorization] header is a scheme that reads [bearer] in lower
    case, one space, and the secret, compared byte for byte (the token
    is all that follows the first space, so that a second space is part
    of it).  Every other request is answered 401 with an error in
    JSON. *)
Theorem AdminAuth_accepts (lib : Lib) (cfg : config.Config) (c : Context) :
  (middleware.AdminAuth lib cfg c = middleware.Next
   <-> config.AdminSecret cfg = ""
       \/ bearer_of lib (config.AdminSecret cfg)
            (GetHeader c "Authorization"))
  /\ (middleware.AdminAuth lib cfg c = middleware.Next
      \/ exists msg,
           middleware.AdminAuth lib cfg c
           = middleware.Abort (error_json 401 msg)).
Proof.
  unfold middleware.AdminAuth, bearer_of.
  destruct (decide (config.AdminSecret cfg = "")) as [Hs | Hs].
  { rewrite (bool_decide_eq_true_2 _ Hs). split; [tauto | now left]. }
  rewrite (bool_decide_eq_false_2 _ Hs).
  set (header := GetHeader c "Authorization").
  destruct (decide (header = "")) as [Hh | Hh].
  { rewrite (bool_decide_eq_true_2 _ Hh). split; [| right; eauto].
    split; [discriminate |].
    intros [He | (scheme & Heq & _)]; [contradiction |].
    rewrite Hh in Heq. destruct scheme; discriminate. }
  rewrite (bool_decide_eq_false_2 _ Hh).
  unfold gostrings.SplitN2.
  pose proof (cut_spec " "%char (list_ascii_of_string header)) as Hcut.
  destruct (gostrings.cut " "%char (list_ascii_of_string header))
    as [[before after]|] eqn:Hc.
  - destruct Hcut as [Hlist Hnot].
    assert (Hheader : header
                      = string_of_list_ascii before +:+ " "
                          +:+ string_of_list_ascii after).
    { rewrite <- (string_of_list_of_string header), Hlist.
      rewrite string_of_list_app. reflexivity. }
    destruct (decide (strings_ToLower lib (string_of_list_ascii before)
                      = "bearer")) as [Hb | Hb].
    + rewrite (bool_decide_eq_true_2 _ Hb). cbn [negb].
      destruct (decide (string_of_list_ascii after = config.AdminSecret cfg))
        as [Ht | Ht].
      * rewrite (bool_decide_eq_true_2 _ Ht). cbn [negb].
        split; [| now left]. split; [| reflexivity].
        intros _. right. exists (string_of_list_ascii before).
        rewrite list_of_string_of_list, <- Ht. auto.
      * rewrite (bool_decide_eq_false_2 _ Ht). cbn [negb].
        split; [| right; eauto]. split; [discriminate |].
        intros [He | (scheme & Heq & Hns & _)]; [contradiction |].
        exfalso. apply Ht.
        apply (f_equal list_ascii_of_string) in Heq.
        rewrite !list_of_string_app in Heq. cbn [list_ascii_of_string app] in Heq.
        pose proof (cut_found " "%char (list_ascii_of_string scheme)
                      (list_ascii_of_string (config.AdminSecret cfg)) Hns)
          as Hfound.
        rewrite <- Heq, Hc in Hfound. injection Hfound as _ ->.
        apply string_of_list_of_string.
    + rewrite (bool_decide_eq_false_2 _ Hb). cbn [negb].
      split; [| right; eauto]. split; [discriminate |].
      intros [He | (scheme & Heq & Hns & Hlow)]; [contradiction |].
      exfalso. apply Hb.
      apply (f_equal list_ascii_of_string) in Heq.
      rewrite !list_of_string_app in Heq. cbn [list_ascii_of_string app] in Heq.
      pose proof (cut_found " "%char (list_ascii_of_string scheme)
                    (list_ascii_of_string (config.AdminSecret cfg)) Hns)
        as Hfound.
      rewrite <- Heq, Hc in Hfound. injection Hfound as -> _.
      now rewrite string_of_list_of_string.
  - split; [| right; eauto]. split; [discriminate |].
    intros [He | (scheme & Heq & _)]; [contradiction |].
    exfalso. apply Hcut. rewrite Heq, !list_of_string_app.
    apply in_or_app. right. now left.
Qed.

(** X22.  The configuration [Load] reads passes [Validate] exactly when
    the four variables of the database and of the object store are set
    in the environment and not empty.  Whatever the environment is, the
    port, the host name and the path of the private key are never
    empty: a variable that is missing or empty yields its default. *)
Theorem Validate_Load (env : gmap string string) :
  (config.Validate (config.Load env) = None
   <-> Forall (is_set env) required_variables)
  /\ config.Port (config.Load env) <> ""
  /\ config.Hostname (config.Load env) <> ""
  /\ config.PrivateKeyPath (config.Load env) <> ""
  /\ (is_set env "PORT" \/ config.Port (config.Load env) = "8080").
Proof.
  assert (Hget : forall key, (config.getEnv env key "" <> "" <-> is_set env key)).
  { intros key. unfold config.getEnv, is_set.
    destruct (env !! key) as [value|].
    - destruct (decide (value = "")) as [-> | Hv].
      + cbn. split; [intros H; now contradiction H |].
        intros (v & Heq & Hv). injection Heq as <-. now contradiction Hv.
      + rewrite (bool_decide_eq_false_2 _ Hv). cbn [negb]. split; eauto.
    - split; [intros H; now contradiction H |].
      intros (v & Hv & _). discriminate Hv. }
  assert (Hdef : forall key d, d <> "" -> config.getEnv env key d <> "").
  { intros key d Hd. unfold config.getEnv.
    destruct (env !! key) as [value|]; [| exact Hd].
    destruct (decide (value = "")) as [-> | Hv]; [exact Hd |].
    now rewrite (bool_decide_eq_false_2 _ Hv). }
  split; [| split; [| split; [| split]]].
  - unfold config.Validate, config.Load, required_variables.
    cbn [config.MongoDBURI config.CloudinaryCloudName config.CloudinaryAPIKey
         config.CloudinaryAPISecret].
    rewrite !Forall_cons, <- !Hget.
    repeat match goal with
           | |- context [bool_decide (config.getEnv env ?k "" = "")] =>
               let He := fresh "He" in
               destruct (decide (config.getEnv env k "" = "")) as [He | He];
               [rewrite (bool_decide_eq_true_2 _ He);
                split; [discriminate | tauto]
               | rewrite (bool_decide_eq_false_2 _ He)]
           end.
    split; [| reflexivity]. intros _. repeat split; try assumption.
    constructor.
  - apply Hdef. discriminate.
  - apply Hdef. discriminate.
  - apply Hdef. discriminate.
  - cbn [config.Load config.Port]. unfold config.getEnv, is_set.
    destruct (env !! "PORT") as [value|]; [| now right].
    destruct (decide (value = "")) as [-> | Hv]; [now right |].
    left. eauto.
Qed.

End AuthClaims.

Section ToolClaims.
Import Go.

(** X23.  The identifier the command line tool draws is a version 4
    UUID: for the 16 bytes of the buffer, [generateUUID] yields 36
    characters of the shape 8-4-4-4-12, lower-case hexadecimal digits
    between the hyphens, the first digit of the third group being 4 and
    the first digit of the fourth group one of 8, 9, a and b.  The
    digits are those of the buffer, of which the bytes 6 and 8 alone
    were changed. *)
Theorem generateUUID_version4 (b : list byte) :
  length b = 16%nat ->
  exists body b',
    uuid_shaped (cli.generateUUID b) body
    /\ String.length (cli.generateUUID b) = 36%nat
    /\ chars_all is_lower_hex body
    /\ hex.DecodeString body = Some b'
    /\ length b' = 16%nat
    /\ (forall i : nat, i <> 6%nat -> i <> 8%nat -> b' !! i = b !! i)
    /\ String.get 12 body = Some "4"%char
    /\ exists v, String.get 16 body = Some v
                 /\ In v ["8"; "9"; "a"; "b"]%char.
Proof.
  intros Hlen.
  do 17 (destruct b as [|? b]; try discriminate Hlen). clear Hlen.
  match goal with
  | |- context [cli.generateUUID [?b0; ?b1; ?b2; ?b3; ?b4; ?b5; ?b6; ?b7;
                                   ?b8; ?b9; ?b10; ?b11; ?b12; ?b13; ?b14;
                                   ?b15]] =>
      set (c6 := byte_of_Z (Z.lor (Z.land (byte_val b6) 15) 64));
      set (c8 := byte_of_Z (Z.lor (Z.land (byte_val b8) 63) 128));
      exists (hex.EncodeToString
                [b0; b1; b2; b3; b4; b5; c6; b7; c8; b9; b10; b11; b12; b13;
                 b14; b15]),
        [b0; b1; b2; b3; b4; b5; c6; b7; c8; b9; b10; b11; b12; b13; b14; b15];
      pose proof (forall_bytes version_digit_check eq_refl b6) as H6;
      pose proof (forall_bytes variant_digit_check eq_refl b8) as H8
  end.
  split.
  { eexists _, _, _, _, _. split; [reflexivity |].
    repeat (split; [reflexivity |]). reflexivity. }
  split; [reflexivity |].
  split.
  { unfold chars_all, hex.EncodeToString.
    rewrite list_of_string_of_list. apply hex_chars_lower. }
  split; [apply hex_decode_encode |].
  split; [reflexivity |].
  split.
  { intros i Hi6 Hi8.
    do 16 (destruct i as [|i]; [first [reflexivity | contradiction] |]).
    reflexivity. }
  unfold version_digit_check in H6. fold c6 in H6.
  apply Ascii.eqb_eq in H6.
  split.
  { change (Some (hex.digit (Z.shiftr (byte_val c6) 4)) = Some "4"%char).
    now rewrite H6. }
  exists (hex.digit (Z.shiftr (byte_val c8) 4)).
  split; [reflexivity |].
  unfold variant_digit_check in H8. fold c8 in H8. cbv zeta in H8.
  rewrite !orb_true_iff, !Ascii.eqb_eq in H8. cbn [In].
  destruct H8 as [[[H | H] | H] | H]; rewrite H; tauto.
Qed.

Lemma generateUUID_version4_witness :
  length drawn_buffer = 16%nat
  /\ cli.generateUUID drawn_buffer = "ffffffff-ffff-4fff-bfff-ffffffffffff"
  /\ exists body b',
       uuid_shaped (cli.generateUUID drawn_buffer) body
       /\ String.length (cli.generateUUID drawn_buffer) = 36%nat
       /\ chars_all is_lower_hex body
       /\ hex.DecodeString body = Some b'
       /\ length b' = 16%nat
       /\ (forall i : nat,
             i <> 6%nat -> i <> 8%nat -> b' !! i = drawn_buffer !! i)
       /\ String.get 12 body = Some "4"%char
       /\ exists v, String.get 16 body = Some v
                    /\ In v ["8"; "9"; "a"; "b"]%char.
Proof.
  split; [reflexivity |]. split; [vm_compute; reflexivity |].
  apply (generateUUID_version4 drawn_buffer). reflexivity.
Defined.

(** X24.  [truncate] never returns more than [maxLen] bytes, and it
    panics on a string that is too long when [maxLen] is below 3.  For
    an [int] [maxLen] and a string of fewer than 2^62 bytes: a string of
    at most [maxLen] bytes is returned as it is; for a longer one and
    [maxLen] of 3 or more the result is exactly [maxLen] bytes, the
    first [maxLen - 3] bytes of the string followed by three full
    stops; for a longer one and [maxLen] below 3 the slice bound is out
    of range. *)
Theorem truncate_bounds (s : string) (maxLen : Z) :
  MinInt64 <= maxLen <= MaxInt64 ->
  Z.of_nat (String.length s) < 2 ^ 62 ->
  match cli.truncate s maxLen with
  | Some t =>
      Z.of_nat (String.length t) <= maxLen
      /\ ((Z.of_nat (String.length s) <= maxLen /\ t = s)
          \/ (3 <= maxLen < Z.of_nat (String.length s)
              /\ Z.of_nat (String.length t) = maxLen
              /\ t = String.substring 0 (Z.to_nat (maxLen - 3)) s +:+ "..."))
  | None => maxLen < 3 /\ maxLen < Z.of_nat (String.length s)
  end.
Proof.
  unfold MinInt64, MaxInt64, cli.truncate. intros Hmax Hs. cbv zeta.
  destruct (Z.leb_spec (Z.of_nat (String.length s)) maxLen) as [Hle | Hgt].
  { split; [exact Hle | left; split; [exact Hle | reflexivity]]. }
  destruct (Z_lt_le_dec maxLen 3) as [Hsmall | Hbig].
  - assert (Hb : (wrap64 (maxLen - 3) <? 0)
                 || (Z.of_nat (String.length s) <? wrap64 (maxLen - 3))
                 = true).
    { unfold wrap64. apply orb_true_iff.
      destruct (Z_lt_le_dec (maxLen - 3) (- 2 ^ 63)) as [Hw | Hw].
      - right. apply Z.ltb_lt.
        replace ((maxLen - 3 + 2 ^ 63) mod 2 ^ 64)
          with (maxLen - 3 + 2 ^ 63 + 2 ^ 64)
          by (apply Z.mod_unique with (q := -1); lia).
        lia.
      - left. apply Z.ltb_lt. rewrite Z.mod_small by lia. lia. }
    rewrite Hb. lia.
  - assert (Hw : wrap64 (maxLen - 3) = maxLen - 3).
    { unfold wrap64. rewrite Z.mod_small by lia. lia. }
    rewrite Hw.
    assert (Hb : (maxLen - 3 <? 0)
                 || (Z.of_nat (String.length s) <? maxLen - 3) = false).
    { apply orb_false_iff. split; apply Z.ltb_ge; lia. }
    rewrite Hb.
    assert (Hlen : Z.of_nat
                     (String.length
                        (services.slice s 0 (Z.to_nat (maxLen - 3)) +:+ "..."))
                   = maxLen).
    { unfold services.slice. rewrite Nat.sub_0_r.
      rewrite <- (string_of_list_of_string s) at 1.
      rewrite substring_of_list.
      rewrite <- length_list_of_string, list_of_string_app, length_app,
        list_of_string_of_list, length_firstn, !length_list_of_string.
      cbn [String.length]. lia. }
    split; [lia |]. right. split; [lia |]. split; [exact Hlen |].
    unfold services.slice. now rewrite Nat.sub_0_r.
Qed.

Lemma truncate_bounds_witness :
  (MinInt64 <= 20 <= MaxInt64)
  /\ Z.of_nat (String.length "a-project-slug-of-some-length") < 2 ^ 62
  /\ cli.truncate "a-project-slug-of-some-length" 20
     = Some "a-project-slug-of..."
  /\ cli.truncate "a-project-slug-of-some-length" 2 = None
  /\ match cli.truncate "a-project-slug-of-some-length" 20 with
     | Some t =>
         Z.of_nat (String.length t) <= 20
         /\ ((Z.of_nat (String.length "a-project-slug-of-some-length") <= 20
              /\ t = "a-project-slug-of-some-length")
             \/ (3 <= 20
                 < Z.of_nat (String.length "a-project-slug-of-some-length")
                 /\ Z.of_nat (String.length t) = 20
                 /\ t = String.substring 0 (Z.to_nat (20 - 3))
                          "a-project-slug-of-some-length" +:+ "..."))
     | None =>
         20 < 3 /\ 20 < Z.of_nat (String.length "a-project-slug-of-some-length")
     end.
Proof.
  split; [unfold MinInt64, MaxInt64; lia |].
  split; [simpl; lia |].
  split; [vm_compute; reflexivity |].
  split; [vm_compute; reflexivity |].
  apply (truncate_bounds "a-project-slug-of-some-length" 20).
  - unfold MinInt64, MaxInt64; lia.
  - simpl; lia.
Defined.

End ToolClaims.

Section TypedMetadata.
Import Go models gin sys database handlers handlers.manifest.

(** The generic map of a platform entry has the members the sender
    reads, with the values of the entry. *)
Lemma generic_platform_members (pm : PlatformMetadata) :
  exists m,
    generic_platform pm = JObj m
    /\ as_string (member "bundle" m) = Some (Bundle pm)
    /\ as_array (member "assets" m) = Some (map generic_asset (Assets pm))
    /\ default "" (as_string (member "bundleUrl" m)) = BundleUrl pm
    /\ default "" (as_string (member "bundleKey" m)) = BundleKey pm
    /\ default "" (as_string (member "bundleHash" m)) = BundleHash pm.
Proof.
  eexists. split; [reflexivity |]. unfold omitempty.
  destruct (decide (BundleUrl pm = "")) as [Hu | Hu];
    [rewrite (bool_decide_eq_true_2 _ Hu)
    | rewrite (bool_decide_eq_false_2 _ Hu)];
    (destruct (decide (BundleKey pm = "")) as [Hk | Hk];
     [rewrite (bool_decide_eq_true_2 _ Hk)
     | rewrite (bool_decide_eq_false_2 _ Hk)]);
    (destruct (decide (BundleHash pm = "")) as [Hh | Hh];
     [rewrite (bool_decide_eq_true_2 _ Hh)
     | rewrite (bool_decide_eq_false_2 _ Hh)]);
    repeat split; try reflexivity; symmetry; assumption.
Qed.

Lemma generic_asset_members (a : Asset) :
  exists m,
    generic_asset a = JObj m
    /\ as_string (member "path" m) = Some (Path a)
    /\ as_string (member "ext" m) = Some (Ext a)
    /\ default "" (as_string (member "url" m)) = Url a
    /\ default "" (as_string (member "key" m)) = Key a
    /\ default "" (as_string (member "hash" m)) = Hash a.
Proof.
  eexists. split; [reflexivity |]. unfold omitempty.
  destruct (decide (Url a = "")) as [Hu | Hu];
    [rewrite (bool_decide_eq_true_2 _ Hu)
    | rewrite (bool_decide_eq_false_2 _ Hu)];
    (destruct (decide (Key a = "")) as [Hk | Hk];
     [rewrite (bool_decide_eq_true_2 _ Hk)
     | rewrite (bool_decide_eq_false_2 _ Hk)]);
    (destruct (decide (Hash a = "")) as [Hh | Hh];
     [rewrite (bool_decide_eq_true_2 _ Hh)
     | rewrite (bool_decide_eq_false_2 _ Hh)]);
    repeat split; try reflexivity; symmetry; assumption.
Qed.

(** Looking a key up in the generic form of a map is looking it up in
    the map. *)
Lemma member_map_assoc {A} (f : A -> json) (key : string)
    (l : list (string * A)) :
  NoDup (l.*1) ->
  member key (map (fun kv => (fst kv, f (snd kv))) l)
  = f <$> (snd <$> List.find (fun kv => bool_decide (fst kv = key)) l).
Proof.
  induction l as [|[k v] l IH]; intros Hnd; [reflexivity |].
  cbn [map member List.find fst snd].
  destruct (bool_decide (k = key)); [reflexivity |].
  apply IH. now inversion Hnd.
Qed.

Lemma find_map_to_list {A} (key : string) (m : gmap string A) :
  snd <$> List.find (fun kv => bool_decide (fst kv = key)) (map_to_list m)
  = m !! key.
Proof.
  destruct (List.find _ (map_to_list m)) as [[k v]|] eqn:Hfind.
  - apply find_some in Hfind as [Hin Hk].
    apply bool_decide_eq_true_1 in Hk. cbn in Hk. subst k.
    apply list_elem_of_In, elem_of_map_to_list in Hin. now rewrite Hin.
  - destruct (m !! key) as [v|] eqn:Hm; [| reflexivity].
    apply elem_of_map_to_list, list_elem_of_In in Hm.
    apply (find_none _ _ Hfind) in Hm.
    apply bool_decide_eq_false_1 in Hm. now contradiction Hm.
Qed.

Lemma member_generic_platforms (key : string)
    (fm : gmap string PlatformMetadata) :
  member key (map (fun kv => (fst kv, generic_platform (snd kv)))
                (map_to_list fm))
  = generic_platform <$> fm !! key.
Proof.
  rewrite member_map_assoc by apply NoDup_fst_map_to_list.
  now rewrite find_map_to_list.
Qed.

Lemma member_fileMetadata (md : UpdateMetadata) :
  member "fileMetadata" (generic_metadata md)
  = Some (match FileMetadata md with
          | None => JNull
          | Some fm =>
              JObj (map (fun kv => (fst kv, generic_platform (snd kv)))
                      (map_to_list fm))
          end).
Proof. reflexivity. Qed.

Lemma member_expoConfig (md : UpdateMetadata) :
  member "expoConfig" (generic_metadata md)
  = match ExpoConfig md with
    | Some (m :: ms) => Some (JObj (m :: ms))
    | _ => None
    end.
Proof. destruct md as [fm [[|m ms]|]]; reflexivity. Qed.

End TypedMetadata.

Section AnswerProperties.
Import Go models gin sys database handlers handlers.manifest.
Context {Rand : Type} (lib : Lib) (fs : FS) (cfg : Config).

(** What [signature_for] yields. *)
Lemma signature_for_cases (h : ManifestHandler Rand) (c : Context)
    (data : list byte) :
  (signature_for h c data = ""
   /\ (GetHeader c "expo-expect-signature" = ""
       \/ exists err,
            services.CreateSignatureHeader (signingService h) data = Err err))
  \/ (signature_for h c data <> ""
      /\ GetHeader c "expo-expect-signature" <> ""
      /\ services.CreateSignatureHeader (signingService h) data
         = Ok (signature_for h c data)).
Proof.
  unfold signature_for.
  destruct (decide (GetHeader c "expo-expect-signature" = "")) as [Ha | Ha].
  { rewrite (bool_decide_eq_true_2 _ Ha). left. split; [reflexivity | now left]. }
  rewrite (bool_decide_eq_false_2 _ Ha). cbn [negb andb].
  unfold services.IsLoaded, services.CreateSignatureHeader,
    services.SignManifest.
  destruct (services.privateKey (signingService h)) as [key|].
  - destruct (services.SignPKCS1v15 key _) as [sig|err].
    + right. split; [discriminate |]. split; [exact Ha | reflexivity].
    + left. split; [reflexivity |]. right. eauto.
  - left. split; [reflexivity |]. right. eauto.
Qed.

(** A multipart answer that is signed by [signature_for]. *)
Lemma multipart_answer (h : ManifestHandler Rand) (c : Context)
    (boundary name : string) (data : list byte) :
  name = "manifest" \/ name = "directive" ->
  one_part_answer h c boundary
    (sendMultipartResponse boundary name data (signature_for h c data)
       (protocol_version c)).
Proof.
  intros Hname.
  destruct (sendMultipartResponse_single_part boundary name data
              (signature_for h c data) (protocol_version c))
    as (Hstatus & Hpv & _ & _ & part & Hpayload & Hdata & Htype & Hdisp).
  exists name, part. repeat (split; [assumption |]).
  unfold sendMultipartResponse in Hpayload. cbn [payload] in Hpayload.
  injection Hpayload as Hpart. subst part.
  unfold signed_as_asked. cbn [partHeader partData].
  destruct (signature_for_cases h c data) as [[Hs Hwhy] | (Hs & Ha & Hok)].
  - rewrite Hs. cbn [bool_decide negb].
    rewrite (bool_decide_eq_true_2 _ eq_refl). cbn [negb].
    rewrite !lookup_insert_ne by discriminate. rewrite lookup_empty.
    exact Hwhy.
  - rewrite (bool_decide_eq_false_2 _ Hs). cbn [negb].
    rewrite lookup_insert_eq. split; assumption.
Qed.

Lemma no_update_answer (h : ManifestHandler Rand) (c : Context)
    (boundary : string) :
  refusal c (handleNoUpdateAvailable lib h c boundary (protocol_version c))
  \/ one_part_answer h c boundary
       (handleNoUpdateAvailable lib h c boundary (protocol_version c)).
Proof.
  destruct (handleNoUpdateAvailable_cases lib h c boundary (protocol_version c))
    as [Hzero Hother].
  destruct (decide (protocol_version c = 0)) as [Hpv | Hpv].
  - left. rewrite (Hzero Hpv). exists 404, "No update available".
    split; [reflexivity |]. split; [cbn; tauto | intros _; exact Hpv].
  - right. rewrite (Hother Hpv). apply multipart_answer. now right.
Qed.

(** The assets of a typed entry never make the loop panic. *)
Lemma build_assets_typed (h : ManifestHandler Rand)
    (bp rv pf : string) (l : list Asset) :
  exists assets,
    build_assets lib fs cfg h bp rv pf (map generic_asset l) = Some assets.
Proof.
  induction l as [|a l [assets IH]]; [now exists [] |].
  cbn [map build_assets].
  destruct (generic_asset_members a) as (m & -> & -> & -> & _).
  rewrite IH.
  destruct (getAssetInfoFromMetadataOrFile _ _ _ _ _ _ _ _ _ _ _ _ _ _ _);
    eauto.
Qed.

(** What [sendManifest] makes of the metadata of a record. *)
Lemma sendManifest_typed (h : ManifestHandler Rand) (c : Context)
    (boundary bp : string) (md : UpdateMetadata)
    (uid oid ca rv pf : string) (pv : Z) :
  match FileMetadata md with
  | None =>
      sendManifest lib fs cfg h c boundary bp (generic_metadata md) uid oid ca
        rv pf pv
      = error_json 500 "Invalid metadata format"
  | Some fm =>
      match fm !! pf with
      | None =>
          sendManifest lib fs cfg h c boundary bp (generic_metadata md) uid
            oid ca rv pf pv
          = error_json 500 "No metadata for platform"
      | Some pm =>
          (sendManifest lib fs cfg h c boundary bp (generic_metadata md) uid
             oid ca rv pf pv
           = error_json 500 "Failed to get launch asset"
           /\ (BundleKey pm = "" \/ BundleHash pm = "")
           /\ ReadFile fs (filepath_Join lib bp (Bundle pm)) = None)
          \/ exists members launch url,
               sendManifest lib fs cfg h c boundary bp (generic_metadata md)
                 uid oid ca rv pf pv
               = sendMultipartResponse boundary "manifest"
                   (json_Marshal lib (JObj members))
                   (signature_for h c (json_Marshal lib (JObj members))) pv
               /\ member "id" members = Some (JStr uid)
               /\ member "createdAt" members = Some (JStr ca)
               /\ member "runtimeVersion" members = Some (JStr rv)
               /\ member "launchAsset" members = Some (JObj launch)
               /\ member "url" launch = Some (JStr url)
               /\ (BundleKey pm <> "" -> BundleHash pm <> "" ->
                   member "key" launch = Some (JStr (BundleKey pm))
                   /\ member "hash" launch = Some (JStr (BundleHash pm)))
      end
  end.
Proof.
  unfold sendManifest.
  rewrite member_fileMetadata, member_expoConfig.
  destruct (FileMetadata md) as [fm|]; [| reflexivity].
  cbn [as_object]. rewrite member_generic_platforms.
  destruct (fm !! pf) as [pm|]; [| reflexivity].
  cbn [fmap option_fmap option_map].
  destruct (generic_platform_members pm)
    as (m & -> & Hbundle & Hassets & Hurl & Hkey & Hhash).
  cbn [as_object]. rewrite Hbundle, Hassets, Hurl, Hkey, Hhash.
  destruct (build_assets_typed h bp rv pf (Assets pm)) as [assets ->].
  unfold getAssetInfoFromMetadataOrFile.
  destruct (decide (BundleKey pm = "")) as [Hk | Hk].
  - rewrite (bool_decide_eq_true_2 _ Hk). cbn [negb andb].
    destruct (ReadFile fs (filepath_Join lib bp (Bundle pm))) as [data|].
    + right. destruct (ExpoConfig md) as [[|m0 ms]|];
        (eexists _, _, _; split; [reflexivity |];
         do 5 (split; [reflexivity |]); intros Hne; now contradiction Hne).
    + left. split; [reflexivity |]. split; [now left | reflexivity].
  - rewrite (bool_decide_eq_false_2 _ Hk). cbn [negb andb].
    destruct (decide (BundleHash pm = "")) as [Hh | Hh].
    + rewrite (bool_decide_eq_true_2 _ Hh). cbn [negb].
      destruct (ReadFile fs (filepath_Join lib bp (Bundle pm))) as [data|].
      * right. destruct (ExpoConfig md) as [[|m0 ms]|];
          (eexists _, _, _; split; [reflexivity |];
           do 5 (split; [reflexivity |]);
           intros _ Hne; now contradiction Hne).
      * left. split; [reflexivity |]. split; [now right | reflexivity].
    + rewrite (bool_decide_eq_false_2 _ Hh). cbn [negb].
      right. destruct (ExpoConfig md) as [[|m0 ms]|];
        (eexists _, _, _; split; [reflexivity |];
         do 5 (split; [reflexivity |]); intros _ _; split; reflexivity).
Qed.

End AnswerProperties.

Section AnswerClaims.
Import Go models gin sys database handlers handlers.manifest.

(** X25.  The manifest endpoint answers in one of two ways, and never
    panics on a record of the store.  Either it refuses, with an error
    in JSON whose status is 400, 404, 405, 500 or 503 (404 for protocol
    version 0 only); or it sends status 200 with a multipart body of
    exactly one part, named [manifest] or [directive], of content type
    JSON, under the protocol version of the request.  The part carries
    an [expo-signature] only when the request has an
    [expo-expect-signature], and then it is the header the signing
    service makes of the very bytes of the part; a part without one
    means that none was asked for, or that the service could not
    sign. *)
Theorem Handle_refuses_or_sends_one_part {Rand : Type} (lib : Lib) (fs : FS)
    (cfg : Config) (h : ManifestHandler Rand) (c : Context)
    (boundary : string) :
  refusal c (Handle lib fs cfg h c boundary)
  \/ one_part_answer h c boundary (Handle lib fs cfg h c boundary).
Proof.
  assert (Hrefuse : forall code msg,
             In code [400; 405; 500; 503] ->
             refusal c (error_json code msg)).
  { intros code msg Hcode. exists code, msg. split; [reflexivity |].
    split.
    - cbn [In] in *. intuition.
    - intros ->. cbn [In] in Hcode. intuition discriminate. }
  unfold Handle.
  fold (protocol_version c). fold (request_platform c).
  fold (request_runtime c). fold (request_channel c).
  destruct (negb (bool_decide (Method c = "GET")));
    [left; apply Hrefuse; cbn; tauto |].
  destruct (negb (bool_decide (request_platform c = "ios"))
            && negb (bool_decide (request_platform c = "android")));
    [left; apply Hrefuse; cbn; tauto |].
  destruct (bool_decide (request_runtime c = ""));
    [left; apply Hrefuse; cbn; tauto |].
  destruct (bool_decide (Param c "projectSlug" = ""));
    [left; apply Hrefuse; cbn; tauto |].
  destruct (updateRepo h) as [repo|]; [| left; apply Hrefuse; cbn; tauto].
  destruct (FindLatest (Some repo) _ _ _ _) as [[update|]|];
    try apply no_update_answer.
  destruct (IsRollback update).
  - destruct (bool_decide _); [apply no_update_answer |].
    right. apply multipart_answer. now right.
  - destruct (_ && _); [apply no_update_answer |].
    destruct (Metadata update) as [md|]; [| left; apply Hrefuse; cbn; tauto].
    pose proof (sendManifest_typed lib fs cfg h c boundary (BundlePath update)
                  md (UpdateID update) (Hex (ID update))
                  (time.FormatMillisUTC (CreatedAt update)) (request_runtime c)
                  (request_platform c) (protocol_version c)) as Hsend.
    destruct (FileMetadata md) as [fm|];
      [| rewrite Hsend; left; apply Hrefuse; cbn; tauto].
    destruct (fm !! request_platform c) as [pm|];
      [| rewrite Hsend; left; apply Hrefuse; cbn; tauto].
    destruct Hsend as [(-> & _) | (members & launch & url & -> & _)].
    + left. apply Hrefuse. cbn. tauto.
    + right. apply multipart_answer. now left.
Qed.

(** [GetHeader] on the request with another current update. *)
Lemma GetHeader_with_current (current key : string) (c : Context) :
  key <> "expo-current-update-id" ->
  GetHeader (with_current_update_id current c) key = GetHeader c key.
Proof.
  intros Hkey. unfold GetHeader, with_current_update_id. cbn [Header].
  now rewrite lookup_insert_ne by congruence.
Qed.

(** [sendManifest] reads one header of the request: whether a signature
    is expected. *)
Lemma sendManifest_reads_one_header {Rand : Type} (lib : Lib) (fs : FS)
    (cfg : Config) (h : ManifestHandler Rand) (c c' : Context)
    (boundary bp : string) (md : list (string * json))
    (uid oid ca rv pf : string) (pv : Z) :
  GetHeader c' "expo-expect-signature" = GetHeader c "expo-expect-signature" ->
  sendManifest lib fs cfg h c' boundary bp md uid oid ca rv pf pv
  = sendManifest lib fs cfg h c boundary bp md uid oid ca rv pf pv.
Proof.
  intros Hsame.
  assert (Hsig : forall data, signature_for h c' data = signature_for h c data)
    by (intros data; unfold signature_for; now rewrite Hsame).
  unfold sendManifest.
  destruct (as_object (member "fileMetadata" md)); [| reflexivity].
  destruct (as_object (member pf _)); [| reflexivity].
  destruct (match as_array _ with Some _ => _ | None => _ end);
    [| reflexivity].
  destruct (as_string (member "bundle" _)); [| reflexivity].
  destruct (getAssetInfoFromMetadataOrFile _ _ _ _ _ _ _ _ _ _ _ _ _ _ _);
    [| reflexivity].
  destruct (member "expoConfig" md) as [[| | | | |m]|];
    try reflexivity; now rewrite Hsig.
Qed.

(** The requests of the demonstration pass the pre-checks. *)
Lemma demo_request_passes (docs : list Update) (extra : gmap string string) :
  passes_prechecks (demo.manifest_handler docs) (demo.manifest_request extra).
Proof.
  unfold passes_prechecks.
  assert (Hp : request_platform (demo.manifest_request extra) = "android").
  { unfold request_platform, GetHeader, demo.manifest_request, demo.request.
    cbn [Header]. rewrite lookup_insert_eq. reflexivity. }
  assert (Hr : request_runtime (demo.manifest_request extra) = "1").
  { unfold request_runtime, GetHeader, demo.manifest_request, demo.request.
    cbn [Header]. rewrite lookup_insert_ne by discriminate.
    rewrite lookup_insert_eq. reflexivity. }
  split; [reflexivity |]. split; [right; exact Hp |].
  split; [rewrite Hr; discriminate |].
  split; [vm_compute; discriminate | discriminate].
Qed.

(** X26.  The update a client runs already is read under protocol
    version 1 only.  For a request that passes the pre-checks and whose
    candidate is no rollback: under protocol version 1, a client whose
    [expo-current-update-id] is the candidate's update identifier is
    answered with the [noUpdateAvailable] directive; under every other
    protocol version the answer is the same whatever the
    [expo-current-update-id] of the request is, so that a client that
    runs the candidate is sent its manifest again. *)
Theorem current_update_is_read_under_protocol_1 {Rand : Type} (lib : Lib)
    (fs : FS) (cfg : Config) (h : ManifestHandler Rand) (c : Context)
    (boundary : string) (update : Update) :
  passes_prechecks h c ->
  candidate h c = Ok (Some update) ->
  IsRollback update = false ->
  (protocol_version c = 1 ->
   GetHeader c "expo-current-update-id" = UpdateID update ->
   Handle lib fs cfg h c boundary
   = one_part_reply lib h c boundary "directive"
       (JObj [("type", JStr "noUpdateAvailable")]))
  /\ (protocol_version c <> 1 ->
      forall current,
        Handle lib fs cfg h (with_current_update_id current c) boundary
        = Handle lib fs cfg h c boundary).
Proof.
  intros Hpre Hcand Hrb.
  split.
  - intros Hpv Hcur.
    rewrite (Handle_after_prechecks lib fs cfg h c boundary Hpre), Hcand.
    unfold serve. rewrite Hrb, Hpv, (bool_decide_eq_true_2 _ Hcur).
    cbn [andb Z.eqb Pos.eqb].
    destruct (handleNoUpdateAvailable_cases lib h c boundary 1) as [_ H1].
    rewrite H1 by discriminate. unfold one_part_reply. now rewrite Hpv.
  - intros Hpv current.
    set (c' := with_current_update_id current c).
    assert (Hget : forall key, key <> "expo-current-update-id" ->
                               GetHeader c' key = GetHeader c key)
      by (intros key Hkey; apply GetHeader_with_current; exact Hkey).
    assert (Hv : protocol_version c' = protocol_version c)
      by (unfold protocol_version; now rewrite !Hget by discriminate).
    assert (Hp : request_platform c' = request_platform c)
      by (unfold request_platform; now rewrite !Hget by discriminate).
    assert (Hr : request_runtime c' = request_runtime c)
      by (unfold request_runtime; now rewrite !Hget by discriminate).
    assert (Hch : request_channel c' = request_channel c)
      by (unfold request_channel; now rewrite !Hget by discriminate).
    assert (Hcand' : candidate h c' = Ok (Some update))
      by (unfold candidate; rewrite Hr, Hch, Hp; exact Hcand).
    assert (Hpre' : passes_prechecks h c').
    { unfold passes_prechecks. rewrite Hp, Hr. exact Hpre. }
    rewrite (Handle_after_prechecks lib fs cfg h c' boundary Hpre'), Hcand'.
    rewrite (Handle_after_prechecks lib fs cfg h c boundary Hpre), Hcand.
    unfold serve. rewrite Hrb, Hv, Hp, Hr.
    apply Z.eqb_neq in Hpv. rewrite Hpv, !andb_false_r.
    destruct (Metadata update) as [md|]; [| reflexivity].
    apply sendManifest_reads_one_header. apply Hget. discriminate.
Qed.

Lemma current_update_is_read_under_protocol_1_witness :
  Handle demo.lib demo.no_files demo.cfg
    (demo.manifest_handler [demo.update_at 100])
    (demo.manifest_request
       (ids "0a1b2c3d-0000-0000-0000-000000000001" "embedded"))
    "boundary"
  = one_part_reply demo.lib (demo.manifest_handler [demo.update_at 100])
      (demo.manifest_request
         (ids "0a1b2c3d-0000-0000-0000-000000000001" "embedded"))
      "boundary" "directive" (JObj [("type", JStr "noUpdateAvailable")])
  /\ Handle demo.lib demo.no_files demo.cfg
       (demo.manifest_handler [demo.update_at 100])
       (with_current_update_id "0a1b2c3d-0000-0000-0000-000000000001"
          (demo.manifest_request ∅))
       "boundary"
     = Handle demo.lib demo.no_files demo.cfg
         (demo.manifest_handler [demo.update_at 100])
         (demo.manifest_request ∅) "boundary".
Proof.
  split.
  - assert (Hcand : candidate (demo.manifest_handler [demo.update_at 100])
                      (demo.manifest_request
                         (ids "0a1b2c3d-0000-0000-0000-000000000001"
                            "embedded"))
                    = Ok (Some (demo.update_at 100)))
      by (vm_compute; reflexivity).
    destruct (current_update_is_read_under_protocol_1 demo.lib demo.no_files
                demo.cfg (demo.manifest_handler [demo.update_at 100])
                (demo.manifest_request
                   (ids "0a1b2c3d-0000-0000-0000-000000000001" "embedded"))
                "boundary" (demo.update_at 100)
                (demo_request_passes _ _) Hcand eq_refl) as [Hone _].
    apply Hone; vm_compute; reflexivity.
  - assert (Hcand : candidate (demo.manifest_handler [demo.update_at 100])
                      (demo.manifest_request ∅)
                    = Ok (Some (demo.update_at 100)))
      by (vm_compute; reflexivity).
    destruct (current_update_is_read_under_protocol_1 demo.lib demo.no_files
                demo.cfg (demo.manifest_handler [demo.update_at 100])
                (demo.manifest_request ∅) "boundary" (demo.update_at 100)
                (demo_request_passes _ _) Hcand eq_refl) as [_ Hother].
    apply Hother. vm_compute. discriminate.
Defined.

(** X27.  What the metadata of the candidate decides.  For a request
    that passes the pre-checks and whose candidate is no rollback and is
    not the update the client runs: a candidate without metadata is
    answered 500 [Update metadata missing]; one whose metadata has no
    file metadata 500 [Invalid metadata format]; one whose file metadata
    has no entry for the platform of the request 500
    [No metadata for platform], which is what a record stored for every
    platform with the entry of one platform answers the other.  With an
    entry: when the key or the hash of the bundle is missing and the
    bundle cannot be read, 500 [Failed to get launch asset]; otherwise a
    manifest is sent, with the update identifier, the creation time and
    the runtime version of the request, and a launch asset that carries
    the key and the hash of the entry when both are there. *)
Theorem metadata_decides_the_answer {Rand : Type} (lib : Lib) (fs : FS)
    (cfg : Config) (h : ManifestHandler Rand) (c : Context)
    (boundary : string) (update : Update) :
  passes_prechecks h c ->
  candidate h c = Ok (Some update) ->
  IsRollback update = false ->
  GetHeader c "expo-current-update-id" <> UpdateID update ->
  match Metadata update with
  | None =>
      Handle lib fs cfg h c boundary
      = error_json 500 "Update metadata missing"
  | Some md =>
      match FileMetadata md with
      | None =>
          Handle lib fs cfg h c boundary
          = error_json 500 "Invalid metadata format"
      | Some fm =>
          match fm !! request_platform c with
          | None =>
              Handle lib fs cfg h c boundary
              = error_json 500 "No metadata for platform"
          | Some pm =>
              (Handle lib fs cfg h c boundary
               = error_json 500 "Failed to get launch asset"
               /\ (BundleKey pm = "" \/ BundleHash pm = "")
               /\ ReadFile fs (filepath_Join lib (BundlePath update)
                                 (Bundle pm)) = None)
              \/ exists members launch url,
                   Handle lib fs cfg h c boundary
                   = one_part_reply lib h c boundary "manifest" (JObj members)
                   /\ member "id" members = Some (JStr (UpdateID update))
                   /\ member "createdAt" members
                      = Some (JStr (time.FormatMillisUTC (CreatedAt update)))
                   /\ member "runtimeVersion" members
                      = Some (JStr (request_runtime c))
                   /\ member "launchAsset" members = Some (JObj launch)
                   /\ member "url" launch = Some (JStr url)
                   /\ (BundleKey pm <> "" -> BundleHash pm <> "" ->
                       member "key" launch = Some (JStr (BundleKey pm))
                       /\ member "hash" launch
                          = Some (JStr (BundleHash pm)))
          end
      end
  end.
Proof.
  intros Hpre Hcand Hrb Hcur.
  rewrite (Handle_after_prechecks lib fs cfg h c boundary Hpre), Hcand.
  unfold serve. rewrite Hrb, (bool_decide_eq_false_2 _ Hcur). cbn [andb].
  destruct (Metadata update) as [md|]; [| reflexivity].
  exact (sendManifest_typed lib fs cfg h c boundary (BundlePath update) md
           (UpdateID update) (Hex (ID update))
           (time.FormatMillisUTC (CreatedAt update)) (request_runtime c)
           (request_platform c) (protocol_version c)).
Qed.

Lemma metadata_decides_the_answer_witness :
  candidate (demo.manifest_handler [ios_only_update]) (demo.manifest_request ∅)
  = Ok (Some ios_only_update)
  /\ Handle demo.lib demo.no_files demo.cfg
       (demo.manifest_handler [ios_only_update]) (demo.manifest_request ∅)
       "boundary"
     = error_json 500 "No metadata for platform".
Proof.
  assert (Hcand : candidate (demo.manifest_handler [ios_only_update])
                    (demo.manifest_request ∅)
                  = Ok (Some ios_only_update)) by (vm_compute; reflexivity).
  assert (Hcur : GetHeader (demo.manifest_request ∅) "expo-current-update-id"
                 <> UpdateID ios_only_update) by (vm_compute; discriminate).
  split; [exact Hcand |].
  exact (metadata_decides_the_answer demo.lib demo.no_files demo.cfg
           (demo.manifest_handler [ios_only_update])
           (demo.manifest_request ∅) "boundary" ios_only_update
           (demo_request_passes _ _) Hcand eq_refl Hcur).
Defined.

End AnswerClaims.

Section AssetMoreClaims.
Import Go models gin sys database handlers handlers.assets.

(** X28.  Which downloads are counted.  The asset endpoint starts at
    most one task, the increment of the download counter of the record
    that the [updateId] parameter names, and it starts it exactly when
    the request has a [redirect], its [isLaunchAsset] is [true], its
    [updateId] is not empty and the handler has a repository: an asset
    that is served from the disk is never counted.  Once the task has
    run, the counters of the store add up to one more when a record has
    that identifier, and to the same when none has or when the parameter
    is no ObjectID. *)
Theorem downloads_are_counted_on_redirect (lib : Lib) (fs : FS)
    (h : AssetsHandler) (c : Context) :
  (snd (Handle lib fs h c) = []
   \/ snd (Handle lib fs h c) = [IncrementDownloadsTask (Query c "updateId")])
  /\ (snd (Handle lib fs h c) <> []
      <-> Query c "redirect" <> "" /\ Query c "isLaunchAsset" = "true"
          /\ Query c "updateId" <> "" /\ updateRepo h <> None)
  /\ forall repo,
       updateRepo h = Some repo ->
       exists repo',
         run_all (snd (Handle lib fs h c)) (updateRepo h) = Some repo'
         /\ total_downloads (collection repo')
            = total_downloads (collection repo)
              + match snd (Handle lib fs h c),
                      ObjectIDFromHex (Query c "updateId") with
                | _ :: _, Some oid =>
                    if has_id oid (collection repo) then 1 else 0
                | _, _ => 0
                end.
Proof.
  assert (Hlocal : Query c "redirect" = "" -> snd (Handle lib fs h c) = []).
  { intros Hr. unfold Handle. rewrite (bool_decide_eq_true_2 _ Hr).
    cbn [negb].
    repeat match goal with
           | |- snd (if ?b then _ else _) = _ => destruct b; [reflexivity |]
           end.
    destruct (Stat fs _); try reflexivity;
      (destruct (Open fs _) as [file|]; [| reflexivity]);
      destruct (fileSize file); reflexivity. }
  assert (Hredirect :
            Query c "redirect" <> "" ->
            snd (Handle lib fs h c)
            = if bool_decide (Query c "isLaunchAsset" = "true")
                 && negb (bool_decide (Query c "updateId" = ""))
                 && (match updateRepo h with Some _ => true | None => false end)
              then [IncrementDownloadsTask (Query c "updateId")] else []).
  { intros Hr. unfold Handle. rewrite (bool_decide_eq_false_2 _ Hr).
    reflexivity. }
  destruct (decide (Query c "redirect" = "")) as [Hr | Hr].
  - rewrite (Hlocal Hr). split; [now left |].
    split.
    + split; [intros H; now contradiction H |].
      intros (H & _). now contradiction H.
    + intros repo Hrepo. exists repo. rewrite Hrepo.
      split; [reflexivity | lia].
  - rewrite (Hredirect Hr).
    destruct (decide (Query c "isLaunchAsset" = "true")) as [Hl | Hl];
      [rewrite (bool_decide_eq_true_2 _ Hl)
      | rewrite (bool_decide_eq_false_2 _ Hl)];
      (destruct (decide (Query c "updateId" = "")) as [Hu | Hu];
       [rewrite (bool_decide_eq_true_2 _ Hu)
       | rewrite (bool_decide_eq_false_2 _ Hu)]);
      cbn [andb negb].
    1,3,4: (split; [now left |];
          split;
          [split; [intros H; now contradiction H | intros H; tauto] |];
          intros repo Hrepo; exists repo; rewrite Hrepo;
          split; [reflexivity | lia]).
    destruct (updateRepo h) as [repo0|] eqn:Hrepo0.
    + split; [now right |].
      split; [split; [intros _; repeat split; auto; discriminate
                     | discriminate] |].
      intros repo [= <-]. cbn [run_all fold_left run].
      unfold IncrementDownloads.
      destruct (ObjectIDFromHex (Query c "updateId")) as [oid|].
      * pose proof (update_one_counts oid (collection repo0)) as Hcount.
        destruct (update_one oid _ (collection repo0)) as [docs matched].
        destruct Hcount as (Hsum & Hm & _).
        eexists. cbn [fst]. split; [reflexivity |]. cbn [collection].
        now rewrite <- Hm.
      * exists repo0. split; [reflexivity | lia].
    + split; [now left |].
      split; [split; [intros H; now contradiction H | intros H; tauto] |].
      intros repo [=].
Qed.

(** X29.  What the asset endpoint serves from the disk.  A request
    without a [redirect] is answered 200 only with what is read from the
    file opened at the cleaned [asset] path under the updates directory,
    that path holding no [..] and existing, the request naming an asset,
    a platform that is [ios] or [android] and a runtime version; the
    answer announces the size of the open file, has the content type of
    the extension of the path, and may be cached for a year.  A
    directory at that path is opened like a file: the answer is 200
    with the size of the directory and no content.  Every other answer
    is an error in JSON with status 400, 404 (only when the path does not
    exist) or 500 (only when the path exists and cannot be opened), or
    the 500 of a panic, when the open file has no size. *)
Theorem local_asset_outcomes (lib : Lib) (fs : FS) (h : AssetsHandler)
    (c : Context) :
  Query c "redirect" = "" ->
  (exists code msg,
     fst (Handle lib fs h c) = error_json code msg
     /\ In code [400; 404; 500]
     /\ (code = 404 -> Stat fs (served_path lib h c) = NotExist)
     /\ (code = 500 ->
         Stat fs (served_path lib h c) <> NotExist
         /\ Open fs (served_path lib h c) = None))
  \/ (exists file,
        Open fs (served_path lib h c) = Some file
        /\ fileSize file = None
        /\ fst (Handle lib fs h c) = respond 500 Panicked)
  \/ exists file size,
       Open fs (served_path lib h c) = Some file
       /\ fileSize file = Some size
       /\ Stat fs (served_path lib h c) <> NotExist
       /\ Contains (filepath_Clean lib (Query c "asset")) ".." = false
       /\ Query c "asset" <> ""
       /\ (Query c "platform" = "ios" \/ Query c "platform" = "android")
       /\ Query c "runtimeVersion" <> ""
       /\ status (fst (Handle lib fs h c)) = 200
       /\ payload (fst (Handle lib fs h c))
          = DataFromReader size (getContentType lib (served_path lib h c))
              (fileBytes file)
       /\ headers (fst (Handle lib fs h c)) !! "Cache-Control"
          = Some "public, max-age=31536000, immutable".
Proof.
  intros Hr. unfold Handle. rewrite (bool_decide_eq_true_2 _ Hr).
  cbn [negb]. fold (served_path lib h c).
  assert (Hrefuse : forall msg (tasks : list Task),
             exists code' msg',
               fst (error_json 400 msg, tasks) = error_json code' msg'
               /\ In code' [400; 404; 500]
               /\ (code' = 404 -> Stat fs (served_path lib h c) = NotExist)
               /\ (code' = 500 ->
                   Stat fs (served_path lib h c) <> NotExist
                   /\ Open fs (served_path lib h c) = None)).
  { intros msg tasks. exists 400, msg. split; [reflexivity |].
    split; [cbn; tauto |]. split; discriminate. }
  assert (Hserve :
            Query c "asset" <> "" ->
            (Query c "platform" = "ios" \/ Query c "platform" = "android") ->
            Query c "runtimeVersion" <> "" ->
            Contains (filepath_Clean lib (Query c "asset")) ".." = false ->
            let r :=
              fst (match Stat fs (served_path lib h c) with
                   | NotExist =>
                       (error_json StatusNotFound
                          ("Asset " +:+ dq +:+ Query c "asset" +:+ dq
                             +:+ " does not exist."), [])
                   | _ =>
                       match Open fs (served_path lib h c) with
                       | None =>
                           (error_json StatusInternalServerError
                              "Failed to open asset.", [])
                       | Some file =>
                           match fileSize file with
                           | None =>
                               (respond StatusInternalServerError Panicked,
                                [])
                           | Some fileSize =>
                               ({| status := StatusOK;
                                   headers :=
                                     {[ "Cache-Control" :=
                                          "public, max-age=31536000, immutable"
                                     ]};
                                   payload :=
                                     DataFromReader fileSize
                                       (getContentType lib
                                          (served_path lib h c))
                                       (fileBytes file) |},
                                @nil Task)
                           end
                       end
                   end) in
            (exists code msg,
               r = error_json code msg
               /\ In code [400; 404; 500]
               /\ (code = 404 -> Stat fs (served_path lib h c) = NotExist)
               /\ (code = 500 ->
                   Stat fs (served_path lib h c) <> NotExist
                   /\ Open fs (served_path lib h c) = None))
            \/ (exists file,
                  Open fs (served_path lib h c) = Some file
                  /\ fileSize file = None
                  /\ r = respond 500 Panicked)
            \/ exists file size,
                 Open fs (served_path lib h c) = Some file
                 /\ fileSize file = Some size
                 /\ Stat fs (served_path lib h c) <> NotExist
                 /\ Contains (filepath_Clean lib (Query c "asset")) ".."
                    = false
                 /\ Query c "asset" <> ""
                 /\ (Query c "platform" = "ios"
                     \/ Query c "platform" = "android")
                 /\ Query c "runtimeVersion" <> ""
                 /\ status r = 200
                 /\ payload r
                    = DataFromReader size
                        (getContentType lib (served_path lib h c))
                        (fileBytes file)
                 /\ headers r !! "Cache-Control"
                    = Some "public, max-age=31536000, immutable").
  { intros Ha Hp Hv Hdots r. subst r.
    destruct (Stat fs (served_path lib h c)) eqn:Hstat.
    3: { left. eexists 404, _. split; [reflexivity |].
         split; [cbn; tauto |]. split; [reflexivity | discriminate]. }
    all: destruct (Open fs (served_path lib h c)) as [file|] eqn:Hopen;
      [destruct (fileSize file) as [size|] eqn:Hsize;
       [right; right; exists file, size; repeat split; auto; discriminate
       | right; left; exists file; repeat split; auto]
      | left; eexists 500, _; split; [reflexivity |];
        split; [cbn; tauto |];
        split; [discriminate | intros _; split; [discriminate | reflexivity]]].
  }
  destruct (decide (Query c "asset" = "")) as [Ha | Ha];
    [rewrite (bool_decide_eq_true_2 _ Ha); left; apply Hrefuse |].
  rewrite (bool_decide_eq_false_2 _ Ha).
  destruct (decide (Query c "platform" = "ios")) as [Hi | Hi].
  - rewrite (bool_decide_eq_true_2 _ Hi). cbn [negb andb].
    destruct (decide (Query c "runtimeVersion" = "")) as [Hv | Hv];
      [rewrite (bool_decide_eq_true_2 _ Hv); left; apply Hrefuse |].
    rewrite (bool_decide_eq_false_2 _ Hv).
    destruct (Contains (filepath_Clean lib (Query c "asset")) "..") eqn:Hdots;
      [left; apply Hrefuse |].
    apply (Hserve Ha (or_introl Hi) Hv eq_refl).
  - rewrite (bool_decide_eq_false_2 _ Hi). cbn [negb andb].
    destruct (decide (Query c "platform" = "android")) as [Hd | Hd];
      [rewrite (bool_decide_eq_true_2 _ Hd)
      | rewrite (bool_decide_eq_false_2 _ Hd); left; apply Hrefuse].
    cbn [negb].
    destruct (decide (Query c "runtimeVersion" = "")) as [Hv | Hv];
      [rewrite (bool_decide_eq_true_2 _ Hv); left; apply Hrefuse |].
    rewrite (bool_decide_eq_false_2 _ Hv).
    destruct (Contains (filepath_Clean lib (Query c "asset")) "..") eqn:Hdots;
      [left; apply Hrefuse |].
    apply (Hserve Ha (or_intror Hd) Hv eq_refl).
Qed.

Lemma local_asset_outcomes_witness :
  Query local_request "redirect" = ""
  /\ Handle demo.lib local_files counting_handler local_request
     = ({| status := 200;
           headers :=
             {[ "Cache-Control" := "public, max-age=31536000, immutable" ]};
           payload :=
             DataFromReader 1 "application/javascript" (demo.bytes "x") |},
        [])
  /\ payload (fst (Handle demo.lib local_files counting_handler
                     (request_for "demo/assets/../assets/Logo.PNG")))
     = DataFromReader 4 "image/png" (demo.bytes "logo")
  /\ fst (Handle demo.lib local_files counting_handler
            (request_for "demo/bundles"))
     = {| status := 200;
          headers :=
            {[ "Cache-Control" := "public, max-age=31536000, immutable" ]};
          payload := DataFromReader 4096 "application/octet-stream" [] |}
  /\ fst (Handle demo.lib local_files counting_handler
            (request_for "demo/bundles/ios-a.js"))
     = error_json 404
         ("Asset " +:+ dq +:+ "demo/bundles/ios-a.js" +:+ dq
            +:+ " does not exist.")
  /\ fst (Handle demo.lib local_files counting_handler
            (request_for "../etc/passwd"))
     = error_json 400 "Invalid asset path."
  /\ exists file size,
       Open local_files (served_path demo.lib counting_handler local_request)
       = Some file
       /\ fileSize file = Some size
       /\ payload (fst (Handle demo.lib local_files counting_handler
                          local_request))
          = DataFromReader size
              (getContentType demo.lib
                 (served_path demo.lib counting_handler local_request))
              (fileBytes file).
Proof.
  assert (Hr : Query local_request "redirect" = "")
    by (vm_compute; reflexivity).
  split; [exact Hr |].
  split; [vm_compute; reflexivity |].
  split; [vm_compute; reflexivity |].
  split; [vm_compute; reflexivity |].
  split; [vm_compute; reflexivity |].
  split; [vm_compute; reflexivity |].
  destruct (local_asset_outcomes demo.lib local_files counting_handler
              local_request Hr)
    as [(code & msg & Herr & _) | [(file & _ & _ & Hpanic)
                                   | (file & size & Hopen & Hsize & _ & _ & _
                                      & _ & _ & _ & Hpayload & _)]].
  - vm_compute in Herr. discriminate Herr.
  - vm_compute in Hpanic. discriminate Hpanic.
  - exists file, size. repeat split; assumption.
Defined.

End AssetMoreClaims.

Section RevocationClaims.
Import Go database repositories.

Lemma touch_one_absent (id : models.ObjectID) (now : time.Time)
    (keys : list apikeys.APIKey) :
  (forall k, In k keys -> apikeys.ID k <> id) ->
  apikeys.touch_one id now keys = keys.
Proof.
  induction keys as [|k keys IH]; intros Hno; [reflexivity |].
  cbn [apikeys.touch_one].
  rewrite bool_decide_eq_false_2 by (apply Hno; now left).
  f_equal. apply IH. intros k' Hk'. apply Hno. now right.
Qed.

(** X30.  Deleting an API key revokes it.  In a collection whose
    identifiers and digests are unique, once the record that [Validate]
    finds for a key is deleted by its identifier, [Validate] refuses the
    key; the other records are all kept, and every key with another
    digest is validated as before.  Deleting the record a second time
    is no error and changes nothing, and the task of a validation that
    runs after the deletion brings nothing back. *)
Theorem APIKey_Delete_revokes (keys : list apikeys.APIKey)
    (apiKey : apikeys.APIKey) (plainKey : string) :
  NoDup (map apikeys.ID keys) ->
  NoDup (map apikeys.KeyHash keys) ->
  length (apikeys.ID apiKey) = 12%nat ->
  fst (apikeys.Validate {| apikeys.collection := Some keys |} plainKey)
  = Ok apiKey ->
  exists keys',
    apikeys.Delete {| apikeys.collection := Some keys |}
      (models.Hex (apikeys.ID apiKey))
    = ({| apikeys.collection := Some keys' |}, None)
    /\ apikeys.Validate {| apikeys.collection := Some keys' |} plainKey
       = (Err projects.ErrNoDocuments, [])
    /\ (forall k, In k keys' <-> In k keys /\ k <> apiKey)
    /\ (forall presented : string,
          services.ComputeSHA256Hash (list_byte_of_string presented)
          <> apikeys.KeyHash apiKey ->
          apikeys.Validate {| apikeys.collection := Some keys' |} presented
          = apikeys.Validate {| apikeys.collection := Some keys |} presented)
    /\ apikeys.Delete {| apikeys.collection := Some keys' |}
         (models.Hex (apikeys.ID apiKey))
       = ({| apikeys.collection := Some keys' |}, None)
    /\ forall now,
         apikeys.run (apikeys.TouchLastUsedTask (apikeys.ID apiKey)) now
           {| apikeys.collection := Some keys' |}
         = {| apikeys.collection := Some keys' |}.
Proof.
  intros Hids Hhashes Hlen Hvalid.
  unfold apikeys.Validate in Hvalid. cbn [apikeys.collection] in Hvalid.
  destruct (List.find _ keys) as [found|] eqn:Hfound; [| discriminate Hvalid].
  cbn [fst] in Hvalid. injection Hvalid as ->.
  apply find_some in Hfound as [Hin Hhash].
  apply bool_decide_eq_true_1 in Hhash.
  unfold apikeys.Delete. cbn [apikeys.collection].
  rewrite (ObjectIDFromHex_Hex _ Hlen).
  set (P := fun k => bool_decide (apikeys.ID k = apikeys.ID apiKey)).
  pose proof (delete_one_spec P keys) as Hspec.
  destruct (List.find P keys) as [u|] eqn:Hfind.
  2: { apply (find_none _ _ Hfind) in Hin. unfold P in Hin.
       now rewrite bool_decide_eq_true_2 in Hin. }
  destruct Hspec as (l1 & l2 & Hkeys & Hl1 & Hu & Hdel).
  apply bool_decide_eq_true_1 in Hu.
  rewrite Hkeys, map_app in Hids. cbn [map] in Hids.
  apply NoDup_app in Hids as (_ & Hdisj & Hnd).
  apply NoDup_cons in Hnd as [Hfresh _].
  assert (Hother : forall v, In v (l1 ++ l2) ->
                             apikeys.ID v <> apikeys.ID apiKey).
  { intros v Hv Heq. apply in_app_or in Hv as [Hv | Hv].
    - apply (Hdisj (apikeys.ID v)); [apply list_elem_of_In, in_map, Hv |].
      rewrite Heq, <- Hu. left.
    - apply Hfresh. rewrite Hu, <- Heq. apply list_elem_of_In, in_map, Hv. }
  assert (Hsame : u = apiKey).
  { rewrite Hkeys in Hin. apply in_app_or in Hin as [Hin | [Hin | Hin]].
    - exfalso. apply (Hother apiKey); [apply in_or_app; now left | reflexivity].
    - exact Hin.
    - exfalso. apply (Hother apiKey); [apply in_or_app; now right | reflexivity]. }
  subst u.
  rewrite Hkeys, map_app in Hhashes. cbn [map] in Hhashes.
  apply NoDup_app in Hhashes as (_ & Hdisj' & Hnd').
  apply NoDup_cons in Hnd' as [Hfresh' _].
  assert (Hdigest : forall v, In v (l1 ++ l2) ->
                              apikeys.KeyHash v <> apikeys.KeyHash apiKey).
  { intros v Hv Heq. apply in_app_or in Hv as [Hv | Hv].
    - apply (Hdisj' (apikeys.KeyHash v));
        [apply list_elem_of_In, in_map, Hv |].
      rewrite Heq. left.
    - apply Hfresh'. rewrite <- Heq. apply list_elem_of_In, in_map, Hv. }
  exists (l1 ++ l2). rewrite Hdel. cbn [fst].
  split; [reflexivity |].
  split.
  { unfold apikeys.Validate. cbn [apikeys.collection].
    rewrite find_all_false; [reflexivity |].
    intros v Hv. apply bool_decide_eq_false_2. rewrite <- Hhash.
    now apply Hdigest. }
  split.
  { intros k. rewrite Hkeys, !in_app_iff. cbn [In]. split.
    - intros Hk. split; [tauto |]. intros ->.
      apply (Hother apiKey); [apply in_or_app; exact Hk | reflexivity].
    - intros [[Hk | [<- | Hk]] Hne]; tauto. }
  split.
  { intros presented Hne. unfold apikeys.Validate. cbn [apikeys.collection].
    rewrite Hkeys, find_skip_one; [reflexivity |].
    apply bool_decide_eq_false_2. intros Heq. apply Hne. now rewrite Heq. }
  split.
  { pose proof (delete_one_spec P (l1 ++ l2)) as Hagain.
    rewrite find_all_false in Hagain
      by (intros v Hv; apply bool_decide_eq_false_2; now apply Hother).
    fold P. now rewrite Hagain. }
  intros now. unfold apikeys.run. cbn [apikeys.collection].
  now rewrite touch_one_absent.
Qed.

Lemma APIKey_Delete_revokes_witness :
  fst (apikeys.Validate {| apikeys.collection := Some [snd issued_key] |}
         (fst issued_key)) = Ok (snd issued_key)
  /\ exists keys',
       apikeys.Delete {| apikeys.collection := Some [snd issued_key] |}
         "00000000000000000000000b"
       = ({| apikeys.collection := Some keys' |}, None)
       /\ apikeys.Validate {| apikeys.collection := Some keys' |}
            (fst issued_key)
          = (Err projects.ErrNoDocuments, []).
Proof.
  assert (Hvalid : fst (apikeys.Validate
                          {| apikeys.collection := Some [snd issued_key] |}
                          (fst issued_key)) = Ok (snd issued_key))
    by (vm_compute; reflexivity).
  split; [exact Hvalid |].
  destruct (APIKey_Delete_revokes [snd issued_key] (snd issued_key)
              (fst issued_key))
    as (keys' & Hdelete & Hrefused & _).
  - cbn [map]. apply NoDup_singleton.
  - cbn [map]. apply NoDup_singleton.
  - reflexivity.
  - exact Hvalid.
  - exists keys'. split; [exact Hdelete | exact Hrefused].
Defined.

End RevocationClaims.
